(** * ObjectAllocator: a fixed-size memory pool allocator

    Shallow embedding of [src/code/ObjectAllocator.cpp].

    Conventions of the embedding.
    - The target is LP64: [sizeof(void * )] is 8, [size_t] is 64 bits wide and
      [unsigned] is 32 bits wide.  Every arithmetic result is reduced to the
      width of its C++ type ([wrap_size], [wrap_uint]).
    - Raw memory is a byte store indexed by addresses.  Pointers are numbers,
      [0] is [nullptr]; [p->Next] is the 8-byte little-endian word at [p].
    - [new] is an oracle: every operation receives the answers the host
      allocator gives to the requests the operation makes.
    - A member function returns an [outcome]: a value and the allocator after
      the call, an [OAException] and the allocator at the [throw], a fault (a
      dereference of [nullptr], a fill that runs off the address space), or
      exhaustion of the loop budget. *)

From Stdlib Require Import String ZArith List Lia Bool Permutation.
Import ListNotations.
Open Scope Z_scope.

(** ** Machine integers *)

Definition PTR_SIZE : Z := 8.

Definition wrap_size (x : Z) : Z := x mod 2 ^ 64.
Definition wrap_uint (x : Z) : Z := x mod 2 ^ 32.

(** ** Raw memory *)

Definition memory := Z -> Z.

(** [memset(dst, c, n)]: [c] is converted to [unsigned char]. *)
Definition memset (m : memory) (dst c n : Z) : memory :=
  fun a => if (dst <=? a) && (a <? dst + n) then c mod 256 else m a.

(** Little-endian store of the low [n] bytes of [v] at [a]. *)
Definition store_le (m : memory) (a : Z) (n : nat) (v : Z) : memory :=
  fun x =>
    if (a <=? x) && (x <? a + Z.of_nat n)
    then (v / 2 ^ (8 * (x - a))) mod 256
    else m x.

Fixpoint load_le (m : memory) (a : Z) (n : nat) : Z :=
  match n with
  | O => 0
  | S k => m a + 256 * load_le m (a + 1) k
  end.

Definition ptr_bytes : nat := Z.to_nat PTR_SIZE.

Definition load_ptr (m : memory) (a : Z) : Z := load_le m a ptr_bytes.
Definition store_ptr (m : memory) (a v : Z) : memory := store_le m a ptr_bytes v.

(** ** Configuration, statistics and allocator state *)

Inductive HBLOCK_TYPE := hbNone | hbBasic | hbExtended | hbExternal.

Record HeaderBlockInfo := mkHeaderBlockInfo {
  type_ : HBLOCK_TYPE;
  size_ : Z;
  additional_ : Z
}.

Record OAConfig := mkOAConfig {
  UseCPPMemManager_ : bool;
  ObjectsPerPage_ : Z;
  MaxPages_ : Z;
  DebugOn_ : bool;
  PadBytes_ : Z;
  HBlockInfo_ : HeaderBlockInfo;
  Alignment_ : Z;
  LeftAlignSize_ : Z;
  InterAlignSize_ : Z
}.

Record OAStats := mkOAStats {
  ObjectSize_ : Z;
  PageSize_ : Z;
  FreeObjects_ : Z;
  ObjectsInUse_ : Z;
  PagesInUse_ : Z;
  MostObjects_ : Z;
  Allocations_ : Z;
  Deallocations_ : Z
}.

Record MemBlockInfo := mkMemBlockInfo {
  in_use : bool;
  label : option string;
  alloc_num : Z
}.

Inductive OA_EXCEPTION :=
  E_NO_MEMORY | E_NO_PAGES | E_BAD_BOUNDARY | E_MULTIPLE_FREE | E_CORRUPTED_BLOCK.

(** The data members of the class, the byte store they point into and the
    [MemBlockInfo] records owned through external headers. *)
Record ObjectAllocator := mkObjectAllocator {
  configuration : OAConfig;
  stats : OAStats;
  PageList_ : Z;
  FreeList_ : Z;
  pageHeader : Z;
  dataSize : Z;
  totalDataSize : Z;
  heap : memory;
  infos : Z -> option MemBlockInfo
}.

Definition set_stats (s : ObjectAllocator) (st : OAStats) : ObjectAllocator :=
  mkObjectAllocator (configuration s) st (PageList_ s) (FreeList_ s)
    (pageHeader s) (dataSize s) (totalDataSize s) (heap s) (infos s).

Definition set_heap (s : ObjectAllocator) (m : memory) : ObjectAllocator :=
  mkObjectAllocator (configuration s) (stats s) (PageList_ s) (FreeList_ s)
    (pageHeader s) (dataSize s) (totalDataSize s) m (infos s).

Definition set_PageList (s : ObjectAllocator) (p : Z) : ObjectAllocator :=
  mkObjectAllocator (configuration s) (stats s) p (FreeList_ s)
    (pageHeader s) (dataSize s) (totalDataSize s) (heap s) (infos s).

Definition set_FreeList (s : ObjectAllocator) (p : Z) : ObjectAllocator :=
  mkObjectAllocator (configuration s) (stats s) (PageList_ s) p
    (pageHeader s) (dataSize s) (totalDataSize s) (heap s) (infos s).

Definition set_infos (s : ObjectAllocator) (f : Z -> option MemBlockInfo)
  : ObjectAllocator :=
  mkObjectAllocator (configuration s) (stats s) (PageList_ s) (FreeList_ s)
    (pageHeader s) (dataSize s) (totalDataSize s) (heap s) f.

Definition set_FreeObjects (st : OAStats) (v : Z) : OAStats :=
  mkOAStats (ObjectSize_ st) (PageSize_ st) v (ObjectsInUse_ st)
    (PagesInUse_ st) (MostObjects_ st) (Allocations_ st) (Deallocations_ st).

Definition set_ObjectsInUse (st : OAStats) (v : Z) : OAStats :=
  mkOAStats (ObjectSize_ st) (PageSize_ st) (FreeObjects_ st) v
    (PagesInUse_ st) (MostObjects_ st) (Allocations_ st) (Deallocations_ st).

Definition set_PagesInUse (st : OAStats) (v : Z) : OAStats :=
  mkOAStats (ObjectSize_ st) (PageSize_ st) (FreeObjects_ st) (ObjectsInUse_ st)
    v (MostObjects_ st) (Allocations_ st) (Deallocations_ st).

Definition set_MostObjects (st : OAStats) (v : Z) : OAStats :=
  mkOAStats (ObjectSize_ st) (PageSize_ st) (FreeObjects_ st) (ObjectsInUse_ st)
    (PagesInUse_ st) v (Allocations_ st) (Deallocations_ st).

Definition set_Allocations (st : OAStats) (v : Z) : OAStats :=
  mkOAStats (ObjectSize_ st) (PageSize_ st) (FreeObjects_ st) (ObjectsInUse_ st)
    (PagesInUse_ st) (MostObjects_ st) v (Deallocations_ st).

Definition set_Deallocations (st : OAStats) (v : Z) : OAStats :=
  mkOAStats (ObjectSize_ st) (PageSize_ st) (FreeObjects_ st) (ObjectsInUse_ st)
    (PagesInUse_ st) (MostObjects_ st) (Allocations_ st) v.

(** ** Outcomes of member functions *)

Inductive outcome (A : Type) : Type :=
| Returns (a : A) (s : ObjectAllocator)
| Throws (e : OA_EXCEPTION) (s : ObjectAllocator)
| Fault
| OutOfFuel.

Arguments Returns {A} a s.
Arguments Throws {A} e s.
Arguments Fault {A}.
Arguments OutOfFuel {A}.

Definition bind {A B : Type} (o : outcome A)
  (k : A -> ObjectAllocator -> outcome B) : outcome B :=
  match o with
  | Returns a s => k a s
  | Throws e s => Throws e s
  | Fault => Fault
  | OutOfFuel => OutOfFuel
  end.

(** Answers of the host allocator to the [new] expressions of one call:
    the page of [AllocateNewPage], the object of a passthrough [Allocate], the
    [MemBlockInfo] of an external header and the copy of its label.  [None]
    (or [false]) stands for [std::bad_alloc]. *)
Record HostAnswers := mkHostAnswers {
  new_page : option Z;
  new_object : option Z;
  new_info : option Z;
  new_label : bool
}.

(** ** Geometry *)

Definition align (sz alignment : Z) : Z :=
  if alignment =? 0 then sz
  else
    let remainder := if sz mod alignment =? 0 then 0 else 1 in
    wrap_size (alignment * wrap_size (sz / alignment + remainder)).

(** Constants declared in [ObjectAllocator.h]: the five byte signatures and
    the width of the basic header block. *)
Record OAConstants := mkOAConstants {
  UNALLOCATED_PATTERN : Z;
  ALLOCATED_PATTERN : Z;
  FREED_PATTERN : Z;
  PAD_PATTERN : Z;
  ALIGN_PATTERN : Z;
  BASIC_HEADER_SIZE : Z
}.

(** ** Page allocation *)

(** [AddToFreeList]: push [obj] at the head of the free list. *)
Definition AddToFreeList (obj : Z) (s : ObjectAllocator) : ObjectAllocator :=
  let temp := FreeList_ s in
  let s1 := set_FreeList s obj in
  let s2 := set_heap s1 (store_ptr (heap s1) obj temp) in
  set_stats s2 (set_FreeObjects (stats s2) (wrap_uint (FreeObjects_ (stats s2) + 1))).

(** The debug painting of one fresh block: the payload after the free-list
    link, then the two pads.  The count of the first [memset] is
    [ObjectSize_ - PTR_SIZE] in [size_t]: for an object shorter than a pointer
    it wraps to at least [2 ^ 64 - PTR_SIZE] bytes, and the fill runs off the
    page and off the address space. *)
Definition paint_block (K : OAConstants) (dataAddress : Z) (s : ObjectAllocator)
  : outcome unit :=
  let cfg := configuration s in
  if ObjectSize_ (stats s) <? PTR_SIZE then Fault
  else
    let m1 := memset (heap s) (dataAddress + PTR_SIZE) (UNALLOCATED_PATTERN K)
                (wrap_size (ObjectSize_ (stats s) - PTR_SIZE)) in
    let m2 := memset m1 (dataAddress - PadBytes_ cfg) (PAD_PATTERN K)
                (PadBytes_ cfg) in
    let m3 := memset m2 (dataAddress + ObjectSize_ (stats s)) (PAD_PATTERN K)
                (PadBytes_ cfg) in
    Returns tt (set_heap s m3).

(** The body of the [for] loop of [AllocateNewPage] for the block at
    [dataAddress]. *)
Definition init_block (K : OAConstants) (dataAddress : Z) (s : ObjectAllocator)
  : outcome unit :=
  let cfg := configuration s in
  let headerStart := dataAddress - PadBytes_ cfg - size_ (HBlockInfo_ cfg) in
  let s1 := set_heap s (memset (heap s) headerStart 0 (size_ (HBlockInfo_ cfg))) in
  let s2 := AddToFreeList dataAddress s1 in
  if DebugOn_ cfg then paint_block K dataAddress s2 else Returns tt s2.

(** The [for] loop of [AllocateNewPage] over the data blocks of the page. *)
Fixpoint init_blocks (K : OAConstants) (fuel : nat)
  (pageStartAddress dataStartAddress : Z) (s : ObjectAllocator) : outcome unit :=
  match fuel with
  | O => OutOfFuel
  | S fuel' =>
    if wrap_uint (dataStartAddress - pageStartAddress) <? PageSize_ (stats s) then
      bind (init_block K dataStartAddress s) (fun _ s' =>
        init_blocks K fuel' pageStartAddress (dataStartAddress + dataSize s) s')
    else Returns tt s
  end.

(** The page after [new], zero fill, alignment signature and linking at the
    head of the page list. *)
Definition link_new_page (K : OAConstants) (newPage : Z) (s : ObjectAllocator)
  : ObjectAllocator :=
  let m0 := memset (heap s) newPage 0 (wrap_size (PageSize_ (stats s) + PTR_SIZE)) in
  let s1 := set_stats s
              (set_PagesInUse (stats s) (wrap_uint (PagesInUse_ (stats s) + 1))) in
  let m1 := memset m0 newPage 0 (PageSize_ (stats s1)) in
  let m2 := if DebugOn_ (configuration s1)
            then memset m1 newPage (ALIGN_PATTERN K) (PageSize_ (stats s1))
            else m1 in
  let m3 := store_ptr m2 newPage (PageList_ s1) in
  set_PageList (set_heap s1 m3) newPage.

(** [AllocateNewPage(PageList_)]; [host] is the answer to its [new]. *)
Definition AllocateNewPage (K : OAConstants) (fuel : nat) (host : option Z)
  (s : ObjectAllocator) : outcome unit :=
  if PagesInUse_ (stats s) >=? MaxPages_ (configuration s) then
    Throws E_NO_PAGES s
  else
    match host with
    | None => Throws E_NO_MEMORY s
    | Some newPage =>
      let s2 := link_new_page K newPage s in
      init_blocks K fuel newPage (newPage + pageHeader s2) s2
    end.

(** ** Construction *)

(** Modelled from the spec: the default constructor of [OAStats] is declared
    in [ObjectAllocator.h], which is not part of the sources; the statistics
    of a new allocator are all zero (section 8, scenario 1). *)
Definition OAStats_default : OAStats := mkOAStats 0 0 0 0 0 0 0 0.

(** The members after the body of the constructor, before the first page is
    requested: the geometry and the size fields of the statistics. *)
Definition ctor_init (m0 : memory) (ObjectSize : Z) (config : OAConfig)
  : ObjectAllocator :=
  let H := size_ (HBlockInfo_ config) in
  let P := PadBytes_ config in
  let unalignedPageHeader := wrap_size (PTR_SIZE + H + P) in
  let pageHeader' := align unalignedPageHeader (Alignment_ config) in
  let LeftAlignSize := wrap_uint (wrap_size (pageHeader' - unalignedPageHeader)) in
  let dataSize' :=
    align (wrap_size (ObjectSize + wrap_uint (P * 2) + H)) (Alignment_ config) in
  let PageSize :=
    wrap_size (pageHeader'
               + wrap_size (dataSize' * wrap_uint (ObjectsPerPage_ config - 1))
               + ObjectSize + P) in
  let totalDataSize' :=
    wrap_size (wrap_size (dataSize' * wrap_uint (ObjectsPerPage_ config - 1))
               + ObjectSize + P) in
  let midBlockSize := wrap_size (ObjectSize + wrap_uint (P * 2) + H) in
  let InterAlignSize :=
    wrap_uint (wrap_size (align midBlockSize (Alignment_ config) - midBlockSize)) in
  let configuration' :=
    mkOAConfig (UseCPPMemManager_ config) (ObjectsPerPage_ config)
      (MaxPages_ config) (DebugOn_ config) (PadBytes_ config)
      (HBlockInfo_ config) (Alignment_ config) LeftAlignSize InterAlignSize in
  let stats' :=
    mkOAStats ObjectSize PageSize
      (FreeObjects_ OAStats_default) (ObjectsInUse_ OAStats_default)
      (PagesInUse_ OAStats_default) (MostObjects_ OAStats_default)
      (Allocations_ OAStats_default) (Deallocations_ OAStats_default) in
  mkObjectAllocator configuration' stats' 0 0
    pageHeader' dataSize' totalDataSize' m0 (fun _ => None).

(** The constructor.  [m0] is the content of raw memory before the call. *)
Definition ObjectAllocator_ctor (K : OAConstants) (fuel : nat) (host : option Z)
  (m0 : memory) (ObjectSize : Z) (config : OAConfig) : outcome unit :=
  AllocateNewPage K fuel host (ctor_init m0 ObjectSize config).

(** ** Allocate *)

(** [MemBlockInfo::MemBlockInfo]: the label is copied into fresh storage. *)
Definition MemBlockInfo_ctor (host : HostAnswers) (use : bool)
  (str : option string) (allocs : Z) : option MemBlockInfo :=
  match str with
  | None => Some (mkMemBlockInfo use None allocs)
  | Some l =>
    if new_label host then Some (mkMemBlockInfo use (Some l) allocs) else None
  end.

Definition update_info (f : Z -> option MemBlockInfo) (p : Z)
  (v : option MemBlockInfo) : Z -> option MemBlockInfo :=
  fun q => if q =? p then v else f q.

(** The header update at the end of [Allocate]. *)
Definition allocate_header (K : OAConstants) (host : HostAnswers)
  (label : option string) (startAddressOfObject : Z) (s : ObjectAllocator)
  : outcome Z :=
  let cfg := configuration s in
  let headerStart :=
    startAddressOfObject - PadBytes_ cfg - size_ (HBlockInfo_ cfg) in
  match type_ (HBlockInfo_ cfg) with
  | hbNone => Returns startAddressOfObject s
  | hbBasic =>
    let allocationNumber := headerStart in
    let m1 := store_le (heap s) allocationNumber 4 (Allocations_ (stats s)) in
    let flag := allocationNumber + 4 in
    let m2 := store_le m1 flag 1 1 in
    Returns startAddressOfObject (set_heap s m2)
  | hbExtended =>
    let h1 := headerStart + (additional_ (HBlockInfo_ cfg)) mod 256 in
    let m1 := store_le (heap s) h1 1 (heap s h1 + 1) in
    let h2 := h1 + 2 in
    let m2 := store_le m1 h2 4 (Allocations_ (stats s)) in
    let h3 := h2 + 4 in
    let m3 := store_le m2 h3 1 1 in
    Returns startAddressOfObject (set_heap s m3)
  | hbExternal =>
    match new_info host with
    | None => Throws E_NO_MEMORY s
    | Some info =>
      match MemBlockInfo_ctor host true label (Allocations_ (stats s)) with
      | None => Throws E_NO_MEMORY s
      | Some rec =>
        let s1 := set_infos s (update_info (infos s) info (Some rec)) in
        Returns startAddressOfObject
          (set_heap s1 (store_ptr (heap s1) headerStart info))
      end
    end
  end.

(** The counter updates of the pooled path of [Allocate]. *)
Definition count_allocation (st : OAStats) : OAStats :=
  let st1 := set_ObjectsInUse st (wrap_uint (ObjectsInUse_ st + 1)) in
  let st2 := set_Allocations st1 (wrap_uint (Allocations_ st1 + 1)) in
  let st3 := set_FreeObjects st2 (wrap_uint (FreeObjects_ st2 - 1)) in
  if ObjectsInUse_ st3 >? MostObjects_ st3
  then set_MostObjects st3 (ObjectsInUse_ st3) else st3.

(** The counter updates of the passthrough path of [Allocate]. *)
Definition count_passthrough (st : OAStats) : OAStats :=
  let st1 := set_ObjectsInUse st (wrap_uint (ObjectsInUse_ st + 1)) in
  let st2 := if ObjectsInUse_ st1 >? MostObjects_ st1
             then set_MostObjects st1 (ObjectsInUse_ st1) else st1 in
  let st3 := set_Allocations st2 (wrap_uint (Allocations_ st2 + 1)) in
  set_FreeObjects st3 (wrap_uint (FreeObjects_ st3 - 1)).

(** [Allocate] after the free list is known to have a head. *)
Definition pop_block (K : OAConstants) (host : HostAnswers)
  (label : option string) (s : ObjectAllocator) : outcome Z :=
  if FreeList_ s =? 0 then Fault
  else
    let startAddressOfObject := FreeList_ s in
    let s1 := set_FreeList s (load_ptr (heap s) (FreeList_ s)) in
    let s2 :=
      if DebugOn_ (configuration s)
      then set_heap s1 (memset (heap s) startAddressOfObject (ALLOCATED_PATTERN K)
                          (ObjectSize_ (stats s)))
      else s1 in
    let s3 := set_stats s2 (count_allocation (stats s2)) in
    allocate_header K host label startAddressOfObject s3.

Definition Allocate (K : OAConstants) (fuel : nat) (host : HostAnswers)
  (label : option string) (s : ObjectAllocator) : outcome Z :=
  if UseCPPMemManager_ (configuration s) then
    match new_object host with
    | None => Throws E_NO_MEMORY s
    | Some newObj => Returns newObj (set_stats s (count_passthrough (stats s)))
    end
  else
    bind (if FreeList_ s =? 0
          then AllocateNewPage K fuel (new_page host) s
          else Returns tt s)
         (fun _ s0 => pop_block K host label s0).

(** ** Free *)

Definition in_page (s : ObjectAllocator) (page p : Z) : bool :=
  (page <=? p) && (p <? page + PageSize_ (stats s)).

Fixpoint CheckPageBoundary_loop (fuel : nat) (obj page : Z) (s : ObjectAllocator)
  : outcome unit :=
  match fuel with
  | O => OutOfFuel
  | S fuel' =>
    if page =? 0 then Returns tt s
    else if in_page s page obj then Returns tt s
    else
      let page' := load_ptr (heap s) page in
      if page' =? 0 then Throws E_BAD_BOUNDARY s
      else CheckPageBoundary_loop fuel' obj page' s
  end.

Definition CheckPageBoundary (fuel : nat) (obj : Z) (s : ObjectAllocator)
  : outcome unit :=
  CheckPageBoundary_loop fuel obj (PageList_ s) s.

(** The inner loop of [CheckPadding] over the right pad; [true] when a byte
    differs from the pad signature. *)
Fixpoint right_pad_corrupted (K : OAConstants) (m : memory)
  (rightPadAddress : Z) (n : nat) (j : Z) : bool :=
  match n with
  | O => false
  | S n' =>
    if negb (m (rightPadAddress + j) =? PAD_PATTERN K) then true
    else right_pad_corrupted K m rightPadAddress n' (j + 1)
  end.

(** The outer loop of [CheckPadding]: [n] iterations remain, [i] is the
    index. *)
Fixpoint CheckPadding_loop (K : OAConstants) (obj : Z) (n : nat) (i : Z)
  (s : ObjectAllocator) : outcome unit :=
  match n with
  | O => Returns tt s
  | S n' =>
    let P := PadBytes_ (configuration s) in
    let leftPadAddress := obj - P in
    let rightPadAddress := obj + ObjectSize_ (stats s) in
    if negb (heap s (leftPadAddress + i) =? PAD_PATTERN K) then
      Throws E_CORRUPTED_BLOCK s
    else if (i =? wrap_uint (P - 1))
            && right_pad_corrupted K (heap s) rightPadAddress (Z.to_nat P) 0 then
      Throws E_CORRUPTED_BLOCK s
    else CheckPadding_loop K obj n' (i + 1) s
  end.

Definition CheckPadding (K : OAConstants) (obj : Z) (s : ObjectAllocator)
  : outcome unit :=
  CheckPadding_loop K obj (Z.to_nat (PadBytes_ (configuration s))) 0 s.

(** The header update of [Free]. *)
Definition free_header (K : OAConstants) (obj : Z) (s : ObjectAllocator)
  : ObjectAllocator :=
  let cfg := configuration s in
  let headerStart := obj - PadBytes_ cfg - size_ (HBlockInfo_ cfg) in
  match type_ (HBlockInfo_ cfg) with
  | hbNone => s
  | hbBasic => set_heap s (memset (heap s) headerStart 0 (BASIC_HEADER_SIZE K))
  | hbExtended =>
    set_heap s (memset (heap s) (headerStart + additional_ (HBlockInfo_ cfg) + 2)
                  0 (BASIC_HEADER_SIZE K))
  | hbExternal =>
    let info := load_ptr (heap s) headerStart in
    let s1 := if info =? 0 then s
              else set_infos s (update_info (infos s) info None) in
    set_heap s1 (store_ptr (heap s1) headerStart 0)
  end.

(** The counter updates at the entry of [Free]. *)
Definition count_free (st : OAStats) : OAStats :=
  let st1 := set_Deallocations st (wrap_uint (Deallocations_ st + 1)) in
  set_ObjectsInUse st1 (wrap_uint (ObjectsInUse_ st1 - 1)).

(** The debug checks of [Free] and the freed signature.  [CheckPageBoundary]
    compares [obj] with the pages; what follows reads the bytes around [obj],
    which for [nullptr] is a fault. *)
Definition debug_free (K : OAConstants) (fuel : nat) (obj : Z)
  (s : ObjectAllocator) : outcome unit :=
  bind (CheckPageBoundary fuel obj s) (fun _ s2 =>
  if obj =? 0 then Fault
  else
  bind (CheckPadding K obj s2) (fun _ s3 =>
    if heap s3 (obj + PTR_SIZE) =? FREED_PATTERN K then
      Throws E_MULTIPLE_FREE s3
    else
      Returns tt (set_heap s3 (memset (heap s3) obj (FREED_PATTERN K)
                                 (ObjectSize_ (stats s3)))))).

(** [Free(obj)].  In passthrough mode [delete[]] accepts [nullptr]; in pooled
    mode the header update and [AddToFreeList] write through [obj], which for
    [nullptr] is a fault. *)
Definition Free (K : OAConstants) (fuel : nat) (obj : Z) (s : ObjectAllocator)
  : outcome unit :=
  let s1 := set_stats s (count_free (stats s)) in
  if UseCPPMemManager_ (configuration s1) then Returns tt s1
  else
    bind (if DebugOn_ (configuration s1)
          then debug_free K fuel obj s1
          else Returns tt s1)
         (fun _ s4 =>
            if obj =? 0 then Fault
            else Returns tt (AddToFreeList obj (free_header K obj s4))).

(** ** Integrity scan *)

(** The [for] loop of [DumpMemoryInUse] over the blocks of one page.  The
    callback is recorded as the list of its calls. *)
Fixpoint dump_blocks (s : ObjectAllocator) (n : nat) (obj : Z)
  (leaks : Z) (calls : list (Z * Z)) : Z * list (Z * Z) :=
  match n with
  | O => (leaks, calls)
  | S n' =>
    let cfg := configuration s in
    match type_ (HBlockInfo_ cfg) with
    | hbNone => dump_blocks s n' (obj + dataSize s) leaks calls
    | hbBasic | hbExtended =>
      let flag := obj - PadBytes_ cfg - 1 in
      if negb (heap s flag =? 0) then
        dump_blocks s n' (obj + dataSize s) (wrap_uint (leaks + 1))
          (calls ++ [(obj, ObjectSize_ (stats s))])
      else dump_blocks s n' (obj + dataSize s) leaks calls
    | hbExternal => dump_blocks s n' (obj + dataSize s) leaks calls
    end
  end.

Fixpoint dump_pages (fuel : nat) (s : ObjectAllocator) (page : Z)
  (leaks : Z) (calls : list (Z * Z)) : option (Z * list (Z * Z)) :=
  match fuel with
  | O => None
  | S fuel' =>
    if page =? 0 then Some (leaks, calls)
    else
      let obj := page + pageHeader s in
      let '(leaks', calls') :=
        dump_blocks s (Z.to_nat (ObjectsPerPage_ (configuration s))) obj leaks calls in
      dump_pages fuel' s (load_ptr (heap s) page) leaks' calls'
  end.

(** [DumpMemoryInUse(fn)]: the number of leaks and the calls of [fn], or
    [None] when the loop budget is exhausted. *)
Definition DumpMemoryInUse (fuel : nat) (s : ObjectAllocator)
  : option (Z * list (Z * Z)) :=
  dump_pages fuel s (PageList_ s) 0 [].

(** ** Empty-page reclamation *)

Fixpoint IsPageEmpty_loop (fuel : nat) (s : ObjectAllocator) (page freeBlock i : Z)
  : option bool :=
  match fuel with
  | O => None
  | S fuel' =>
    if freeBlock =? 0 then Some false
    else if in_page s page freeBlock then
      let i' := wrap_uint (i + 1) in
      if i' >=? ObjectsPerPage_ (configuration s) then Some true
      else IsPageEmpty_loop fuel' s page (load_ptr (heap s) freeBlock) i'
    else IsPageEmpty_loop fuel' s page (load_ptr (heap s) freeBlock) i
  end.

Definition IsPageEmpty (fuel : nat) (s : ObjectAllocator) (page : Z) : option bool :=
  IsPageEmpty_loop fuel s page (FreeList_ s) 0.

Definition dec_FreeObjects (s : ObjectAllocator) : ObjectAllocator :=
  set_stats s (set_FreeObjects (stats s) (wrap_uint (FreeObjects_ (stats s) - 1))).

(** First loop of [FreePage]: drop the head of the free list while it lies in
    the page.  [freeBlock] and [FreeList_] coincide throughout. *)
Fixpoint FreePage_head (fuel : nat) (page : Z) (s : ObjectAllocator) : outcome unit :=
  match fuel with
  | O => OutOfFuel
  | S fuel' =>
    let freeBlock := FreeList_ s in
    if freeBlock =? 0 then Returns tt s
    else if in_page s page freeBlock then
      FreePage_head fuel' page
        (dec_FreeObjects (set_FreeList s (load_ptr (heap s) freeBlock)))
    else Returns tt s
  end.

(** Second loop of [FreePage]: unlink the nodes of the page behind the head. *)
Fixpoint FreePage_rest (fuel : nat) (page prev freeBlock : Z) (s : ObjectAllocator)
  : outcome unit :=
  match fuel with
  | O => OutOfFuel
  | S fuel' =>
    if freeBlock =? 0 then Returns tt s
    else if negb (in_page s page freeBlock) then
      FreePage_rest fuel' page freeBlock (load_ptr (heap s) freeBlock) s
    else if prev =? 0 then Fault
    else
      (* [if (freeBlock == nullptr) break;] cannot fire inside the loop *)
      let s1 := set_heap s (store_ptr (heap s) prev (load_ptr (heap s) freeBlock)) in
      FreePage_rest fuel' page prev (load_ptr (heap s1) prev) (dec_FreeObjects s1)
  end.

Definition FreePage (fuel : nat) (page : Z) (s : ObjectAllocator) : outcome unit :=
  bind (FreePage_head fuel page s) (fun _ s1 =>
  bind (FreePage_rest fuel page 0 (FreeList_ s1) s1) (fun _ s2 =>
    Returns tt
      (set_stats s2
         (set_PagesInUse (stats s2) (wrap_uint (PagesInUse_ (stats s2) - 1)))))).

(** First loop of [FreeEmptyPages]: release empty pages at the head of the
    page list.  Returns the count and leaves the first kept page in
    [PageList_]. *)
Fixpoint FreeEmptyPages_head (fuel : nat) (pagesFreed : Z) (s : ObjectAllocator)
  : outcome Z :=
  match fuel with
  | O => OutOfFuel
  | S fuel' =>
    let page := PageList_ s in
    if page =? 0 then Returns pagesFreed s
    else
      match IsPageEmpty fuel s page with
      | None => OutOfFuel
      | Some true =>
        let s1 := set_PageList s (load_ptr (heap s) page) in
        bind (FreePage fuel page s1) (fun _ s2 =>
          FreeEmptyPages_head fuel' (wrap_uint (pagesFreed + 1)) s2)
      | Some false => Returns pagesFreed s
      end
  end.

(** Second loop of [FreeEmptyPages]. *)
Fixpoint FreeEmptyPages_rest (fuel : nat) (prev page pagesFreed : Z)
  (s : ObjectAllocator) : outcome Z :=
  match fuel with
  | O => OutOfFuel
  | S fuel' =>
    if page =? 0 then Returns pagesFreed s
    else
      match IsPageEmpty fuel s page with
      | None => OutOfFuel
      | Some false =>
        FreeEmptyPages_rest fuel' page (load_ptr (heap s) page) pagesFreed s
      | Some true =>
        if prev =? 0 then Fault
        else
          let s1 := set_heap s (store_ptr (heap s) prev (load_ptr (heap s) page)) in
          bind (FreePage fuel page s1) (fun _ s2 =>
            FreeEmptyPages_rest fuel' prev (load_ptr (heap s2) prev)
              (wrap_uint (pagesFreed + 1)) s2)
      end
  end.

Definition FreeEmptyPages (fuel : nat) (s : ObjectAllocator) : outcome Z :=
  if PageList_ s =? 0 then Returns 0 s
  else
    bind (FreeEmptyPages_head fuel 0 s) (fun pagesFreed s1 =>
      FreeEmptyPages_rest fuel 0 (PageList_ s1) pagesFreed s1).

(** ** The geometry in the words of the specification *)

(** [align(x, a) = a * ceil(x / a)] when [a > 0], else [x]. *)
Definition align_spec (x a : Z) : Z :=
  if a =? 0 then x else a * ((x + a - 1) / a).

Definition PH_spec (cfg : OAConfig) : Z :=
  align_spec (PTR_SIZE + size_ (HBlockInfo_ cfg) + PadBytes_ cfg) (Alignment_ cfg).

Definition D_spec (S : Z) (cfg : OAConfig) : Z :=
  align_spec (size_ (HBlockInfo_ cfg) + 2 * PadBytes_ cfg + S) (Alignment_ cfg).

Definition PageSize_spec (S : Z) (cfg : OAConfig) : Z :=
  PH_spec cfg + (ObjectsPerPage_ cfg - 1) * D_spec S cfg + S + PadBytes_ cfg.

(** The construction parameters are values of their C++ types. *)
Definition config_in_range (S : Z) (cfg : OAConfig) : Prop :=
  0 <= S < 2 ^ 64 /\
  0 <= size_ (HBlockInfo_ cfg) < 2 ^ 64 /\
  0 <= additional_ (HBlockInfo_ cfg) < 2 ^ 64 /\
  0 <= PadBytes_ cfg < 2 ^ 32 /\
  0 <= Alignment_ cfg < 2 ^ 32 /\
  0 <= ObjectsPerPage_ cfg < 2 ^ 32 /\
  0 <= MaxPages_ cfg < 2 ^ 32.

(** No size computed by the constructor exceeds its type. *)
Definition no_overflow (S : Z) (cfg : OAConfig) : Prop :=
  2 * PadBytes_ cfg < 2 ^ 32 /\
  D_spec S cfg < 2 ^ 64 /\
  PageSize_spec S cfg < 2 ^ 64.

(** ** Well-formed allocators *)

(** The header writes of [Allocate] and [Free] stay inside the header block. *)
Definition header_fits (K : OAConstants) (cfg : OAConfig) : Prop :=
  let H := size_ (HBlockInfo_ cfg) in
  match type_ (HBlockInfo_ cfg) with
  | hbNone => True
  | hbBasic => 5 <= H /\ 0 <= BASIC_HEADER_SIZE K <= H
  | hbExtended =>
    0 <= additional_ (HBlockInfo_ cfg) /\
    (additional_ (HBlockInfo_ cfg)) mod 256 + 7 <= H /\
    0 <= BASIC_HEADER_SIZE K /\
    additional_ (HBlockInfo_ cfg) + 2 + BASIC_HEADER_SIZE K <= H
  | hbExternal => PTR_SIZE <= H
  end.

(** The layout facts every operation relies on: at least one block per page,
    a payload wide enough for the free-list link, blocks that do not overlap,
    and a page whose offsets fit the 32-bit loop counter of
    [AllocateNewPage]. *)
Record geom_ok (K : OAConstants) (s : ObjectAllocator) : Prop := mk_geom_ok {
  g_N : 1 <= ObjectsPerPage_ (configuration s);
  g_S : PTR_SIZE <= ObjectSize_ (stats s);
  g_P : 0 <= PadBytes_ (configuration s);
  g_H : 0 <= size_ (HBlockInfo_ (configuration s));
  g_PH : PTR_SIZE + size_ (HBlockInfo_ (configuration s))
         + PadBytes_ (configuration s) <= pageHeader s;
  g_D : size_ (HBlockInfo_ (configuration s)) + 2 * PadBytes_ (configuration s)
        + ObjectSize_ (stats s) <= dataSize s;
  g_PS : PageSize_ (stats s)
         = pageHeader s + dataSize s * (ObjectsPerPage_ (configuration s) - 1)
           + ObjectSize_ (stats s) + PadBytes_ (configuration s);
  g_fit : pageHeader s + ObjectsPerPage_ (configuration s) * dataSize s < 2 ^ 32;
  g_hdr : header_fits K (configuration s);
  g_max : 0 <= MaxPages_ (configuration s) /\
          MaxPages_ (configuration s) * ObjectsPerPage_ (configuration s) < 2 ^ 32
}.

(** The same facts on the construction parameters. *)
Definition wf_config (K : OAConstants) (S : Z) (cfg : OAConfig) : Prop :=
  config_in_range S cfg /\
  1 <= ObjectsPerPage_ cfg /\
  PTR_SIZE <= S /\
  header_fits K cfg /\
  PH_spec cfg + ObjectsPerPage_ cfg * D_spec S cfg < 2 ^ 32 /\
  MaxPages_ cfg * ObjectsPerPage_ cfg < 2 ^ 32.

(** The byte signatures are bytes; the freed signature is not zero and differs
    from the allocated and the pad signatures. *)
Definition patterns_ok (K : OAConstants) : Prop :=
  0 <= ALLOCATED_PATTERN K < 256 /\
  0 < FREED_PATTERN K < 256 /\
  0 <= PAD_PATTERN K < 256 /\
  ALLOCATED_PATTERN K <> FREED_PATTERN K /\
  PAD_PATTERN K <> FREED_PATTERN K.

(** What the layout depends on. *)
Definition geometry (s : ObjectAllocator) : OAConfig * Z * Z * Z * Z :=
  (configuration s, pageHeader s, dataSize s,
   ObjectSize_ (stats s), PageSize_ (stats s)).

(** Payload address of block [k] of the page at [page]. *)
Definition block_addr (s : ObjectAllocator) (page : Z) (k : nat) : Z :=
  page + pageHeader s + Z.of_nat k * dataSize s.

Definition blocks_of_page (s : ObjectAllocator) (page : Z) : list Z :=
  map (block_addr s page) (seq 0 (Z.to_nat (ObjectsPerPage_ (configuration s)))).

Definition all_blocks (s : ObjectAllocator) (pages : list Z) : list Z :=
  flat_map (blocks_of_page s) pages.

(** An intrusive singly linked list in memory: [l] lists the nodes reached
    from [h] through [Next] up to [nullptr]. *)
Fixpoint chain (m : memory) (h : Z) (l : list Z) : Prop :=
  match l with
  | [] => h = 0
  | x :: t => h = x /\ x <> 0 /\ chain m (load_ptr m x) t
  end.

(** The storage the host returns for a page lies in the address space and
    away from the pages already owned. *)
Definition page_fresh (s : ObjectAllocator) (pages : list Z) (a : Z) : Prop :=
  0 < a /\
  a + PageSize_ (stats s) + PTR_SIZE <= 2 ^ 64 /\
  forall a', In a' pages ->
    a + PageSize_ (stats s) + PTR_SIZE <= a' \/
    a' + PageSize_ (stats s) + PTR_SIZE <= a.

Fixpoint pages_ok (s : ObjectAllocator) (pages : list Z) : Prop :=
  match pages with
  | [] => True
  | a :: t => page_fresh s t a /\ pages_ok s t
  end.

(** The representation invariant of the pool: [pages] is the page list,
    [fl] the free list, [live] the blocks handed to the client. *)
Record pool_inv (K : OAConstants) (s : ObjectAllocator)
  (pages fl live : list Z) : Prop := mk_pool_inv {
  inv_geom : geom_ok K s;
  inv_pages : pages_ok s pages;
  inv_page_chain : chain (heap s) (PageList_ s) pages;
  inv_free_chain : chain (heap s) (FreeList_ s) fl;
  inv_blocks : Permutation (fl ++ live) (all_blocks s pages);
  inv_free : FreeObjects_ (stats s) = Z.of_nat (length fl);
  inv_used : ObjectsInUse_ (stats s) = Z.of_nat (length live);
  inv_npages : PagesInUse_ (stats s) = Z.of_nat (length pages);
  inv_cap : Z.of_nat (length pages) <= MaxPages_ (configuration s)
}.

(** The debug painting stays inside the block: with debug on the payload is
    at least as long as the free-list link. *)
Definition paint_fits (s : ObjectAllocator) : Prop :=
  DebugOn_ (configuration s) = true -> PTR_SIZE <= ObjectSize_ (stats s).

(** The bytes of the block at [d] after the three fills of the painting. *)
Definition painted_block (K : OAConstants) (d : Z) (s : ObjectAllocator)
  : ObjectAllocator :=
  let cfg := configuration s in
  let m1 := memset (heap s) (d + PTR_SIZE) (UNALLOCATED_PATTERN K)
              (wrap_size (ObjectSize_ (stats s) - PTR_SIZE)) in
  let m2 := memset m1 (d - PadBytes_ cfg) (PAD_PATTERN K) (PadBytes_ cfg) in
  let m3 := memset m2 (d + ObjectSize_ (stats s)) (PAD_PATTERN K)
              (PadBytes_ cfg) in
  set_heap s m3.

(** The allocator after one round of the loop of [AllocateNewPage] on the
    block at [d], when the painting fits. *)
Definition fresh_block (K : OAConstants) (d : Z) (s : ObjectAllocator)
  : ObjectAllocator :=
  let cfg := configuration s in
  let headerStart := d - PadBytes_ cfg - size_ (HBlockInfo_ cfg) in
  let s1 := set_heap s (memset (heap s) headerStart 0 (size_ (HBlockInfo_ cfg))) in
  let s2 := AddToFreeList d s1 in
  if DebugOn_ cfg then painted_block K d s2 else s2.

(** The blocks [d], [d + dataSize], ... initialised by [j] rounds of the loop
    of [AllocateNewPage]. *)
Fixpoint init_n (K : OAConstants) (j : nat) (d : Z) (s : ObjectAllocator)
  : ObjectAllocator :=
  match j with
  | O => s
  | S j' => init_n K j' (d + dataSize s) (fresh_block K d s)
  end.

(** States reached from a constructed pooled allocator by calls of [Allocate]
    and [Free] that return, when the host hands out fresh storage and the
    client frees only blocks it holds.  [pages] are the pages owned and
    [live] the blocks held by the client. *)
Inductive reachable (K : OAConstants)
  : ObjectAllocator -> list Z -> list Z -> Prop :=
| reach_ctor fuel a m0 S cfg s :
    wf_config K S cfg ->
    UseCPPMemManager_ cfg = false ->
    0 < a -> a + PageSize_spec S cfg + PTR_SIZE <= 2 ^ 64 ->
    ObjectAllocator_ctor K fuel (Some a) m0 S cfg = Returns tt s ->
    reachable K s [a] []
| reach_Allocate_pop fuel host label s pages live p s' :
    reachable K s pages live ->
    FreeList_ s <> 0 ->
    Allocate K fuel host label s = Returns p s' ->
    reachable K s' pages (p :: live)
| reach_Allocate_grow fuel host label s pages live a p s' :
    reachable K s pages live ->
    FreeList_ s = 0 ->
    new_page host = Some a ->
    page_fresh s pages a ->
    Allocate K fuel host label s = Returns p s' ->
    reachable K s' (a :: pages) (p :: live)
| reach_Free fuel p s pages live s' :
    reachable K s pages live ->
    In p live ->
    Free K fuel p s = Returns tt s' ->
    reachable K s' pages (remove Z.eq_dec p live).


(** The payload addresses [d], [d + dataSize], ... of [j] consecutive blocks. *)
Definition blocks_from (s : ObjectAllocator) (d : Z) (j : nat) : list Z :=
  map (fun i => d + Z.of_nat i * dataSize s) (seq 0 j).


(** What the loop of [AllocateNewPage] needs to run once per block. *)
Definition loop_ok (s : ObjectAllocator) : Prop :=
  1 <= ObjectsPerPage_ (configuration s) /\
  0 <= pageHeader s /\
  0 < ObjectSize_ (stats s) + PadBytes_ (configuration s) /\
  ObjectSize_ (stats s) + PadBytes_ (configuration s) <= dataSize s /\
  PageSize_ (stats s)
  = pageHeader s + dataSize s * (ObjectsPerPage_ (configuration s) - 1)
    + ObjectSize_ (stats s) + PadBytes_ (configuration s) /\
  pageHeader s + ObjectsPerPage_ (configuration s) * dataSize s < 2 ^ 32.

(** The construction parameters under which it does: objects of at least one
    byte, at least one block per page, and page offsets below [2 ^ 32]. *)
Definition count_ok (S : Z) (cfg : OAConfig) : Prop :=
  config_in_range S cfg /\
  1 <= ObjectsPerPage_ cfg /\
  1 <= S /\
  PH_spec cfg + ObjectsPerPage_ cfg * D_spec S cfg < 2 ^ 32.


(** ** Observations and concrete scenarios *)

Definition raised {A : Type} (o : outcome A) : option OA_EXCEPTION :=
  match o with Throws e _ => Some e | _ => None end.

Definition returned {A : Type} (o : outcome A) : option A :=
  match o with Returns a _ => Some a | _ => None end.

Definition state_after {A : Type} (o : outcome A) (d : ObjectAllocator)
  : ObjectAllocator :=
  match o with Returns _ s => s | Throws _ s => s | _ => d end.

(** Signatures 0xAA, 0xBB, 0xCC, 0xDD, 0xEE and a basic header of 8 bytes. *)
Definition K0 : OAConstants := mkOAConstants 170 187 204 221 238 8.

Definition ram0 : memory := fun _ => 0.

Definition no_host : HostAnswers := mkHostAnswers None None None true.
Definition host_page (a : Z) : HostAnswers := mkHostAnswers (Some a) None None true.

(** Scenario A: objects of 8 bytes, 4 per page, 3 pages, debug on, no pads,
    no header, no alignment; one block allocated and freed. *)
Definition cfgA : OAConfig :=
  mkOAConfig false 4 3 true 0 (mkHeaderBlockInfo hbNone 0 0) 0 0 0.
Definition sA0 : ObjectAllocator :=
  state_after (ObjectAllocator_ctor K0 8 (Some 4096) ram0 8 cfgA)
    (ctor_init ram0 8 cfgA).
Definition pA : Z := FreeList_ sA0.
Definition sA1 : ObjectAllocator := state_after (Allocate K0 8 no_host None sA0) sA0.
Definition sA2 : ObjectAllocator := state_after (Free K0 8 pA sA1) sA1.

(** Scenario B: as A with objects of 16 bytes and pads of 2 bytes. *)
Definition cfgB : OAConfig :=
  mkOAConfig false 4 3 true 2 (mkHeaderBlockInfo hbNone 0 0) 0 0 0.
Definition sB0 : ObjectAllocator :=
  state_after (ObjectAllocator_ctor K0 8 (Some 4096) ram0 16 cfgB)
    (ctor_init ram0 16 cfgB).
Definition pB : Z := FreeList_ sB0.
Definition sB1 : ObjectAllocator := state_after (Allocate K0 8 no_host None sB0) sB0.
Definition sB2 : ObjectAllocator := state_after (Free K0 8 pB sB1) sB1.

(** Scenario M: as A with [MaxPages_ = 0]. *)
Definition cfgM : OAConfig :=
  mkOAConfig false 4 0 true 0 (mkHeaderBlockInfo hbNone 0 0) 0 0 0.

(** Scenario X: one block per page, one page, extended header without user
    bytes ([size_ = 0 + 2 + 8]), debug off. *)
Definition cfgX : OAConfig :=
  mkOAConfig false 1 1 false 0 (mkHeaderBlockInfo hbExtended 10 0) 0 0 0.
Definition sX0 : ObjectAllocator :=
  state_after (ObjectAllocator_ctor K0 8 (Some 4096) ram0 8 cfgX)
    (ctor_init ram0 8 cfgX).

(** [n] rounds of [Allocate] followed by [Free] of the block obtained. *)
Fixpoint cycles (K : OAConstants) (n : nat) (s : ObjectAllocator)
  : option ObjectAllocator :=
  match n with
  | O => Some s
  | S k =>
    match Allocate K 4 no_host None s with
    | Returns p s1 =>
      match Free K 4 p s1 with
      | Returns _ s2 => cycles K k s2
      | _ => None
      end
    | _ => None
    end
  end.

(** The fields of the extended header of the block at [p]: use count (2
    bytes), allocation number (4 bytes), flag (1 byte). *)
Definition extended_header (s : ObjectAllocator) (p : Z) : Z * Z * Z :=
  let cfg := configuration s in
  let h := p - PadBytes_ cfg - size_ (HBlockInfo_ cfg)
           + additional_ (HBlockInfo_ cfg) in
  (load_le (heap s) h 2, load_le (heap s) (h + 2) 4, heap s (h + 6)).


(** Answers of the host under which the header update of [Allocate] cannot
    fail. *)
Definition host_succeeds (s : ObjectAllocator) (host : HostAnswers) : Prop :=
  type_ (HBlockInfo_ (configuration s)) = hbExternal ->
  new_info host <> None /\ new_label host = true.

(** ** Empty-page reclamation on lists *)

(** Number of nodes of the free list [fl] inside the page at [a]. *)
Definition count_in (s : ObjectAllocator) (a : Z) (fl : list Z) : nat :=
  length (filter (in_page s a) fl).

(** The test of [IsPageEmpty] on the free list [fl]. *)
Definition page_empty (s : ObjectAllocator) (fl : list Z) (a : Z) : bool :=
  ObjectsPerPage_ (configuration s) <=? Z.of_nat (count_in s a fl).

(** The free list without the nodes inside the page at [a]. *)
Definition drop_page (s : ObjectAllocator) (a : Z) (fl : list Z) : list Z :=
  filter (fun x => negb (in_page s a x)) fl.

(** The pages kept, the free list left and the number of pages released when
    the page list is traversed in order. *)
Fixpoint reclaim (s : ObjectAllocator) (pages fl : list Z)
  : list Z * list Z * nat :=
  match pages with
  | [] => ([], fl, O)
  | a :: t =>
    if page_empty s fl a then
      let '(kept, fl', n) := reclaim s t (drop_page s a fl) in (kept, fl', S n)
    else
      let '(kept, fl', n) := reclaim s t fl in (a :: kept, fl', n)
  end.

(** Distinct link words do not overlap. *)
Definition links_apart (l : list Z) : Prop :=
  forall x y, In x l -> In y l ->
    x = y \/ x + PTR_SIZE <= y \/ y + PTR_SIZE <= x.

(** The allocator [s] with heap [m], free-list head [h], page-list head [pl],
    free count [f] and page count [g]. *)
Definition with_lists (s : ObjectAllocator) (m : memory) (pl h f g : Z)
  : ObjectAllocator :=
  mkObjectAllocator (configuration s)
    (set_PagesInUse (set_FreeObjects (stats s) f) g)
    pl h (pageHeader s) (dataSize s) (totalDataSize s) m (infos s).


(** Pages whose address ranges do not meet. *)
Definition ranges_apart (s : ObjectAllocator) (pages : list Z) : Prop :=
  forall a a' x, In a pages -> In a' pages -> a <> a' ->
    in_page s a x = true -> in_page s a' x = false.

(** Scenario G: objects of 20 bytes, pads of 2 bytes, a basic header of 8
    bytes and an alignment of 16. *)
Definition cfgG : OAConfig :=
  mkOAConfig false 4 3 true 2 (mkHeaderBlockInfo hbBasic 8 0) 16 0 0.

(** Scenario T: as B in passthrough mode. *)
Definition cfgT : OAConfig :=
  mkOAConfig true 4 3 true 2 (mkHeaderBlockInfo hbNone 0 0) 0 0 0.

(** Scenario P: one block of 16 bytes per page.  Two blocks are allocated, the
    second from a page the host places at 8192, and the second is freed. *)
Definition cfgP : OAConfig :=
  mkOAConfig false 1 3 true 2 (mkHeaderBlockInfo hbNone 0 0) 0 0 0.
Definition sP0 : ObjectAllocator :=
  state_after (ObjectAllocator_ctor K0 8 (Some 4096) ram0 16 cfgP)
    (ctor_init ram0 16 cfgP).
Definition pP1 : Z := FreeList_ sP0.
Definition sP1 : ObjectAllocator := state_after (Allocate K0 8 no_host None sP0) sP0.
Definition sP2 : ObjectAllocator :=
  state_after (Allocate K0 8 (host_page 8192) None sP1) sP1.
Definition pP2 : Z := FreeList_ (state_after (AllocateNewPage K0 8 (Some 8192) sP1) sP1).
Definition sP3 : ObjectAllocator := state_after (Free K0 8 pP2 sP2) sP2.

(** The allocator of scenario B after a second [Free] of the same block. *)
Definition sB3 : ObjectAllocator := state_after (Free K0 8 pB sB2) sB2.


(** States reached by calls of [Allocate] and [Free] that return, whatever
    pointers the client passes to [Free]. *)
Inductive calls (K : OAConstants) : ObjectAllocator -> ObjectAllocator -> Prop :=
| calls_none s : calls K s s
| calls_Allocate fuel host label s s1 p s2 :
    calls K s s1 ->
    Allocate K fuel host label s1 = Returns p s2 ->
    calls K s s2
| calls_Free fuel p s s1 s2 :
    calls K s s1 ->
    Free K fuel p s1 = Returns tt s2 ->
    calls K s s2.

(** The balance of the statistics in 32-bit unsigned arithmetic. *)
Definition balanced32 (s : ObjectAllocator) : Prop :=
  wrap_uint (ObjectsInUse_ (stats s) + FreeObjects_ (stats s))
  = wrap_uint (PagesInUse_ (stats s) * ObjectsPerPage_ (configuration s)).

(** Scenario A after a second [Free] of the same block, which the debug
    checks let through. *)
Definition sA3 : ObjectAllocator := state_after (Free K0 8 pA sA2) sA2.

(** Scenario Z: objects of size zero without pads or header. *)
Definition cfgZ : OAConfig :=
  mkOAConfig false 4 3 false 0 (mkHeaderBlockInfo hbNone 0 0) 0 0 0.

(** Scenario N: as A with no block per page. *)
Definition cfgN : OAConfig :=
  mkOAConfig false 0 3 true 0 (mkHeaderBlockInfo hbNone 0 0) 0 0 0.


(** ** Pad validation *)

(** The loop of [ValidatePages] over the left pad of the block at [obj]: [n]
    iterations remain and [i] is the index.  The scan of the right pad, entered
    from the last iteration, is the loop that [CheckPadding] runs.  [count] and
    [calls] are the counter and the calls of the callback so far. *)
Fixpoint validate_block (K : OAConstants) (s : ObjectAllocator) (obj : Z)
  (n : nat) (i : Z) (count : Z) (calls : list (Z * Z)) : Z * list (Z * Z) :=
  match n with
  | O => (count, calls)
  | S n' =>
    let P := PadBytes_ (configuration s) in
    let leftPadStart := obj - P in
    let rightPadStart := obj + ObjectSize_ (stats s) in
    if negb (heap s (leftPadStart + i) =? PAD_PATTERN K) then
      (wrap_uint (count + 1), calls ++ [(obj, ObjectSize_ (stats s))])
    else if i =? wrap_uint (P - 1) then
      if right_pad_corrupted K (heap s) rightPadStart (Z.to_nat P) 0 then
        validate_block K s obj n' (i + 1) (wrap_uint (count + 1))
          (calls ++ [(obj, ObjectSize_ (stats s))])
      else validate_block K s obj n' (i + 1) count calls
    else validate_block K s obj n' (i + 1) count calls
  end.

(** The [for] loop of [ValidatePages] over the blocks of one page. *)
Fixpoint validate_blocks (K : OAConstants) (s : ObjectAllocator) (n : nat)
  (obj : Z) (count : Z) (calls : list (Z * Z)) : Z * list (Z * Z) :=
  match n with
  | O => (count, calls)
  | S n' =>
    let '(count', calls') :=
      validate_block K s obj (Z.to_nat (PadBytes_ (configuration s))) 0
        count calls in
    validate_blocks K s n' (obj + dataSize s) count' calls'
  end.

Fixpoint validate_pages (K : OAConstants) (fuel : nat) (s : ObjectAllocator)
  (page : Z) (count : Z) (calls : list (Z * Z)) : option (Z * list (Z * Z)) :=
  match fuel with
  | O => None
  | S fuel' =>
    if page =? 0 then Some (count, calls)
    else
      let obj := page + pageHeader s in
      let '(count', calls') :=
        validate_blocks K s (Z.to_nat (ObjectsPerPage_ (configuration s))) obj
          count calls in
      validate_pages K fuel' s (load_ptr (heap s) page) count' calls'
  end.

(** [ValidatePages(fn)]: the number of corrupted blocks and the calls of [fn],
    or [None] when the loop budget is exhausted. *)
Definition ValidatePages (K : OAConstants) (fuel : nat) (s : ObjectAllocator)
  : option (Z * list (Z * Z)) :=
  if negb (DebugOn_ (configuration s)) || (PadBytes_ (configuration s) =? 0)
  then Some (0, [])
  else validate_pages K fuel s (PageList_ s) 0 [].

(** ** Destruction *)

(** The body of the loop of [~ObjectAllocator] for [page], before the page is
    handed back: with external headers the record referenced by the header of
    the block at [page + pageHeader] is deleted and the header cleared. *)
Definition dtor_page (s : ObjectAllocator) (page : Z) : ObjectAllocator :=
  let cfg := configuration s in
  let obj := page + pageHeader s in
  match type_ (HBlockInfo_ cfg) with
  | hbExternal =>
    let headerStart := obj - PadBytes_ cfg - size_ (HBlockInfo_ cfg) in
    if headerStart =? 0 then s
    else
      let info := load_ptr (heap s) headerStart in
      let s1 := if info =? 0 then s
                else set_infos s (update_info (infos s) info None) in
      set_heap s1 (store_ptr (heap s1) headerStart 0)
  | _ => s
  end.

(** The loop of [~ObjectAllocator]; [released] lists the pages handed back to
    the host so far. *)
Fixpoint dtor_pages (fuel : nat) (page : Z) (released : list Z)
  (s : ObjectAllocator) : outcome (list Z) :=
  match fuel with
  | O => OutOfFuel
  | S fuel' =>
    if page =? 0 then Returns released s
    else
      let nextPage := load_ptr (heap s) page in
      dtor_pages fuel' nextPage (released ++ [page]) (dtor_page s page)
  end.

(** [~ObjectAllocator]: the pages handed back to the host, in order, and the
    members, memory and records left behind. *)
Definition ObjectAllocator_dtor (fuel : nat) (s : ObjectAllocator)
  : outcome (list Z) :=
  dtor_pages fuel (PageList_ s) [] s.

(** ** The debug switch and the accessors *)

Definition SetDebugState (State : bool) (s : ObjectAllocator) : ObjectAllocator :=
  let cfg := configuration s in
  mkObjectAllocator
    (mkOAConfig (UseCPPMemManager_ cfg) (ObjectsPerPage_ cfg) (MaxPages_ cfg)
       State (PadBytes_ cfg) (HBlockInfo_ cfg) (Alignment_ cfg)
       (LeftAlignSize_ cfg) (InterAlignSize_ cfg))
    (stats s) (PageList_ s) (FreeList_ s)
    (pageHeader s) (dataSize s) (totalDataSize s) (heap s) (infos s).

Definition GetFreeList (s : ObjectAllocator) : Z := FreeList_ s.
Definition GetPageList (s : ObjectAllocator) : Z := PageList_ s.
Definition GetConfig (s : ObjectAllocator) : OAConfig := configuration s.
Definition GetStats (s : ObjectAllocator) : OAStats := stats s.

(** ** Pads, flags and block extents *)

(** The addresses of the left and the right pad of the block at [obj]. *)
Definition pad_bytes (s : ObjectAllocator) (obj : Z) : list Z :=
  let P := PadBytes_ (configuration s) in
  map (fun i => obj - P + Z.of_nat i) (seq 0 (Z.to_nat P))
  ++ map (fun i => obj + ObjectSize_ (stats s) + Z.of_nat i) (seq 0 (Z.to_nat P)).

(** Every pad byte of the block at [obj] holds the pad signature. *)
Definition pads_intact (K : OAConstants) (s : ObjectAllocator) (obj : Z) : bool :=
  forallb (fun y => heap s y =? PAD_PATTERN K) (pad_bytes s obj).

(** [obj] lies in one of [pages], or there is no page at all: the pointers
    that [CheckPageBoundary] lets through. *)
Definition within_pages (s : ObjectAllocator) (pages : list Z) (obj : Z) : bool :=
  match pages with
  | [] => true
  | _ => existsb (fun a => in_page s a obj) pages
  end.


(** Scenario B after the client has written one byte past the payload of the
    block it holds. *)
Definition sB1_overrun : ObjectAllocator :=
  set_heap sB1 (store_le (heap sB1) (pB + 16) 1 0).

(** Scenario X after its only block has been allocated. *)
Definition sX1 : ObjectAllocator := state_after (Allocate K0 4 no_host None sX0) sX0.

(** Scenario E: objects of 16 bytes, 2 per page, 2 pages, debug on, pads of 2
    bytes, external headers. *)
Definition cfgE : OAConfig :=
  mkOAConfig false 2 2 true 2 (mkHeaderBlockInfo hbExternal 8 0) 0 0 0.
Definition sE0 : ObjectAllocator :=
  state_after (ObjectAllocator_ctor K0 8 (Some 4096) ram0 16 cfgE)
    (ctor_init ram0 16 cfgE).

(** The allocator of scenario T, in passthrough mode, and a host that answers
    a request for an object with the address 1000. *)
Definition sT0 : ObjectAllocator :=
  state_after (ObjectAllocator_ctor K0 8 (Some 4096) ram0 16 cfgT)
    (ctor_init ram0 16 cfgT).
Definition host_object (q : Z) : HostAnswers := mkHostAnswers None (Some q) None true.


(** The byte that [DumpMemoryInUse] reads for the block at [obj] is not
    zero. *)
Definition flagged (s : ObjectAllocator) (obj : Z) : bool :=
  negb (heap s (obj - PadBytes_ (configuration s) - 1) =? 0).

(** The calls of a callback on the blocks [l]. *)
Definition calls_on (s : ObjectAllocator) (l : list Z) : list (Z * Z) :=
  map (fun b => (b, ObjectSize_ (stats s))) l.


(** ** The marks the allocator leaves on its blocks *)

(** [y] is a pad byte of the block at [b]. *)
Definition in_pads (s : ObjectAllocator) (b y : Z) : Prop :=
  b - PadBytes_ (configuration s) <= y < b
  \/ b + ObjectSize_ (stats s) <= y
     < b + ObjectSize_ (stats s) + PadBytes_ (configuration s).

(** Where the header of the block at [b] starts. *)
Definition header_start (s : ObjectAllocator) (b : Z) : Z :=
  b - PadBytes_ (configuration s) - size_ (HBlockInfo_ (configuration s)).

(** Offset, inside a basic or an extended header, of the flag byte that
    [Allocate] sets. *)
Definition flag_offset (cfg : OAConfig) : Z :=
  match type_ (HBlockInfo_ cfg) with
  | hbExtended => (additional_ (HBlockInfo_ cfg)) mod 256 + 6
  | _ => 4
  end.

Definition flag_header (cfg : OAConfig) : Prop :=
  type_ (HBlockInfo_ cfg) = hbBasic \/ type_ (HBlockInfo_ cfg) = hbExtended.

(** The zero fill of [Free] covers the flag byte that [Allocate] sets. *)
Definition flag_cleared (K : OAConstants) (cfg : OAConfig) : Prop :=
  5 <= BASIC_HEADER_SIZE K /\
  (type_ (HBlockInfo_ cfg) = hbExtended -> additional_ (HBlockInfo_ cfg) < 256).

(** The byte that [DumpMemoryInUse] reads, the last byte of the header, is
    the flag byte that [Allocate] sets. *)
Definition flag_at_end (cfg : OAConfig) : Prop :=
  flag_header cfg /\ size_ (HBlockInfo_ cfg) = flag_offset cfg + 1.

(** The header extends beyond the flag byte that [Allocate] sets. *)
Definition flag_missed (cfg : OAConfig) : Prop :=
  flag_header cfg /\ flag_offset cfg + 1 < size_ (HBlockInfo_ cfg).

(** [b] is one of the blocks [live]. *)
Definition held (live : list Z) (b : Z) : bool := existsb (Z.eqb b) live.

(** What the allocator has written on the blocks of [pages] when the client
    holds [live] and has written nothing outside the payloads: in debug mode
    the pads carry the pad signature, and without it they are zero as the page
    was when it was created; in a basic or an extended header the bytes behind
    the flag are zero, the flag of a block in use is 1, and the flag of a free
    block is zero when [Free] clears it. *)
Record marks (K : OAConstants) (s : ObjectAllocator) (pages live : list Z)
  : Prop := mk_marks {
  m_pads : DebugOn_ (configuration s) = true ->
    forall b y, In b (all_blocks s pages) -> in_pads s b y ->
      heap s y = PAD_PATTERN K mod 256;
  m_raw : DebugOn_ (configuration s) = false ->
    forall b y, In b (all_blocks s pages) -> in_pads s b y -> heap s y = 0;
  m_tail : flag_header (configuration s) ->
    forall b y, In b (all_blocks s pages) ->
      header_start s b + flag_offset (configuration s) < y
      < header_start s b + size_ (HBlockInfo_ (configuration s)) ->
      heap s y = 0;
  m_live : flag_header (configuration s) ->
    forall b, In b live ->
      heap s (header_start s b + flag_offset (configuration s)) = 1;
  m_free : flag_header (configuration s) -> flag_cleared K (configuration s) ->
    forall b, In b (all_blocks s pages) -> ~ In b live ->
      heap s (header_start s b + flag_offset (configuration s)) = 0
}.

(** In debug mode the byte behind the first [PTR_SIZE] bytes of the payload
    of a block in use carries the allocated signature: what [Allocate] leaves
    there when the client has not written to the block. *)
Definition payload_painted (K : OAConstants) (s : ObjectAllocator)
  (live : list Z) : Prop :=
  DebugOn_ (configuration s) = true ->
  PTR_SIZE < ObjectSize_ (stats s) ->
  forall b, In b live -> heap s (b + PTR_SIZE) = ALLOCATED_PATTERN K mod 256.

(** The client stores the byte [v] at [y]. *)
Definition client_write (y v : Z) (s : ObjectAllocator) : ObjectAllocator :=
  set_heap s (store_le (heap s) y 1 v).

(** States reached as in [reachable] by a client that, between the calls,
    stores bytes into the payloads of the blocks it holds. *)
Inductive client_run (K : OAConstants)
  : ObjectAllocator -> list Z -> list Z -> Prop :=
| run_ctor fuel a m0 S cfg s :
    wf_config K S cfg ->
    UseCPPMemManager_ cfg = false ->
    0 < a -> a + PageSize_spec S cfg + PTR_SIZE <= 2 ^ 64 ->
    ObjectAllocator_ctor K fuel (Some a) m0 S cfg = Returns tt s ->
    client_run K s [a] []
| run_Allocate_pop fuel host label s pages live p s' :
    client_run K s pages live ->
    FreeList_ s <> 0 ->
    Allocate K fuel host label s = Returns p s' ->
    client_run K s' pages (p :: live)
| run_Allocate_grow fuel host label s pages live a p s' :
    client_run K s pages live ->
    FreeList_ s = 0 ->
    new_page host = Some a ->
    page_fresh s pages a ->
    Allocate K fuel host label s = Returns p s' ->
    client_run K s' (a :: pages) (p :: live)
| run_Free fuel p s pages live s' :
    client_run K s pages live ->
    In p live ->
    Free K fuel p s = Returns tt s' ->
    client_run K s' pages (remove Z.eq_dec p live)
| run_write p y v s pages live :
    client_run K s pages live ->
    In p live ->
    p <= y < p + ObjectSize_ (stats s) ->
    client_run K (client_write y v s) pages live.

(** The client stores the byte [v] at [p], [p + 1], ..., [p + n - 1]. *)
Definition fill (p : Z) (n : nat) (v : Z) (s : ObjectAllocator) : ObjectAllocator :=
  fold_left (fun st i => client_write (p + Z.of_nat i) v st) (seq 0 n) s.

(** Scenario B after the client has filled the 16 bytes of the payload of the
    block it holds with the pad signature. *)
Definition sB1_filled : ObjectAllocator := fill pB 16 (PAD_PATTERN K0) sB1.


(** ** More scenarios *)

(** Hosts that answer the request for a header record with the address [r]. *)
Definition host_info (r : Z) : HostAnswers := mkHostAnswers None None (Some r) true.

(** Scenario E continued: the two blocks of the page are allocated, with
    records at 9000 and 9100. *)
Definition pE1 : Z := FreeList_ sE0.
Definition sE1 : ObjectAllocator :=
  state_after (Allocate K0 8 (host_info 9000) (Some "first"%string) sE0) sE0.
Definition pE2 : Z := FreeList_ sE1.
Definition sE2 : ObjectAllocator :=
  state_after (Allocate K0 8 (host_info 9100) None sE1) sE1.

(** Signatures as in [K0] and a basic header of 5 bytes. *)
Definition K5 : OAConstants := mkOAConstants 170 187 204 221 238 5.

(** Scenario F: objects of 16 bytes, 2 per page, debug on, pads of 2 bytes,
    basic headers of 5 bytes; one block allocated. *)
Definition cfgF : OAConfig :=
  mkOAConfig false 2 2 true 2 (mkHeaderBlockInfo hbBasic 5 0) 0 0 0.
Definition sF0 : ObjectAllocator :=
  state_after (ObjectAllocator_ctor K5 8 (Some 4096) ram0 16 cfgF)
    (ctor_init ram0 16 cfgF).
Definition pF : Z := FreeList_ sF0.
Definition sF1 : ObjectAllocator := state_after (Allocate K5 8 no_host None sF0) sF0.

(** Scenario G continued: the allocator and one block allocated. *)
Definition sG0 : ObjectAllocator :=
  state_after (ObjectAllocator_ctor K0 8 (Some 4096) ram0 20 cfgG)
    (ctor_init ram0 20 cfgG).
Definition pG : Z := FreeList_ sG0.
Definition sG1 : ObjectAllocator := state_after (Allocate K0 8 no_host None sG0) sG0.

(** Scenario D: as B with debug off; one block is allocated and freed twice. *)
Definition cfgD : OAConfig :=
  mkOAConfig false 4 3 false 2 (mkHeaderBlockInfo hbNone 0 0) 0 0 0.
Definition sD0 : ObjectAllocator :=
  state_after (ObjectAllocator_ctor K0 8 (Some 4096) ram0 16 cfgD)
    (ctor_init ram0 16 cfgD).
Definition pD : Z := FreeList_ sD0.
Definition sD1 : ObjectAllocator := state_after (Allocate K0 8 no_host None sD0) sD0.


(** * Proofs *)

(** ** Memory *)

Lemma memset_in m dst c n a :
  dst <= a < dst + n -> memset m dst c n a = c mod 256.
Proof.
  intros H. unfold memset.
  replace (dst <=? a) with true by (symmetry; apply Z.leb_le; lia).
  replace (a <? dst + n) with true by (symmetry; apply Z.ltb_lt; lia).
  reflexivity.
Qed.

Lemma memset_out m dst c n a :
  a < dst \/ dst + n <= a -> memset m dst c n a = m a.
Proof.
  intros H. unfold memset.
  destruct (Z.leb_spec dst a); destruct (Z.ltb_spec a (dst + n)); simpl;
    try reflexivity; lia.
Qed.

Lemma store_le_out m a n v x :
  x < a \/ a + Z.of_nat n <= x -> store_le m a n v x = m x.
Proof.
  intros H. unfold store_le.
  destruct (Z.leb_spec a x); destruct (Z.ltb_spec x (a + Z.of_nat n)); simpl;
    try reflexivity; lia.
Qed.

Lemma store_le_in m a n v x :
  a <= x < a + Z.of_nat n ->
  store_le m a n v x = (v / 2 ^ (8 * (x - a))) mod 256.
Proof.
  intros H. unfold store_le.
  replace (a <=? x) with true by (symmetry; apply Z.leb_le; lia).
  replace (x <? a + Z.of_nat n) with true by (symmetry; apply Z.ltb_lt; lia).
  reflexivity.
Qed.

Lemma load_le_ext n : forall m m' a,
  (forall x, a <= x < a + Z.of_nat n -> m' x = m x) ->
  load_le m' a n = load_le m a n.
Proof.
  induction n as [|n IH]; intros m m' a H; simpl; [reflexivity|].
  rewrite (H a) by lia. rewrite (IH m m' (a + 1)); [reflexivity|].
  intros x Hx. apply H. lia.
Qed.

Lemma load_le_bytes n : forall m a v,
  (forall x, a <= x < a + Z.of_nat n -> m x = (v / 2 ^ (8 * (x - a))) mod 256) ->
  load_le m a n = v mod 2 ^ (8 * Z.of_nat n).
Proof.
  induction n as [|n IH]; intros m a v H.
  - simpl. rewrite Z.mod_1_r. reflexivity.
  - cbn [load_le]. rewrite (H a) by lia.
    rewrite Z.sub_diag, Z.mul_0_r, Z.pow_0_r, Z.div_1_r.
    rewrite (IH m (a + 1) (v / 256)).
    + replace (8 * Z.of_nat (S n)) with (8 + 8 * Z.of_nat n) by lia.
      rewrite Z.pow_add_r by lia.
      change (2 ^ 8) with 256.
      rewrite (Z.rem_mul_r v 256 (2 ^ (8 * Z.of_nat n))) by lia.
      reflexivity.
    + intros x Hx. rewrite H by lia.
      replace (8 * (x - a)) with (8 + 8 * (x - (a + 1))) by lia.
      rewrite Z.pow_add_r by lia. change (2 ^ 8) with 256.
      rewrite Z.div_div by lia. reflexivity.
Qed.

Lemma load_store_le m a n v :
  load_le (store_le m a n v) a n = v mod 2 ^ (8 * Z.of_nat n).
Proof.
  apply load_le_bytes. intros x Hx. apply store_le_in. exact Hx.
Qed.

Lemma load_store_ptr m a v :
  0 <= v < 2 ^ 64 -> load_ptr (store_ptr m a v) a = v.
Proof.
  intros Hv. unfold load_ptr, store_ptr. rewrite load_store_le.
  change (2 ^ (8 * Z.of_nat ptr_bytes)) with (2 ^ 64).
  apply Z.mod_small. exact Hv.
Qed.

Lemma load_ptr_ext m m' a :
  (forall x, a <= x < a + PTR_SIZE -> m' x = m x) ->
  load_ptr m' a = load_ptr m a.
Proof.
  intros H. unfold load_ptr. apply load_le_ext. exact H.
Qed.

(** ** Geometry *)

Lemma align_spec_ge x a : 0 <= x -> 0 <= a -> x <= align_spec x a.
Proof.
  intros Hx Ha. unfold align_spec. destruct (Z.eqb_spec a 0); [lia|].
  pose proof (Z.div_mod (x + a - 1) a n).
  pose proof (Z.mod_pos_bound (x + a - 1) a ltac:(lia)). lia.
Qed.

Lemma align_spec_lt x a : 0 <= x -> 0 < a -> align_spec x a < x + a.
Proof.
  intros Hx Ha. unfold align_spec. destruct (Z.eqb_spec a 0); [lia|].
  pose proof (Z.div_mod (x + a - 1) a n).
  pose proof (Z.mod_pos_bound (x + a - 1) a ltac:(lia)). lia.
Qed.

Lemma ceil_div_cases x a :
  0 <= x -> 0 < a ->
  (x + a - 1) / a = x / a + (if x mod a =? 0 then 0 else 1).
Proof.
  intros Hx Ha.
  pose proof (Z.div_mod x a ltac:(lia)) as Hdm.
  pose proof (Z.mod_pos_bound x a Ha) as Hb.
  destruct (Z.eqb_spec (x mod a) 0) as [E|E].
  - symmetry. apply (Z.div_unique _ _ _ (a - 1)); lia.
  - symmetry. apply (Z.div_unique _ _ _ (x mod a - 1)); lia.
Qed.

Lemma align_refines x a :
  0 <= x -> 0 <= a -> align_spec x a < 2 ^ 64 -> align x a = align_spec x a.
Proof.
  intros Hx Ha Hlt. unfold align, align_spec in *.
  destruct (Z.eqb_spec a 0) as [E|E]; [reflexivity|].
  rewrite ceil_div_cases in Hlt |- * by lia.
  set (q := x / a + (if x mod a =? 0 then 0 else 1)) in *.
  assert (0 <= q).
  { subst q. pose proof (Z.div_pos x a Hx ltac:(lia)).
    destruct (x mod a =? 0); lia. }
  unfold wrap_size.
  rewrite (Z.mod_small q) by nia.
  apply Z.mod_small. nia.
Qed.

Lemma D_spec_ge S cfg :
  config_in_range S cfg ->
  size_ (HBlockInfo_ cfg) + 2 * PadBytes_ cfg + S <= D_spec S cfg.
Proof.
  intros R. unfold config_in_range in R. unfold D_spec.
  apply align_spec_ge; lia.
Qed.

Lemma PH_spec_ge S cfg :
  config_in_range S cfg ->
  PTR_SIZE + size_ (HBlockInfo_ cfg) + PadBytes_ cfg <= PH_spec cfg.
Proof.
  intros R. unfold config_in_range in R. unfold PH_spec, PTR_SIZE.
  apply align_spec_ge; lia.
Qed.

Lemma align_spec_slack x a :
  0 <= x -> 0 <= a < 2 ^ 32 -> 0 <= align_spec x a - x < 2 ^ 32.
Proof.
  intros Hx Ha. pose proof (align_spec_ge x a Hx ltac:(lia)).
  destruct (Z.eq_dec a 0) as [->|Hn].
  - unfold align_spec. simpl. lia.
  - pose proof (align_spec_lt x a Hx ltac:(lia)). lia.
Qed.

Lemma ctor_init_geometry m0 S cfg :
  config_in_range S cfg ->
  1 <= ObjectsPerPage_ cfg ->
  no_overflow S cfg ->
  let s := ctor_init m0 S cfg in
  pageHeader s = PH_spec cfg /\
  dataSize s = D_spec S cfg /\
  PageSize_ (stats s) = PageSize_spec S cfg /\
  LeftAlignSize_ (configuration s)
    = PH_spec cfg - (PTR_SIZE + size_ (HBlockInfo_ cfg) + PadBytes_ cfg) /\
  InterAlignSize_ (configuration s)
    = D_spec S cfg - (size_ (HBlockInfo_ cfg) + 2 * PadBytes_ cfg + S).
Proof.
  intros R HN (HP2 & HD & HPS).
  pose proof (D_spec_ge S cfg R) as HDge.
  pose proof (PH_spec_ge S cfg R) as HPHge.
  unfold config_in_range in R.
  destruct R as (RS & RH & RU & RP & RA & RN & RM).
  unfold PTR_SIZE in HPHge.
  assert (HPH : PH_spec cfg < 2 ^ 64).
  { unfold PageSize_spec in HPS. nia. }
  assert (Eu : wrap_size (PTR_SIZE + size_ (HBlockInfo_ cfg) + PadBytes_ cfg)
               = PTR_SIZE + size_ (HBlockInfo_ cfg) + PadBytes_ cfg).
  { unfold wrap_size, PTR_SIZE. apply Z.mod_small. lia. }
  assert (Em : wrap_size (S + wrap_uint (PadBytes_ cfg * 2) + size_ (HBlockInfo_ cfg))
               = size_ (HBlockInfo_ cfg) + 2 * PadBytes_ cfg + S).
  { unfold wrap_uint. rewrite (Z.mod_small (PadBytes_ cfg * 2)) by lia.
    unfold wrap_size. rewrite Z.mod_small by lia. lia. }
  assert (EPH : align (PTR_SIZE + size_ (HBlockInfo_ cfg) + PadBytes_ cfg)
                  (Alignment_ cfg) = PH_spec cfg).
  { apply align_refines; unfold PTR_SIZE; try lia. exact HPH. }
  assert (ED : align (size_ (HBlockInfo_ cfg) + 2 * PadBytes_ cfg + S)
                  (Alignment_ cfg) = D_spec S cfg).
  { apply align_refines; try lia. exact HD. }
  cbv zeta. unfold ctor_init. cbn [pageHeader dataSize stats PageSize_
    configuration LeftAlignSize_ InterAlignSize_].
  rewrite Eu, Em, EPH, ED.
  assert (EN : wrap_uint (ObjectsPerPage_ cfg - 1) = ObjectsPerPage_ cfg - 1).
  { unfold wrap_uint. apply Z.mod_small. lia. }
  rewrite EN.
  repeat split.
  - unfold PageSize_spec in *.
    unfold wrap_size. rewrite (Z.mod_small (D_spec S cfg * _)) by nia.
    rewrite Z.mod_small by nia. lia.
  - pose proof (align_spec_slack (PTR_SIZE + size_ (HBlockInfo_ cfg) + PadBytes_ cfg)
                  (Alignment_ cfg) ltac:(unfold PTR_SIZE; lia) RA) as Hs.
    fold (PH_spec cfg) in Hs.
    unfold wrap_size, wrap_uint.
    rewrite (Z.mod_small _ (2 ^ 64)) by lia. apply Z.mod_small. lia.
  - pose proof (align_spec_slack (size_ (HBlockInfo_ cfg) + 2 * PadBytes_ cfg + S)
                  (Alignment_ cfg) ltac:(lia) RA) as Hs.
    fold (D_spec S cfg) in Hs.
    unfold wrap_size, wrap_uint.
    rewrite (Z.mod_small _ (2 ^ 64)) by lia. apply Z.mod_small. lia.
Qed.

(** ** Outcomes of the loops *)

Lemma init_block_outcome K d s :
  init_block K d s = Returns tt (fresh_block K d s) \/ init_block K d s = Fault.
Proof.
  unfold init_block, fresh_block, paint_block.
  destruct (DebugOn_ (configuration s)); [|left; reflexivity].
  destruct (_ <? _); [right|left]; reflexivity.
Qed.

Lemma init_block_fits K d s :
  paint_fits s -> init_block K d s = Returns tt (fresh_block K d s).
Proof.
  unfold paint_fits, init_block, fresh_block, paint_block. intros F.
  destruct (DebugOn_ (configuration s)); [|reflexivity].
  cbn [AddToFreeList stats set_stats set_heap set_FreeList set_FreeObjects
       ObjectSize_].
  destruct (Z.ltb_spec (ObjectSize_ (stats s)) PTR_SIZE) as [L|L];
    [specialize (F eq_refl); lia|reflexivity].
Qed.

Lemma init_block_overruns K d s :
  DebugOn_ (configuration s) = true ->
  ObjectSize_ (stats s) < PTR_SIZE ->
  init_block K d s = Fault.
Proof.
  intros D L. unfold init_block, paint_block. rewrite D.
  cbn [AddToFreeList stats set_stats set_heap set_FreeList set_FreeObjects
       ObjectSize_].
  destruct (Z.ltb_spec (ObjectSize_ (stats s)) PTR_SIZE); [reflexivity|lia].
Qed.

Lemma init_blocks_outcome K fuel : forall a d s,
  (exists s', init_blocks K fuel a d s = Returns tt s') \/
  init_blocks K fuel a d s = OutOfFuel \/
  init_blocks K fuel a d s = Fault.
Proof.
  induction fuel as [|fuel IH]; intros a d s; cbn [init_blocks]; [auto|].
  destruct (_ <? _); [|left; eexists; reflexivity].
  destruct (init_block_outcome K d s) as [-> | ->]; cbn [bind]; [apply IH|auto].
Qed.

Lemma AllocateNewPage_throws K fuel host s e s' :
  AllocateNewPage K fuel host s = Throws e s' ->
  s' = s /\
  ((e = E_NO_PAGES /\ PagesInUse_ (stats s) >= MaxPages_ (configuration s)) \/
   (e = E_NO_MEMORY /\ PagesInUse_ (stats s) < MaxPages_ (configuration s)
    /\ host = None)).
Proof.
  unfold AllocateNewPage.
  destruct (Z.geb_spec (PagesInUse_ (stats s)) (MaxPages_ (configuration s))).
  - intros E. inversion E; subst. split; [reflexivity|]. left. split; [reflexivity|lia].
  - destruct host as [newPage|].
    + intros E.
      destruct (init_blocks_outcome K fuel newPage
                  (newPage + pageHeader (link_new_page K newPage s))
                  (link_new_page K newPage s)) as [[s0 E0]|[E0|E0]];
        rewrite E0 in E; discriminate.
    + intros E. inversion E; subst. split; [reflexivity|]. right. repeat split. lia.
Qed.

Lemma CheckPageBoundary_loop_outcome fuel : forall obj page s,
  CheckPageBoundary_loop fuel obj page s = Returns tt s \/
  CheckPageBoundary_loop fuel obj page s = Throws E_BAD_BOUNDARY s \/
  CheckPageBoundary_loop fuel obj page s = OutOfFuel.
Proof.
  induction fuel as [|fuel IH]; intros obj page s; simpl; [auto|].
  destruct (page =? 0); [auto|].
  destruct (in_page s page obj); [auto|].
  destruct (load_ptr (heap s) page =? 0); [auto|]. apply IH.
Qed.

Lemma CheckPadding_loop_outcome K obj n : forall i s,
  CheckPadding_loop K obj n i s = Returns tt s \/
  CheckPadding_loop K obj n i s = Throws E_CORRUPTED_BLOCK s.
Proof.
  induction n as [|n IH]; intros i s; simpl; [auto|].
  destruct (negb _); [auto|].
  destruct (_ && _); [auto|]. apply IH.
Qed.

Lemma debug_free_throws K fuel obj s e s' :
  debug_free K fuel obj s = Throws e s' ->
  s' = s /\ (e = E_BAD_BOUNDARY \/ e = E_CORRUPTED_BLOCK \/ e = E_MULTIPLE_FREE).
Proof.
  unfold debug_free, CheckPageBoundary, CheckPadding.
  destruct (CheckPageBoundary_loop_outcome fuel obj (PageList_ s) s)
    as [E|[E|E]]; rewrite E; simpl; try discriminate.
  - destruct (obj =? 0); [discriminate|].
    destruct (CheckPadding_loop_outcome K obj
                (Z.to_nat (PadBytes_ (configuration s))) 0 s) as [E'|E'];
      rewrite E'; simpl.
    + destruct (_ =? _); intros X; inversion X; subst. auto.
    + intros X; inversion X; subst. auto.
  - intros X; inversion X; subst. auto.
Qed.

Lemma debug_free_returns K fuel obj s s' :
  debug_free K fuel obj s = Returns tt s' ->
  s' = set_heap s (memset (heap s) obj (FREED_PATTERN K) (ObjectSize_ (stats s))) /\
  CheckPageBoundary fuel obj s = Returns tt s /\
  CheckPadding K obj s = Returns tt s /\
  heap s (obj + PTR_SIZE) <> FREED_PATTERN K.
Proof.
  unfold debug_free.
  destruct (CheckPageBoundary_loop_outcome fuel obj (PageList_ s) s)
    as [E|[E|E]]; unfold CheckPageBoundary; rewrite E; simpl; try discriminate.
  destruct (obj =? 0); [discriminate|].
  destruct (CheckPadding_loop_outcome K obj
              (Z.to_nat (PadBytes_ (configuration s))) 0 s) as [E'|E'];
    unfold CheckPadding; rewrite E'; simpl; try discriminate.
  destruct (Z.eqb_spec (heap s (obj + PTR_SIZE)) (FREED_PATTERN K));
    [discriminate|].
  intros X. inversion X; subst. auto.
Qed.

Lemma allocate_header_throws K host label p s e s' :
  allocate_header K host label p s = Throws e s' ->
  e = E_NO_MEMORY /\ s' = s /\ type_ (HBlockInfo_ (configuration s)) = hbExternal.
Proof.
  unfold allocate_header.
  destruct (type_ (HBlockInfo_ (configuration s))); try discriminate.
  destruct (new_info host); [|intros X; inversion X; auto].
  destruct (MemBlockInfo_ctor _ _ _ _); [discriminate|].
  intros X; inversion X; auto.
Qed.

Lemma pop_block_throws K host label s e s' :
  pop_block K host label s = Throws e s' -> e = E_NO_MEMORY.
Proof.
  unfold pop_block. destruct (FreeList_ s =? 0); [discriminate|].
  intros X. apply allocate_header_throws in X. tauto.
Qed.

(** ** C1: when page allocation fails with NO_PAGES *)

(** C1 (amended).  [AllocateNewPage], and [Allocate] on an empty free list in
    pooled mode, fail with NO_PAGES exactly when [PagesInUse_ >= MaxPages_].
    [MaxPages_ = 0] is not unbounded: every page allocation then fails with
    NO_PAGES. *)
Theorem NO_PAGES_iff_cap_reached K fuel host label s :
  ((exists s', AllocateNewPage K fuel (new_page host) s = Throws E_NO_PAGES s')
     <-> PagesInUse_ (stats s) >= MaxPages_ (configuration s)) /\
  (UseCPPMemManager_ (configuration s) = false -> FreeList_ s = 0 ->
   ((exists s', Allocate K fuel host label s = Throws E_NO_PAGES s')
     <-> PagesInUse_ (stats s) >= MaxPages_ (configuration s))) /\
  (MaxPages_ (configuration s) = 0 -> 0 <= PagesInUse_ (stats s) ->
   AllocateNewPage K fuel (new_page host) s = Throws E_NO_PAGES s).
Proof.
  assert (Hge : PagesInUse_ (stats s) >= MaxPages_ (configuration s) ->
                AllocateNewPage K fuel (new_page host) s = Throws E_NO_PAGES s).
  { intros H. unfold AllocateNewPage.
    destruct (Z.geb_spec (PagesInUse_ (stats s)) (MaxPages_ (configuration s)));
      [reflexivity|lia]. }
  assert (Hiff : (exists s', AllocateNewPage K fuel (new_page host) s
                             = Throws E_NO_PAGES s')
                 <-> PagesInUse_ (stats s) >= MaxPages_ (configuration s)).
  { split.
    - intros [s' E]. apply AllocateNewPage_throws in E.
      destruct E as [_ [[_ H]|[H _]]]; [exact H|discriminate].
    - intros H. exists s. apply Hge. exact H. }
  split; [exact Hiff|]. split.
  - intros Hpool Hnull. unfold Allocate. rewrite Hpool, Hnull. simpl. split.
    + intros [s' E].
      destruct (AllocateNewPage K fuel (new_page host) s) as [[] s0|e0 s0| |] eqn:E0;
        simpl in E; try discriminate.
      * apply pop_block_throws in E. discriminate.
      * inversion E; subst. apply Hiff. exists s'. reflexivity.
    + intros H. exists s. rewrite (Hge H). reflexivity.
  - intros H0 Hp. apply Hge. lia.
Qed.

(** ** C3: the counters of [Free] move before its checks *)

(** C3.  In pooled mode [Free] counts the deallocation at entry: whether it
    returns or raises, [Deallocations_] has been incremented and
    [ObjectsInUse_] decremented.  It raises only BAD_BOUNDARY, CORRUPTED_BLOCK
    or MULTIPLE_FREE, only with debug on, and then the free list, the whole
    byte store (hence the header of the block) and the free count are left as
    they were. *)
Theorem Free_counts_before_checks K fuel obj s :
  UseCPPMemManager_ (configuration s) = false ->
  (forall s', Free K fuel obj s = Returns tt s' ->
     Deallocations_ (stats s') = wrap_uint (Deallocations_ (stats s) + 1) /\
     ObjectsInUse_ (stats s') = wrap_uint (ObjectsInUse_ (stats s) - 1)) /\
  (forall e s', Free K fuel obj s = Throws e s' ->
     (e = E_BAD_BOUNDARY \/ e = E_CORRUPTED_BLOCK \/ e = E_MULTIPLE_FREE) /\
     DebugOn_ (configuration s) = true /\
     Deallocations_ (stats s') = wrap_uint (Deallocations_ (stats s) + 1) /\
     ObjectsInUse_ (stats s') = wrap_uint (ObjectsInUse_ (stats s) - 1) /\
     FreeObjects_ (stats s') = FreeObjects_ (stats s) /\
     FreeList_ s' = FreeList_ s /\
     PageList_ s' = PageList_ s /\
     heap s' = heap s /\
     infos s' = infos s).
Proof.
  intros Hpool. unfold Free. cbn [set_stats configuration]. rewrite Hpool.
  split.
  - intros s' E.
    destruct (DebugOn_ (configuration s)).
    + destruct (debug_free K fuel obj (set_stats s (count_free (stats s))))
        as [[] s4|e4 s4| |] eqn:E4; simpl in E; try discriminate.
      apply debug_free_returns in E4. destruct E4 as [-> _].
      destruct (obj =? 0); [discriminate|].
      inversion E; subst. destruct (type_ (HBlockInfo_ (configuration s))) eqn:T;
        unfold free_header; cbn; rewrite T; cbn; auto.
      destruct (_ =? 0); cbn; auto.
    + simpl in E. destruct (obj =? 0); [discriminate|]. inversion E; subst.
      destruct (type_ (HBlockInfo_ (configuration s))) eqn:T;
        unfold free_header; cbn; rewrite T; cbn; auto.
      destruct (_ =? 0); cbn; auto.
  - intros e s' E.
    destruct (DebugOn_ (configuration s));
      [|simpl in E; destruct (obj =? 0); discriminate].
    destruct (debug_free K fuel obj (set_stats s (count_free (stats s))))
      as [[] s4|e4 s4| |] eqn:E4; simpl in E; try discriminate;
      [destruct (obj =? 0); discriminate|].
    inversion E; subst.
    apply debug_free_throws in E4. destruct E4 as [-> He].
    cbn. auto 10.
Qed.

(** ** The layout is fixed at construction *)

Lemma geom_ok_ext K s s' :
  geometry s' = geometry s -> geom_ok K s -> geom_ok K s'.
Proof.
  unfold geometry. intros E G. inversion E as [[E1 E2 E3 E4 E5]].
  destruct G. constructor; rewrite ?E1, ?E2, ?E3, ?E4, ?E5; assumption.
Qed.

Lemma block_addr_ext s s' a k :
  geometry s' = geometry s -> block_addr s' a k = block_addr s a k.
Proof.
  unfold geometry, block_addr. intros E. inversion E as [[E1 E2 E3 E4 E5]].
  reflexivity.
Qed.

Lemma blocks_of_page_ext s s' a :
  geometry s' = geometry s -> blocks_of_page s' a = blocks_of_page s a.
Proof.
  intros E. unfold blocks_of_page.
  replace (configuration s') with (configuration s)
    by (unfold geometry in E; inversion E; reflexivity).
  apply map_ext. intros k. apply block_addr_ext. exact E.
Qed.

Lemma all_blocks_ext s s' pages :
  geometry s' = geometry s -> all_blocks s' pages = all_blocks s pages.
Proof.
  intros E. unfold all_blocks. induction pages as [|a t IH]; simpl; [reflexivity|].
  rewrite IH, (blocks_of_page_ext s s' a E). reflexivity.
Qed.

Lemma page_fresh_ext s s' pages a :
  geometry s' = geometry s -> page_fresh s pages a -> page_fresh s' pages a.
Proof.
  unfold geometry, page_fresh. intros E. inversion E as [[E1 E2 E3 E4 E5]].
  rewrite E5. tauto.
Qed.

Lemma pages_ok_ext s s' pages :
  geometry s' = geometry s -> pages_ok s pages -> pages_ok s' pages.
Proof.
  intros E. induction pages as [|a t IH]; simpl; [tauto|].
  intros [H1 H2]. split; [eapply page_fresh_ext; eauto|auto].
Qed.

Lemma geometry_AddToFreeList obj s : geometry (AddToFreeList obj s) = geometry s.
Proof. reflexivity. Qed.

Lemma geometry_init_block K d s : geometry (fresh_block K d s) = geometry s.
Proof.
  unfold fresh_block. destruct (DebugOn_ (configuration s)); reflexivity.
Qed.

Lemma geometry_init_n K j : forall d s, geometry (init_n K j d s) = geometry s.
Proof.
  induction j as [|j IH]; intros d s; simpl; [reflexivity|].
  rewrite IH. apply geometry_init_block.
Qed.

Lemma geometry_link_new_page K a s : geometry (link_new_page K a s) = geometry s.
Proof. reflexivity. Qed.

Lemma geometry_config s s' :
  geometry s' = geometry s -> configuration s' = configuration s.
Proof. unfold geometry. intros E. inversion E. reflexivity. Qed.

Lemma geometry_pageHeader s s' :
  geometry s' = geometry s -> pageHeader s' = pageHeader s.
Proof. unfold geometry. intros E. inversion E. reflexivity. Qed.

Lemma geometry_sizes s s' :
  geometry s' = geometry s ->
  ObjectSize_ (stats s') = ObjectSize_ (stats s) /\
  PageSize_ (stats s') = PageSize_ (stats s).
Proof. unfold geometry. intros E. inversion E. auto. Qed.

Lemma dataSize_ext s s' : geometry s' = geometry s -> dataSize s' = dataSize s.
Proof. unfold geometry. intros E. inversion E. reflexivity. Qed.

(** ** The loop of [AllocateNewPage] runs once per block *)

Lemma loop_ok_ext s s' :
  geometry s' = geometry s -> loop_ok s -> loop_ok s'.
Proof.
  unfold geometry, loop_ok. intros E. inversion E as [[E1 E2 E3 E4 E5]].
  tauto.
Qed.

Lemma geom_ok_loop K s : geom_ok K s -> loop_ok s.
Proof.
  intros G. destruct G. unfold loop_ok, PTR_SIZE in *. repeat split; nia.
Qed.

Lemma paint_fits_ext s s' :
  geometry s' = geometry s -> paint_fits s -> paint_fits s'.
Proof.
  unfold geometry, paint_fits. intros E. inversion E as [[E1 E2 E3 E4 E5]].
  tauto.
Qed.

Lemma geom_ok_fits K s : geom_ok K s -> paint_fits s.
Proof. intros G _. exact (g_S K s G). Qed.

Lemma init_blocks_runs K j : forall k fuel a s,
  loop_ok s ->
  paint_fits s ->
  Z.of_nat k + Z.of_nat j = ObjectsPerPage_ (configuration s) ->
  (j < fuel)%nat ->
  init_blocks K fuel a (block_addr s a k) s
  = Returns tt (init_n K j (block_addr s a k) s).
Proof.
  induction j as [|j IH]; intros k fuel a s G F Hk Hf.
  - destruct fuel as [|fuel]; [lia|]. simpl.
    destruct G as (G1 & G2 & G3 & G4 & G5 & G6). unfold block_addr.
    replace (a + pageHeader s + Z.of_nat k * dataSize s - a)
      with (pageHeader s + Z.of_nat k * dataSize s) by lia.
    unfold wrap_uint. rewrite Z.mod_small by nia.
    destruct (Z.ltb_spec (pageHeader s + Z.of_nat k * dataSize s)
                (PageSize_ (stats s))); [nia|reflexivity].
  - destruct fuel as [|fuel]; [lia|]. cbn [init_blocks init_n].
    assert (Hc : (wrap_uint (block_addr s a k - a) <? PageSize_ (stats s)) = true).
    { destruct G as (G1 & G2 & G3 & G4 & G5 & G6). unfold block_addr.
      replace (a + pageHeader s + Z.of_nat k * dataSize s - a)
        with (pageHeader s + Z.of_nat k * dataSize s) by lia.
      unfold wrap_uint. rewrite Z.mod_small by nia.
      apply Z.ltb_lt. nia. }
    rewrite Hc, (init_block_fits K _ s F). cbn [bind].
    pose proof (geometry_init_block K (block_addr s a k) s) as Eg.
    replace (block_addr s a k + dataSize s)
      with (block_addr (fresh_block K (block_addr s a k) s) a (S k)).
    + apply IH.
      * eapply loop_ok_ext; eauto.
      * eapply paint_fits_ext; eauto.
      * rewrite (geometry_config _ _ Eg). lia.
      * lia.
    + rewrite (block_addr_ext _ _ _ _ Eg). unfold block_addr. lia.
Qed.

(** ** One round of the loop *)

Lemma geom_sizes K s :
  geom_ok K s ->
  0 < dataSize s < 2 ^ 32 /\
  8 <= ObjectSize_ (stats s) < 2 ^ 32 /\
  0 <= PadBytes_ (configuration s) < 2 ^ 32 /\
  0 <= size_ (HBlockInfo_ (configuration s)) < 2 ^ 32 /\
  8 <= pageHeader s < 2 ^ 32 /\
  8 < PageSize_ (stats s) < 2 ^ 32 /\
  1 <= ObjectsPerPage_ (configuration s) < 2 ^ 32.
Proof.
  intros G. destruct G. unfold PTR_SIZE in *. repeat split; try nia.
Qed.

Lemma init_block_fields K d s :
  FreeList_ (fresh_block K d s) = d /\
  PageList_ (fresh_block K d s) = PageList_ s /\
  infos (fresh_block K d s) = infos s /\
  stats (fresh_block K d s)
  = set_FreeObjects (stats s) (wrap_uint (FreeObjects_ (stats s) + 1)).
Proof.
  unfold fresh_block. destruct (DebugOn_ (configuration s)); cbn; auto.
Qed.

Lemma init_block_outside K d s x :
  geom_ok K s ->
  x < d - PadBytes_ (configuration s) - size_ (HBlockInfo_ (configuration s))
  \/ d + ObjectSize_ (stats s) + PadBytes_ (configuration s) <= x ->
  heap (fresh_block K d s) x = heap s x.
Proof.
  intros G Hx. pose proof (geom_sizes K s G) as (HD & HS & HP & HH & _).
  assert (Ew : wrap_size (ObjectSize_ (stats s) - PTR_SIZE)
               = ObjectSize_ (stats s) - 8).
  { unfold wrap_size, PTR_SIZE. apply Z.mod_small. lia. }
  unfold fresh_block.
  destruct (DebugOn_ (configuration s)); unfold painted_block, AddToFreeList;
    cbn [heap set_heap set_stats set_FreeList configuration stats ObjectSize_
         set_FreeObjects].
  - rewrite Ew. unfold PTR_SIZE.
    rewrite !memset_out by lia. unfold store_ptr.
    rewrite store_le_out by (change (Z.of_nat ptr_bytes) with 8; lia).
    rewrite memset_out by lia. reflexivity.
  - unfold store_ptr.
    rewrite store_le_out by (change (Z.of_nat ptr_bytes) with 8; lia).
    rewrite memset_out by lia. reflexivity.
Qed.

Lemma init_block_link K d s :
  geom_ok K s ->
  0 <= FreeList_ s < 2 ^ 64 ->
  load_ptr (heap (fresh_block K d s)) d = FreeList_ s.
Proof.
  intros G Hr. pose proof (geom_sizes K s G) as (HD & HS & HP & HH & _).
  assert (Ew : wrap_size (ObjectSize_ (stats s) - PTR_SIZE)
               = ObjectSize_ (stats s) - 8).
  { unfold wrap_size, PTR_SIZE. apply Z.mod_small. lia. }
  transitivity
    (load_ptr (store_ptr
                 (memset (heap s)
                    (d - PadBytes_ (configuration s)
                     - size_ (HBlockInfo_ (configuration s))) 0
                    (size_ (HBlockInfo_ (configuration s)))) d (FreeList_ s)) d);
    [|apply load_store_ptr; exact Hr].
  apply load_ptr_ext. intros x Hx. unfold PTR_SIZE in Hx.
  unfold fresh_block.
  destruct (DebugOn_ (configuration s)); unfold painted_block, AddToFreeList;
    cbn [heap set_heap set_stats set_FreeList configuration stats ObjectSize_
         set_FreeObjects]; [|reflexivity].
  rewrite Ew. unfold PTR_SIZE. rewrite !memset_out by lia. reflexivity.
Qed.

Lemma init_block_pads K d s x :
  geom_ok K s ->
  DebugOn_ (configuration s) = true ->
  d - PadBytes_ (configuration s) <= x < d
  \/ d + ObjectSize_ (stats s) <= x
     < d + ObjectSize_ (stats s) + PadBytes_ (configuration s) ->
  heap (fresh_block K d s) x = PAD_PATTERN K mod 256.
Proof.
  intros G Hd Hx. pose proof (geom_sizes K s G) as (HD & HS & HP & HH & _).
  unfold fresh_block. rewrite Hd. unfold painted_block, AddToFreeList.
  cbn [heap set_heap set_stats set_FreeList configuration stats ObjectSize_
       set_FreeObjects].
  destruct Hx as [Hx|Hx].
  - rewrite memset_out by lia. rewrite memset_in by lia. reflexivity.
  - rewrite memset_in by lia. reflexivity.
Qed.

(** ** Linked lists in memory *)

Lemma chain_frame m m' : forall l h,
  chain m h l ->
  (forall x, In x l -> forall y, x <= y < x + PTR_SIZE -> m' y = m y) ->
  chain m' h l.
Proof.
  induction l as [|x t IH]; intros h C F; simpl in *; [exact C|].
  destruct C as (E & Hn & C). repeat split; [exact E|exact Hn|].
  rewrite (load_ptr_ext m m' x) by (intros y Hy; apply (F x); auto).
  apply IH; [exact C|]. intros x' Hx'. apply F. auto.
Qed.

Lemma chain_head_range m h l :
  chain m h l -> Forall (fun x => 0 < x < 2 ^ 64) l -> 0 <= h < 2 ^ 64.
Proof.
  destruct l as [|x t]; simpl.
  - intros -> _. lia.
  - intros (-> & _) F. inversion F; subst. lia.
Qed.

Lemma chain_functional m : forall l l' h,
  chain m h l -> chain m h l' -> l = l'.
Proof.
  induction l as [|x t IH]; intros [|x' t'] h C C'; simpl in *.
  - reflexivity.
  - destruct C' as (E & Hn & _). congruence.
  - destruct C as (E & Hn & _). congruence.
  - destruct C as (E & Hn & C), C' as (E' & Hn' & C'). subst.
    f_equal. eapply IH; eauto.
Qed.

(** ** All rounds of the loop *)

Lemma blocks_from_S s d j :
  blocks_from s d (S j) = d :: blocks_from s (d + dataSize s) j.
Proof.
  unfold blocks_from. cbn [seq map]. f_equal; [lia|].
  rewrite <- seq_shift, map_map. apply map_ext. intros i. lia.
Qed.

Lemma blocks_from_ext s s' d j :
  geometry s' = geometry s -> blocks_from s' d j = blocks_from s d j.
Proof.
  intros E. unfold blocks_from. rewrite (dataSize_ext _ _ E). reflexivity.
Qed.

Lemma blocks_of_page_from s a :
  blocks_of_page s a
  = blocks_from s (a + pageHeader s) (Z.to_nat (ObjectsPerPage_ (configuration s))).
Proof. reflexivity. Qed.

Lemma wrap_uint_succ x : wrap_uint (wrap_uint x + 1) = wrap_uint (x + 1).
Proof. unfold wrap_uint. rewrite Zplus_mod_idemp_l. reflexivity. Qed.

Lemma init_n_fields K j : forall d s,
  PageList_ (init_n K j d s) = PageList_ s /\
  infos (init_n K j d s) = infos s /\
  stats (init_n K j d s)
  = set_FreeObjects (stats s)
      (if Nat.eqb j 0 then FreeObjects_ (stats s)
       else wrap_uint (FreeObjects_ (stats s) + Z.of_nat j)) /\
  FreeList_ (init_n K j d s)
  = (if Nat.eqb j 0 then FreeList_ s
     else d + Z.of_nat j * dataSize s - dataSize s).
Proof.
  induction j as [|j IH]; intros d s.
  - simpl. repeat split. destruct (stats s); reflexivity.
  - cbn [init_n].
    destruct (IH (d + dataSize s) (fresh_block K d s)) as (E1 & E2 & E3 & E4).
    destruct (init_block_fields K d s) as (F1 & F2 & F3 & F4).
    rewrite E1, E2, E3, E4, F1, F2, F3, F4.
    rewrite (dataSize_ext _ _ (geometry_init_block K d s)).
    repeat split.
    + destruct (stats s) as [a1 a2 a3 a4 a5 a6 a7 a8].
      unfold set_FreeObjects.
      cbn [FreeObjects_ ObjectSize_ PageSize_ ObjectsInUse_ PagesInUse_
           MostObjects_ Allocations_ Deallocations_].
      destruct j as [|j]; cbn [Nat.eqb]; [reflexivity|].
      f_equal. unfold wrap_uint. rewrite Zplus_mod_idemp_l. f_equal. lia.
    + destruct j as [|j]; cbn [Nat.eqb]; lia.
Qed.

Lemma init_n_outside K j : forall d s x,
  geom_ok K s ->
  x < d - PadBytes_ (configuration s) - size_ (HBlockInfo_ (configuration s))
  \/ d + Z.of_nat j * dataSize s - dataSize s
     + ObjectSize_ (stats s) + PadBytes_ (configuration s) <= x ->
  heap (init_n K j d s) x = heap s x.
Proof.
  induction j as [|j IH]; intros d s x G Hx; [reflexivity|].
  cbn [init_n].
  pose proof (geometry_init_block K d s) as Eg.
  pose proof (geom_sizes K s G) as (HD & HS & HP & HH & _).
  pose proof (g_D K s G) as HDge.
  assert (Ec : configuration (fresh_block K d s) = configuration s)
    by (unfold geometry in Eg; inversion Eg; reflexivity).
  assert (Es : ObjectSize_ (stats (fresh_block K d s)) = ObjectSize_ (stats s))
    by (unfold geometry in Eg; inversion Eg; reflexivity).
  rewrite IH.
  - apply init_block_outside; [exact G|]. nia.
  - eapply geom_ok_ext; eauto.
  - rewrite Ec, Es, (dataSize_ext _ _ Eg). lia.
Qed.

Lemma init_n_chain K j : forall d s l hi,
  geom_ok K s ->
  chain (heap s) (FreeList_ s) l ->
  Forall (fun x => 0 < x < 2 ^ 64 /\
            (x + PTR_SIZE <= d - PadBytes_ (configuration s)
                             - size_ (HBlockInfo_ (configuration s))
             \/ hi <= x)) l ->
  0 < d - PadBytes_ (configuration s) - size_ (HBlockInfo_ (configuration s)) ->
  d + Z.of_nat j * dataSize s - dataSize s
  + ObjectSize_ (stats s) + PadBytes_ (configuration s) <= hi ->
  hi <= 2 ^ 64 ->
  chain (heap (init_n K j d s)) (FreeList_ (init_n K j d s))
    (rev (blocks_from s d j) ++ l).
Proof.
  induction j as [|j IH]; intros d s l hi G C F Hlo Hhi Hmax.
  - simpl. exact C.
  - cbn [init_n]. rewrite blocks_from_S. cbn [rev]. rewrite <- app_assoc.
    cbn [app].
    pose proof (geometry_init_block K d s) as Eg.
    pose proof (geom_sizes K s G) as (HD & HS & HP & HH & _).
    pose proof (g_D K s G) as HDge.
    assert (Ec : configuration (fresh_block K d s) = configuration s)
      by (unfold geometry in Eg; inversion Eg; reflexivity).
    assert (Es : ObjectSize_ (stats (fresh_block K d s)) = ObjectSize_ (stats s))
      by (unfold geometry in Eg; inversion Eg; reflexivity).
    rewrite <- (blocks_from_ext s (fresh_block K d s) _ _ Eg).
    rewrite <- (dataSize_ext _ _ Eg).
    apply (IH _ _ _ hi).
    + eapply geom_ok_ext; eauto.
    + destruct (init_block_fields K d s) as (F1 & _). rewrite F1.
      cbn [chain]. split; [reflexivity|]. split; [lia|].
      rewrite init_block_link; [|exact G|].
      * apply (chain_frame (heap s)); [exact C|].
        intros x Hx y Hy. apply init_block_outside; [exact G|].
        rewrite Forall_forall in F. destruct (F x Hx) as (_ & [H1|H1]);
          unfold PTR_SIZE in *; nia.
      * eapply chain_head_range; [exact C|].
        eapply Forall_impl; [|exact F]. cbv beta. tauto.
    + rewrite Ec, (dataSize_ext _ _ Eg). constructor.
      * unfold PTR_SIZE. nia.
      * eapply Forall_impl; [|exact F]. cbv beta.
        intros x (Hr & [H1|H1]); split; auto; unfold PTR_SIZE in *; lia.
    + rewrite Ec, (dataSize_ext _ _ Eg). lia.
    + rewrite Ec, Es, (dataSize_ext _ _ Eg). lia.
    + exact Hmax.
Qed.

(** ** Where the blocks lie *)

Lemma pages_ok_in s : forall pages a,
  pages_ok s pages -> In a pages ->
  0 < a /\ a + PageSize_ (stats s) + PTR_SIZE <= 2 ^ 64.
Proof.
  induction pages as [|a0 t IH]; intros a Hok Hin; simpl in *; [tauto|].
  destruct Hok as ((H1 & H2 & _) & Hok). destruct Hin as [<-|Hin]; auto.
Qed.

Lemma pages_ok_disjoint s : forall pages a a',
  pages_ok s pages -> In a pages -> In a' pages -> a <> a' ->
  a + PageSize_ (stats s) + PTR_SIZE <= a' \/
  a' + PageSize_ (stats s) + PTR_SIZE <= a.
Proof.
  induction pages as [|a0 t IH]; intros a a' Hok Hin Hin' Hne; simpl in *;
    [tauto|].
  destruct Hok as ((H1 & H2 & H3) & Hok).
  destruct Hin as [<-|Hin], Hin' as [<-|Hin'].
  - congruence.
  - apply H3. exact Hin'.
  - destruct (H3 a Hin); auto.
  - apply IH; auto.
Qed.

Lemma in_blocks_from s d j b :
  In b (blocks_from s d j) <->
  exists i, (i < j)%nat /\ b = d + Z.of_nat i * dataSize s.
Proof.
  unfold blocks_from. rewrite in_map_iff. split.
  - intros (i & E & Hi). apply in_seq in Hi. exists i. split; [lia|congruence].
  - intros (i & Hi & E). exists i. split; [congruence|]. apply in_seq. lia.
Qed.

Lemma in_all_blocks s pages b :
  In b (all_blocks s pages) <->
  exists a, In a pages /\ In b (blocks_of_page s a).
Proof. unfold all_blocks. apply in_flat_map. Qed.

Lemma block_in_page K s a b :
  geom_ok K s -> In b (blocks_of_page s a) ->
  a + PTR_SIZE <= b - PadBytes_ (configuration s)
                  - size_ (HBlockInfo_ (configuration s)) /\
  b + ObjectSize_ (stats s) + PadBytes_ (configuration s)
  <= a + PageSize_ (stats s).
Proof.
  intros G Hb. rewrite blocks_of_page_from in Hb.
  apply in_blocks_from in Hb. destruct Hb as (i & Hi & ->).
  pose proof (geom_sizes K s G) as (HD & HS & HP & HH & HPH & HPS & HN).
  destruct G. unfold PTR_SIZE in *.
  assert (Z.of_nat i <= ObjectsPerPage_ (configuration s) - 1) by lia.
  split; nia.
Qed.

Lemma blocks_separated K s pages b1 b2 :
  geom_ok K s -> pages_ok s pages ->
  In b1 (all_blocks s pages) -> In b2 (all_blocks s pages) -> b1 <> b2 ->
  b1 + ObjectSize_ (stats s) + PadBytes_ (configuration s)
  <= b2 - PadBytes_ (configuration s) - size_ (HBlockInfo_ (configuration s))
  \/
  b2 + ObjectSize_ (stats s) + PadBytes_ (configuration s)
  <= b1 - PadBytes_ (configuration s) - size_ (HBlockInfo_ (configuration s)).
Proof.
  intros G Hok H1 H2 Hne.
  apply in_all_blocks in H1. destruct H1 as (a1 & Ha1 & Hb1).
  apply in_all_blocks in H2. destruct H2 as (a2 & Ha2 & Hb2).
  pose proof (block_in_page K s a1 b1 G Hb1) as B1.
  pose proof (block_in_page K s a2 b2 G Hb2) as B2.
  pose proof (geom_sizes K s G) as (HD & HS & HP & HH & HPH & HPS & HN).
  destruct (Z.eq_dec a1 a2) as [->|Hd].
  - rewrite blocks_of_page_from in Hb1, Hb2.
    apply in_blocks_from in Hb1. destruct Hb1 as (i1 & Hi1 & ->).
    apply in_blocks_from in Hb2. destruct Hb2 as (i2 & Hi2 & ->).
    pose proof (g_D K s G) as HDge.
    destruct (Z.lt_total (Z.of_nat i1) (Z.of_nat i2)) as [L|[L|L]].
    + left. nia.
    + exfalso. apply Hne. rewrite L. reflexivity.
    + right. nia.
  - destruct (pages_ok_disjoint s pages a1 a2 Hok Ha1 Ha2 Hd);
      unfold PTR_SIZE in *; [left|right]; lia.
Qed.

Lemma block_range K s pages b :
  geom_ok K s -> pages_ok s pages -> In b (all_blocks s pages) ->
  0 < b - PadBytes_ (configuration s) - size_ (HBlockInfo_ (configuration s))
  /\ b + ObjectSize_ (stats s) + PadBytes_ (configuration s) < 2 ^ 64.
Proof.
  intros G Hok Hb. apply in_all_blocks in Hb. destruct Hb as (a & Ha & Hb).
  pose proof (block_in_page K s a b G Hb).
  pose proof (pages_ok_in s pages a Hok Ha). unfold PTR_SIZE in *. lia.
Qed.

Lemma NoDup_blocks_from s j : forall d,
  0 < dataSize s -> NoDup (blocks_from s d j).
Proof.
  induction j as [|j IH]; intros d HD.
  - constructor.
  - rewrite blocks_from_S. constructor; [|apply IH; exact HD].
    intros Hin. apply in_blocks_from in Hin. destruct Hin as (i & _ & E). nia.
Qed.

Lemma NoDup_all_blocks K s : forall pages,
  geom_ok K s -> pages_ok s pages -> NoDup (all_blocks s pages).
Proof.
  intros pages G. pose proof (geom_sizes K s G) as (HD & _).
  induction pages as [|a t IH]; intros Hok; simpl; [constructor|].
  destruct Hok as (Hf & Hok).
  apply NoDup_app.
  - apply NoDup_blocks_from. lia.
  - apply IH. exact Hok.
  - intros b Hb Hb'. apply in_all_blocks in Hb'. destruct Hb' as (a' & Ha' & Hb').
    pose proof (block_in_page K s a b G Hb).
    pose proof (block_in_page K s a' b G Hb').
    destruct Hf as (_ & _ & Hf). destruct (Hf a' Ha'); unfold PTR_SIZE in *;
      pose proof (geom_sizes K s G); lia.
Qed.

(** ** A new page *)

Lemma link_new_page_fields K a s :
  FreeList_ (link_new_page K a s) = FreeList_ s /\
  PageList_ (link_new_page K a s) = a /\
  infos (link_new_page K a s) = infos s /\
  stats (link_new_page K a s)
  = set_PagesInUse (stats s) (wrap_uint (PagesInUse_ (stats s) + 1)).
Proof. unfold link_new_page. cbn. auto. Qed.

Lemma page_alloc_size K s :
  geom_ok K s ->
  wrap_size (PageSize_ (stats s) + PTR_SIZE) = PageSize_ (stats s) + 8.
Proof.
  intros G. pose proof (geom_sizes K s G) as (_ & _ & _ & _ & _ & HPS & _).
  unfold wrap_size, PTR_SIZE. apply Z.mod_small. lia.
Qed.

Lemma link_new_page_outside K a s x :
  geom_ok K s ->
  x < a \/ a + PageSize_ (stats s) + 8 <= x ->
  heap (link_new_page K a s) x = heap s x.
Proof.
  intros G Hx. pose proof (geom_sizes K s G) as (_ & _ & _ & _ & _ & HPS & _).
  unfold link_new_page.
  cbn [heap set_heap set_stats set_PageList configuration stats PageSize_
       set_PagesInUse PageList_].
  rewrite (page_alloc_size K s G).
  unfold store_ptr.
  rewrite store_le_out by (change (Z.of_nat ptr_bytes) with 8; lia).
  destruct (DebugOn_ (configuration s)); rewrite !memset_out by lia; reflexivity.
Qed.

Lemma link_new_page_link K a s :
  0 <= PageList_ s < 2 ^ 64 ->
  load_ptr (heap (link_new_page K a s)) a = PageList_ s.
Proof.
  intros Hr. unfold link_new_page.
  cbn [heap set_heap set_stats set_PageList configuration stats PageSize_
       set_PagesInUse PageList_].
  apply load_store_ptr. exact Hr.
Qed.

(** The slack byte behind the page is zero. *)
Lemma link_new_page_slack K a s x :
  geom_ok K s ->
  a + PageSize_ (stats s) <= x < a + PageSize_ (stats s) + 8 ->
  heap (link_new_page K a s) x = 0.
Proof.
  intros G Hx. pose proof (geom_sizes K s G) as (_ & _ & _ & _ & _ & HPS & _).
  unfold link_new_page.
  cbn [heap set_heap set_stats set_PageList configuration stats PageSize_
       set_PagesInUse PageList_].
  rewrite (page_alloc_size K s G).
  unfold store_ptr.
  rewrite store_le_out by (change (Z.of_nat ptr_bytes) with 8; lia).
  destruct (DebugOn_ (configuration s)).
  - rewrite !memset_out by lia. rewrite memset_in by lia. reflexivity.
  - rewrite memset_out by lia. rewrite memset_in by lia. reflexivity.
Qed.

Lemma pool_free_nodes K s pages fl live x :
  pool_inv K s pages fl live -> In x fl -> In x (all_blocks s pages).
Proof.
  intros I Hx. eapply Permutation_in; [apply (inv_blocks K s pages fl live I)|].
  apply in_or_app. auto.
Qed.

Lemma pool_live_nodes K s pages fl live x :
  pool_inv K s pages fl live -> In x live -> In x (all_blocks s pages).
Proof.
  intros I Hx. eapply Permutation_in; [apply (inv_blocks K s pages fl live I)|].
  apply in_or_app. auto.
Qed.

Lemma pool_live_nonnull K s pages fl live p :
  pool_inv K s pages fl live -> In p live -> p <> 0.
Proof.
  intros I Hp.
  pose proof (inv_geom K s pages fl live I) as G.
  pose proof (block_range K s pages p G (inv_pages K s pages fl live I)
                (pool_live_nodes K s pages fl live p I Hp)).
  pose proof (geom_sizes K s G). lia.
Qed.

Lemma pages_range K s pages :
  geom_ok K s -> pages_ok s pages -> Forall (fun x => 0 < x < 2 ^ 64) pages.
Proof.
  intros G Hok. apply Forall_forall. intros a Ha.
  pose proof (pages_ok_in s pages a Hok Ha).
  pose proof (geom_sizes K s G). unfold PTR_SIZE in *. lia.
Qed.

Lemma length_all_blocks s pages :
  length (all_blocks s pages)
  = (length pages * Z.to_nat (ObjectsPerPage_ (configuration s)))%nat.
Proof.
  unfold all_blocks. induction pages as [|a t IH]; simpl; [reflexivity|].
  rewrite length_app, IH. unfold blocks_of_page.
  rewrite length_map, length_seq. reflexivity.
Qed.

Lemma pool_counts K s pages fl live :
  pool_inv K s pages fl live ->
  Z.of_nat (length fl) + Z.of_nat (length live)
  = Z.of_nat (length pages) * ObjectsPerPage_ (configuration s) /\
  Z.of_nat (length pages) * ObjectsPerPage_ (configuration s) < 2 ^ 32.
Proof.
  intros I. pose proof (Permutation_length (inv_blocks K s pages fl live I)) as E.
  rewrite length_app, length_all_blocks in E.
  pose proof (inv_geom K s pages fl live I) as G.
  pose proof (g_N K s G). pose proof (g_max K s G) as (Hm0 & Hm).
  pose proof (inv_cap K s pages fl live I).
  split; [|nia].
  rewrite <- Nat2Z.inj_add, E, Nat2Z.inj_mul, Z2Nat.id by lia. reflexivity.
Qed.

Lemma AllocateNewPage_inv K fuel a s pages fl live :
  pool_inv K s pages fl live ->
  page_fresh s pages a ->
  PagesInUse_ (stats s) < MaxPages_ (configuration s) ->
  (Z.to_nat (ObjectsPerPage_ (configuration s)) < fuel)%nat ->
  let s' := init_n K (Z.to_nat (ObjectsPerPage_ (configuration s)))
              (a + pageHeader s) (link_new_page K a s) in
  AllocateNewPage K fuel (Some a) s = Returns tt s' /\
  pool_inv K s' (a :: pages) (rev (blocks_of_page s a) ++ fl) live.
Proof.
  intros I Hf Hcap Hfuel.
  pose proof (inv_geom K s pages fl live I) as G.
  pose proof (geom_sizes K s G) as (HD & HS & HP & HH & HPH & HPS & HN).
  pose proof (g_PS K s G) as EPS. pose proof (g_PH K s G) as HPHge.
  pose proof (pool_counts K s pages fl live I) as (Ecnt & Hcnt).
  pose proof (g_max K s G) as (Hm0 & Hm).
  set (n := Z.to_nat (ObjectsPerPage_ (configuration s))).
  set (s1 := link_new_page K a s).
  assert (Eg1 : geometry s1 = geometry s) by apply geometry_link_new_page.
  assert (G1 : geom_ok K s1) by (eapply geom_ok_ext; eauto).
  destruct (link_new_page_fields K a s) as (L1 & L2 & L3 & L4).
  fold s1 in L1, L2, L3, L4.
  assert (Ec1 : configuration s1 = configuration s) by reflexivity.
  assert (Es1 : ObjectSize_ (stats s1) = ObjectSize_ (stats s)) by reflexivity.
  assert (Ep1 : pageHeader s1 = pageHeader s) by reflexivity.
  assert (Ed1 : dataSize s1 = dataSize s) by reflexivity.
  cbv zeta. fold n. fold s1.
  set (s2 := init_n K n (a + pageHeader s) s1).
  assert (Eg2 : geometry s2 = geometry s).
  { unfold s2. rewrite geometry_init_n. exact Eg1. }
  assert (G2 : geom_ok K s2) by (eapply geom_ok_ext; eauto).
  destruct (init_n_fields K n (a + pageHeader s) s1) as (N1 & N2 & N3 & N4).
  fold s2 in N1, N2, N3, N4.
  assert (Hn : Z.of_nat n = ObjectsPerPage_ (configuration s))
    by (unfold n; lia).
  assert (Hnz : Nat.eqb n 0 = false) by (apply Nat.eqb_neq; lia).
  rewrite Hnz in N3, N4.
  destruct Hf as (Ha0 & Hahi & Hdis). unfold PTR_SIZE in *.
  assert (Hfl : forall x, In x fl ->
            0 < x < 2 ^ 64 /\
            (x + 8 <= a \/ a + PageSize_ (stats s) + 8 <= x)).
  { intros x Hx.
    pose proof (pool_free_nodes K s pages fl live x I Hx) as Hb.
    pose proof (block_range K s pages x G (inv_pages K s pages fl live I) Hb).
    apply in_all_blocks in Hb. destruct Hb as (a' & Ha' & Hb).
    pose proof (block_in_page K s a' x G Hb). unfold PTR_SIZE in *.
    destruct (Hdis a' Ha'); split; lia. }
  assert (Hpg : forall x, In x pages ->
            0 < x < 2 ^ 64 /\
            (x + PageSize_ (stats s) + 8 <= a \/ a + PageSize_ (stats s) + 8 <= x)).
  { intros x Hx.
    pose proof (pages_ok_in s pages x (inv_pages K s pages fl live I) Hx).
    unfold PTR_SIZE in *. destruct (Hdis x Hx); split; lia. }
  assert (Hout : forall x, x < a \/ a + PageSize_ (stats s) + 8 <= x ->
                           heap s2 x = heap s x).
  { intros x Hx. unfold s2. rewrite init_n_outside; [|exact G1|].
    - apply link_new_page_outside; auto.
    - fold s1; rewrite ?Ec1, ?Es1, ?Ed1. nia. }
  split.
  - unfold AllocateNewPage.
    destruct (Z.geb_spec (PagesInUse_ (stats s)) (MaxPages_ (configuration s)));
      [lia|].
    fold s1. rewrite Ep1. unfold s2.
    replace (a + pageHeader s) with (block_addr s1 a 0)
      by (unfold block_addr; rewrite Ep1; simpl; lia).
    apply init_blocks_runs;
      [apply (geom_ok_loop K); exact G1|apply (geom_ok_fits K); exact G1|
       |exact Hfuel].
    fold s1; rewrite ?Ec1, ?Es1, ?Ed1. lia.
  - constructor.
    + exact G2.
    + simpl. split.
      * apply (page_fresh_ext s); [exact Eg2|].
        unfold page_fresh, PTR_SIZE. auto.
      * apply (pages_ok_ext s); [exact Eg2|]. apply (inv_pages K s pages fl live I).
    + rewrite N1, L2. cbn [chain]. split; [reflexivity|]. split; [lia|].
      assert (El : load_ptr (heap s2) a = PageList_ s).
      { rewrite <- (link_new_page_link K a s).
        - apply load_ptr_ext. intros x Hx. unfold PTR_SIZE in Hx. unfold s2.
          apply init_n_outside; [exact G1|]. fold s1; rewrite ?Ec1, ?Es1, ?Ed1. left. lia.
        - eapply chain_head_range; [apply (inv_page_chain K s pages fl live I)|].
          apply (pages_range K s); [exact G|].
          apply (inv_pages K s pages fl live I). }
      rewrite El.
      apply (chain_frame (heap s)); [apply (inv_page_chain K s pages fl live I)|].
      intros x Hx y Hy. unfold PTR_SIZE in Hy. apply Hout.
      destruct (Hpg x Hx) as (_ & [H|H]); lia.
    + replace (blocks_of_page s a) with (blocks_from s1 (a + pageHeader s) n)
        by (rewrite (blocks_from_ext s s1 _ _ Eg1); reflexivity).
      apply (init_n_chain K n _ s1 fl (a + PageSize_ (stats s))).
      * exact G1.
      * rewrite L1.
        apply (chain_frame (heap s)); [apply (inv_free_chain K s pages fl live I)|].
        intros x Hx y Hy. unfold PTR_SIZE in Hy.
        apply link_new_page_outside; [exact G|].
        destruct (Hfl x Hx) as (_ & [H|H]); lia.
      * apply Forall_forall. intros x Hx. fold s1; rewrite ?Ec1, ?Es1, ?Ed1.
        destruct (Hfl x Hx) as (Hr & [H|H]); (split; [exact Hr|]);
          unfold PTR_SIZE; lia.
      * fold s1; rewrite ?Ec1, ?Es1, ?Ed1. lia.
      * fold s1; rewrite ?Ec1, ?Es1, ?Ed1. nia.
      * lia.
    + rewrite (all_blocks_ext s s2 _ Eg2). simpl. rewrite <- app_assoc.
      apply Permutation_app.
      * apply Permutation_sym, Permutation_rev.
      * apply (inv_blocks K s pages fl live I).
    + rewrite N3, L4. cbn [FreeObjects_ set_FreeObjects set_PagesInUse].
      rewrite (inv_free K s pages fl live I).
      rewrite length_app, length_rev. unfold blocks_of_page.
      rewrite length_map, length_seq. fold n.
      pose proof (inv_npages K s pages fl live I) as Enp.
      unfold wrap_uint. rewrite Z.mod_small by nia. lia.
    + rewrite N3, L4. cbn [ObjectsInUse_ set_FreeObjects set_PagesInUse].
      apply (inv_used K s pages fl live I).
    + rewrite N3, L4. cbn [PagesInUse_ set_FreeObjects set_PagesInUse].
      pose proof (inv_npages K s pages fl live I) as Enp.
      unfold wrap_uint. rewrite Z.mod_small by nia.
      rewrite Enp. simpl length. lia.
    + replace (configuration s2) with (configuration s)
        by (unfold geometry in Eg2; inversion Eg2; reflexivity).
      pose proof (inv_npages K s pages fl live I) as Enp.
      simpl length. lia.
Qed.

(** ** Construction establishes the invariant *)

Lemma wf_config_no_overflow K S cfg :
  wf_config K S cfg -> no_overflow S cfg.
Proof.
  intros (R & HN & HS & _ & Hfit & _).
  pose proof (D_spec_ge S cfg R) as HD.
  pose proof (PH_spec_ge S cfg R) as HPH.
  unfold config_in_range in R. unfold no_overflow, PageSize_spec, PTR_SIZE in *.
  repeat split; nia.
Qed.

Lemma wf_config_geom K m0 S cfg :
  wf_config K S cfg -> geom_ok K (ctor_init m0 S cfg).
Proof.
  intros W. pose proof (wf_config_no_overflow K S cfg W) as NO.
  destruct W as (R & HN & HS & Hh & Hfit & Hmax).
  pose proof (ctor_init_geometry m0 S cfg R HN NO) as (E1 & E2 & E3 & _).
  pose proof (D_spec_ge S cfg R) as HD.
  pose proof (PH_spec_ge S cfg R) as HPH.
  unfold config_in_range in R.
  constructor; rewrite ?E1, ?E2, ?E3;
    cbn [ctor_init OAStats_default configuration stats ObjectsPerPage_ PadBytes_ HBlockInfo_
         MaxPages_ ObjectSize_]; try lia.
  - unfold PageSize_spec. lia.
  - exact Hh.
Qed.

Lemma ctor_init_empty K m0 S cfg :
  wf_config K S cfg -> pool_inv K (ctor_init m0 S cfg) [] [] [].
Proof.
  intros W. pose proof (wf_config_geom K m0 S cfg W) as G.
  destruct W as (R & _). unfold config_in_range in R.
  constructor; try exact G; try reflexivity; simpl; auto.
  cbn. lia.
Qed.

Lemma ctor_inv K fuel a m0 S cfg :
  wf_config K S cfg ->
  1 <= MaxPages_ cfg ->
  0 < a -> a + PageSize_spec S cfg + PTR_SIZE <= 2 ^ 64 ->
  (Z.to_nat (ObjectsPerPage_ cfg) < fuel)%nat ->
  exists s,
    ObjectAllocator_ctor K fuel (Some a) m0 S cfg = Returns tt s /\
    geometry s = geometry (ctor_init m0 S cfg) /\
    pool_inv K s [a] (rev (blocks_of_page s a)) [].
Proof.
  intros W HM Ha Hhi Hfuel.
  pose proof (ctor_init_empty K m0 S cfg W) as I0.
  pose proof (wf_config_no_overflow K S cfg W) as NO.
  assert (W' := W). destruct W' as (R & HN & _).
  pose proof (ctor_init_geometry m0 S cfg R HN NO) as (_ & _ & E3 & _).
  destruct (AllocateNewPage_inv K fuel a (ctor_init m0 S cfg) [] [] [] I0)
    as (Er & I1).
  - unfold page_fresh. rewrite E3. simpl. tauto.
  - cbn. lia.
  - exact Hfuel.
  - eexists. split; [exact Er|].
    assert (Eg : geometry
                   (init_n K (Z.to_nat (ObjectsPerPage_
                                          (configuration (ctor_init m0 S cfg))))
                      (a + pageHeader (ctor_init m0 S cfg))
                      (link_new_page K a (ctor_init m0 S cfg)))
                 = geometry (ctor_init m0 S cfg)).
    { rewrite geometry_init_n. apply geometry_link_new_page. }
    split; [exact Eg|].
    rewrite (blocks_of_page_ext _ _ a Eg). rewrite app_nil_r in I1. exact I1.
Qed.

(** ** What [Allocate] writes *)

Lemma allocate_header_returns K host label p s q s' :
  geom_ok K s ->
  allocate_header K host label p s = Returns q s' ->
  q = p /\ geometry s' = geometry s /\ stats s' = stats s /\
  FreeList_ s' = FreeList_ s /\ PageList_ s' = PageList_ s /\
  forall y,
    y < p - PadBytes_ (configuration s) - size_ (HBlockInfo_ (configuration s))
    \/ p - PadBytes_ (configuration s) <= y ->
    heap s' y = heap s y.
Proof.
  intros G. pose proof (g_hdr K s G) as Hh. unfold header_fits in Hh.
  unfold allocate_header.
  destruct (type_ (HBlockInfo_ (configuration s))) eqn:T.
  - intros X. inversion X; subst. repeat split; auto.
  - intros X. inversion X; subst. repeat split; auto.
    intros y Hy. cbn [heap set_heap].
    rewrite !store_le_out by (simpl Z.of_nat; lia). reflexivity.
  - intros X. inversion X; subst. repeat split; auto.
    intros y Hy. cbn [heap set_heap].
    pose proof (Z.mod_pos_bound (additional_ (HBlockInfo_ (configuration s))) 256
                  ltac:(lia)).
    rewrite !store_le_out by (simpl Z.of_nat; lia). reflexivity.
  - destruct (new_info host) as [info|]; [|discriminate].
    destruct (MemBlockInfo_ctor host true label (Allocations_ (stats s)));
      [|discriminate].
    intros X. inversion X; subst. repeat split; auto.
    intros y Hy. cbn [heap set_heap set_infos]. unfold store_ptr.
    rewrite store_le_out by (change (Z.of_nat ptr_bytes) with 8;
                             unfold PTR_SIZE in *; lia).
    reflexivity.
Qed.

Lemma count_allocation_sizes st :
  ObjectSize_ (count_allocation st) = ObjectSize_ st /\
  PageSize_ (count_allocation st) = PageSize_ st /\
  PagesInUse_ (count_allocation st) = PagesInUse_ st /\
  FreeObjects_ (count_allocation st) = wrap_uint (FreeObjects_ st - 1) /\
  ObjectsInUse_ (count_allocation st) = wrap_uint (ObjectsInUse_ st + 1) /\
  Allocations_ (count_allocation st) = wrap_uint (Allocations_ st + 1) /\
  Deallocations_ (count_allocation st) = Deallocations_ st.
Proof.
  unfold count_allocation.
  match goal with |- context [if ?c then _ else _] => destruct c end;
    cbn; auto 10.
Qed.

Lemma pop_block_returns K host label s p s' :
  geom_ok K s ->
  pop_block K host label s = Returns p s' ->
  p = FreeList_ s /\ p <> 0 /\
  FreeList_ s' = load_ptr (heap s) p /\
  PageList_ s' = PageList_ s /\
  geometry s' = geometry s /\
  stats s' = count_allocation (stats s) /\
  forall y,
    y < p - PadBytes_ (configuration s) - size_ (HBlockInfo_ (configuration s))
    \/ p + ObjectSize_ (stats s) <= y ->
    heap s' y = heap s y.
Proof.
  intros G. unfold pop_block.
  destruct (Z.eqb_spec (FreeList_ s) 0) as [E|E]; [discriminate|].
  intros X.
  pose proof (geom_sizes K s G) as (HD & HS & HP & HH & _).
  destruct (count_allocation_sizes (stats s)) as (C1 & C2 & _).
  destruct (DebugOn_ (configuration s)).
  - match type of X with allocate_header _ _ _ _ ?st = _ => set (s3 := st) in * end.
    assert (Eg3 : geometry s3 = geometry s).
    { unfold s3, geometry. cbn -[count_allocation]. rewrite C1, C2. reflexivity. }
    assert (G3 : geom_ok K s3) by (eapply geom_ok_ext; eauto).
    apply (allocate_header_returns K host label _ s3 p s' G3) in X.
    destruct X as (-> & Eg & Est & Efl & Epl & Hout).
    repeat split; auto.
    + congruence.
    + intros y Hy. rewrite Hout by (cbn; lia). cbn.
      rewrite memset_out by lia. reflexivity.
  - match type of X with allocate_header _ _ _ _ ?st = _ => set (s3 := st) in * end.
    assert (Eg3 : geometry s3 = geometry s).
    { unfold s3, geometry. cbn -[count_allocation]. rewrite C1, C2. reflexivity. }
    assert (G3 : geom_ok K s3) by (eapply geom_ok_ext; eauto).
    apply (allocate_header_returns K host label _ s3 p s' G3) in X.
    destruct X as (-> & Eg & Est & Efl & Epl & Hout).
    repeat split; auto.
    + congruence.
    + intros y Hy. rewrite Hout by (cbn; lia). reflexivity.
Qed.

(** ** [Allocate] and [Free] keep the invariant *)

Lemma page_link_clear K s pages a b :
  geom_ok K s -> pages_ok s pages ->
  In a pages -> In b (all_blocks s pages) ->
  a + PTR_SIZE <= b - PadBytes_ (configuration s)
                  - size_ (HBlockInfo_ (configuration s))
  \/ b + ObjectSize_ (stats s) + PadBytes_ (configuration s) <= a.
Proof.
  intros G Hok Ha Hb. apply in_all_blocks in Hb. destruct Hb as (a' & Ha' & Hb).
  pose proof (block_in_page K s a' b G Hb) as B.
  pose proof (geom_sizes K s G) as (HD & HS & HP & HH & HPH & HPS & HN).
  destruct (Z.eq_dec a a') as [->|Hne]; [left; tauto|].
  destruct (pages_ok_disjoint s pages a a' Hok Ha Ha' Hne);
    unfold PTR_SIZE in *; [left|right]; lia.
Qed.

Lemma pool_NoDup K s pages fl live :
  pool_inv K s pages fl live -> NoDup (fl ++ live).
Proof.
  intros I. eapply Permutation_NoDup.
  - apply Permutation_sym. apply (inv_blocks K s pages fl live I).
  - eapply NoDup_all_blocks.
    + apply (inv_geom K s pages fl live I).
    + apply (inv_pages K s pages fl live I).
Qed.

(** A write confined to the block at [b] keeps both lists, provided [b] is
    not a node of the free list [fl']. *)
Lemma block_write_frame K s pages fl live b m' fl' h :
  pool_inv K s pages fl live ->
  In b (all_blocks s pages) ->
  (forall y,
     y < b - PadBytes_ (configuration s) - size_ (HBlockInfo_ (configuration s))
     \/ b + ObjectSize_ (stats s) <= y -> m' y = heap s y) ->
  (forall z, In z fl' -> In z (all_blocks s pages) /\ z <> b) ->
  chain (heap s) h fl' ->
  chain m' (PageList_ s) pages /\ chain m' h fl'.
Proof.
  intros I Hb Hout Hfl C.
  pose proof (inv_geom K s pages fl live I) as G.
  pose proof (inv_pages K s pages fl live I) as Hok.
  pose proof (geom_sizes K s G) as (HD & HS & HP & HH & HPH & HPS & HN).
  split.
  - apply (chain_frame (heap s)); [apply (inv_page_chain K s pages fl live I)|].
    intros a Ha y Hy. apply Hout.
    destruct (page_link_clear K s pages a b G Hok Ha Hb);
      unfold PTR_SIZE in *; lia.
  - apply (chain_frame (heap s)); [exact C|].
    intros z Hz y Hy. apply Hout. destruct (Hfl z Hz) as (Hzb & Hne).
    destruct (blocks_separated K s pages b z G Hok Hb Hzb ltac:(congruence));
      unfold PTR_SIZE in *; lia.
Qed.

Lemma pop_block_inv K host label s pages x fl live p s' :
  pool_inv K s pages (x :: fl) live ->
  pop_block K host label s = Returns p s' ->
  p = x /\ pool_inv K s' pages fl (x :: live).
Proof.
  intros I X.
  pose proof (inv_geom K s pages _ live I) as G.
  pose proof (inv_pages K s pages _ live I) as Hok.
  pose proof (pool_NoDup K s pages _ live I) as ND.
  pose proof (pool_counts K s pages _ live I) as (Ecnt & Hcnt).
  destruct (pop_block_returns K host label s p s' G X)
    as (Ep & Hp0 & Efl & Epl & Eg & Est & Hout).
  pose proof (inv_free_chain K s pages _ live I) as C. cbn [chain] in C.
  destruct C as (Ehd & Hx0 & C).
  rewrite Ehd in Ep. subst p.
  split; [reflexivity|].
  assert (Hxb : In x (all_blocks s pages)).
  { eapply pool_free_nodes; eauto. left. reflexivity. }
  destruct (block_write_frame K s pages _ live x (heap s') fl
              (load_ptr (heap s) x) I Hxb Hout) as (PC & FC).
  { intros z Hz. split.
    - eapply pool_free_nodes; eauto. right. exact Hz.
    - simpl in ND. inversion ND; subst. intros ->. apply H1.
      apply in_or_app. auto. }
  { exact C. }
  destruct (count_allocation_sizes (stats s)) as (C1 & C2 & C3 & C4 & C5 & _).
  assert (Ec : configuration s' = configuration s)
    by (unfold geometry in Eg; inversion Eg; reflexivity).
  simpl length in Ecnt.
  constructor.
  - eapply geom_ok_ext; eauto.
  - eapply pages_ok_ext; eauto.
  - rewrite Epl. exact PC.
  - rewrite Efl. exact FC.
  - rewrite (all_blocks_ext s s' _ Eg).
    eapply Permutation_trans; [|apply (inv_blocks K s pages _ live I)].
    apply Permutation_sym. simpl. apply Permutation_middle.
  - rewrite Est, C4, (inv_free K s pages _ live I). simpl length.
    unfold wrap_uint. rewrite Z.mod_small by lia. lia.
  - rewrite Est, C5, (inv_used K s pages _ live I). simpl length.
    unfold wrap_uint. rewrite Z.mod_small by lia. lia.
  - rewrite Est, C3. apply (inv_npages K s pages _ live I).
  - rewrite Ec. apply (inv_cap K s pages _ live I).
Qed.

Lemma free_header_effects K p s :
  geom_ok K s ->
  geometry (free_header K p s) = geometry s /\
  stats (free_header K p s) = stats s /\
  FreeList_ (free_header K p s) = FreeList_ s /\
  PageList_ (free_header K p s) = PageList_ s /\
  forall y,
    y < p - PadBytes_ (configuration s) - size_ (HBlockInfo_ (configuration s))
    \/ p - PadBytes_ (configuration s) <= y ->
    heap (free_header K p s) y = heap s y.
Proof.
  intros G. pose proof (g_hdr K s G) as Hh. unfold header_fits in Hh.
  unfold free_header.
  destruct (type_ (HBlockInfo_ (configuration s))) eqn:T.
  - repeat split; auto.
  - repeat split; auto. intros y Hy. cbn [heap set_heap].
    rewrite memset_out by lia. reflexivity.
  - repeat split; auto. intros y Hy. cbn [heap set_heap].
    rewrite memset_out by lia. reflexivity.
  - destruct (load_ptr (heap s) _ =? 0); repeat split; auto;
      intros y Hy; cbn [heap set_heap set_infos]; unfold store_ptr;
      rewrite store_le_out by (change (Z.of_nat ptr_bytes) with 8;
                               unfold PTR_SIZE in *; lia);
      reflexivity.
Qed.

Lemma count_free_fields st :
  ObjectSize_ (count_free st) = ObjectSize_ st /\
  PageSize_ (count_free st) = PageSize_ st /\
  PagesInUse_ (count_free st) = PagesInUse_ st /\
  FreeObjects_ (count_free st) = FreeObjects_ st /\
  ObjectsInUse_ (count_free st) = wrap_uint (ObjectsInUse_ st - 1) /\
  Allocations_ (count_free st) = Allocations_ st /\
  Deallocations_ (count_free st) = wrap_uint (Deallocations_ st + 1).
Proof. unfold count_free. cbn. auto 10. Qed.

Lemma Free_returns K fuel p s s' :
  geom_ok K s ->
  UseCPPMemManager_ (configuration s) = false ->
  0 <= FreeList_ s < 2 ^ 64 ->
  Free K fuel p s = Returns tt s' ->
  FreeList_ s' = p /\ PageList_ s' = PageList_ s /\
  geometry s' = geometry s /\
  stats s'
  = set_FreeObjects (count_free (stats s)) (wrap_uint (FreeObjects_ (stats s) + 1)) /\
  load_ptr (heap s') p = FreeList_ s /\
  forall y,
    y < p - PadBytes_ (configuration s) - size_ (HBlockInfo_ (configuration s))
    \/ p + ObjectSize_ (stats s) <= y ->
    heap s' y = heap s y.
Proof.
  intros G Hpool Hr. unfold Free. cbn [set_stats configuration]. rewrite Hpool.
  pose proof (geom_sizes K s G) as (HD & HS & HP & HH & _).
  destruct (count_free_fields (stats s)) as (C1 & C2 & C3 & C4 & _).
  set (s1 := set_stats s (count_free (stats s))).
  assert (Eg1 : geometry s1 = geometry s).
  { unfold s1, geometry. cbn -[count_free]. rewrite C1, C2. reflexivity. }
  assert (Hs4 : forall s4,
            geometry s4 = geometry s -> stats s4 = count_free (stats s) ->
            FreeList_ s4 = FreeList_ s -> PageList_ s4 = PageList_ s ->
            (forall y, y < p \/ p + ObjectSize_ (stats s) <= y ->
                       heap s4 y = heap s y) ->
            Returns tt (AddToFreeList p (free_header K p s4)) = Returns tt s' ->
            FreeList_ s' = p /\ PageList_ s' = PageList_ s /\
            geometry s' = geometry s /\
            stats s' = set_FreeObjects (count_free (stats s))
                         (wrap_uint (FreeObjects_ (stats s) + 1)) /\
            load_ptr (heap s') p = FreeList_ s /\
            forall y,
              y < p - PadBytes_ (configuration s)
                  - size_ (HBlockInfo_ (configuration s))
              \/ p + ObjectSize_ (stats s) <= y ->
              heap s' y = heap s y).
  { intros s4 Eg4 Est4 Efl4 Epl4 Hout4 X. inversion X; subst s'. clear X.
    assert (G4 : geom_ok K s4) by (eapply geom_ok_ext; eauto).
    destruct (free_header_effects K p s4 G4) as (F1 & F2 & F3 & F4 & F5).
    assert (Ec4 : configuration s4 = configuration s)
      by (unfold geometry in Eg4; inversion Eg4; reflexivity).
    rewrite Ec4 in F5.
    unfold AddToFreeList.
    cbn [FreeList_ PageList_ set_stats set_heap set_FreeList heap stats].
    repeat split.
    - rewrite F4. exact Epl4.
    - rewrite <- Eg4, <- F1. reflexivity.
    - rewrite F2, Est4, C4. reflexivity.
    - rewrite F3, Efl4. apply load_store_ptr. exact Hr.
    - intros y Hy. unfold store_ptr.
      rewrite store_le_out by (change (Z.of_nat ptr_bytes) with 8; lia).
      rewrite F5 by lia. apply Hout4. lia. }
  destruct (DebugOn_ (configuration s)).
  - destruct (debug_free K fuel p s1) as [[] s4|e4 s4| |] eqn:E4; simpl;
      try discriminate.
    apply debug_free_returns in E4. destruct E4 as (-> & _).
    destruct (p =? 0); [discriminate|].
    apply Hs4; auto.
    intros y Hy. cbn -[count_free]. rewrite C1.
    rewrite memset_out by lia. reflexivity.
  - simpl. destruct (p =? 0); [discriminate|]. apply Hs4; auto.
Qed.

Lemma remove_perm (p : Z) : forall l,
  NoDup l -> In p l -> Permutation l (p :: remove Z.eq_dec p l).
Proof.
  induction l as [|x t IH]; intros ND Hin; [destruct Hin|].
  inversion ND as [|? ? Hnx NDt]; subst. simpl.
  destruct (Z.eq_dec p x) as [->|Hne].
  - rewrite notin_remove by exact Hnx. apply Permutation_refl.
  - destruct Hin as [E|Hin]; [congruence|].
    eapply Permutation_trans; [|apply perm_swap].
    apply perm_skip. apply IH; assumption.
Qed.

Lemma chain_nodes_range K s pages l :
  geom_ok K s -> pages_ok s pages ->
  (forall z, In z l -> In z (all_blocks s pages)) ->
  Forall (fun x => 0 < x < 2 ^ 64) l.
Proof.
  intros G Hok H. apply Forall_forall. intros z Hz.
  pose proof (block_range K s pages z G Hok (H z Hz)).
  pose proof (geom_sizes K s G). lia.
Qed.

Lemma Free_inv K fuel p s pages fl live s' :
  pool_inv K s pages fl live ->
  UseCPPMemManager_ (configuration s) = false ->
  In p live ->
  Free K fuel p s = Returns tt s' ->
  pool_inv K s' pages (p :: fl) (remove Z.eq_dec p live).
Proof.
  intros I Hpool Hp X.
  pose proof (inv_geom K s pages _ live I) as G.
  pose proof (inv_pages K s pages _ live I) as Hok.
  pose proof (pool_NoDup K s pages _ live I) as ND.
  pose proof (pool_counts K s pages _ live I) as (Ecnt & Hcnt).
  pose proof (inv_free_chain K s pages _ live I) as C.
  assert (Hflr : Forall (fun x => 0 < x < 2 ^ 64) fl).
  { apply (chain_nodes_range K s pages); auto.
    intros z Hz. eapply pool_free_nodes; eauto. }
  pose proof (chain_head_range _ _ _ C Hflr) as Hr.
  destruct (Free_returns K fuel p s s' G Hpool Hr X)
    as (Efl & Epl & Eg & Est & Elk & Hout).
  assert (Hpb : In p (all_blocks s pages)) by (eapply pool_live_nodes; eauto).
  pose proof (block_range K s pages p G Hok Hpb) as Hpr.
  pose proof (geom_sizes K s G) as (HD & HS & HP & HH & _).
  destruct (block_write_frame K s pages _ live p (heap s') fl
              (FreeList_ s) I Hpb Hout) as (PC & FC).
  { intros z Hz. split.
    - eapply pool_free_nodes; eauto.
    - intros ->. apply NoDup_app_remove_l in ND as ND'.
      clear ND'. revert ND Hz Hp. clear. intros ND Hz Hp.
      induction fl as [|x t IH]; [destruct Hz|].
      simpl in ND. inversion ND; subst. destruct Hz as [->|Hz].
      + apply H1. apply in_or_app. auto.
      + apply IH; auto. }
  { exact C. }
  assert (NDl : NoDup live) by (apply NoDup_app_remove_l in ND; exact ND).
  pose proof (remove_perm p live NDl Hp) as Pl.
  pose proof (Permutation_length Pl) as Ll. simpl in Ll.
  destruct (count_free_fields (stats s)) as (C1 & C2 & C3 & C4 & C5 & _).
  assert (Ec : configuration s' = configuration s)
    by (unfold geometry in Eg; inversion Eg; reflexivity).
  constructor.
  - eapply geom_ok_ext; eauto.
  - eapply pages_ok_ext; eauto.
  - rewrite Epl. exact PC.
  - rewrite Efl. cbn [chain]. split; [reflexivity|]. split; [lia|].
    rewrite Elk. exact FC.
  - rewrite (all_blocks_ext s s' _ Eg).
    eapply Permutation_trans; [|apply (inv_blocks K s pages _ live I)].
    simpl. eapply Permutation_trans; [apply Permutation_middle|].
    apply Permutation_app_head. apply Permutation_sym. exact Pl.
  - rewrite Est. cbn [FreeObjects_ set_FreeObjects].
    rewrite (inv_free K s pages _ live I). simpl length.
    unfold wrap_uint. rewrite Z.mod_small by lia. lia.
  - rewrite Est. cbn [ObjectsInUse_ set_FreeObjects]. rewrite C5.
    rewrite (inv_used K s pages _ live I).
    unfold wrap_uint. rewrite Z.mod_small by lia. lia.
  - rewrite Est. cbn [PagesInUse_ set_FreeObjects]. rewrite C3.
    apply (inv_npages K s pages _ live I).
  - rewrite Ec. apply (inv_cap K s pages _ live I).
Qed.

(** ** Reachable states satisfy the invariant *)

Lemma init_blocks_fuel_mono K f : forall k a d s s',
  init_blocks K f a d s = Returns tt s' ->
  init_blocks K (f + k) a d s = Returns tt s'.
Proof.
  induction f as [|f IH]; intros k a d s s' E; [discriminate|].
  change (S f + k)%nat with (S (f + k)). cbn [init_blocks] in *.
  destruct (_ <? _); [|exact E].
  destruct (init_block_outcome K d s) as [Eb|Eb]; rewrite Eb in *;
    cbn [bind] in *; [apply IH; exact E|discriminate].
Qed.

Lemma AllocateNewPage_fuel_mono K f k host s s' :
  AllocateNewPage K f host s = Returns tt s' ->
  AllocateNewPage K (f + k) host s = Returns tt s'.
Proof.
  unfold AllocateNewPage. destruct (_ >=? _); [discriminate|].
  destruct host; [|discriminate]. apply init_blocks_fuel_mono.
Qed.

Lemma AllocateNewPage_returns K fuel host s s' :
  AllocateNewPage K fuel host s = Returns tt s' ->
  PagesInUse_ (stats s) < MaxPages_ (configuration s) /\
  exists a, host = Some a.
Proof.
  unfold AllocateNewPage.
  destruct (Z.geb_spec (PagesInUse_ (stats s)) (MaxPages_ (configuration s)));
    [discriminate|].
  destruct host as [a|]; [|discriminate]. intros _. split; [lia|eauto].
Qed.

Lemma AllocateNewPage_returns_inv K fuel a s pages fl live s' :
  pool_inv K s pages fl live ->
  page_fresh s pages a ->
  AllocateNewPage K fuel (Some a) s = Returns tt s' ->
  geometry s' = geometry s /\
  pool_inv K s' (a :: pages) (rev (blocks_of_page s a) ++ fl) live.
Proof.
  intros I Hf E.
  destruct (AllocateNewPage_returns K fuel _ s s' E) as (Hcap & _).
  apply (AllocateNewPage_fuel_mono K fuel
           (S (Z.to_nat (ObjectsPerPage_ (configuration s))))) in E.
  destruct (AllocateNewPage_inv K
              (fuel + S (Z.to_nat (ObjectsPerPage_ (configuration s))))
              a s pages fl live I Hf Hcap ltac:(lia)) as (E' & I').
  rewrite E' in E. inversion E; subst s'. split; [|exact I'].
  rewrite geometry_init_n. apply geometry_link_new_page.
Qed.

Lemma chain_nil_head m l : chain m 0 l -> l = [].
Proof. destruct l; simpl; [reflexivity|]. intros (E & Hn & _). congruence. Qed.

Lemma reachable_inv K s pages live :
  reachable K s pages live ->
  UseCPPMemManager_ (configuration s) = false /\
  exists fl, pool_inv K s pages fl live.
Proof.
  induction 1 as
    [fuel a m0 S cfg s W Hpool Ha Hhi E
    |fuel host label s pages live p s' R IH Hfl E
    |fuel host label s pages live a p s' R IH Hfl Hh Hf E
    |fuel p s pages live s' R IH Hp E].
  - pose proof (ctor_init_empty K m0 S cfg W) as I0.
    pose proof (wf_config_no_overflow K S cfg W) as NO.
    assert (W' := W). destruct W' as (Rg & HN & _).
    pose proof (ctor_init_geometry m0 S cfg Rg HN NO) as (_ & _ & E3 & _).
    unfold ObjectAllocator_ctor in E.
    destruct (AllocateNewPage_returns_inv K fuel a _ [] [] [] s I0) as (Eg & I1);
      [|exact E|].
    + unfold page_fresh. rewrite E3. simpl. tauto.
    + split.
      * rewrite (geometry_config _ _ Eg). exact Hpool.
      * eexists. exact I1.
  - destruct IH as (Hpool & fl & I).
    pose proof (inv_geom K s pages fl live I) as G.
    unfold Allocate in E. rewrite Hpool in E.
    destruct (Z.eqb_spec (FreeList_ s) 0); [contradiction|]. simpl in E.
    destruct fl as [|x fl].
    { pose proof (inv_free_chain K s pages _ live I) as C. simpl in C.
      contradiction. }
    destruct (pop_block_returns K host label s p s' G E)
      as (_ & _ & _ & _ & Eg & _).
    destruct (pop_block_inv K host label s pages x fl live p s' I E) as (-> & I').
    split; [|eexists; exact I'].
    rewrite (geometry_config _ _ Eg). exact Hpool.
  - destruct IH as (Hpool & fl & I).
    unfold Allocate in E. rewrite Hpool, Hfl, Hh in E. simpl in E.
    destruct (AllocateNewPage K fuel (Some a) s) as [[] s0|e0 s0| |] eqn:E0;
      simpl in E; try discriminate.
    destruct (AllocateNewPage_returns_inv K fuel a s pages fl live s0 I Hf E0)
      as (Eg0 & I0).
    pose proof (inv_geom K s0 _ _ live I0) as G0.
    destruct (rev (blocks_of_page s a) ++ fl) as [|x fl'] eqn:El.
    { pose proof (inv_free_chain K s0 _ _ live I0) as C. simpl in C.
      unfold pop_block in E. rewrite C in E. simpl in E. discriminate. }
    destruct (pop_block_returns K host label s0 p s' G0 E)
      as (_ & _ & _ & _ & Eg & _).
    destruct (pop_block_inv K host label s0 _ x fl' live p s' I0 E) as (-> & I').
    split; [|eexists; exact I'].
    rewrite (geometry_config _ _ Eg), (geometry_config _ _ Eg0). exact Hpool.
  - destruct IH as (Hpool & fl & I).
    pose proof (inv_geom K s pages fl live I) as G.
    pose proof (Free_inv K fuel p s pages fl live s' I Hpool Hp E) as I'.
    split; [|eexists; exact I'].
    pose proof (inv_free_chain K s pages _ live I) as C.
    assert (Hr : 0 <= FreeList_ s < 2 ^ 64).
    { eapply chain_head_range; [exact C|].
      apply (chain_nodes_range K s pages); auto.
      - apply (inv_pages K s pages fl live I).
      - intros z Hz. eapply pool_free_nodes; eauto. }
    destruct (Free_returns K fuel p s s' G Hpool Hr E) as (_ & _ & Eg & _).
    rewrite (geometry_config _ _ Eg). exact Hpool.
Qed.

(** ** C4: the statistics balance *)


(** ** C6 and C9: construction *)

Lemma init_blocks_geometry K fuel : forall a d s s',
  init_blocks K fuel a d s = Returns tt s' ->
  geometry s' = geometry s /\
  PagesInUse_ (stats s') = PagesInUse_ (stats s) /\
  PageList_ s' = PageList_ s.
Proof.
  induction fuel as [|fuel IH]; intros a d s s' E; cbn [init_blocks] in E;
    [discriminate|].
  destruct (_ <? _).
  - destruct (init_block_outcome K d s) as [Eb|Eb]; rewrite Eb in E;
      cbn [bind] in E; [|discriminate].
    apply IH in E. destruct E as (E1 & E2 & E3).
    destruct (init_block_fields K d s) as (_ & F2 & _ & F4).
    rewrite E1, E2, E3, F2, F4. split; [apply geometry_init_block|].
    split; reflexivity.
  - inversion E; subst. auto.
Qed.

Lemma AllocateNewPage_geometry K fuel host s s' :
  AllocateNewPage K fuel host s = Returns tt s' ->
  geometry s' = geometry s /\
  PagesInUse_ (stats s') = wrap_uint (PagesInUse_ (stats s) + 1).
Proof.
  unfold AllocateNewPage. destruct (_ >=? _); [discriminate|].
  destruct host as [a|]; [|discriminate]. intros E.
  apply init_blocks_geometry in E. destruct E as (E1 & E2 & _).
  rewrite E1, E2. split; reflexivity.
Qed.

Lemma first_block_in_page s a :
  loop_ok s ->
  (wrap_uint (a + pageHeader s - a) <? PageSize_ (stats s)) = true.
Proof.
  intros (G1 & G2 & G3 & G4 & G5 & G6).
  replace (a + pageHeader s - a) with (pageHeader s) by lia.
  unfold wrap_uint. rewrite Z.mod_small by nia. apply Z.ltb_lt. nia.
Qed.

(** With debug on and an object shorter than a pointer the first round of the
    loop runs off the page. *)
Lemma init_blocks_overruns K fuel a s :
  loop_ok s ->
  DebugOn_ (configuration s) = true ->
  ObjectSize_ (stats s) < PTR_SIZE ->
  init_blocks K (S fuel) a (a + pageHeader s) s = Fault.
Proof.
  intros L D HS. cbn [init_blocks].
  rewrite (first_block_in_page s a L), (init_block_overruns K _ s D HS).
  reflexivity.
Qed.

Lemma AllocateNewPage_returns_fits K fuel host s s' :
  loop_ok s ->
  AllocateNewPage K fuel host s = Returns tt s' ->
  paint_fits s.
Proof.
  intros L E D.
  destruct (Z_lt_le_dec (ObjectSize_ (stats s)) PTR_SIZE) as [HS|HS];
    [exfalso|exact HS].
  unfold AllocateNewPage in E. destruct (_ >=? _); [discriminate|].
  destruct host as [a|]; [|discriminate].
  destruct fuel as [|fuel]; [discriminate|].
  pose proof (geometry_link_new_page K a s) as Eg.
  rewrite (init_blocks_overruns K fuel a (link_new_page K a s)) in E.
  - discriminate.
  - eapply loop_ok_ext; eauto.
  - rewrite (geometry_config _ _ Eg). exact D.
  - rewrite (proj1 (geometry_sizes _ _ Eg)). exact HS.
Qed.

Lemma AllocateNewPage_returns_eq K fuel host s s' :
  loop_ok s ->
  AllocateNewPage K fuel host s = Returns tt s' ->
  exists a, host = Some a /\
    s' = init_n K (Z.to_nat (ObjectsPerPage_ (configuration s)))
           (a + pageHeader s) (link_new_page K a s).
Proof.
  intros L E.
  pose proof (AllocateNewPage_returns_fits K fuel host s s' L E) as F.
  destruct (AllocateNewPage_returns K fuel host s s' E) as (_ & a & ->).
  exists a. split; [reflexivity|].
  apply (AllocateNewPage_fuel_mono K fuel
           (S (Z.to_nat (ObjectsPerPage_ (configuration s))))) in E.
  unfold AllocateNewPage in E. destruct (_ >=? _); [discriminate|].
  assert (L1 : loop_ok (link_new_page K a s))
    by (eapply loop_ok_ext; [apply geometry_link_new_page|exact L]).
  assert (F1 : paint_fits (link_new_page K a s))
    by (eapply paint_fits_ext; [apply geometry_link_new_page|exact F]).
  pose proof (init_blocks_runs K (Z.to_nat (ObjectsPerPage_ (configuration s))) 0
                (fuel + S (Z.to_nat (ObjectsPerPage_ (configuration s)))) a
                (link_new_page K a s) L1 F1) as Hrun.
  destruct L as (L & _).
  replace (block_addr (link_new_page K a s) a 0)
    with (a + pageHeader (link_new_page K a s)) in Hrun
    by (unfold block_addr; simpl; lia).
  rewrite Hrun in E.
  - inversion E. reflexivity.
  - change (configuration (link_new_page K a s)) with (configuration s). lia.
  - lia.
Qed.

Lemma count_ok_no_overflow S cfg : count_ok S cfg -> no_overflow S cfg.
Proof.
  intros (R & HN & HS & Hfit).
  pose proof (D_spec_ge S cfg R) as HD.
  pose proof (PH_spec_ge S cfg R) as HPH.
  unfold config_in_range in R. unfold no_overflow, PageSize_spec, PTR_SIZE in *.
  repeat split; nia.
Qed.

Lemma count_ok_loop m0 S cfg : count_ok S cfg -> loop_ok (ctor_init m0 S cfg).
Proof.
  intros W. pose proof (count_ok_no_overflow S cfg W) as NO.
  destruct W as (R & HN & HS & Hfit).
  pose proof (ctor_init_geometry m0 S cfg R HN NO) as (E1 & E2 & E3 & _).
  pose proof (D_spec_ge S cfg R) as HD.
  pose proof (PH_spec_ge S cfg R) as HPH.
  unfold config_in_range in R. unfold loop_ok.
  rewrite E1, E2, E3.
  cbn [ctor_init OAStats_default configuration stats ObjectsPerPage_ PadBytes_ ObjectSize_].
  unfold PageSize_spec, PTR_SIZE in *. repeat split; lia.
Qed.

(** C9.  The constructor requests a page whatever the mode, passthrough
    included.  When it returns, [PagesInUse_] is 1 and, for objects of at
    least one byte, at least one block per page and page offsets below
    [2 ^ 32], [FreeObjects_] is [ObjectsPerPage_].  It raises only NO_PAGES or
    NO_MEMORY; with [MaxPages_ = 0] it always raises NO_PAGES.  With a page
    allowed and granted by the host it returns, unless debug is on and the
    object is shorter than a pointer: then the painting of the first block
    runs off the page and the constructor does not return. *)
Theorem ctor_always_allocates_page K fuel host m0 S cfg :
  ObjectAllocator_ctor K fuel host m0 S cfg
  = AllocateNewPage K fuel host (ctor_init m0 S cfg) /\
  (forall s, ObjectAllocator_ctor K fuel host m0 S cfg = Returns tt s ->
     PagesInUse_ (stats s) = 1 /\
     (count_ok S cfg -> FreeObjects_ (stats s) = ObjectsPerPage_ cfg)) /\
  (forall e s, ObjectAllocator_ctor K fuel host m0 S cfg = Throws e s ->
     e = E_NO_PAGES \/ e = E_NO_MEMORY) /\
  (MaxPages_ cfg = 0 ->
     ObjectAllocator_ctor K fuel host m0 S cfg
     = Throws E_NO_PAGES (ctor_init m0 S cfg)) /\
  (0 < MaxPages_ cfg -> host = None ->
     ObjectAllocator_ctor K fuel host m0 S cfg
     = Throws E_NO_MEMORY (ctor_init m0 S cfg)) /\
  (count_ok S cfg -> 0 < MaxPages_ cfg -> host <> None ->
     (Z.to_nat (ObjectsPerPage_ cfg) < fuel)%nat ->
     (DebugOn_ cfg = true -> PTR_SIZE <= S) ->
     exists s, ObjectAllocator_ctor K fuel host m0 S cfg = Returns tt s) /\
  (count_ok S cfg -> 0 < MaxPages_ cfg -> host <> None -> (0 < fuel)%nat ->
     DebugOn_ cfg = true -> S < PTR_SIZE ->
     ObjectAllocator_ctor K fuel host m0 S cfg = Fault).
Proof.
  split; [reflexivity|]. unfold ObjectAllocator_ctor.
  split; [|split; [|split; [|split; [|split]]]].
  - intros s E. split.
    + destruct (AllocateNewPage_geometry K fuel host _ s E) as (_ & ->).
      reflexivity.
    + intros W. pose proof (count_ok_loop m0 S cfg W) as L.
      destruct (AllocateNewPage_returns_eq K fuel host _ s L E) as (a & _ & ->).
      destruct (init_n_fields K
                  (Z.to_nat (ObjectsPerPage_ (configuration (ctor_init m0 S cfg))))
                  (a + pageHeader (ctor_init m0 S cfg))
                  (link_new_page K a (ctor_init m0 S cfg))) as (_ & _ & E3 & _).
      rewrite E3. destruct W as (R & HN & _). unfold config_in_range in R.
      cbn [ctor_init OAStats_default configuration ObjectsPerPage_ FreeObjects_ set_FreeObjects
           link_new_page stats set_stats set_PagesInUse set_PageList set_heap].
      replace (Nat.eqb (Z.to_nat (ObjectsPerPage_ cfg)) 0) with false
        by (symmetry; apply Nat.eqb_neq; lia).
      unfold wrap_uint. rewrite Z.mod_small by lia. lia.
  - intros e s E. apply AllocateNewPage_throws in E.
    destruct E as (_ & [(-> & _)|(-> & _)]); auto.
  - intros HM. unfold AllocateNewPage.
    cbn [ctor_init OAStats_default stats PagesInUse_ configuration MaxPages_]. rewrite HM.
    reflexivity.
  - intros HM ->. unfold AllocateNewPage.
    cbn [ctor_init OAStats_default stats PagesInUse_ configuration MaxPages_].
    destruct (Z.geb_spec 0 (MaxPages_ cfg)); [lia|reflexivity].
  - intros W HM Hh Hfuel HS. destruct host as [a|]; [|congruence].
    pose proof (count_ok_loop m0 S cfg W) as L.
    unfold AllocateNewPage.
    cbn [ctor_init OAStats_default stats PagesInUse_ configuration MaxPages_].
    destruct (Z.geb_spec 0 (MaxPages_ cfg)); [lia|].
    eexists.
    match goal with |- init_blocks _ _ _ (_ + pageHeader ?s1) ?s1 = _ =>
      replace (a + pageHeader s1) with (block_addr s1 a 0)
        by (unfold block_addr; simpl; lia);
      apply (init_blocks_runs K (Z.to_nat (ObjectsPerPage_ cfg)) 0 fuel a s1)
    end.
    + exact L.
    + exact HS.
    + destruct W as (R & HN & _).
      change (Z.of_nat 0 + Z.of_nat (Z.to_nat (ObjectsPerPage_ cfg))
              = ObjectsPerPage_ cfg). lia.
    + exact Hfuel.
  - intros W HM Hh Hfuel D HS. destruct host as [a|]; [|congruence].
    pose proof (count_ok_loop m0 S cfg W) as L.
    unfold AllocateNewPage.
    cbn [ctor_init OAStats_default stats PagesInUse_ configuration MaxPages_].
    destruct (Z.geb_spec 0 (MaxPages_ cfg)); [lia|].
    destruct fuel as [|fuel]; [lia|].
    apply init_blocks_overruns; [exact L|exact D|exact HS].
Qed.

(** C6.  For construction parameters within their types, at least one block
    per page and sizes that do not overflow, the geometry computed by the
    constructor, and kept by the allocator it returns, is
    [PH = align (W + H + P, A)], [D = align (H + 2P + S, A)],
    [PageSize = PH + (N - 1) * D + S + P], [LeftAlignSize = PH - (W + H + P)]
    and [InterAlignSize = D - (H + 2P + S)]. *)
Theorem geometry_at_construction K fuel host m0 S cfg s :
  config_in_range S cfg ->
  1 <= ObjectsPerPage_ cfg ->
  no_overflow S cfg ->
  s = ctor_init m0 S cfg \/
  ObjectAllocator_ctor K fuel host m0 S cfg = Returns tt s ->
  pageHeader s = PH_spec cfg /\
  dataSize s = D_spec S cfg /\
  PageSize_ (stats s) = PageSize_spec S cfg /\
  LeftAlignSize_ (configuration s)
    = PH_spec cfg - (PTR_SIZE + size_ (HBlockInfo_ cfg) + PadBytes_ cfg) /\
  InterAlignSize_ (configuration s)
    = D_spec S cfg - (size_ (HBlockInfo_ cfg) + 2 * PadBytes_ cfg + S).
Proof.
  intros R HN NO Hs.
  pose proof (ctor_init_geometry m0 S cfg R HN NO) as Hg. cbv zeta in Hg.
  destruct Hs as [->|E]; [exact Hg|].
  unfold ObjectAllocator_ctor in E.
  destruct (AllocateNewPage_geometry K fuel host _ s E) as (Eg & _).
  destruct (geometry_sizes _ _ Eg) as (_ & E5).
  rewrite (geometry_config _ _ Eg), (geometry_pageHeader _ _ Eg),
    (dataSize_ext _ _ Eg), E5.
  exact Hg.
Qed.

(** ** C10: what [DumpMemoryInUse] can see *)

Lemma dump_blocks_blind s n : forall obj leaks calls,
  type_ (HBlockInfo_ (configuration s)) = hbNone \/
  type_ (HBlockInfo_ (configuration s)) = hbExternal ->
  dump_blocks s n obj leaks calls = (leaks, calls).
Proof.
  induction n as [|n IH]; intros obj leaks calls T; simpl; [reflexivity|].
  destruct T as [T|T]; rewrite T; apply IH; auto.
Qed.

Lemma dump_pages_blind fuel s : forall page leaks calls r,
  type_ (HBlockInfo_ (configuration s)) = hbNone \/
  type_ (HBlockInfo_ (configuration s)) = hbExternal ->
  dump_pages fuel s page leaks calls = Some r -> r = (leaks, calls).
Proof.
  induction fuel as [|fuel IH]; intros page leaks calls r T E; simpl in E;
    [discriminate|].
  destruct (page =? 0); [congruence|].
  rewrite dump_blocks_blind in E by exact T. eapply IH; eauto.
Qed.

Lemma dump_pages_terminates s : forall pages fuel page leaks calls,
  type_ (HBlockInfo_ (configuration s)) = hbNone \/
  type_ (HBlockInfo_ (configuration s)) = hbExternal ->
  chain (heap s) page pages ->
  (length pages < fuel)%nat ->
  dump_pages fuel s page leaks calls = Some (leaks, calls).
Proof.
  induction pages as [|a t IH]; intros fuel page leaks calls T C Hf;
    (destruct fuel as [|fuel]; [simpl in Hf; lia|]); simpl in *.
  - subst page. reflexivity.
  - destruct C as (-> & Hn & C).
    destruct (Z.eqb_spec a 0); [contradiction|].
    rewrite dump_blocks_blind by exact T. apply IH; auto. lia.
Qed.

(** C10.  With header flavor none or external, [DumpMemoryInUse] returns 0
    and never calls the callback, whatever blocks are allocated: it cannot
    return anything else, and on a finite page list it returns.  A scan that
    reports a leak therefore runs with flavor basic or extended, where a block
    is reported exactly when the byte just before its left pad is not zero. *)
Theorem DumpMemoryInUse_blind s :
  (type_ (HBlockInfo_ (configuration s)) = hbNone \/
   type_ (HBlockInfo_ (configuration s)) = hbExternal ->
   (forall fuel r, DumpMemoryInUse fuel s = Some r -> r = (0, [])) /\
   (forall pages fuel,
      chain (heap s) (PageList_ s) pages -> (length pages < fuel)%nat ->
      DumpMemoryInUse fuel s = Some (0, []))) /\
  (forall fuel leaks calls,
     DumpMemoryInUse fuel s = Some (leaks, calls) ->
     leaks <> 0 \/ calls <> [] ->
     type_ (HBlockInfo_ (configuration s)) = hbBasic \/
     type_ (HBlockInfo_ (configuration s)) = hbExtended) /\
  (type_ (HBlockInfo_ (configuration s)) = hbBasic \/
   type_ (HBlockInfo_ (configuration s)) = hbExtended ->
   forall obj leaks calls,
     dump_blocks s 1 obj leaks calls
     = if heap s (obj - PadBytes_ (configuration s) - 1) =? 0
       then (leaks, calls)
       else (wrap_uint (leaks + 1), calls ++ [(obj, ObjectSize_ (stats s))])).
Proof.
  split; [|split].
  - intros T. split.
    + intros fuel r E. unfold DumpMemoryInUse in E.
      eapply dump_pages_blind; eauto.
    + intros pages fuel C Hf. unfold DumpMemoryInUse.
      eapply dump_pages_terminates; eauto.
  - intros fuel leaks calls E Hl.
    destruct (type_ (HBlockInfo_ (configuration s))) eqn:T; auto.
    + apply dump_pages_blind in E; [|rewrite T; auto].
      inversion E; subst. destruct Hl; congruence.
    + apply dump_pages_blind in E; [|rewrite T; auto].
      inversion E; subst. destruct Hl; congruence.
  - intros T obj leaks calls. simpl.
    destruct T as [T|T]; rewrite T;
      destruct (heap s (obj - PadBytes_ (configuration s) - 1) =? 0);
      reflexivity.
Qed.

(** ** The debug checks of [Free] *)

Lemma right_pad_corrupted_false K m r n : forall j,
  right_pad_corrupted K m r n j = false <->
  (forall y, j <= y < j + Z.of_nat n -> m (r + y) = PAD_PATTERN K).
Proof.
  induction n as [|n IH]; intros j; simpl.
  - split; [intros _ y Hy; lia|reflexivity].
  - destruct (Z.eqb_spec (m (r + j)) (PAD_PATTERN K)) as [E|E]; simpl.
    + rewrite IH. split.
      * intros H y Hy. destruct (Z.eq_dec y j) as [->|Hne]; [exact E|].
        apply H. lia.
      * intros H y Hy. apply H. lia.
    + split; [discriminate|]. intros H. exfalso. apply E. apply H. lia.
Qed.

Lemma CheckPadding_loop_returns K obj s n : forall i,
  0 <= i -> i + Z.of_nat n = PadBytes_ (configuration s) ->
  PadBytes_ (configuration s) < 2 ^ 32 ->
  (CheckPadding_loop K obj n i s = Returns tt s <->
   (forall y, i <= y < PadBytes_ (configuration s) ->
      heap s (obj - PadBytes_ (configuration s) + y) = PAD_PATTERN K) /\
   (n <> O ->
    forall y, 0 <= y < PadBytes_ (configuration s) ->
      heap s (obj + ObjectSize_ (stats s) + y) = PAD_PATTERN K)).
Proof.
  induction n as [|n IH]; intros i Hi Hn HP.
  - simpl. split; [|reflexivity]. intros _. split; [intros y Hy; lia|].
    intros H. contradiction.
  - cbn [CheckPadding_loop].
    destruct (Z.eqb_spec (heap s (obj - PadBytes_ (configuration s) + i))
                (PAD_PATTERN K)) as [E|E]; cbn [negb].
    + assert (Ew : wrap_uint (PadBytes_ (configuration s) - 1)
                   = PadBytes_ (configuration s) - 1).
      { unfold wrap_uint. apply Z.mod_small. lia. }
      rewrite Ew.
      destruct (Z.eqb_spec i (PadBytes_ (configuration s) - 1)) as [El|El];
        cbn [andb].
      * assert (n = O) by lia. subst n.
        destruct (right_pad_corrupted K (heap s) (obj + ObjectSize_ (stats s))
                    (Z.to_nat (PadBytes_ (configuration s))) 0) eqn:Er.
        -- split; [discriminate|]. intros (_ & H).
           assert (Er' : right_pad_corrupted K (heap s)
                           (obj + ObjectSize_ (stats s))
                           (Z.to_nat (PadBytes_ (configuration s))) 0 = false).
           { apply right_pad_corrupted_false. intros y Hy.
             apply H; [discriminate|lia]. }
           congruence.
        -- simpl. split; [|reflexivity]. intros _.
           rewrite right_pad_corrupted_false in Er. split.
           ++ intros y Hy. assert (y = i) by lia. subst y. exact E.
           ++ intros _ y Hy. apply Er. lia.
      * rewrite (IH (i + 1)) by lia. split.
        -- intros (H1 & H2). split.
           ++ intros y Hy. destruct (Z.eq_dec y i) as [->|Hne]; [exact E|].
              apply H1. lia.
           ++ intros _. apply H2. lia.
        -- intros (H1 & H2). split.
           ++ intros y Hy. apply H1. lia.
           ++ intros _. apply H2. discriminate.
    + split; [discriminate|]. intros (H & _). exfalso. apply E. apply H. lia.
Qed.

Lemma CheckPadding_returns_iff K obj s :
  0 <= PadBytes_ (configuration s) < 2 ^ 32 ->
  (CheckPadding K obj s = Returns tt s <->
   forall y,
     obj - PadBytes_ (configuration s) <= y < obj
     \/ obj + ObjectSize_ (stats s) <= y
        < obj + ObjectSize_ (stats s) + PadBytes_ (configuration s) ->
     heap s y = PAD_PATTERN K).
Proof.
  intros HP. unfold CheckPadding.
  rewrite (CheckPadding_loop_returns K obj s _ 0) by lia. split.
  - intros (H1 & H2) y [Hy|Hy].
    + replace y with (obj - PadBytes_ (configuration s)
                      + (y - (obj - PadBytes_ (configuration s)))) by lia.
      apply H1. lia.
    + replace y with (obj + ObjectSize_ (stats s)
                      + (y - (obj + ObjectSize_ (stats s)))) by lia.
      apply H2; lia.
  - intros H. split.
    + intros y Hy. apply H. lia.
    + intros _ y Hy. apply H. lia.
Qed.

Lemma CheckPageBoundary_loop_ok s obj : forall pages fuel page a,
  chain (heap s) page pages ->
  In a pages -> in_page s a obj = true ->
  (length pages <= fuel)%nat ->
  CheckPageBoundary_loop fuel obj page s = Returns tt s.
Proof.
  induction pages as [|x t IH]; intros fuel page a C Ha Hin Hf; [destruct Ha|].
  destruct fuel as [|fuel]; [simpl in Hf; lia|].
  simpl in C. destruct C as (-> & Hx & C). simpl.
  destruct (Z.eqb_spec x 0); [contradiction|].
  destruct (in_page s x obj) eqn:Ex; [reflexivity|].
  destruct Ha as [->|Ha]; [congruence|].
  destruct (Z.eqb_spec (load_ptr (heap s) x) 0) as [E0|E0].
  - rewrite E0 in C. apply chain_nil_head in C. subst t. destruct Ha.
  - apply (IH fuel _ a); auto. simpl in Hf. lia.
Qed.


Lemma block_page_of K s pages b :
  geom_ok K s -> In b (all_blocks s pages) ->
  exists a, In a pages /\ in_page s a b = true.
Proof.
  intros G Hb. apply in_all_blocks in Hb. destruct Hb as (a & Ha & Hb).
  exists a. split; [exact Ha|].
  pose proof (block_in_page K s a b G Hb) as B.
  pose proof (geom_sizes K s G) as (HD & HS & HP & HH & _).
  unfold in_page, PTR_SIZE in *.
  apply andb_true_intro. split; [apply Z.leb_le|apply Z.ltb_lt]; lia.
Qed.

(** ** C5: double free *)


(** ** C7: the free list is LIFO *)

Lemma init_n_snoc K j : forall d s,
  init_n K (S j) d s
  = fresh_block K (d + Z.of_nat j * dataSize s) (init_n K j d s).
Proof.
  induction j as [|j IH]; intros d s.
  - simpl. rewrite Z.add_0_r. reflexivity.
  - change (init_n K (S (S j)) d s)
      with (init_n K (S j) (d + dataSize s) (fresh_block K d s)).
    rewrite IH. rewrite (dataSize_ext _ _ (geometry_init_block K d s)).
    cbn [init_n]. f_equal. lia.
Qed.

Lemma allocate_header_total K host label p s :
  host_succeeds s host ->
  exists s', allocate_header K host label p s = Returns p s'.
Proof.
  unfold host_succeeds, allocate_header. intros Hh.
  destruct (type_ (HBlockInfo_ (configuration s))); try (eexists; reflexivity).
  destruct (Hh eq_refl) as (Hi & Hl).
  destruct (new_info host) as [info|]; [|congruence].
  unfold MemBlockInfo_ctor. rewrite Hl.
  destruct label; eexists; reflexivity.
Qed.

Lemma pop_block_total K host label s :
  FreeList_ s <> 0 ->
  host_succeeds s host ->
  exists s', pop_block K host label s = Returns (FreeList_ s) s'.
Proof.
  intros Hn Hh. unfold pop_block.
  destruct (Z.eqb_spec (FreeList_ s) 0); [contradiction|].
  apply allocate_header_total.
  unfold host_succeeds in *. destruct (DebugOn_ (configuration s)); exact Hh.
Qed.

Lemma pop_block_paint K host label s p s' :
  geom_ok K s ->
  pop_block K host label s = Returns p s' ->
  (forall y,
     p - PadBytes_ (configuration s) <= y < p
     \/ p + ObjectSize_ (stats s) <= y -> heap s' y = heap s y) /\
  (DebugOn_ (configuration s) = true ->
   forall y, p <= y < p + ObjectSize_ (stats s) ->
     heap s' y = ALLOCATED_PATTERN K mod 256).
Proof.
  intros G. unfold pop_block.
  destruct (Z.eqb_spec (FreeList_ s) 0) as [E|E]; [discriminate|].
  intros X.
  pose proof (geom_sizes K s G) as (HD & HS & HP & HH & _).
  destruct (count_allocation_sizes (stats s)) as (C1 & C2 & _).
  destruct (DebugOn_ (configuration s)).
  - match type of X with allocate_header _ _ _ _ ?st = _ => set (s3 := st) in * end.
    assert (Eg3 : geometry s3 = geometry s).
    { unfold s3, geometry. cbn -[count_allocation]. rewrite C1, C2. reflexivity. }
    assert (G3 : geom_ok K s3) by (eapply geom_ok_ext; eauto).
    apply (allocate_header_returns K host label _ s3 p s' G3) in X.
    destruct X as (-> & Eg & Est & Efl & Epl & Hout).
    split.
    + intros y Hy. rewrite Hout by (cbn; lia). cbn.
      rewrite memset_out by lia. reflexivity.
    + intros _ y Hy. rewrite Hout by (cbn; lia). cbn.
      rewrite memset_in by lia. reflexivity.
  - match type of X with allocate_header _ _ _ _ ?st = _ => set (s3 := st) in * end.
    assert (Eg3 : geometry s3 = geometry s).
    { unfold s3, geometry. cbn -[count_allocation]. rewrite C1, C2. reflexivity. }
    assert (G3 : geom_ok K s3) by (eapply geom_ok_ext; eauto).
    apply (allocate_header_returns K host label _ s3 p s' G3) in X.
    destruct X as (-> & Eg & Est & Efl & Epl & Hout).
    split; [|discriminate].
    intros y Hy. rewrite Hout by (cbn; lia). reflexivity.
Qed.

Lemma Free_total K fuel p s pages fl live :
  pool_inv K s pages fl live ->
  UseCPPMemManager_ (configuration s) = false ->
  In p live ->
  (DebugOn_ (configuration s) = true ->
   (forall y,
      p - PadBytes_ (configuration s) <= y < p
      \/ p + ObjectSize_ (stats s) <= y
         < p + ObjectSize_ (stats s) + PadBytes_ (configuration s) ->
      heap s y = PAD_PATTERN K) /\
   heap s (p + PTR_SIZE) <> FREED_PATTERN K) ->
  (length pages <= fuel)%nat ->
  exists s', Free K fuel p s = Returns tt s'.
Proof.
  intros I Hpool Hp Hdbg Hf.
  pose proof (inv_geom K s pages fl live I) as G.
  pose proof (geom_sizes K s G) as (HD & HS & HP & HH & _).
  pose proof (pool_live_nonnull K s pages fl live p I Hp) as Hnz.
  apply Z.eqb_neq in Hnz.
  unfold Free. cbn [set_stats configuration]. rewrite Hpool.
  destruct (DebugOn_ (configuration s));
    [|cbn [bind]; rewrite Hnz; eexists; reflexivity].
  destruct (Hdbg eq_refl) as (Hpad & Hbyte).
  set (s1 := set_stats s (count_free (stats s))).
  destruct (count_free_fields (stats s)) as (C1 & C2 & _).
  assert (Hb : CheckPageBoundary fuel p s1 = Returns tt s1).
  { pose proof (pool_live_nodes K s pages fl live p I Hp) as Hpb.
    destruct (block_page_of K s pages p G Hpb) as (a & Ha & Hin).
    unfold CheckPageBoundary.
    apply (CheckPageBoundary_loop_ok s1 p pages fuel _ a).
    - apply (inv_page_chain K s pages fl live I).
    - exact Ha.
    - unfold in_page in *. unfold s1. cbn -[count_free]. rewrite C2. exact Hin.
    - exact Hf. }
  assert (Hc : CheckPadding K p s1 = Returns tt s1).
  { apply CheckPadding_returns_iff.
    - unfold s1. cbn -[count_free]. lia.
    - intros y Hy. unfold s1 in *. cbn -[count_free] in *.
      rewrite C1 in Hy. apply Hpad. exact Hy. }
  unfold debug_free. rewrite Hb. simpl. rewrite Hnz, Hc. simpl.
  change (heap s1) with (heap s).
  destruct (Z.eqb_spec (heap s (p + PTR_SIZE)) (FREED_PATTERN K));
    [contradiction|].
  simpl. eexists. reflexivity.
Qed.

(** The block at the head of the free list of a fresh page is the last one
    initialised: its pads are painted and the byte behind a pad of width zero
    is the zeroed slack of the page. *)
Lemma fresh_head_block K a s :
  geom_ok K s ->
  0 <= PAD_PATTERN K < 256 ->
  DebugOn_ (configuration s) = true ->
  let s0 := init_n K (Z.to_nat (ObjectsPerPage_ (configuration s)))
              (a + pageHeader s) (link_new_page K a s) in
  let b := FreeList_ s0 in
  (forall y,
     b - PadBytes_ (configuration s) <= y < b
     \/ b + ObjectSize_ (stats s) <= y
        < b + ObjectSize_ (stats s) + PadBytes_ (configuration s) ->
     heap s0 y = PAD_PATTERN K) /\
  (PadBytes_ (configuration s) = 0 -> heap s0 (b + ObjectSize_ (stats s)) = 0).
Proof.
  intros G HPAD Hdbg.
  pose proof (geom_sizes K s G) as (HD & HS & HP & HH & HPH & HPS & HN).
  pose proof (g_PS K s G) as EPS.
  set (s1 := link_new_page K a s).
  assert (Eg1 : geometry s1 = geometry s) by apply geometry_link_new_page.
  assert (G1 : geom_ok K s1) by (eapply geom_ok_ext; eauto).
  destruct (Z.to_nat (ObjectsPerPage_ (configuration s))) as [|n] eqn:En; [lia|].
  cbv zeta. rewrite init_n_snoc.
  set (sp := init_n K n (a + pageHeader s) s1).
  assert (Egp : geometry sp = geometry s).
  { unfold sp. rewrite geometry_init_n. exact Eg1. }
  assert (Gp : geom_ok K sp) by (eapply geom_ok_ext; eauto).
  change (dataSize s1) with (dataSize s).
  set (b := a + pageHeader s + Z.of_nat n * dataSize s).
  destruct (init_block_fields K b sp) as (F1 & _). rewrite F1.
  pose proof (geometry_config _ _ Egp) as Ecp.
  destruct (geometry_sizes _ _ Egp) as (ESp & _).
  split.
  - intros y Hy. rewrite (init_block_pads K b sp y Gp).
    + apply Z.mod_small. exact HPAD.
    + rewrite Ecp. exact Hdbg.
    + rewrite Ecp, ESp. exact Hy.
  - intros HP0.
    rewrite init_block_outside; [|exact Gp|rewrite Ecp, ESp; lia].
    unfold sp. rewrite init_n_outside; [|exact G1|].
    + apply link_new_page_slack; [exact G|]. unfold b. nia.
    + right. change (dataSize s1) with (dataSize s).
      change (configuration s1) with (configuration s).
      change (ObjectSize_ (stats s1)) with (ObjectSize_ (stats s)).
      unfold b. nia.
Qed.

Lemma Allocate_pooled K fuel host label s :
  UseCPPMemManager_ (configuration s) = false ->
  FreeList_ s <> 0 ->
  Allocate K fuel host label s = pop_block K host label s.
Proof.
  intros Hpool Hn. unfold Allocate. rewrite Hpool.
  destruct (Z.eqb_spec (FreeList_ s) 0); [contradiction|]. reflexivity.
Qed.

(** C7.  In a fresh pooled allocator (well-formed configuration, a valid
    first page, header records available when the flavor is external) the
    calls [p1 = Allocate(); Free(p1); p2 = Allocate()] all return and
    [p2 = p1].  The free list of the fresh allocator is the blocks of the page
    in reverse order, with [p1] at its head; each [Allocate] pops [p1] and
    leaves the [rest] as the free list, and [Free] pushes [p1] back at the
    head of the [rest]; [FreeObjects_] and [ObjectsInUse_] follow. *)
Theorem LIFO_reuse K fuel a m0 S cfg host1 host2 label1 label2 :
  wf_config K S cfg ->
  patterns_ok K ->
  UseCPPMemManager_ cfg = false ->
  1 <= MaxPages_ cfg ->
  0 < a -> a + PageSize_spec S cfg + PTR_SIZE <= 2 ^ 64 ->
  (type_ (HBlockInfo_ cfg) = hbExternal ->
   (new_info host1 <> None /\ new_label host1 = true) /\
   (new_info host2 <> None /\ new_label host2 = true)) ->
  (Z.to_nat (ObjectsPerPage_ cfg) < fuel)%nat ->
  exists s0 p1 s1 s2 p2 s3 rest,
    ObjectAllocator_ctor K fuel (Some a) m0 S cfg = Returns tt s0 /\
    Allocate K fuel host1 label1 s0 = Returns p1 s1 /\
    Free K fuel p1 s1 = Returns tt s2 /\
    Allocate K fuel host2 label2 s2 = Returns p2 s3 /\
    p2 = p1 /\
    p1 :: rest = rev (blocks_of_page s0 a) /\
    chain (heap s0) (FreeList_ s0) (p1 :: rest) /\
    chain (heap s1) (FreeList_ s1) rest /\
    chain (heap s2) (FreeList_ s2) (p1 :: rest) /\
    chain (heap s3) (FreeList_ s3) rest /\
    FreeObjects_ (stats s0) = ObjectsPerPage_ cfg /\
    FreeObjects_ (stats s1) = ObjectsPerPage_ cfg - 1 /\
    FreeObjects_ (stats s2) = ObjectsPerPage_ cfg /\
    FreeObjects_ (stats s3) = ObjectsPerPage_ cfg - 1 /\
    ObjectsInUse_ (stats s0) = 0 /\
    ObjectsInUse_ (stats s1) = 1 /\
    ObjectsInUse_ (stats s2) = 0 /\
    ObjectsInUse_ (stats s3) = 1.
Proof.
  intros W (HAL & HFR & HPAD & Haf & Hpf) Hpool HM Ha Hhi Hhost Hfuel.
  set (si := ctor_init m0 S cfg).
  pose proof (ctor_init_empty K m0 S cfg W) as Ii. fold si in Ii.
  pose proof (wf_config_no_overflow K S cfg W) as NO.
  assert (W' := W). destruct W' as (Rg & HN & _).
  pose proof (ctor_init_geometry m0 S cfg Rg HN NO) as (_ & _ & E3 & _).
  fold si in E3.
  pose proof (inv_geom K si _ _ _ Ii) as Gi.
  destruct (AllocateNewPage_inv K fuel a si [] [] [] Ii) as (Er & I0).
  { unfold page_fresh. rewrite E3. simpl. tauto. }
  { cbn. lia. }
  { exact Hfuel. }
  cbv zeta in Er, I0.
  set (s0 := init_n K (Z.to_nat (ObjectsPerPage_ (configuration si)))
               (a + pageHeader si) (link_new_page K a si)) in *.
  assert (Eg0 : geometry s0 = geometry si).
  { unfold s0. rewrite geometry_init_n. apply geometry_link_new_page. }
  pose proof (geometry_config _ _ Eg0) as Ec0.
  destruct (geometry_sizes _ _ Eg0) as (ES0 & _).
  pose proof (inv_geom K s0 _ _ _ I0) as G0.
  pose proof (geom_sizes K s0 G0) as (HD & HS & HP & HH & _).
  assert (Hpool0 : UseCPPMemManager_ (configuration s0) = false)
    by (rewrite Ec0; exact Hpool).
  assert (Ht0 : type_ (HBlockInfo_ (configuration s0)) = type_ (HBlockInfo_ cfg))
    by (rewrite Ec0; reflexivity).
  rewrite app_nil_r in I0.
  destruct (rev (blocks_of_page si a)) as [|x fl'] eqn:Efl.
  { apply (f_equal (@length Z)) in Efl. rewrite length_rev in Efl.
    unfold blocks_of_page in Efl. rewrite length_map, length_seq in Efl.
    simpl in Efl. cbn [si ctor_init configuration ObjectsPerPage_] in Efl. lia. }
  assert (Hlen : Z.of_nat (length (x :: fl')) = ObjectsPerPage_ cfg).
  { rewrite <- Efl, length_rev. unfold blocks_of_page.
    rewrite length_map, length_seq.
    cbn [si ctor_init configuration ObjectsPerPage_]. lia. }
  pose proof (inv_free_chain K s0 _ _ _ I0) as C0.
  pose proof C0 as C0'. cbn [chain] in C0.
  destruct C0 as (Ehd0 & Hx0 & _).
  assert (Hn0 : FreeList_ s0 <> 0) by congruence.
  (* first Allocate *)
  destruct (pop_block_total K host1 label1 s0 Hn0) as (s1 & E1).
  { unfold host_succeeds. rewrite Ht0. intros T. apply Hhost. exact T. }
  rewrite Ehd0 in E1.
  destruct (pop_block_inv K host1 label1 s0 [a] x fl' [] x s1 I0 E1) as (_ & I1).
  destruct (pop_block_returns K host1 label1 s0 x s1 G0 E1)
    as (_ & _ & _ & _ & Eg1 & _).
  destruct (pop_block_paint K host1 label1 s0 x s1 G0 E1) as (Hkeep1 & Hpaint1).
  pose proof (geometry_config _ _ Eg1) as Ec1.
  destruct (geometry_sizes _ _ Eg1) as (ES1 & _).
  assert (Hpool1 : UseCPPMemManager_ (configuration s1) = false)
    by (rewrite Ec1; exact Hpool0).
  (* Free *)
  destruct (Free_total K fuel x s1 [a] fl' [x] I1 Hpool1) as (s2 & E2).
  { left. reflexivity. }
  { rewrite Ec1, ES1. intros Hdbg.
    assert (Hdbgi : DebugOn_ (configuration si) = true)
      by (rewrite <- Ec0; exact Hdbg).
    destruct (fresh_head_block K a si Gi HPAD Hdbgi) as (Hpads & Hslack).
    cbv zeta in Hpads, Hslack. fold s0 in Hpads, Hslack.
    rewrite Ehd0 in Hpads, Hslack. rewrite <- Ec0, <- ES0 in Hpads, Hslack.
    split.
    - intros y Hy. rewrite Hkeep1 by lia. apply Hpads. exact Hy.
    - unfold PTR_SIZE.
      destruct (Z.eq_dec (ObjectSize_ (stats s0)) 8) as [E8|N8].
      + rewrite Hkeep1 by lia.
        destruct (Z.eq_dec (PadBytes_ (configuration s0)) 0) as [P0|P0].
        * replace (x + 8) with (x + ObjectSize_ (stats s0)) by lia.
          rewrite (Hslack P0). lia.
        * rewrite Hpads by lia. exact Hpf.
      + rewrite (Hpaint1 Hdbg) by lia.
        rewrite Z.mod_small by exact HAL. exact Haf. }
  { simpl. lia. }
  pose proof (Free_inv K fuel x s1 [a] fl' [x] s2 I1 Hpool1
                ltac:(left; reflexivity) E2) as I2.
  pose proof (inv_free_chain K s2 _ _ _ I2) as C2.
  pose proof C2 as C2'. cbn [chain] in C2.
  destruct C2 as (Ehd2 & _ & _).
  pose proof (inv_geom K s1 _ _ _ I1) as G1.
  assert (Hr1 : 0 <= FreeList_ s1 < 2 ^ 64).
  { eapply chain_head_range; [apply (inv_free_chain K s1 _ _ _ I1)|].
    apply (chain_nodes_range K s1 [a]); auto.
    - apply (inv_pages K s1 _ _ _ I1).
    - intros z Hz. eapply pool_free_nodes; eauto. }
  destruct (Free_returns K fuel x s1 s2 G1 Hpool1 Hr1 E2) as (_ & _ & Eg2 & _).
  pose proof (geometry_config _ _ Eg2) as Ec2.
  assert (Hpool2 : UseCPPMemManager_ (configuration s2) = false)
    by (rewrite Ec2; exact Hpool1).
  assert (Hn2 : FreeList_ s2 <> 0) by congruence.
  (* second Allocate *)
  destruct (pop_block_total K host2 label2 s2 Hn2) as (s3 & E3').
  { unfold host_succeeds. rewrite Ec2, Ec1, Ht0. intros T. apply Hhost. exact T. }
  rewrite Ehd2 in E3'.
  destruct (pop_block_inv K host2 label2 s2 [a] x fl' _ x s3 I2 E3')
    as (_ & I3).
  assert (Erm : remove Z.eq_dec x [x] = []).
  { cbn [remove]. destruct (Z.eq_dec x x); [reflexivity|contradiction]. }
  rewrite Erm in I2, I3.
  cbn [length] in Hlen.
  exists s0, x, s1, s2, x, s3, fl'.
  split; [exact Er|]. split.
  { rewrite (Allocate_pooled K fuel host1 label1 s0 Hpool0 Hn0). exact E1. }
  split; [exact E2|]. split.
  { rewrite (Allocate_pooled K fuel host2 label2 s2 Hpool2 Hn2). exact E3'. }
  split; [reflexivity|]. split.
  { rewrite <- Efl. f_equal. symmetry. apply blocks_of_page_ext. exact Eg0. }
  split; [exact C0'|].
  split; [exact (inv_free_chain K s1 _ _ _ I1)|].
  split; [exact C2'|].
  split; [exact (inv_free_chain K s3 _ _ _ I3)|].
  rewrite (inv_free K s0 _ _ _ I0), (inv_free K s1 _ _ _ I1),
    (inv_free K s2 _ _ _ I2), (inv_free K s3 _ _ _ I3),
    (inv_used K s0 _ _ _ I0), (inv_used K s1 _ _ _ I1),
    (inv_used K s2 _ _ _ I2), (inv_used K s3 _ _ _ I3).
  cbn [length]. repeat split; lia.
Qed.

(** ** C8: empty-page reclamation *)

Lemma with_lists_id s :
  with_lists s (heap s) (PageList_ s) (FreeList_ s)
    (FreeObjects_ (stats s)) (PagesInUse_ (stats s)) = s.
Proof. destruct s as [c [] ? ? ? ? ? ? ?]. reflexivity. Qed.

Lemma in_page_with_lists s m pl h f g a x :
  in_page (with_lists s m pl h f g) a x = in_page s a x.
Proof. reflexivity. Qed.

Lemma IsPageEmpty_loop_spec s a m pl h f g : forall l fuel fb i,
  chain m fb l ->
  0 <= i < ObjectsPerPage_ (configuration s) ->
  ObjectsPerPage_ (configuration s) < 2 ^ 32 ->
  (length l < fuel)%nat ->
  IsPageEmpty_loop fuel (with_lists s m pl h f g) a fb i
  = Some (ObjectsPerPage_ (configuration s) <=? i + Z.of_nat (count_in s a l)).
Proof.
  induction l as [|x t IH]; intros fuel fb i C Hi HN Hf;
    (destruct fuel as [|fuel]; [simpl in Hf; lia|]); simpl in C.
  - subst fb. simpl. f_equal. symmetry. apply Z.leb_gt. unfold count_in. simpl. lia.
  - destruct C as (-> & Hx & C). cbn [IsPageEmpty_loop].
    destruct (Z.eqb_spec x 0); [contradiction|].
    rewrite in_page_with_lists.
    unfold count_in. cbn [filter].
    change (heap (with_lists s m pl h f g)) with m.
    change (configuration (with_lists s m pl h f g)) with (configuration s).
    destruct (in_page s a x) eqn:Ein.
    + assert (Ew : wrap_uint (i + 1) = i + 1)
        by (unfold wrap_uint; apply Z.mod_small; lia).
      rewrite Ew. cbn [length].
      destruct (Z.geb_spec (i + 1) (ObjectsPerPage_ (configuration s))).
      * f_equal. symmetry. apply Z.leb_le. lia.
      * rewrite (IH fuel _ (i + 1)); [|exact C|lia|exact HN|simpl in Hf; lia].
        f_equal. unfold count_in. f_equal. lia.
    + rewrite (IH fuel _ i); [|exact C|lia|exact HN|simpl in Hf; lia].
      reflexivity.
Qed.

Lemma IsPageEmpty_spec s a m pl h f g l fuel :
  chain m h l ->
  1 <= ObjectsPerPage_ (configuration s) < 2 ^ 32 ->
  (length l < fuel)%nat ->
  IsPageEmpty fuel (with_lists s m pl h f g) a = Some (page_empty s l a).
Proof.
  intros C HN Hf. unfold IsPageEmpty.
  change (FreeList_ (with_lists s m pl h f g)) with h.
  rewrite (IsPageEmpty_loop_spec s a m pl h f g l fuel h 0 C); [|lia|lia|exact Hf].
  reflexivity.
Qed.

Lemma dec_with_lists s m pl h h' f g :
  dec_FreeObjects (set_FreeList (with_lists s m pl h f g) h')
  = with_lists s m pl h' (wrap_uint (f - 1)) g.
Proof. reflexivity. Qed.

Lemma FreePage_head_spec s a m pl g : forall l fuel h,
  chain m h l ->
  Z.of_nat (length l) < 2 ^ 32 ->
  (length l < fuel)%nat ->
  exists pre l1,
    l = pre ++ l1 /\
    drop_page s a l = drop_page s a l1 /\
    match l1 with [] => True | x :: _ => in_page s a x = false end /\
    chain m (hd 0 l1) l1 /\
    FreePage_head fuel a (with_lists s m pl h (Z.of_nat (length l)) g)
    = Returns tt (with_lists s m pl (hd 0 l1) (Z.of_nat (length l1)) g).
Proof.
  induction l as [|x t IH]; intros fuel h C Hl Hf;
    (destruct fuel as [|fuel]; [simpl in Hf; lia|]); simpl in C.
  - subst h. exists [], []. simpl. auto.
  - destruct C as (-> & Hx & C). cbn [FreePage_head].
    change (FreeList_ (with_lists s m pl x (Z.of_nat (length (x :: t))) g)) with x.
    destruct (Z.eqb_spec x 0); [contradiction|].
    rewrite in_page_with_lists.
    destruct (in_page s a x) eqn:Ein.
    + rewrite dec_with_lists.
      change (heap (with_lists s m pl x (Z.of_nat (length (x :: t))) g)) with m.
      replace (wrap_uint (Z.of_nat (length (x :: t)) - 1))
        with (Z.of_nat (length t))
        by (unfold wrap_uint; rewrite Z.mod_small; simpl length in *; lia).
      destruct (IH fuel (load_ptr m x) C) as (pre & l1 & E & Ed & Hh & C1 & Er).
      { simpl length in Hl. lia. }
      { simpl in Hf. lia. }
      exists (x :: pre), l1. repeat split; auto.
      * simpl. congruence.
      * unfold drop_page in *. simpl. rewrite Ein. simpl. exact Ed.
    + exists [], (x :: t). simpl. repeat split; auto.
Qed.

Lemma dec_heap_with_lists s m m1 pl h f g :
  dec_FreeObjects (set_heap (with_lists s m pl h f g) m1)
  = with_lists s m1 pl h (wrap_uint (f - 1)) g.
Proof. reflexivity. Qed.

Lemma links_apart_tail x l : links_apart (x :: l) -> links_apart l.
Proof. intros H a b Ha Hb. apply H; right; assumption. Qed.

Lemma links_apart_drop x y l : links_apart (x :: y :: l) -> links_apart (x :: l).
Proof.
  intros H a b Ha Hb. apply H.
  - destruct Ha; [left|right; right]; assumption.
  - destruct Hb; [left|right; right]; assumption.
Qed.

Lemma FreePage_rest_spec s a pl h g : forall rest fuel m prev f,
  in_page s a prev = false ->
  chain m prev (prev :: rest) ->
  NoDup (prev :: rest) ->
  links_apart (prev :: rest) ->
  Forall (fun x => 0 < x < 2 ^ 64) (prev :: rest) ->
  Z.of_nat (length rest) <= f < 2 ^ 32 ->
  (length rest < fuel)%nat ->
  exists m',
    FreePage_rest fuel a prev (load_ptr m prev) (with_lists s m pl h f g)
    = Returns tt
        (with_lists s m' pl h
           (f - (Z.of_nat (length rest)
                 - Z.of_nat (length (drop_page s a rest)))) g) /\
    chain m' prev (prev :: drop_page s a rest) /\
    (forall y, (forall x, In x (prev :: rest) -> y < x \/ x + PTR_SIZE <= y) ->
               m' y = m y).
Proof.
  induction rest as [|x t IH]; intros fuel m prev f Hin C ND LA FR Hf Hfuel;
    (destruct fuel as [|fuel]; [simpl in Hfuel; lia|]).
  - simpl in C. destruct C as (_ & Hp & C). rewrite C. exists m.
    split; [|split].
    + cbn [FreePage_rest]. change (0 =? 0) with true. cbv iota.
      unfold drop_page. cbn [filter length].
      replace (f - (Z.of_nat 0 - Z.of_nat 0)) with f by lia. reflexivity.
    + simpl. auto.
    + auto.
  - cbn [chain] in C. destruct C as (_ & Hp & Ex & Hx & C).
    rewrite Ex. cbn [FreePage_rest].
    destruct (Z.eqb_spec x 0); [contradiction|].
    rewrite in_page_with_lists.
    change (heap (with_lists s m pl h f g)) with m.
    pose proof (Forall_inv FR) as Hpr. pose proof (Forall_inv_tail FR) as FR'.
    pose proof (Forall_inv FR') as Hxr. pose proof (Forall_inv_tail FR') as FRt.
    cbv beta in Hpr, Hxr.
    pose proof (proj1 (NoDup_cons_iff _ _) ND) as (Hnp & ND').
    pose proof (proj1 (NoDup_cons_iff _ _) ND') as (Hnx & NDt).
    simpl length in Hf, Hfuel.
    destruct (in_page s a x) eqn:Ein; cbn [negb].
    + (* unlink x *)
      destruct (Z.eqb_spec prev 0); [lia|].
      rewrite dec_heap_with_lists.
      set (m1 := store_ptr m prev (load_ptr m x)).
      assert (Hnr : 0 <= load_ptr m x < 2 ^ 64)
        by (eapply chain_head_range; eauto).
      assert (El : load_ptr m1 prev = load_ptr m x)
        by (apply load_store_ptr; exact Hnr).
      change (heap (set_heap (with_lists s m pl h f g) m1)) with m1.
      assert (Ew : wrap_uint (f - 1) = f - 1)
        by (unfold wrap_uint; apply Z.mod_small; lia).
      rewrite Ew.
      assert (C1 : chain m1 prev (prev :: t)).
      { cbn [chain]. split; [reflexivity|]. split; [exact Hp|]. rewrite El.
        apply (chain_frame m); [exact C|].
        intros z Hz y Hy. unfold m1, store_ptr. apply store_le_out.
        change (Z.of_nat ptr_bytes) with 8. unfold PTR_SIZE in *.
        destruct (LA prev z) as [E|[E|E]]; [left; reflexivity|right; right; exact Hz| | |].
        * subst z. exfalso. apply Hnp. right. exact Hz.
        * unfold PTR_SIZE in *. lia.
        * unfold PTR_SIZE in *. lia. }
      destruct (IH fuel m1 prev (f - 1) Hin C1) as (m' & Er & C' & Fr).
      { constructor; [|exact NDt]. intros Hc. apply Hnp. right. exact Hc. }
      { eapply links_apart_drop; eauto. }
      { constructor; assumption. }
      { lia. }
      { lia. }
      exists m'. split; [|split].
      * rewrite Er. f_equal. unfold drop_page. cbn [filter]. rewrite Ein.
        cbn [negb length]. f_equal. lia.
      * unfold drop_page. cbn [filter]. rewrite Ein. cbn [negb]. exact C'.
      * intros y Hy. rewrite Fr.
        -- unfold m1, store_ptr. apply store_le_out.
           change (Z.of_nat ptr_bytes) with 8. unfold PTR_SIZE in *.
           destruct (Hy prev ltac:(left; reflexivity)); lia.
        -- intros z Hz. apply Hy. destruct Hz; [left|right; right]; assumption.
    + (* keep x *)
      assert (Cx : chain m x (x :: t)).
      { cbn [chain]. auto. }
      destruct (IH fuel m x f Ein Cx ND' (links_apart_tail _ _ LA) FR')
        as (m' & Er & C' & Fr); [lia|lia|].
      exists m'. split; [|split].
      * rewrite Er. f_equal. unfold drop_page. cbn [filter]. rewrite Ein.
        cbn [negb length]. f_equal. lia.
      * unfold drop_page. cbn [filter]. rewrite Ein. cbn [negb chain].
        split; [reflexivity|]. split; [exact Hp|].
        assert (Elp : load_ptr m' prev = x).
        { rewrite <- Ex. apply load_ptr_ext. intros y Hy. apply Fr.
          intros z Hz. unfold PTR_SIZE in *.
          destruct (LA prev z) as [E|[E|E]];
            [left; reflexivity|right; exact Hz| | |].
          - subst z. exfalso. apply Hnp. exact Hz.
          - unfold PTR_SIZE in *. lia.
          - unfold PTR_SIZE in *. lia. }
        rewrite Elp. cbn [chain] in C'. exact C'.
      * intros y Hy. apply Fr. intros z Hz. apply Hy. right. exact Hz.
Qed.

Lemma pages_with_lists s m pl h f g :
  set_stats (with_lists s m pl h f g)
    (set_PagesInUse (stats (with_lists s m pl h f g))
       (wrap_uint (PagesInUse_ (stats (with_lists s m pl h f g)) - 1)))
  = with_lists s m pl h f (wrap_uint (g - 1)).
Proof. reflexivity. Qed.

Lemma FreePage_spec s a m pl g l fuel h :
  chain m h l ->
  NoDup l -> links_apart l ->
  Forall (fun x => 0 < x < 2 ^ 64) l ->
  Z.of_nat (length l) < 2 ^ 32 ->
  (length l < fuel)%nat ->
  exists m' h',
    FreePage fuel a (with_lists s m pl h (Z.of_nat (length l)) g)
    = Returns tt
        (with_lists s m' pl h' (Z.of_nat (length (drop_page s a l)))
           (wrap_uint (g - 1))) /\
    chain m' h' (drop_page s a l) /\
    (forall y, (forall x, In x l -> y < x \/ x + PTR_SIZE <= y) -> m' y = m y).
Proof.
  intros C ND LA FR Hl Hfuel.
  destruct (FreePage_head_spec s a m pl g l fuel h C Hl Hfuel)
    as (pre & l1 & El & Ed & Hh & C1 & Er).
  unfold FreePage. rewrite Er. cbn [bind].
  change (FreeList_ (with_lists s m pl (hd 0 l1) (Z.of_nat (length l1)) g))
    with (hd 0 l1).
  assert (Hlen : (length l1 <= length l)%nat)
    by (rewrite El, length_app; lia).
  destruct l1 as [|x t].
  - exists m, 0. rewrite Ed. cbn [hd]. destruct fuel as [|fuel]; [lia|].
    cbn [FreePage_rest]. change (0 =? 0) with true. cbv iota. cbn [bind].
    rewrite pages_with_lists.
    split; [reflexivity|]. split; [exact C1|auto].
  - cbn [hd] in *. destruct fuel as [|fuel]; [lia|].
    cbn [FreePage_rest]. cbn [chain] in C1. destruct C1 as (_ & Hx & Ct).
    destruct (Z.eqb_spec x 0); [contradiction|].
    rewrite in_page_with_lists, Hh. cbn [negb].
    change (heap (with_lists s m pl x (Z.of_nat (length (x :: t))) g)) with m.
    assert (NDl1 : NoDup (x :: t))
      by (rewrite El in ND; apply NoDup_app_remove_l in ND; exact ND).
    assert (LAl1 : links_apart (x :: t)).
    { intros u v Hu Hv. apply LA; rewrite El; apply in_or_app; right; assumption. }
    assert (FRl1 : Forall (fun x => 0 < x < 2 ^ 64) (x :: t)).
    { rewrite El in FR. apply Forall_app in FR. tauto. }
    destruct (FreePage_rest_spec s a pl x g t fuel m x
                (Z.of_nat (length (x :: t))) Hh) as (m' & Er2 & C2 & Fr2); auto.
    { cbn [chain]. auto. }
    { simpl length in *. lia. }
    { simpl length in *. lia. }
    exists m', x. rewrite Er2. cbn [bind]. rewrite Ed.
    assert (Edx : drop_page s a (x :: t) = x :: drop_page s a t).
    { unfold drop_page. cbn [filter]. rewrite Hh. reflexivity. }
    rewrite Edx. split; [|split].
    + rewrite pages_with_lists. do 2 f_equal. cbn [length]. lia.
    + exact C2.
    + intros y Hy. apply Fr2. intros z Hz. apply Hy. rewrite El.
      apply in_or_app. right. exact Hz.
Qed.

Lemma links_apart_incl l l' :
  incl l' l -> links_apart l -> links_apart l'.
Proof. intros Hi H x y Hx Hy. apply H; apply Hi; assumption. Qed.

Lemma drop_page_incl s a fl : incl (drop_page s a fl) fl.
Proof. unfold drop_page. intros x Hx. apply filter_In in Hx. tauto. Qed.

Lemma drop_page_length s a fl : (length (drop_page s a fl) <= length fl)%nat.
Proof. unfold drop_page. apply filter_length_le. Qed.

Lemma heap_with_lists s m m1 pl h f g :
  set_heap (with_lists s m pl h f g) m1 = with_lists s m1 pl h f g.
Proof. reflexivity. Qed.

Lemma pagelist_with_lists s m pl pl' h f g :
  set_PageList (with_lists s m pl h f g) pl' = with_lists s m pl' h f g.
Proof. reflexivity. Qed.

Lemma FreeEmptyPages_rest_spec s pl :
  1 <= ObjectsPerPage_ (configuration s) < 2 ^ 32 ->
  forall rest fuel m prev fl h n g kept fl' k,
  reclaim s rest fl = (kept, fl', k) ->
  chain m prev (prev :: rest) ->
  chain m h fl ->
  NoDup (prev :: rest) -> NoDup fl ->
  (forall x, In x (prev :: rest) -> ~ In x fl) ->
  links_apart ((prev :: rest) ++ fl) ->
  Forall (fun x => 0 < x < 2 ^ 64) ((prev :: rest) ++ fl) ->
  Z.of_nat (length fl) < 2 ^ 32 ->
  0 <= n -> n + Z.of_nat (length rest) < 2 ^ 32 ->
  Z.of_nat (length rest) <= g < 2 ^ 32 ->
  (length rest + length fl < fuel)%nat ->
  exists m' h',
    FreeEmptyPages_rest fuel prev (load_ptr m prev) n
      (with_lists s m pl h (Z.of_nat (length fl)) g)
    = Returns (n + Z.of_nat k)
        (with_lists s m' pl h' (Z.of_nat (length fl')) (g - Z.of_nat k)) /\
    chain m' prev (prev :: kept) /\
    chain m' h' fl' /\
    (forall y, (forall z, In z ((prev :: rest) ++ fl) ->
                          y < z \/ z + PTR_SIZE <= y) -> m' y = m y).
Proof.
  intros HN.
  induction rest as [|x t IH];
    intros fuel m prev fl h n g kept fl' k ER CP CF NDP NDF DJ LA FR Hfl Hn0 Hn Hg
      Hfuel; (destruct fuel as [|fuel]; [simpl in Hfuel; lia|]).
  - simpl in ER. inversion ER; subst kept fl' k. clear ER.
    simpl in CP. destruct CP as (_ & Hp & CP). rewrite CP.
    exists m, h. cbn [FreeEmptyPages_rest]. change (0 =? 0) with true. cbv iota.
    replace (n + Z.of_nat 0) with n by lia.
    replace (g - Z.of_nat 0) with g by lia.
    repeat split; auto.
  - cbn [chain] in CP. destruct CP as (_ & Hp & Ex & Hx & CT).
    rewrite Ex. cbn [FreeEmptyPages_rest].
    destruct (Z.eqb_spec x 0); [contradiction|].
    rewrite (IsPageEmpty_spec s x m pl h (Z.of_nat (length fl)) g fl (S fuel) CF HN)
      by (simpl in Hfuel; lia).
    pose proof (proj1 (NoDup_cons_iff _ _) NDP) as (Hnp & NDP').
    pose proof (proj1 (NoDup_cons_iff _ _) NDP') as (Hnx & NDt).
    assert (Hprev : 0 < prev < 2 ^ 64).
    { rewrite Forall_forall in FR. apply FR. left. reflexivity. }
    assert (Hap : forall z, In z (x :: t) \/ In z fl ->
                  prev + PTR_SIZE <= z \/ z + PTR_SIZE <= prev).
    { intros z Hz.
      destruct (LA prev z) as [E|E].
      - left. reflexivity.
      - change ((prev :: x :: t) ++ fl) with (prev :: ((x :: t) ++ fl)).
        right. apply in_or_app. exact Hz.
      - subst z. exfalso. destruct Hz as [Hz|Hz].
        + apply Hnp. exact Hz.
        + apply (DJ prev); [left; reflexivity|exact Hz].
      - exact E. }
    cbn [reclaim] in ER. simpl length in Hn, Hg, Hfuel.
    change (heap (with_lists s m pl h (Z.of_nat (length fl)) g)) with m.
    destruct (page_empty s fl x) eqn:Eemp.
    + (* release x *)
      destruct (reclaim s t (drop_page s x fl)) as [[kept0 fl0] k0] eqn:ER0.
      inversion ER; subst kept fl' k. clear ER.
      destruct (Z.eqb_spec prev 0); [lia|].
      rewrite heap_with_lists.
      set (m1 := store_ptr m prev (load_ptr m x)).
      assert (Hnr : 0 <= load_ptr m x < 2 ^ 64).
      { eapply chain_head_range; [exact CT|].
        rewrite Forall_forall in FR |- *. intros z Hz. apply FR.
        simpl. right. right. apply in_or_app. left. exact Hz. }
      assert (Hm1 : forall y, y < prev \/ prev + PTR_SIZE <= y -> m1 y = m y).
      { intros y Hy. unfold m1, store_ptr. apply store_le_out.
        change (Z.of_nat ptr_bytes) with 8. unfold PTR_SIZE in *. lia. }
      assert (CF1 : chain m1 h fl).
      { apply (chain_frame m); [exact CF|]. intros z Hz y Hy. apply Hm1.
        destruct (Hap z (or_intror Hz)); unfold PTR_SIZE in *; lia. }
      assert (LAf : links_apart fl).
      { eapply links_apart_incl; [|exact LA]. intros z Hz.
        apply in_or_app. right. exact Hz. }
      assert (FRf : Forall (fun x => 0 < x < 2 ^ 64) fl).
      { apply Forall_app in FR. tauto. }
      destruct (FreePage_spec s x m1 pl g fl (S fuel) h CF1 NDF LAf FRf Hfl)
        as (m2 & h2 & Er & C2 & Fr2); [lia|].
      rewrite Er. cbn [bind].
      change (heap (with_lists s m2 pl h2
                      (Z.of_nat (length (drop_page s x fl))) (wrap_uint (g - 1))))
        with m2.
      assert (Hm2 : forall z, In z (prev :: t) ->
                    forall y, z <= y < z + PTR_SIZE -> m2 y = m1 y).
      { intros z Hz y Hy. apply Fr2. intros w Hw.
        destruct (LA z w) as [E|E].
        - simpl. destruct Hz as [Hz|Hz]; [left; exact Hz|].
          right. right. apply in_or_app. left. exact Hz.
        - simpl. right. right. apply in_or_app. right. exact Hw.
        - subst w. exfalso.
          apply (DJ z); [|exact Hw].
          destruct Hz as [Hz|Hz]; [left; exact Hz|right; right; exact Hz].
        - unfold PTR_SIZE in *. lia. }
      assert (El2 : load_ptr m2 prev = load_ptr m x).
      { transitivity (load_ptr m1 prev).
        - apply load_ptr_ext. intros y Hy. apply (Hm2 prev); [left; reflexivity|].
          exact Hy.
        - apply load_store_ptr. exact Hnr. }
      assert (CP2 : chain m2 prev (prev :: t)).
      { cbn [chain]. split; [reflexivity|]. split; [exact Hp|]. rewrite El2.
        apply (chain_frame m); [exact CT|].
        intros z Hz y Hy. rewrite (Hm2 z) by (auto; right; exact Hz).
        apply Hm1. destruct (Hap z (or_introl (or_intror Hz)));
          unfold PTR_SIZE in *; lia. }
      assert (Ew1 : wrap_uint (n + 1) = n + 1)
        by (unfold wrap_uint; apply Z.mod_small; lia).
      assert (Ew2 : wrap_uint (g - 1) = g - 1)
        by (unfold wrap_uint; apply Z.mod_small; lia).
      rewrite Ew1, Ew2.
      pose proof (drop_page_incl s x fl) as Hdi.
      pose proof (drop_page_length s x fl) as Hdl.
      destruct (IH fuel m2 prev (drop_page s x fl) h2 (n + 1) (g - 1)
                  kept0 fl0 k0 ER0 CP2 C2) as (m' & h' & Er' & CP' & CF' & Fr').
      { constructor; [|exact NDt]. intros Hc. apply Hnp. right. exact Hc. }
      { unfold drop_page. apply NoDup_filter. exact NDF. }
      { intros z Hz Hc. apply (DJ z).
        - destruct Hz as [Hz|Hz]; [left; exact Hz|right; right; exact Hz].
        - apply Hdi. exact Hc. }
      { eapply links_apart_incl; [|exact LA]. intros z Hz.
        apply in_app_or in Hz. destruct Hz as [[Hz|Hz]|Hz].
        - left. exact Hz.
        - right. right. apply in_or_app. left. exact Hz.
        - apply in_or_app. right. apply Hdi. exact Hz. }
      { rewrite Forall_forall in FR |- *. intros z Hz. apply FR.
        apply in_app_or in Hz. destruct Hz as [[Hz|Hz]|Hz].
        - left. exact Hz.
        - right. right. apply in_or_app. left. exact Hz.
        - apply in_or_app. right. apply Hdi. exact Hz. }
      { lia. } { lia. } { lia. } { lia. } { lia. }
      exists m', h'. split; [|split; [|split]].
      * rewrite Er'. f_equal; [lia|]. f_equal. lia.
      * exact CP'.
      * exact CF'.
      * intros y Hy. rewrite Fr'.
        -- rewrite Fr2.
           ++ apply Hm1. destruct (Hy prev ltac:(left; reflexivity)); lia.
           ++ intros w Hw. apply Hy. apply in_or_app. right. exact Hw.
        -- intros z Hz. apply Hy.
           apply in_app_or in Hz. destruct Hz as [[Hz|Hz]|Hz].
           ++ left. exact Hz.
           ++ right. right. apply in_or_app. left. exact Hz.
           ++ apply in_or_app. right. apply Hdi. exact Hz.
    + (* keep x *)
      destruct (reclaim s t fl) as [[kept0 fl0] k0] eqn:ER0.
      inversion ER; subst kept fl' k. clear ER.
      assert (CX : chain m x (x :: t)) by (cbn [chain]; auto).
      destruct (IH fuel m x fl h n g kept0 fl0 k0 ER0 CX CF NDP' NDF)
        as (m' & h' & Er' & CP' & CF' & Fr').
      { intros z Hz. apply DJ. right. exact Hz. }
      { eapply links_apart_incl; [|exact LA]. intros z Hz. right. exact Hz. }
      { apply Forall_inv_tail in FR. exact FR. }
      { exact Hfl. } { exact Hn0. } { lia. } { lia. } { lia. }
      exists m', h'. split; [|split; [|split]].
      * exact Er'.
      * cbn [chain]. split; [reflexivity|]. split; [exact Hp|].
        assert (Elp : load_ptr m' prev = x).
        { rewrite <- Ex. apply load_ptr_ext. intros y Hy. apply Fr'.
          intros z Hz. apply in_app_or in Hz.
          destruct (Hap z Hz); unfold PTR_SIZE in *; lia. }
        rewrite Elp. exact CP'.
      * exact CF'.
      * intros y Hy. apply Fr'. intros z Hz. apply Hy. right. exact Hz.
Qed.

Lemma FreeEmptyPages_loops_spec s :
  1 <= ObjectsPerPage_ (configuration s) < 2 ^ 32 ->
  forall pages f1 f2 m pl fl h n g kept fl' k,
  reclaim s pages fl = (kept, fl', k) ->
  chain m pl pages ->
  chain m h fl ->
  NoDup pages -> NoDup fl ->
  (forall x, In x pages -> ~ In x fl) ->
  links_apart (pages ++ fl) ->
  Forall (fun x => 0 < x < 2 ^ 64) (pages ++ fl) ->
  Z.of_nat (length fl) < 2 ^ 32 ->
  0 <= n -> n + Z.of_nat (length pages) < 2 ^ 32 ->
  Z.of_nat (length pages) <= g < 2 ^ 32 ->
  (length pages + length fl < f1)%nat ->
  (length pages + length fl < f2)%nat ->
  exists m' h',
    bind (FreeEmptyPages_head f1 n (with_lists s m pl h (Z.of_nat (length fl)) g))
      (fun c s1 => FreeEmptyPages_rest f2 0 (PageList_ s1) c s1)
    = Returns (n + Z.of_nat k)
        (with_lists s m' (hd 0 kept) h' (Z.of_nat (length fl'))
           (g - Z.of_nat k)) /\
    chain m' (hd 0 kept) kept /\
    chain m' h' fl' /\
    (forall y, (forall z, In z (pages ++ fl) -> y < z \/ z + PTR_SIZE <= y) ->
               m' y = m y).
Proof.
  intros HN.
  induction pages as [|a t IH];
    intros f1 f2 m pl fl h n g kept fl' k ER CP CF NDP NDF DJ LA FR Hfl Hn0 Hn Hg
      Hf1 Hf2;
    (destruct f1 as [|f1]; [simpl in Hf1; lia|]);
    (destruct f2 as [|f2]; [simpl in Hf2; lia|]).
  - simpl in ER. inversion ER; subst kept fl' k. clear ER.
    simpl in CP. subst pl. exists m, h.
    cbn [FreeEmptyPages_head]. 
    change (PageList_ (with_lists s m 0 h (Z.of_nat (length fl)) g)) with 0.
    change (0 =? 0) with true. cbv iota. cbn [bind FreeEmptyPages_rest].
    change (PageList_ (with_lists s m 0 h (Z.of_nat (length fl)) g)) with 0.
    change (0 =? 0) with true. cbv iota. cbn [hd].
    replace (n + Z.of_nat 0) with n by lia.
    replace (g - Z.of_nat 0) with g by lia.
    repeat split; auto.
  - cbn [chain] in CP. destruct CP as (Epl & Ha & CT). subst pl.
    cbn [FreeEmptyPages_head].
    change (PageList_ (with_lists s m a h (Z.of_nat (length fl)) g)) with a.
    destruct (Z.eqb_spec a 0); [contradiction|].
    rewrite (IsPageEmpty_spec s a m a h (Z.of_nat (length fl)) g fl (S f1) CF HN)
      by (simpl in Hf1; lia).
    pose proof (proj1 (NoDup_cons_iff _ _) NDP) as (Hna & NDt).
    cbn [reclaim] in ER. simpl length in Hn, Hg, Hf1, Hf2.
    change (heap (with_lists s m a h (Z.of_nat (length fl)) g)) with m.
    assert (LAf : links_apart fl).
    { eapply links_apart_incl; [|exact LA]. intros z Hz.
      apply in_or_app. right. exact Hz. }
    assert (FRf : Forall (fun x => 0 < x < 2 ^ 64) fl).
    { apply Forall_app in FR. tauto. }
    destruct (page_empty s fl a) eqn:Eemp.
    + destruct (reclaim s t (drop_page s a fl)) as [[kept0 fl0] k0] eqn:ER0.
      inversion ER; subst kept fl' k. clear ER.
      rewrite pagelist_with_lists.
      destruct (FreePage_spec s a m (load_ptr m a) g fl (S f1) h CF NDF LAf FRf Hfl)
        as (m2 & h2 & Er & C2 & Fr2); [lia|].
      rewrite Er. cbn [bind].
      assert (Hm2 : forall z, In z (a :: t) ->
                    forall y, z <= y < z + PTR_SIZE -> m2 y = m y).
      { intros z Hz y Hy. apply Fr2. intros w Hw.
        destruct (LA z w) as [E|E].
        - apply in_or_app. left. exact Hz.
        - apply in_or_app. right. exact Hw.
        - subst w. exfalso. apply (DJ z Hz Hw).
        - unfold PTR_SIZE in *. lia. }
      assert (CT2 : chain m2 (load_ptr m a) t).
      { apply (chain_frame m); [exact CT|].
        intros z Hz. apply Hm2. right. exact Hz. }
      assert (Ew1 : wrap_uint (n + 1) = n + 1)
        by (unfold wrap_uint; apply Z.mod_small; lia).
      assert (Ew2 : wrap_uint (g - 1) = g - 1)
        by (unfold wrap_uint; apply Z.mod_small; lia).
      rewrite Ew1, Ew2.
      pose proof (drop_page_incl s a fl) as Hdi.
      pose proof (drop_page_length s a fl) as Hdl.
      destruct (IH f1 (S f2) m2 (load_ptr m a) (drop_page s a fl) h2 (n + 1)
                  (g - 1) kept0 fl0 k0 ER0 CT2 C2 NDt)
        as (m' & h' & Er' & CP' & CF' & Fr').
      { unfold drop_page. apply NoDup_filter. exact NDF. }
      { intros z Hz Hc. apply (DJ z); [right; exact Hz|apply Hdi; exact Hc]. }
      { eapply links_apart_incl; [|exact LA]. intros z Hz.
        apply in_app_or in Hz. destruct Hz as [Hz|Hz].
        - right. apply in_or_app. left. exact Hz.
        - apply in_or_app. right. apply Hdi. exact Hz. }
      { rewrite Forall_forall in FR |- *. intros z Hz. apply FR.
        apply in_app_or in Hz. destruct Hz as [Hz|Hz].
        - right. apply in_or_app. left. exact Hz.
        - apply in_or_app. right. apply Hdi. exact Hz. }
      { lia. } { lia. } { lia. } { lia. } { lia. } { lia. }
      exists m', h'. split; [|split; [|split]].
      * rewrite Er'. f_equal; [lia|]. f_equal. lia.
      * exact CP'.
      * exact CF'.
      * intros y Hy. rewrite Fr'.
        -- apply Fr2. intros w Hw. apply Hy. apply in_or_app. right. exact Hw.
        -- intros z Hz. apply Hy.
           apply in_app_or in Hz. destruct Hz as [Hz|Hz].
           ++ right. apply in_or_app. left. exact Hz.
           ++ apply in_or_app. right. apply Hdi. exact Hz.
    + destruct (reclaim s t fl) as [[kept0 fl0] k0] eqn:ER0.
      inversion ER; subst kept fl' k. clear ER.
      cbn [bind FreeEmptyPages_rest].
      change (PageList_ (with_lists s m a h (Z.of_nat (length fl)) g)) with a.
      destruct (Z.eqb_spec a 0); [contradiction|].
      rewrite (IsPageEmpty_spec s a m a h (Z.of_nat (length fl)) g fl (S f2) CF HN)
        by (simpl in Hf2; lia).
      rewrite Eemp.
      change (heap (with_lists s m a h (Z.of_nat (length fl)) g)) with m.
      assert (CA : chain m a (a :: t)) by (cbn [chain]; auto).
      destruct (FreeEmptyPages_rest_spec s a HN t f2 m a fl h n g kept0 fl0 k0
                  ER0 CA CF NDP NDF DJ LA FR Hfl Hn0)
        as (m' & h' & Er' & CP' & CF' & Fr'); [lia|lia|lia|].
      exists m', h'. cbn [hd]. auto.
Qed.

(** *** Reclamation on lists *)

Lemma filter_twice {A} (f g : A -> bool) l :
  filter f (filter g l) = filter (fun x => g x && f x) l.
Proof.
  induction l as [|x t IH]; simpl; [reflexivity|].
  destruct (g x); simpl; [destruct (f x)|]; rewrite IH; reflexivity.
Qed.

Lemma existsb_filter {A} (f g : A -> bool) l :
  existsb f (filter g l) = existsb (fun a => g a && f a) l.
Proof.
  induction l as [|x t IH]; simpl; [reflexivity|].
  destruct (g x); simpl; rewrite IH; reflexivity.
Qed.

Lemma filter_split_length {A} (f : A -> bool) l :
  (length (filter f l) + length (filter (fun x => negb (f x)) l) = length l)%nat.
Proof.
  induction l as [|x t IH]; simpl; [reflexivity|].
  destruct (f x); simpl; lia.
Qed.

Lemma page_empty_drop s a a' fl :
  (forall x, in_page s a' x = true -> in_page s a x = false) ->
  page_empty s (drop_page s a fl) a' = page_empty s fl a'.
Proof.
  intros H. unfold page_empty, count_in, drop_page. rewrite filter_twice.
  do 3 f_equal. apply filter_ext. intros x.
  destruct (in_page s a' x) eqn:E; [rewrite (H x E); reflexivity|].
  apply andb_false_r.
Qed.

Lemma reclaim_spec s : forall pages fl,
  NoDup pages -> ranges_apart s pages ->
  reclaim s pages fl
  = (filter (fun a => negb (page_empty s fl a)) pages,
     filter (fun x => negb (existsb (fun a => in_page s a x)
                              (filter (page_empty s fl) pages))) fl,
     length (filter (page_empty s fl) pages)).
Proof.
  induction pages as [|a t IH]; intros fl ND RA.
  - simpl. f_equal. f_equal. symmetry. apply forallb_filter_id.
    apply forallb_forall. reflexivity.
  - pose proof (proj1 (NoDup_cons_iff _ _) ND) as (Hna & NDt).
    assert (RAt : ranges_apart s t).
    { intros u v x Hu Hv. apply RA; right; assumption. }
    cbn [reclaim filter].
    destruct (page_empty s fl a) eqn:Ea; cbn [negb].
    + rewrite (IH (drop_page s a fl) NDt RAt).
      assert (Eq : forall a', In a' t ->
                page_empty s (drop_page s a fl) a' = page_empty s fl a').
      { intros a' Ha'. apply page_empty_drop. intros x Hx.
        apply (RA a' a x); [right; exact Ha'|left; reflexivity| |exact Hx].
        intros ->. contradiction. }
      rewrite (filter_ext_in (fun a0 => negb (page_empty s (drop_page s a fl) a0))
                 (fun a0 => negb (page_empty s fl a0)) t)
        by (intros a' Ha'; rewrite (Eq a' Ha'); reflexivity).
      rewrite (filter_ext_in (page_empty s (drop_page s a fl))
                 (page_empty s fl) t Eq).
      cbn [length]. f_equal. f_equal.
      unfold drop_page. rewrite filter_twice. apply filter_ext. intros x.
      cbn [existsb]. rewrite negb_orb. reflexivity.
    + rewrite (IH fl NDt RAt). reflexivity.
Qed.

(** *** What the invariant gives to the loops *)

Lemma in_page_iff s a x :
  in_page s a x = true <-> a <= x < a + PageSize_ (stats s).
Proof.
  unfold in_page. rewrite andb_true_iff, Z.leb_le, Z.ltb_lt. tauto.
Qed.

Lemma pages_ranges_apart K s pages :
  geom_ok K s -> pages_ok s pages -> ranges_apart s pages.
Proof.
  intros G Hok a a' x Ha Ha' Hne Hin.
  apply in_page_iff in Hin.
  destruct (in_page s a' x) eqn:E; [|reflexivity].
  apply in_page_iff in E.
  destruct (pages_ok_disjoint s pages a a' Hok Ha Ha' Hne);
    unfold PTR_SIZE in *; lia.
Qed.

Lemma pages_NoDup K s : forall pages,
  geom_ok K s -> pages_ok s pages -> NoDup pages.
Proof.
  intros pages G. pose proof (geom_sizes K s G) as (_ & _ & _ & _ & _ & HPS & _).
  induction pages as [|a t IH]; intros Hok; [constructor|].
  simpl in Hok. destruct Hok as ((_ & _ & Hd) & Hok).
  constructor; [|apply IH; exact Hok].
  intros Hin. destruct (Hd a Hin); unfold PTR_SIZE in *; lia.
Qed.

Lemma pages_ok_filter s f : forall pages,
  pages_ok s pages -> pages_ok s (filter f pages).
Proof.
  induction pages as [|a t IH]; intros Hok; simpl in *; [exact I|].
  destruct Hok as ((H1 & H2 & H3) & Hok).
  destruct (f a); [|apply IH; exact Hok].
  simpl. split; [|apply IH; exact Hok].
  repeat split; auto. intros a' Ha'. apply H3.
  apply filter_In in Ha'. tauto.
Qed.

Lemma block_in_its_page K s pages a a' x :
  geom_ok K s -> pages_ok s pages ->
  In a pages -> In a' pages ->
  In x (blocks_of_page s a') -> in_page s a x = true -> a = a'.
Proof.
  intros G Hok Ha Ha' Hx Hin.
  destruct (Z.eq_dec a a') as [E|Hne]; [exact E|exfalso].
  pose proof (block_in_page K s a' x G Hx) as B.
  pose proof (geom_sizes K s G) as (HD & HS & HP & HH & _).
  apply in_page_iff in Hin.
  destruct (pages_ok_disjoint s pages a a' Hok Ha Ha' Hne);
    unfold PTR_SIZE in *; lia.
Qed.

Lemma block_in_own_page K s a x :
  geom_ok K s -> In x (blocks_of_page s a) -> in_page s a x = true.
Proof.
  intros G Hx. pose proof (block_in_page K s a x G Hx) as B.
  pose proof (geom_sizes K s G) as (HD & HS & HP & HH & _).
  apply in_page_iff. unfold PTR_SIZE in *. lia.
Qed.

Lemma page_empty_iff K s pages fl live a :
  pool_inv K s pages fl live -> In a pages ->
  (page_empty s fl a = true <->
   forall b, In b (blocks_of_page s a) -> In b fl).
Proof.
  intros I Ha.
  pose proof (inv_geom K s pages fl live I) as G.
  pose proof (inv_pages K s pages fl live I) as Hok.
  pose proof (geom_sizes K s G) as (HD & _ & _ & _ & _ & _ & HN).
  pose proof (pool_NoDup K s pages fl live I) as ND.
  apply NoDup_app_remove_r in ND.
  assert (Hsub : incl (filter (in_page s a) fl) (blocks_of_page s a)).
  { intros x Hx. apply filter_In in Hx. destruct Hx as (Hx & Hin).
    pose proof (pool_free_nodes K s pages fl live x I Hx) as Hb.
    apply in_all_blocks in Hb. destruct Hb as (a' & Ha' & Hb).
    rewrite (block_in_its_page K s pages a a' x G Hok Ha Ha' Hb Hin). exact Hb. }
  assert (NDb : NoDup (blocks_of_page s a)).
  { rewrite blocks_of_page_from. apply NoDup_blocks_from. lia. }
  assert (Lb : length (blocks_of_page s a)
               = Z.to_nat (ObjectsPerPage_ (configuration s))).
  { unfold blocks_of_page. rewrite length_map, length_seq. reflexivity. }
  pose proof (NoDup_incl_length (NoDup_filter (in_page s a) ND) Hsub) as Hle.
  unfold page_empty, count_in. rewrite Z.leb_le. split.
  - intros Hc b Hb.
    assert (Hin : In b (filter (in_page s a) fl)).
    { assert (Hlen : (length (blocks_of_page s a)
                      <= length (filter (in_page s a) fl))%nat) by lia.
      exact (NoDup_length_incl (NoDup_filter (in_page s a) ND) Hlen Hsub b Hb). }
    apply filter_In in Hin. tauto.
  - intros Hall.
    assert (Hsup : incl (blocks_of_page s a) (filter (in_page s a) fl)).
    { intros b Hb. apply filter_In. split; [apply Hall; exact Hb|].
      eapply block_in_own_page; eauto. }
    pose proof (NoDup_incl_length NDb Hsup). lia.
Qed.

Lemma pool_links K s pages fl live :
  pool_inv K s pages fl live ->
  NoDup pages /\ NoDup fl /\
  (forall x, In x pages -> ~ In x fl) /\
  links_apart (pages ++ fl) /\
  Forall (fun x => 0 < x < 2 ^ 64) (pages ++ fl).
Proof.
  intros I.
  pose proof (inv_geom K s pages fl live I) as G.
  pose proof (inv_pages K s pages fl live I) as Hok.
  pose proof (geom_sizes K s G) as (HD & HS & HP & HH & HPH & HPS & HN).
  pose proof (pool_NoDup K s pages fl live I) as ND.
  apply NoDup_app_remove_r in ND.
  assert (Hfb : forall x, In x fl -> In x (all_blocks s pages))
    by (intros x Hx; eapply pool_free_nodes; eauto).
  assert (Hpb : forall a x, In a pages -> In x fl ->
            a + PTR_SIZE <= x \/ x + PTR_SIZE <= a).
  { intros a x Ha Hx.
    destruct (page_link_clear K s pages a x G Hok Ha (Hfb x Hx));
      unfold PTR_SIZE in *; lia. }
  split; [eapply pages_NoDup; eauto|]. split; [exact ND|]. split; [|split].
  - intros x Hx Hc. destruct (Hpb x x Hx Hc); unfold PTR_SIZE in *; lia.
  - intros x y Hx Hy.
    apply in_app_or in Hx. apply in_app_or in Hy.
    destruct (Z.eq_dec x y) as [E|Hne]; [left; exact E|right].
    destruct Hx as [Hx|Hx], Hy as [Hy|Hy].
    + destruct (pages_ok_disjoint s pages x y Hok Hx Hy Hne);
        unfold PTR_SIZE in *; lia.
    + apply Hpb; assumption.
    + destruct (Hpb y x Hy Hx); auto.
    + destruct (blocks_separated K s pages x y G Hok (Hfb x Hx) (Hfb y Hy) Hne);
        unfold PTR_SIZE in *; lia.
  - apply Forall_app. split.
    + eapply pages_range; eauto.
    + eapply chain_nodes_range; eauto.
Qed.

Lemma NoDup_app_disjoint {A} (l l' : list A) x :
  NoDup (l ++ l') -> In x l -> In x l' -> False.
Proof.
  induction l as [|y t IH]; intros ND Hx Hx'; [destruct Hx|].
  simpl in ND. apply NoDup_cons_iff in ND. destruct ND as (Hn & ND).
  destruct Hx as [->|Hx].
  - apply Hn. apply in_or_app. right. exact Hx'.
  - apply IH; assumption.
Qed.

Lemma reclaimed_inv K s pages fl live m' h' :
  pool_inv K s pages fl live ->
  let released := filter (page_empty s fl) pages in
  let kept := filter (fun a => negb (page_empty s fl a)) pages in
  let fl' := filter (fun x => negb (existsb (fun a => in_page s a x) released)) fl in
  chain m' (hd 0 kept) kept ->
  chain m' h' fl' ->
  pool_inv K
    (with_lists s m' (hd 0 kept) h' (Z.of_nat (length fl'))
       (Z.of_nat (length pages) - Z.of_nat (length released)))
    kept fl' live.
Proof.
  intros I released kept fl' CP CF.
  pose proof (inv_geom K s pages fl live I) as G.
  pose proof (inv_pages K s pages fl live I) as Hok.
  pose proof (pool_NoDup K s pages fl live I) as ND.
  set (s' := with_lists s m' (hd 0 kept) h' (Z.of_nat (length fl'))
               (Z.of_nat (length pages) - Z.of_nat (length released))).
  assert (Eg : geometry s' = geometry s) by reflexivity.
  assert (Hokk : pages_ok s kept) by (apply pages_ok_filter; exact Hok).
  constructor.
  - eapply geom_ok_ext; eauto.
  - eapply pages_ok_ext; eauto.
  - exact CP.
  - exact CF.
  - rewrite (all_blocks_ext s s' _ Eg).
    apply NoDup_Permutation.
    + apply NoDup_app.
      * apply NoDup_filter. eapply NoDup_app_remove_r; eauto.
      * eapply NoDup_app_remove_l; eauto.
      * intros x Hx Hx'. apply filter_In in Hx. destruct Hx as (Hx & _).
        eapply NoDup_app_disjoint; eauto.
    + eapply NoDup_all_blocks; eauto.
    + intros x. split.
      * intros Hx. apply in_app_or in Hx.
        assert (Hb : In x (all_blocks s pages)).
        { destruct Hx as [Hx|Hx].
          - apply filter_In in Hx. eapply pool_free_nodes; eauto. tauto.
          - eapply pool_live_nodes; eauto. }
        apply in_all_blocks in Hb. destruct Hb as (a & Ha & Hb).
        apply in_all_blocks. exists a. split; [|exact Hb].
        apply filter_In. split; [exact Ha|].
        destruct (page_empty s fl a) eqn:Ea; [exfalso|reflexivity].
        destruct Hx as [Hx|Hx].
        -- apply filter_In in Hx. destruct Hx as (_ & Hx).
           apply negb_true_iff in Hx.
           assert (Ht : existsb (fun a0 => in_page s a0 x) released = true).
           { apply existsb_exists. exists a. split.
             - apply filter_In. auto.
             - eapply block_in_own_page; eauto. }
           congruence.
        -- pose proof (proj1 (page_empty_iff K s pages fl live a I Ha) Ea x Hb).
           eapply NoDup_app_disjoint; eauto.
      * intros Hx. apply in_all_blocks in Hx. destruct Hx as (a & Ha & Hb).
        apply filter_In in Ha. destruct Ha as (Ha & Ea).
        apply negb_true_iff in Ea.
        assert (Hall : In x (fl ++ live)).
        { eapply Permutation_in.
          - apply Permutation_sym. apply (inv_blocks K s pages fl live I).
          - apply in_all_blocks. eauto. }
        apply in_app_or in Hall. apply in_or_app.
        destruct Hall as [Hf|Hl]; [left|right; exact Hl].
        apply filter_In. split; [exact Hf|]. apply negb_true_iff.
        destruct (existsb (fun a0 => in_page s a0 x) released) eqn:Ex;
          [exfalso|reflexivity].
        apply existsb_exists in Ex. destruct Ex as (a' & Ha' & Hin).
        apply filter_In in Ha'. destruct Ha' as (Ha' & Ea').
        rewrite (block_in_its_page K s pages a' a x G Hok Ha' Ha Hb Hin) in Ea'.
        congruence.
  - reflexivity.
  - apply (inv_used K s pages fl live I).
  - unfold s'. cbn [with_lists stats PagesInUse_ set_PagesInUse].
    pose proof (filter_split_length (page_empty s fl) pages) as Hs.
    fold released in Hs. fold kept in Hs. lia.
  - change (configuration s') with (configuration s).
    pose proof (inv_cap K s pages fl live I).
    pose proof (filter_length_le (fun a => negb (page_empty s fl a)) pages).
    fold kept in H0. lia.
Qed.

(** C8.  On a well-formed pool, with enough loop budget, [FreeEmptyPages]
    returns the number of pages it released.  A page is released exactly
    when all its payload addresses are on the free list.  Afterwards the page
    list holds the other pages, the free list has lost exactly the nodes lying
    inside released pages, [FreeObjects_] has dropped by the number of nodes
    removed and [PagesInUse_] by the number of pages released. *)
Theorem FreeEmptyPages_releases_empty_pages K s pages fl live fuel :
  pool_inv K s pages fl live ->
  (length pages + length fl < fuel)%nat ->
  let released := filter (page_empty s fl) pages in
  let kept := filter (fun a => negb (page_empty s fl a)) pages in
  let fl' := filter (fun x => negb (existsb (fun a => in_page s a x) released)) fl in
  (forall a, In a pages ->
     (In a released <-> forall b, In b (blocks_of_page s a) -> In b fl)) /\
  exists s',
    FreeEmptyPages fuel s = Returns (Z.of_nat (length released)) s' /\
    pool_inv K s' kept fl' live /\
    PagesInUse_ (stats s')
    = PagesInUse_ (stats s) - Z.of_nat (length released) /\
    FreeObjects_ (stats s')
    = FreeObjects_ (stats s) - Z.of_nat (length fl - length fl') /\
    ObjectsInUse_ (stats s') = ObjectsInUse_ (stats s).
Proof.
  intros I Hfuel released kept fl'.
  pose proof (inv_geom K s pages fl live I) as G.
  pose proof (inv_pages K s pages fl live I) as Hok.
  pose proof (geom_sizes K s G) as (_ & _ & _ & _ & _ & _ & HN).
  pose proof (pool_counts K s pages fl live I) as (Ecnt & Hcnt).
  pose proof (inv_free K s pages fl live I) as EF.
  pose proof (inv_npages K s pages fl live I) as EP.
  pose proof (inv_cap K s pages fl live I) as Hcap.
  pose proof (g_max K s G) as (Hm0 & Hm).
  destruct (pool_links K s pages fl live I) as (NDP & NDF & DJ & LA & FR).
  split.
  { intros a Ha. unfold released. rewrite filter_In.
    rewrite <- (page_empty_iff K s pages fl live a I Ha). tauto. }
  pose proof (reclaim_spec s pages fl NDP (pages_ranges_apart K s pages G Hok))
    as ER. fold released in ER. fold kept in ER. fold fl' in ER.
  assert (Hlen' : (length fl' <= length fl)%nat) by apply filter_length_le.
  assert (Hrel : (length released <= length pages)%nat) by apply filter_length_le.
  destruct (FreeEmptyPages_loops_spec s HN pages fuel fuel (heap s) (PageList_ s)
              fl (FreeList_ s) 0 (Z.of_nat (length pages)) kept fl'
              (length released) ER
              (inv_page_chain K s pages fl live I)
              (inv_free_chain K s pages fl live I) NDP NDF DJ LA FR)
    as (m' & h' & Er & CP & CF & _); try lia.
  rewrite <- EF, <- EP, with_lists_id in Er.
  pose proof (reclaimed_inv K s pages fl live m' h' I CP CF) as I'.
  cbv zeta in I'. fold released in I'. fold kept in I'. fold fl' in I'.
  rewrite EP in Er. simpl (0 + _) in Er.
  destruct (Z.eqb_spec (PageList_ s) 0) as [E0|E0].
  - (* no page at all *)
    pose proof (inv_page_chain K s pages fl live I) as C.
    rewrite E0 in C. apply chain_nil_head in C.
    assert (Er0 : released = []) by (unfold released; rewrite C; reflexivity).
    assert (Ek0 : kept = []) by (unfold kept; rewrite C; reflexivity).
    assert (Ef0 : fl' = fl).
    { unfold fl'. rewrite Er0. simpl. apply forallb_filter_id.
      apply forallb_forall. reflexivity. }
    exists s. unfold FreeEmptyPages.
    destruct (Z.eqb_spec (PageList_ s) 0); [|contradiction].
    rewrite Er0, Ek0, Ef0. simpl length. rewrite C in I.
    split; [reflexivity|]. split; [exact I|]. split; [simpl; lia|].
    split; [|reflexivity]. rewrite Nat.sub_diag. simpl. lia.
  - eexists. unfold FreeEmptyPages.
    destruct (Z.eqb_spec (PageList_ s) 0); [contradiction|].
    split; [exact Er|]. split; [exact I'|].
    cbn [with_lists stats PagesInUse_ FreeObjects_ ObjectsInUse_
         set_PagesInUse set_FreeObjects].
    rewrite EF, EP. split; [reflexivity|]. split; [lia|reflexivity].
Qed.

(** ** Concrete runs *)

Lemma returned_eq {A} (o : outcome A) a d :
  returned o = Some a -> o = Returns a (state_after o d).
Proof. destruct o; simpl; intros E; inversion E; reflexivity. Qed.

Lemma raised_eq {A} (o : outcome A) e d :
  raised o = Some e -> o = Throws e (state_after o d).
Proof. destruct o; simpl; intros E; inversion E; reflexivity. Qed.

Ltac concrete := repeat split; try (vm_compute; congruence).

Lemma wf_cfgB : wf_config K0 16 cfgB.
Proof. unfold wf_config, config_in_range, header_fits. concrete. Qed.

Lemma wf_cfgP : wf_config K0 16 cfgP.
Proof. unfold wf_config, config_in_range, header_fits. concrete. Qed.

Lemma reach_sB0 : reachable K0 sB0 [4096] [].
Proof.
  apply (reach_ctor K0 8 4096 ram0 16 cfgB sB0 wf_cfgB).
  - reflexivity.
  - reflexivity.
  - vm_compute. congruence.
  - apply returned_eq. vm_compute. reflexivity.
Qed.

Lemma reach_sB1 : reachable K0 sB1 [4096] [pB].
Proof.
  apply (reach_Allocate_pop K0 8 no_host None sB0 [4096] [] pB sB1 reach_sB0).
  - vm_compute. congruence.
  - apply returned_eq. vm_compute. reflexivity.
Qed.

Lemma reach_sB2 : reachable K0 sB2 [4096] (remove Z.eq_dec pB [pB]).
Proof.
  apply (reach_Free K0 8 pB sB1 [4096] [pB] sB2 reach_sB1).
  - left. reflexivity.
  - apply returned_eq. vm_compute. reflexivity.
Qed.

Lemma reach_sP3 :
  reachable K0 sP3 [8192; 4096] (remove Z.eq_dec pP2 [pP2; pP1]).
Proof.
  assert (R0 : reachable K0 sP0 [4096] []).
  { apply (reach_ctor K0 8 4096 ram0 16 cfgP sP0 wf_cfgP).
    - reflexivity.
    - reflexivity.
    - vm_compute. congruence.
    - apply returned_eq. vm_compute. reflexivity. }
  assert (R1 : reachable K0 sP1 [4096] [pP1]).
  { apply (reach_Allocate_pop K0 8 no_host None sP0 [4096] [] pP1 sP1 R0).
    - vm_compute. congruence.
    - apply returned_eq. vm_compute. reflexivity. }
  assert (R2 : reachable K0 sP2 [8192; 4096] [pP2; pP1]).
  { apply (reach_Allocate_grow K0 8 (host_page 8192) None sP1 [4096] [pP1]
             8192 pP2 sP2 R1).
    - vm_compute. reflexivity.
    - reflexivity.
    - unfold page_fresh. split; [vm_compute; reflexivity|].
      split; [vm_compute; congruence|].
      intros a' [<-|[]]. right. vm_compute. congruence.
    - apply returned_eq. vm_compute. reflexivity. }
  apply (reach_Free K0 8 pP2 sP2 [8192; 4096] [pP2; pP1] sP3 R2).
  - left. reflexivity.
  - apply returned_eq. vm_compute. reflexivity.
Qed.

(** ** C1: counterexample and witness *)

(** C1 as stated fails: with [MaxPages_ = 0] and no page in use the first page
    request, issued by the constructor, raises NO_PAGES. *)
Lemma NO_PAGES_with_MaxPages_zero :
  MaxPages_ cfgM = 0 /\
  PagesInUse_ (stats (ctor_init ram0 8 cfgM)) = 0 /\
  AllocateNewPage K0 8 (Some 4096) (ctor_init ram0 8 cfgM)
  = Throws E_NO_PAGES (ctor_init ram0 8 cfgM) /\
  raised (ObjectAllocator_ctor K0 8 (Some 4096) ram0 8 cfgM) = Some E_NO_PAGES.
Proof. repeat split. Qed.

Lemma NO_PAGES_iff_cap_reached_witness :
  MaxPages_ (configuration (ctor_init ram0 8 cfgM)) = 0 /\
  0 <= PagesInUse_ (stats (ctor_init ram0 8 cfgM)) /\
  AllocateNewPage K0 8 (new_page (host_page 4096)) (ctor_init ram0 8 cfgM)
  = Throws E_NO_PAGES (ctor_init ram0 8 cfgM).
Proof.
  split; [reflexivity|]. split; [simpl; lia|].
  apply (proj2 (proj2 (NO_PAGES_iff_cap_reached K0 8 (host_page 4096) None
                         (ctor_init ram0 8 cfgM)))).
  - reflexivity.
  - simpl. lia.
Defined.

(** ** C2: the use count is incremented as one byte *)

(** C2 fails on the code.  After 255 rounds of [Allocate] and [Free] on the
    only block of scenario X its extended header reads use count 255,
    allocation number 0, flag 0; the 256th [Allocate] leaves use count 0,
    allocation number 256, flag 1, with [Allocations_ = 256]. *)
Theorem use_count_wraps_at_256 :
  match cycles K0 (Z.to_nat 255) sX0 with
  | Some s =>
    match Allocate K0 4 no_host None s with
    | Returns p s' =>
      Some (extended_header s p, extended_header s' p, Allocations_ (stats s'))
    | _ => None
    end
  | None => None
  end = Some ((255, 0, 0), (0, 256, 1), 256).
Proof. vm_compute. reflexivity. Qed.

(** ** C3: witness *)

Lemma Free_counts_before_checks_witness :
  UseCPPMemManager_ (configuration sB2) = false /\
  Free K0 8 pB sB2 = Throws E_MULTIPLE_FREE sB3 /\
  DebugOn_ (configuration sB2) = true /\
  Deallocations_ (stats sB3) = wrap_uint (Deallocations_ (stats sB2) + 1) /\
  ObjectsInUse_ (stats sB3) = wrap_uint (ObjectsInUse_ (stats sB2) - 1) /\
  FreeObjects_ (stats sB3) = FreeObjects_ (stats sB2) /\
  FreeList_ sB3 = FreeList_ sB2 /\
  PageList_ sB3 = PageList_ sB2 /\
  heap sB3 = heap sB2 /\
  infos sB3 = infos sB2.
Proof.
  assert (Hp : UseCPPMemManager_ (configuration sB2) = false)
    by (vm_compute; reflexivity).
  assert (E : Free K0 8 pB sB2 = Throws E_MULTIPLE_FREE sB3)
    by (apply raised_eq; vm_compute; reflexivity).
  split; [exact Hp|]. split; [exact E|].
  exact (proj2 (proj2 (Free_counts_before_checks K0 8 pB sB2 Hp)
                  E_MULTIPLE_FREE sB3 E)).
Defined.

(** ** C4: counterexample and witness *)



(** ** C5: counterexample and witness *)



(** ** C6: witness *)

Lemma geometry_at_construction_witness :
  config_in_range 20 cfgG /\
  1 <= ObjectsPerPage_ cfgG /\
  no_overflow 20 cfgG /\
  pageHeader (ctor_init ram0 20 cfgG) = 32 /\
  dataSize (ctor_init ram0 20 cfgG) = 32 /\
  PageSize_ (stats (ctor_init ram0 20 cfgG)) = 150 /\
  LeftAlignSize_ (configuration (ctor_init ram0 20 cfgG)) = 14 /\
  InterAlignSize_ (configuration (ctor_init ram0 20 cfgG)) = 0.
Proof.
  assert (R : config_in_range 20 cfgG) by (unfold config_in_range; concrete).
  assert (HN : 1 <= ObjectsPerPage_ cfgG) by (vm_compute; congruence).
  assert (NO : no_overflow 20 cfgG) by (unfold no_overflow; concrete).
  split; [exact R|]. split; [exact HN|]. split; [exact NO|].
  exact (geometry_at_construction K0 8 (Some 4096) ram0 20 cfgG
           (ctor_init ram0 20 cfgG) R HN NO (or_introl eq_refl)).
Defined.

(** ** C7: witness *)

Lemma LIFO_reuse_witness :
  wf_config K0 16 cfgB /\ patterns_ok K0 /\
  exists s0 p1 s1 s2 p2 s3 rest,
    ObjectAllocator_ctor K0 8 (Some 4096) ram0 16 cfgB = Returns tt s0 /\
    Allocate K0 8 no_host None s0 = Returns p1 s1 /\
    Free K0 8 p1 s1 = Returns tt s2 /\
    Allocate K0 8 no_host None s2 = Returns p2 s3 /\
    p2 = p1 /\
    p1 :: rest = rev (blocks_of_page s0 4096) /\
    chain (heap s0) (FreeList_ s0) (p1 :: rest) /\
    chain (heap s1) (FreeList_ s1) rest /\
    chain (heap s2) (FreeList_ s2) (p1 :: rest) /\
    chain (heap s3) (FreeList_ s3) rest /\
    FreeObjects_ (stats s0) = ObjectsPerPage_ cfgB /\
    FreeObjects_ (stats s1) = ObjectsPerPage_ cfgB - 1 /\
    FreeObjects_ (stats s2) = ObjectsPerPage_ cfgB /\
    FreeObjects_ (stats s3) = ObjectsPerPage_ cfgB - 1 /\
    ObjectsInUse_ (stats s0) = 0 /\
    ObjectsInUse_ (stats s1) = 1 /\
    ObjectsInUse_ (stats s2) = 0 /\
    ObjectsInUse_ (stats s3) = 1.
Proof.
  assert (HP : patterns_ok K0) by (unfold patterns_ok; concrete).
  split; [exact wf_cfgB|]. split; [exact HP|].
  apply (LIFO_reuse K0 8 4096 ram0 16 cfgB no_host no_host None None wf_cfgB HP).
  - reflexivity.
  - vm_compute. congruence.
  - reflexivity.
  - vm_compute. congruence.
  - simpl. discriminate.
  - simpl. lia.
Defined.

(** ** C8: witness *)

(** In scenario P the page at 8192 has its only block back on the free list and
    the page at 4096 has its block in use: one page is released. *)
Lemma FreeEmptyPages_witness :
  exists fl s',
    pool_inv K0 sP3 [8192; 4096] fl (remove Z.eq_dec pP2 [pP2; pP1]) /\
    (length [8192%Z; 4096%Z] + length fl < 8)%nat /\
    filter (page_empty sP3 fl) [8192; 4096] = [8192] /\
    FreeEmptyPages 8 sP3 = Returns 1 s' /\
    pool_inv K0 s' [4096] [] (remove Z.eq_dec pP2 [pP2; pP1]) /\
    PagesInUse_ (stats s') = 1 /\
    FreeObjects_ (stats s') = 0.
Proof.
  destruct (reachable_inv K0 sP3 _ _ reach_sP3) as (_ & fl & I).
  assert (Efl : fl = [pP2]).
  { pose proof (inv_free_chain K0 sP3 _ _ _ I) as C.
    assert (C' : chain (heap sP3) (FreeList_ sP3) [pP2]).
    { cbn [chain]. split; [vm_compute; reflexivity|].
      split; [vm_compute; congruence|]. vm_compute. reflexivity. }
    eapply chain_functional; eauto. }
  subst fl.
  assert (Hf : (length [8192%Z; 4096%Z] + length [pP2] < 8)%nat) by (simpl; lia).
  destruct (FreeEmptyPages_releases_empty_pages K0 sP3 [8192; 4096] [pP2]
              (remove Z.eq_dec pP2 [pP2; pP1]) 8 I Hf)
    as (_ & s' & Er & I' & Ep & Ef & _).
  exists [pP2], s'.
  split; [exact I|]. split; [exact Hf|]. split; [vm_compute; reflexivity|].
  split; [exact Er|]. split; [exact I'|]. split.
  - rewrite Ep. vm_compute. reflexivity.
  - rewrite Ef. vm_compute. reflexivity.
Defined.

(** ** C9: witness *)

(** In passthrough mode too the constructor builds a page of four blocks. *)
Lemma ctor_always_allocates_page_witness :
  UseCPPMemManager_ cfgT = true /\
  count_ok 16 cfgT /\
  exists s,
    ObjectAllocator_ctor K0 8 (Some 4096) ram0 16 cfgT = Returns tt s /\
    PagesInUse_ (stats s) = 1 /\
    FreeObjects_ (stats s) = ObjectsPerPage_ cfgT.
Proof.
  assert (W : count_ok 16 cfgT)
    by (unfold count_ok, config_in_range; concrete).
  split; [reflexivity|]. split; [exact W|].
  destruct (ctor_always_allocates_page K0 8 (Some 4096) ram0 16 cfgT)
    as (_ & Hret & _ & _ & _ & Htot & _).
  destruct (Htot W) as (s & E).
  - vm_compute. reflexivity.
  - discriminate.
  - simpl. lia.
  - intros _. vm_compute. discriminate.
  - exists s. split; [exact E|]. destruct (Hret s E) as (H1 & H2).
    split; [exact H1|exact (H2 W)].
Defined.

(** ** C10: witness *)

(** In scenario B one block is in use and the header flavor is none: the scan
    reports nothing. *)
Lemma DumpMemoryInUse_blind_witness :
  type_ (HBlockInfo_ (configuration sB1)) = hbNone /\
  ObjectsInUse_ (stats sB1) = 1 /\
  DumpMemoryInUse 8 sB1 = Some (0, []).
Proof.
  assert (T : type_ (HBlockInfo_ (configuration sB1)) = hbNone)
    by (vm_compute; reflexivity).
  split; [exact T|]. split; [vm_compute; reflexivity|].
  destruct (reachable_inv K0 sB1 [4096] [pB] reach_sB1) as (_ & fl & I).
  apply (proj2 (proj1 (DumpMemoryInUse_blind sB1) (or_introl T)) [4096] 8%nat).
  - apply (inv_page_chain K0 sB1 _ _ _ I).
  - simpl. lia.
Defined.

(** ** The balance modulo [2 ^ 32], for every sequence of calls *)

Lemma allocate_header_stats K host label p s q s' :
  allocate_header K host label p s = Returns q s' ->
  stats s' = stats s /\ geometry s' = geometry s.
Proof.
  unfold allocate_header.
  destruct (type_ (HBlockInfo_ (configuration s))).
  - intros X. inversion X; subst. auto.
  - intros X. inversion X; subst. auto.
  - intros X. inversion X; subst. auto.
  - destruct (new_info host); [|discriminate].
    destruct (MemBlockInfo_ctor _ _ _ _); [|discriminate].
    intros X. inversion X; subst. auto.
Qed.

Lemma pop_block_stats K host label s p s' :
  pop_block K host label s = Returns p s' ->
  stats s' = count_allocation (stats s) /\ geometry s' = geometry s.
Proof.
  unfold pop_block. destruct (FreeList_ s =? 0); [discriminate|].
  destruct (count_allocation_sizes (stats s)) as (C1 & C2 & _).
  intros X. apply allocate_header_stats in X. destruct X as (-> & ->).
  destruct (DebugOn_ (configuration s)); unfold geometry;
    cbn -[count_allocation]; rewrite C1, C2; auto.
Qed.

Lemma free_header_stats K p s :
  stats (free_header K p s) = stats s /\
  geometry (free_header K p s) = geometry s.
Proof.
  unfold free_header.
  destruct (type_ (HBlockInfo_ (configuration s))); auto.
  destruct (_ =? 0); auto.
Qed.

Lemma Free_stats K fuel p s s' :
  UseCPPMemManager_ (configuration s) = false ->
  Free K fuel p s = Returns tt s' ->
  stats s'
  = set_FreeObjects (count_free (stats s)) (wrap_uint (FreeObjects_ (stats s) + 1))
  /\ geometry s' = geometry s.
Proof.
  intros Hpool. unfold Free. cbn [set_stats configuration]. rewrite Hpool.
  destruct (count_free_fields (stats s)) as (C1 & C2 & _ & C4 & _).
  set (s1 := set_stats s (count_free (stats s))).
  assert (Hs4 : forall s4,
            stats s4 = count_free (stats s) -> geometry s4 = geometry s1 ->
            Returns tt (AddToFreeList p (free_header K p s4)) = Returns tt s' ->
            stats s' = set_FreeObjects (count_free (stats s))
                         (wrap_uint (FreeObjects_ (stats s) + 1))
            /\ geometry s' = geometry s).
  { intros s4 Est Eg X. inversion X; subst s'. clear X.
    destruct (free_header_stats K p s4) as (F1 & F2).
    split.
    - unfold AddToFreeList. cbn [stats set_stats set_heap set_FreeList].
      rewrite F1, Est, C4. reflexivity.
    - rewrite geometry_AddToFreeList, F2, Eg.
      unfold s1, geometry. cbn -[count_free]. rewrite C1, C2. reflexivity. }
  destruct (DebugOn_ (configuration s)).
  - destruct (debug_free K fuel p s1) as [[] s4|e4 s4| |] eqn:E4; simpl;
      try discriminate.
    apply debug_free_returns in E4. destruct E4 as (-> & _).
    destruct (p =? 0); [discriminate|].
    apply Hs4; reflexivity.
  - simpl. destruct (p =? 0); [discriminate|]. apply Hs4; reflexivity.
Qed.

Lemma AllocateNewPage_stats K fuel host s s' :
  loop_ok s ->
  AllocateNewPage K fuel host s = Returns tt s' ->
  geometry s' = geometry s /\
  stats s'
  = set_FreeObjects
      (set_PagesInUse (stats s) (wrap_uint (PagesInUse_ (stats s) + 1)))
      (wrap_uint (FreeObjects_ (stats s) + ObjectsPerPage_ (configuration s))).
Proof.
  intros L E.
  destruct (AllocateNewPage_returns_eq K fuel host s s' L E) as (a & _ & ->).
  split; [rewrite geometry_init_n; apply geometry_link_new_page|].
  destruct (init_n_fields K (Z.to_nat (ObjectsPerPage_ (configuration s)))
              (a + pageHeader s) (link_new_page K a s)) as (_ & _ & E3 & _).
  destruct (link_new_page_fields K a s) as (_ & _ & _ & L4).
  destruct L as (HN & _).
  rewrite E3, L4.
  replace (Nat.eqb (Z.to_nat (ObjectsPerPage_ (configuration s))) 0) with false
    by (symmetry; apply Nat.eqb_neq; lia).
  cbn [FreeObjects_ set_PagesInUse]. rewrite Z2Nat.id by lia. reflexivity.
Qed.

Lemma balanced32_step (i f g n i' f' : Z) :
  wrap_uint (i + f) = wrap_uint (g * n) ->
  wrap_uint (i' + f') = wrap_uint (i + f) ->
  wrap_uint (i' + f') = wrap_uint (g * n).
Proof. congruence. Qed.

Lemma wrap_uint_pop i f :
  wrap_uint (wrap_uint (i + 1) + wrap_uint (f - 1)) = wrap_uint (i + f).
Proof.
  unfold wrap_uint. rewrite <- Zplus_mod. f_equal. lia.
Qed.

Lemma wrap_uint_push i f :
  wrap_uint (wrap_uint (i - 1) + wrap_uint (f + 1)) = wrap_uint (i + f).
Proof.
  unfold wrap_uint. rewrite <- Zplus_mod. f_equal. lia.
Qed.

Lemma wrap_uint_grow i f g n :
  wrap_uint (i + f) = wrap_uint (g * n) ->
  wrap_uint (i + wrap_uint (f + n)) = wrap_uint (wrap_uint (g + 1) * n).
Proof.
  unfold wrap_uint. intros H.
  rewrite Zplus_mod_idemp_r, Zmult_mod_idemp_l.
  replace (i + (f + n)) with (i + f + n) by lia.
  replace ((g + 1) * n) with (g * n + n) by lia.
  rewrite <- (Zplus_mod_idemp_l (i + f)), H, Zplus_mod_idemp_l. reflexivity.
Qed.

(** For every sequence of calls of [Allocate] and [Free] that return, in
    pooled mode, the statistics balance modulo [2 ^ 32], whatever the client
    passes to [Free]. *)
Lemma stats_balance_mod K s0 s :
  loop_ok s0 ->
  UseCPPMemManager_ (configuration s0) = false ->
  balanced32 s0 ->
  calls K s0 s ->
  balanced32 s /\ geometry s = geometry s0.
Proof.
  intros L0 Hp0 B0 C.
  induction C as [s0|fuel host label s0 s1 p s2 C IH E|fuel p s0 s1 s2 C IH E].
  - auto.
  - destruct (IH L0 Hp0 B0) as (B1 & Eg1).
    assert (L1 : loop_ok s1) by (eapply loop_ok_ext; eauto).
    assert (Hp1 : UseCPPMemManager_ (configuration s1) = false)
      by (rewrite (geometry_config _ _ Eg1); exact Hp0).
    unfold Allocate in E. rewrite Hp1 in E.
    destruct (count_allocation_sizes (stats s1)) as (_ & _ & C3 & C4 & C5 & _).
    destruct (FreeList_ s1 =? 0).
    + destruct (AllocateNewPage K fuel (new_page host) s1) as [[] sn|e sn| |] eqn:En;
        simpl in E; try discriminate.
      destruct (AllocateNewPage_stats K fuel _ s1 sn L1 En) as (Egn & Esn).
      destruct (pop_block_stats K host label sn p s2 E) as (Es2 & Eg2).
      destruct (count_allocation_sizes (stats sn)) as (_ & _ & D3 & D4 & D5 & _).
      split; [|congruence].
      unfold balanced32 in *.
      rewrite (geometry_config _ _ Eg2), (geometry_config _ _ Egn).
      rewrite Es2, D3, D4, D5, Esn.
      cbn [ObjectsInUse_ FreeObjects_ PagesInUse_ set_FreeObjects set_PagesInUse].
      rewrite wrap_uint_pop. apply wrap_uint_grow. exact B1.
    + simpl in E.
      destruct (pop_block_stats K host label s1 p s2 E) as (Es2 & Eg2).
      split; [|congruence].
      unfold balanced32 in *. rewrite (geometry_config _ _ Eg2).
      rewrite Es2, C3, C4, C5, wrap_uint_pop. exact B1.
  - destruct (IH L0 Hp0 B0) as (B1 & Eg1).
    assert (Hp1 : UseCPPMemManager_ (configuration s1) = false)
      by (rewrite (geometry_config _ _ Eg1); exact Hp0).
    destruct (Free_stats K fuel p s1 s2 Hp1 E) as (Es2 & Eg2).
    destruct (count_free_fields (stats s1)) as (_ & _ & C3 & _ & C5 & _).
    split; [|congruence].
    unfold balanced32 in *. rewrite (geometry_config _ _ Eg2), Es2.
    cbn [ObjectsInUse_ FreeObjects_ PagesInUse_ set_FreeObjects].
    rewrite C3, C5, wrap_uint_push. exact B1.
Qed.

(** In scenario A a second [Free] of the same block goes undetected and
    [ObjectsInUse_] wraps below zero: the counters balance modulo [2 ^ 32]
    only. *)
Example double_free_unbalances :
  returned (Free K0 8 pA sA2) = Some tt /\
  ObjectsInUse_ (stats sA3) = 4294967295 /\
  FreeObjects_ (stats sA3) = 5 /\
  PagesInUse_ (stats sA3) * ObjectsPerPage_ (configuration sA3) = 4 /\
  balanced32 sA3.
Proof. repeat split; vm_compute; reflexivity. Qed.

(** Objects of size zero without pads: the page has no room for a block and
    the loop of [AllocateNewPage] creates none. *)
Example zero_size_objects_get_no_block :
  returned (ObjectAllocator_ctor K0 8 (Some 4096) ram0 0 cfgZ) = Some tt /\
  FreeObjects_
    (stats (state_after (ObjectAllocator_ctor K0 8 (Some 4096) ram0 0 cfgZ)
              (ctor_init ram0 0 cfgZ))) = 0 /\
  ObjectsPerPage_ cfgZ = 4.
Proof. repeat split; vm_compute; reflexivity. Qed.

(** Objects of 4 bytes with debug on: the count of the first fill of the
    painting wraps and the constructor does not return. *)
Example short_object_debug_ctor_faults :
  count_ok 4 cfgA /\
  DebugOn_ cfgA = true /\
  ObjectAllocator_ctor K0 8 (Some 4096) ram0 4 cfgA = Fault.
Proof.
  split; [unfold count_ok, config_in_range; concrete|].
  split; reflexivity.
Qed.

(** With no block per page [ObjectsPerPage_ - 1] wraps to [2 ^ 32 - 1]. *)
Example page_size_without_blocks :
  PageSize_ (stats (ctor_init ram0 8 cfgN)) = 8 + 8 * (2 ^ 32 - 1) + 8 /\
  PageSize_spec 8 cfgN = 8.
Proof. split; vm_compute; reflexivity. Qed.

(** ** The extended header on allocation, in general *)

(** With extended headers [Allocate] increments the low byte of the use
    count modulo 256 and leaves its high byte as it was; the flag byte is
    set. *)
Lemma allocate_header_extended K host label p s :
  type_ (HBlockInfo_ (configuration s)) = hbExtended ->
  exists s',
    allocate_header K host label p s = Returns p s' /\
    let h := p - PadBytes_ (configuration s)
             - size_ (HBlockInfo_ (configuration s))
             + (additional_ (HBlockInfo_ (configuration s))) mod 256 in
    heap s' h = (heap s h + 1) mod 256 /\
    heap s' (h + 1) = heap s (h + 1) /\
    heap s' (h + 6) = 1.
Proof.
  intros Ht. unfold allocate_header. rewrite Ht.
  eexists. split; [reflexivity|]. cbn [heap set_heap].
  repeat split.
  - rewrite store_le_out by (simpl; lia). rewrite store_le_out by (simpl; lia).
    rewrite store_le_in by (simpl; lia).
    rewrite Z.sub_diag. simpl. rewrite Z.div_1_r. reflexivity.
  - rewrite store_le_out by (simpl; lia). rewrite store_le_out by (simpl; lia).
    rewrite store_le_out by (simpl; lia). reflexivity.
  - rewrite store_le_in by (simpl; lia).
    replace (_ + 6 - (_ + 2 + 4)) with 0 by lia. reflexivity.
Qed.

(** * Further properties of the code *)

(** ** [align] *)

Lemma align_spec_multiple x a : a <> 0 -> (align_spec x a) mod a = 0.
Proof.
  intros Ha. unfold align_spec.
  destruct (Z.eqb_spec a 0); [contradiction|].
  rewrite Z.mul_comm. apply Z_mod_mult.
Qed.

Lemma align_spec_fixed r a : 0 < a -> r mod a = 0 -> align_spec r a = r.
Proof.
  intros Ha Hr. unfold align_spec.
  destruct (Z.eqb_spec a 0); [lia|].
  pose proof (Z_div_exact_full_2 r a ltac:(lia) Hr) as E.
  replace (r + a - 1) with (r / a * a + (a - 1)) by lia.
  rewrite Z.div_add_l by lia. rewrite (Z.div_small (a - 1) a) by lia. lia.
Qed.

(** X1.  For a positive alignment and a size that leaves room below [2 ^ 64],
    [align] returns the least multiple of the alignment that is not below the
    size; aligning twice changes nothing. *)
Theorem align_least_multiple sz a :
  0 <= sz -> 0 < a -> sz + a <= 2 ^ 64 ->
  (align sz a) mod a = 0 /\
  sz <= align sz a < sz + a /\
  align (align sz a) a = align sz a.
Proof.
  intros Hs Ha Hb.
  pose proof (align_spec_ge sz a Hs ltac:(lia)) as H1.
  pose proof (align_spec_lt sz a Hs Ha) as H2.
  assert (E : align sz a = align_spec sz a) by (apply align_refines; lia).
  pose proof (align_spec_multiple sz a ltac:(lia)) as H3.
  rewrite E. split; [exact H3|]. split; [lia|].
  rewrite align_refines.
  - apply align_spec_fixed; assumption.
  - lia.
  - lia.
  - rewrite align_spec_fixed by assumption. lia.
Qed.

Lemma align_least_multiple_witness :
  (align 20 16) mod 16 = 0 /\
  20 <= align 20 16 < 20 + 16 /\
  align (align 20 16) 16 = align 20 16.
Proof.
  apply (align_least_multiple 20 16); lia.
Defined.

(** Without room below [2 ^ 64] the product wraps and the result is smaller
    than the size. *)
Example align_wraps : align (2 ^ 64 - 8) 16 = 0.
Proof. reflexivity. Qed.

(** ** The boundary check *)

Lemma CheckPageBoundary_loop_verdict s obj : forall pages fuel page,
  chain (heap s) page pages -> pages <> [] -> (length pages <= fuel)%nat ->
  CheckPageBoundary_loop fuel obj page s
  = if existsb (fun a => in_page s a obj) pages
    then Returns tt s else Throws E_BAD_BOUNDARY s.
Proof.
  induction pages as [|a t IH]; intros fuel page C Hne Hf; [congruence|].
  destruct fuel as [|fuel]; [simpl in Hf; lia|].
  cbn [chain] in C. destruct C as (-> & Ha & C).
  cbn [CheckPageBoundary_loop existsb].
  destruct (Z.eqb_spec a 0) as [|_]; [contradiction|].
  destruct (in_page s a obj); [reflexivity|]. cbn [orb].
  destruct t as [|b t'].
  - cbn [chain] in C. rewrite C. reflexivity.
  - pose proof C as C'. cbn [chain] in C'. destruct C' as (Eb & Hb & _).
    destruct (Z.eqb_spec (load_ptr (heap s) a) 0) as [E0|_]; [congruence|].
    apply IH; [exact C|discriminate|simpl in *; lia].
Qed.

Lemma CheckPageBoundary_within s obj pages fuel :
  chain (heap s) (PageList_ s) pages -> (length pages < fuel)%nat ->
  CheckPageBoundary fuel obj s
  = if within_pages s pages obj then Returns tt s else Throws E_BAD_BOUNDARY s.
Proof.
  intros C Hf. unfold CheckPageBoundary, within_pages.
  destruct pages as [|a t] eqn:Ep.
  - cbn [chain] in C. rewrite C.
    destruct fuel; [simpl in Hf; lia|]. reflexivity.
  - apply CheckPageBoundary_loop_verdict; [exact C|discriminate|lia].
Qed.

Lemma within_pages_iff s pages obj :
  within_pages s pages obj = true <->
  pages = [] \/ exists a, In a pages /\ a <= obj < a + PageSize_ (stats s).
Proof.
  unfold within_pages. destruct pages as [|a t].
  - split; auto.
  - rewrite existsb_exists. split.
    + intros (x & Hx & Hi). right. exists x. split; [exact Hx|].
      apply in_page_iff. exact Hi.
    + intros [H|(x & Hx & Hi)]; [discriminate|].
      exists x. split; [exact Hx|]. apply in_page_iff. exact Hi.
Qed.

(** X2.  On a page list held in memory [CheckPageBoundary] raises
    BAD_BOUNDARY exactly when there is a page and the pointer lies in the
    address range of none; with an empty page list it lets every pointer
    through. *)
Theorem CheckPageBoundary_verdict s obj pages fuel :
  chain (heap s) (PageList_ s) pages -> (length pages < fuel)%nat ->
  (CheckPageBoundary fuel obj s = Returns tt s <->
   pages = [] \/ exists a, In a pages /\ a <= obj < a + PageSize_ (stats s)) /\
  (CheckPageBoundary fuel obj s = Throws E_BAD_BOUNDARY s <->
   pages <> [] /\
   forall a, In a pages -> obj < a \/ a + PageSize_ (stats s) <= obj).
Proof.
  intros C Hf. rewrite (CheckPageBoundary_within s obj pages fuel C Hf).
  pose proof (within_pages_iff s pages obj) as W.
  destruct (within_pages s pages obj).
  - split.
    + split; [intros _; apply W; reflexivity|reflexivity].
    + split; [discriminate|].
      intros (Hne & Hall). destruct (proj1 W eq_refl) as [E|(a & Ha & Hr)].
      * contradiction.
      * specialize (Hall a Ha). lia.
  - split.
    + split; [discriminate|]. intros H. apply W in H. discriminate.
    + split; [|reflexivity]. intros _. split.
      * intros E. assert (false = true) by (apply W; left; exact E).
        discriminate.
      * intros a Ha.
        destruct (Z_lt_dec obj a) as [|H1]; [left; assumption|].
        destruct (Z_le_dec (a + PageSize_ (stats s)) obj) as [|H2];
          [right; assumption|].
        assert (false = true)
          by (apply W; right; exists a; split; [exact Ha|lia]).
        discriminate.
Qed.

(** ** The pad check *)

Lemma pad_bytes_iff s obj y :
  In y (pad_bytes s obj) <->
  obj - PadBytes_ (configuration s) <= y < obj
  \/ obj + ObjectSize_ (stats s) <= y
     < obj + ObjectSize_ (stats s) + PadBytes_ (configuration s).
Proof.
  unfold pad_bytes. rewrite in_app_iff, !in_map_iff. split.
  - intros [(i & <- & Hi)|(i & <- & Hi)]; apply in_seq in Hi; lia.
  - intros [H|H].
    + left. exists (Z.to_nat (y - (obj - PadBytes_ (configuration s)))).
      split; [lia|]. apply in_seq. lia.
    + right. exists (Z.to_nat (y - (obj + ObjectSize_ (stats s)))).
      split; [lia|]. apply in_seq. lia.
Qed.

Lemma pads_intact_iff K s obj :
  pads_intact K s obj = true <->
  forall y,
    obj - PadBytes_ (configuration s) <= y < obj
    \/ obj + ObjectSize_ (stats s) <= y
       < obj + ObjectSize_ (stats s) + PadBytes_ (configuration s) ->
    heap s y = PAD_PATTERN K.
Proof.
  unfold pads_intact. rewrite forallb_forall. split.
  - intros H y Hy. apply Z.eqb_eq. apply H. apply pad_bytes_iff. exact Hy.
  - intros H y Hy. apply Z.eqb_eq. apply H. apply pad_bytes_iff. exact Hy.
Qed.

Lemma CheckPadding_intact K obj s :
  0 <= PadBytes_ (configuration s) < 2 ^ 32 ->
  CheckPadding K obj s
  = if pads_intact K s obj then Returns tt s else Throws E_CORRUPTED_BLOCK s.
Proof.
  intros HP.
  pose proof (CheckPadding_returns_iff K obj s HP) as R.
  pose proof (pads_intact_iff K s obj) as I.
  destruct (pads_intact K s obj).
  - apply R. apply I. reflexivity.
  - destruct (CheckPadding_loop_outcome K obj
                (Z.to_nat (PadBytes_ (configuration s))) 0 s) as [E|E].
    + assert (false = true) by (apply I; apply R; exact E). discriminate.
    + exact E.
Qed.

(** X3.  [CheckPadding] raises CORRUPTED_BLOCK exactly when one of the
    [PadBytes_] bytes before the payload or of the [PadBytes_] bytes after it
    differs from the pad signature; without pads it never raises. *)
Theorem CheckPadding_verdict K obj s :
  0 <= PadBytes_ (configuration s) < 2 ^ 32 ->
  (CheckPadding K obj s = Throws E_CORRUPTED_BLOCK s <->
   exists y,
     (obj - PadBytes_ (configuration s) <= y < obj
      \/ obj + ObjectSize_ (stats s) <= y
         < obj + ObjectSize_ (stats s) + PadBytes_ (configuration s)) /\
     heap s y <> PAD_PATTERN K) /\
  (CheckPadding K obj s = Returns tt s \/
   CheckPadding K obj s = Throws E_CORRUPTED_BLOCK s) /\
  (PadBytes_ (configuration s) = 0 -> CheckPadding K obj s = Returns tt s).
Proof.
  intros HP. rewrite (CheckPadding_intact K obj s HP).
  pose proof (pads_intact_iff K s obj) as I.
  split; [|split].
  - destruct (pads_intact K s obj) eqn:E.
    + split; [discriminate|]. intros (y & Hy & Hne).
      elim Hne. apply (proj1 I eq_refl). exact Hy.
    + split; [|reflexivity]. intros _.
      unfold pads_intact in E.
      assert (X : existsb (fun y => negb (heap s y =? PAD_PATTERN K))
                    (pad_bytes s obj) = true).
      { clear I. induction (pad_bytes s obj) as [|z l IH]; [discriminate|].
        cbn [forallb existsb] in *.
        destruct (heap s z =? PAD_PATTERN K); [apply IH; exact E|reflexivity]. }
      apply existsb_exists in X. destruct X as (y & Hy & Hne).
      exists y. split; [apply pad_bytes_iff; exact Hy|].
      destruct (Z.eqb_spec (heap s y) (PAD_PATTERN K)); [discriminate|assumption].
  - destruct (pads_intact K s obj); auto.
  - intros E0. replace (pads_intact K s obj) with true; [reflexivity|].
    symmetry. apply I. intros y Hy. lia.
Qed.

(** ** The verdict of [Free] in debug mode *)

Lemma within_pages_stats s st pages obj :
  PageSize_ st = PageSize_ (stats s) ->
  within_pages (set_stats s st) pages obj = within_pages s pages obj.
Proof.
  intros E. unfold within_pages, in_page. cbn [stats set_stats]. rewrite E.
  reflexivity.
Qed.

Lemma pads_intact_stats K s st obj :
  ObjectSize_ st = ObjectSize_ (stats s) ->
  pads_intact K (set_stats s st) obj = pads_intact K s obj.
Proof.
  intros E. unfold pads_intact, pad_bytes.
  cbn [stats set_stats configuration heap]. rewrite E. reflexivity.
Qed.

Lemma Free_debug_table K fuel obj s pages :
  UseCPPMemManager_ (configuration s) = false ->
  DebugOn_ (configuration s) = true ->
  0 <= PadBytes_ (configuration s) < 2 ^ 32 ->
  chain (heap s) (PageList_ s) pages ->
  (length pages < fuel)%nat ->
  Free K fuel obj s
  = let s1 := set_stats s (count_free (stats s)) in
    if negb (within_pages s pages obj) then Throws E_BAD_BOUNDARY s1
    else if obj =? 0 then Fault
    else if negb (pads_intact K s obj) then Throws E_CORRUPTED_BLOCK s1
    else if heap s (obj + PTR_SIZE) =? FREED_PATTERN K
    then Throws E_MULTIPLE_FREE s1
    else
      Returns tt
        (AddToFreeList obj
           (free_header K obj
              (set_heap s1 (memset (heap s) obj (FREED_PATTERN K)
                              (ObjectSize_ (stats s)))))).
Proof.
  intros Hp Hd HP C Hf. cbv zeta.
  destruct (count_free_fields (stats s)) as (C1 & C2 & _).
  unfold Free. cbn [configuration set_stats]. rewrite Hp, Hd.
  unfold debug_free.
  rewrite (CheckPageBoundary_within (set_stats s (count_free (stats s)))
             obj pages fuel C Hf).
  rewrite (within_pages_stats s (count_free (stats s)) pages obj C2).
  destruct (within_pages s pages obj); [|reflexivity].
  cbn [negb bind].
  destruct (obj =? 0); [reflexivity|].
  rewrite (CheckPadding_intact K obj (set_stats s (count_free (stats s))) HP).
  rewrite (pads_intact_stats K s (count_free (stats s)) obj C1).
  destruct (pads_intact K s obj); [|reflexivity].
  cbn [negb bind heap set_stats stats]. rewrite C1.
  destruct (heap s (obj + PTR_SIZE) =? FREED_PATTERN K); reflexivity.
Qed.


Lemma CheckPageBoundary_verdict_witness :
  chain (heap sB1) (PageList_ sB1) [4096] /\
  (length [4096%Z] < 8)%nat /\
  CheckPageBoundary 8 100 sB1 = Throws E_BAD_BOUNDARY sB1.
Proof.
  destruct (reachable_inv K0 sB1 [4096] [pB] reach_sB1) as (_ & fl & I).
  pose proof (inv_page_chain K0 sB1 _ _ _ I) as C.
  assert (Hf : (length [4096%Z] < 8)%nat) by (simpl; lia).
  split; [exact C|]. split; [exact Hf|].
  apply (proj2 (CheckPageBoundary_verdict sB1 100 [4096] 8 C Hf)).
  split; [discriminate|].
  intros a [<-|[]]. left. lia.
Defined.

Lemma sB1_overrun_pads : 0 <= PadBytes_ (configuration sB1_overrun) < 2 ^ 32.
Proof. vm_compute. split; congruence. Qed.

Lemma CheckPadding_verdict_witness :
  0 <= PadBytes_ (configuration sB1_overrun) < 2 ^ 32 /\
  CheckPadding K0 pB sB1_overrun = Throws E_CORRUPTED_BLOCK sB1_overrun.
Proof.
  split; [exact sB1_overrun_pads|].
  apply (proj2 (proj1 (CheckPadding_verdict K0 pB sB1_overrun sB1_overrun_pads))).
  exists (pB + 16). split.
  - right. vm_compute. repeat split; congruence.
  - vm_compute. congruence.
Defined.

Lemma sB1_overrun_chain : chain (heap sB1_overrun) (PageList_ sB1_overrun) [4096].
Proof.
  cbn [chain]. split; [vm_compute; reflexivity|].
  split; [congruence|]. vm_compute. reflexivity.
Qed.


(** ** How [Allocate] fails *)

Lemma pop_block_throws_state K host label s e s' :
  pop_block K host label s = Throws e s' ->
  e = E_NO_MEMORY /\
  type_ (HBlockInfo_ (configuration s)) = hbExternal /\
  FreeList_ s <> 0 /\
  FreeList_ s' = load_ptr (heap s) (FreeList_ s) /\
  PageList_ s' = PageList_ s /\
  stats s' = count_allocation (stats s) /\
  forall y, y < FreeList_ s \/ FreeList_ s + ObjectSize_ (stats s) <= y ->
    heap s' y = heap s y.
Proof.
  unfold pop_block.
  destruct (Z.eqb_spec (FreeList_ s) 0) as [E|E]; [discriminate|].
  intros X. apply allocate_header_throws in X. destruct X as (-> & -> & T).
  split; [reflexivity|].
  destruct (DebugOn_ (configuration s)); cbn in T |- *;
    (split; [exact T|]); (split; [exact E|]); repeat split.
  intros y Hy. apply memset_out. lia.
Qed.

Lemma pop_block_external_failure K host label s :
  FreeList_ s <> 0 ->
  type_ (HBlockInfo_ (configuration s)) = hbExternal ->
  new_info host = None \/ (label <> None /\ new_label host = false) ->
  exists s', pop_block K host label s = Throws E_NO_MEMORY s'.
Proof.
  intros E T Hh. unfold pop_block.
  destruct (Z.eqb_spec (FreeList_ s) 0) as [|_]; [contradiction|].
  unfold allocate_header.
  match goal with
  | |- context [type_ (HBlockInfo_ (configuration ?st))] =>
    replace (type_ (HBlockInfo_ (configuration st))) with hbExternal
      by (destruct (DebugOn_ (configuration s)); symmetry; exact T)
  end.
  destruct (new_info host) as [info|]; [|eexists; reflexivity].
  destruct Hh as [Hh|(Hl & Hn)]; [discriminate|].
  unfold MemBlockInfo_ctor. destruct label as [l|]; [|congruence].
  rewrite Hn. eexists. reflexivity.
Qed.

(** X5.  [Allocate] raises nothing but NO_PAGES and NO_MEMORY.  When the page
    cap is reached or the host refuses a page or a passthrough object, the
    allocator thrown is the one before the call.  The only other failure is
    that of the host on the record of an external header. *)
Theorem Allocate_failure K fuel host label s e s' :
  Allocate K fuel host label s = Throws e s' ->
  (e = E_NO_PAGES /\ s' = s /\
   UseCPPMemManager_ (configuration s) = false /\ FreeList_ s = 0 /\
   PagesInUse_ (stats s) >= MaxPages_ (configuration s))
  \/
  (e = E_NO_MEMORY /\ s' = s /\
   UseCPPMemManager_ (configuration s) = true /\ new_object host = None)
  \/
  (e = E_NO_MEMORY /\ s' = s /\
   UseCPPMemManager_ (configuration s) = false /\ FreeList_ s = 0 /\
   PagesInUse_ (stats s) < MaxPages_ (configuration s) /\ new_page host = None)
  \/
  (e = E_NO_MEMORY /\
   UseCPPMemManager_ (configuration s) = false /\
   type_ (HBlockInfo_ (configuration s)) = hbExternal /\
   (new_info host = None \/ new_label host = false)).
Proof.
  unfold Allocate.
  destruct (UseCPPMemManager_ (configuration s)) eqn:Hp.
  - destruct (new_object host) eqn:Hn; [discriminate|].
    intros X. inversion X; subst. right. left. auto.
  - destruct (Z.eqb_spec (FreeList_ s) 0) as [E0|E0].
    + destruct (AllocateNewPage K fuel (new_page host) s) as [[] sn|en sn| |] eqn:En;
        simpl; try discriminate.
      * intros X.
        pose proof (geometry_config _ _
                      (proj1 (AllocateNewPage_geometry K fuel _ s sn En))) as Ec.
        right. right. right.
        unfold pop_block in X.
        destruct (FreeList_ sn =? 0); [discriminate|].
        pose proof X as X'. apply allocate_header_throws in X'.
        destruct X' as (-> & _ & T).
        split; [reflexivity|]. split; [reflexivity|].
        split.
        { rewrite <- Ec. destruct (DebugOn_ (configuration sn)); exact T. }
        unfold allocate_header in X.
        match type of X with
        | context [type_ (HBlockInfo_ (configuration ?st))] =>
          replace (type_ (HBlockInfo_ (configuration st))) with hbExternal in X
            by (symmetry; exact T)
        end.
        destruct (new_info host); [|left; reflexivity].
        unfold MemBlockInfo_ctor in X. destruct label; [|discriminate].
        destruct (new_label host); [discriminate|]. right. reflexivity.
      * intros X. inversion X; subst.
        apply AllocateNewPage_throws in En.
        destruct En as (-> & [(-> & Hc)|(-> & Hc & Hn)]).
        -- left. repeat split; assumption.
        -- right. right. left. repeat split; assumption.
    + simpl. intros X. right. right. right.
      unfold pop_block in X.
      destruct (FreeList_ s =? 0); [discriminate|].
      pose proof X as X'. apply allocate_header_throws in X'.
      destruct X' as (-> & _ & T).
      split; [reflexivity|]. split; [reflexivity|].
      split.
      { destruct (DebugOn_ (configuration s)); exact T. }
      unfold allocate_header in X.
      match type of X with
      | context [type_ (HBlockInfo_ (configuration ?st))] =>
        replace (type_ (HBlockInfo_ (configuration st))) with hbExternal in X
          by (symmetry; exact T)
      end.
      destruct (new_info host); [|left; reflexivity].
      unfold MemBlockInfo_ctor in X. destruct label; [|discriminate].
      destruct (new_label host); [discriminate|]. right. reflexivity.
Qed.

(** When the only block of scenario X is in use the next [Allocate] raises
    NO_PAGES and leaves the allocator as it was. *)
Lemma Allocate_failure_witness :
  exists s', Allocate K0 4 no_host None sX1 = Throws E_NO_PAGES s' /\ s' = sX1.
Proof.
  assert (E : Allocate K0 4 no_host None sX1
              = Throws E_NO_PAGES
                  (state_after (Allocate K0 4 no_host None sX1) sX1))
    by (apply raised_eq; vm_compute; reflexivity).
  exists (state_after (Allocate K0 4 no_host None sX1) sX1).
  split; [exact E|].
  destruct (Allocate_failure K0 4 no_host None sX1 _ _ E)
    as [(_ & Es & _)|[(Ee & _)|[(Ee & _)|(Ee & _)]]];
    [exact Es|discriminate|discriminate|discriminate].
Defined.

(** X6.  With external headers, when the host refuses the record of the
    header (or the copy of the label), [Allocate] raises NO_MEMORY after it
    has taken the block off the free list and moved the counters: the block is
    on no list and was not handed to the client, and it is counted as in
    use. *)
Theorem Allocate_external_failure_loses_block K fuel host label s pages x fl live :
  pool_inv K s pages (x :: fl) live ->
  UseCPPMemManager_ (configuration s) = false ->
  type_ (HBlockInfo_ (configuration s)) = hbExternal ->
  new_info host = None \/ (label <> None /\ new_label host = false) ->
  exists s',
    Allocate K fuel host label s = Throws E_NO_MEMORY s' /\
    chain (heap s') (FreeList_ s') fl /\
    ~ In x fl /\ ~ In x live /\
    FreeObjects_ (stats s') = Z.of_nat (length fl) /\
    ObjectsInUse_ (stats s') = Z.of_nat (length live) + 1 /\
    Allocations_ (stats s') = wrap_uint (Allocations_ (stats s) + 1).
Proof.
  intros I Hp T Hh.
  pose proof (inv_geom K s pages _ live I) as G.
  pose proof (geom_sizes K s G) as (_ & HS & HP & HH & _).
  pose proof (inv_free_chain K s pages _ live I) as C.
  cbn [chain] in C. destruct C as (Ex & Hx & C).
  assert (E0 : FreeList_ s <> 0) by congruence.
  rewrite (Allocate_pooled K fuel host label s Hp E0).
  destruct (pop_block_external_failure K host label s E0 T Hh) as (s' & E).
  exists s'. split; [exact E|].
  apply pop_block_throws_state in E.
  destruct E as (_ & _ & _ & Efl & Epl & Est & Hout).
  pose proof (pool_NoDup K s pages _ live I) as ND.
  cbn [app] in ND. apply NoDup_cons_iff in ND. destruct ND as (Hnin & ND).
  assert (Hb : In x (all_blocks s pages))
    by (apply (pool_free_nodes K s pages _ live x I); left; reflexivity).
  split.
  { rewrite Efl, Ex.
    apply (block_write_frame K s pages (x :: fl) live x (heap s') fl
             (load_ptr (heap s) x) I Hb).
    - intros y Hy. apply Hout. rewrite Ex. lia.
    - intros z Hz. split.
      + apply (pool_free_nodes K s pages _ live z I). right. exact Hz.
      + intros ->. apply Hnin. apply in_or_app. left. exact Hz.
    - exact C. }
  split; [intros Hz; apply Hnin; apply in_or_app; left; exact Hz|].
  split; [intros Hz; apply Hnin; apply in_or_app; right; exact Hz|].
  destruct (count_allocation_sizes (stats s)) as (_ & _ & _ & C4 & C5 & C6 & _).
  pose proof (pool_counts K s pages _ live I) as (Ec & Hc).
  rewrite Est, C4, C5, C6.
  rewrite (inv_free K s pages _ live I), (inv_used K s pages _ live I).
  cbn [length] in *. unfold wrap_uint.
  split; [rewrite Z.mod_small; lia|].
  split; [rewrite Z.mod_small; lia|reflexivity].
Qed.

(** ** Passthrough mode *)

(** X7.  In passthrough mode [Allocate] hands out the object of the host and
    [Free] hands it back; neither touches the pages or the free list.
    [Allocate] decrements [FreeObjects_] and [Free] does not restore it: each
    pair of calls leaves [FreeObjects_] one lower. *)
Theorem passthrough_pair K fuel1 fuel2 host label s q :
  UseCPPMemManager_ (configuration s) = true ->
  new_object host = Some q ->
  0 <= ObjectsInUse_ (stats s) < 2 ^ 32 ->
  exists s1 s2,
    Allocate K fuel1 host label s = Returns q s1 /\
    Free K fuel2 q s1 = Returns tt s2 /\
    heap s2 = heap s /\ FreeList_ s2 = FreeList_ s /\ PageList_ s2 = PageList_ s /\
    ObjectsInUse_ (stats s2) = ObjectsInUse_ (stats s) /\
    FreeObjects_ (stats s2) = wrap_uint (FreeObjects_ (stats s) - 1) /\
    Allocations_ (stats s2) = wrap_uint (Allocations_ (stats s) + 1) /\
    Deallocations_ (stats s2) = wrap_uint (Deallocations_ (stats s) + 1).
Proof.
  intros Hp Hn HI.
  unfold Allocate, Free. rewrite Hp, Hn.
  eexists. eexists. split; [reflexivity|].
  cbn [configuration set_stats]. rewrite Hp.
  split; [reflexivity|].
  cbn [heap FreeList_ PageList_ set_stats stats].
  split; [reflexivity|]. split; [reflexivity|]. split; [reflexivity|].
  destruct (count_free_fields (count_passthrough (stats s)))
    as (_ & _ & _ & C4 & C5 & C6 & C7).
  rewrite C4, C5, C6, C7.
  unfold count_passthrough.
  destruct (_ >? _);
    cbn [ObjectsInUse_ FreeObjects_ Allocations_ Deallocations_
         set_ObjectsInUse set_MostObjects set_Allocations set_FreeObjects];
    (split; [|repeat split]);
    unfold wrap_uint; rewrite Zminus_mod_idemp_l;
    replace (ObjectsInUse_ (stats s) + 1 - 1) with (ObjectsInUse_ (stats s)) by lia;
    apply Z.mod_small; lia.
Qed.

(** In scenario T the constructor has built a page of four blocks; a pair of
    passthrough calls leaves [FreeObjects_] at three. *)
Lemma passthrough_pair_witness :
  UseCPPMemManager_ (configuration sT0) = true /\
  FreeObjects_ (stats sT0) = 4 /\
  exists s1 s2,
    Allocate K0 8 (host_object 1000) None sT0 = Returns 1000 s1 /\
    Free K0 8 1000 s1 = Returns tt s2 /\
    FreeList_ s2 = FreeList_ sT0 /\
    FreeObjects_ (stats s2) = 3.
Proof.
  assert (Hp : UseCPPMemManager_ (configuration sT0) = true)
    by (vm_compute; reflexivity).
  assert (HF : FreeObjects_ (stats sT0) = 4) by (vm_compute; reflexivity).
  split; [exact Hp|]. split; [exact HF|].
  destruct (passthrough_pair K0 8 8 (host_object 1000) None sT0 1000 Hp)
    as (s1 & s2 & E1 & E2 & _ & Ef & _ & _ & EF & _).
  - reflexivity.
  - vm_compute. split; congruence.
  - exists s1, s2. split; [exact E1|]. split; [exact E2|].
    split; [exact Ef|]. rewrite EF, HF. reflexivity.
Defined.

Lemma wf_cfgE : wf_config K0 16 cfgE.
Proof. unfold wf_config, config_in_range, header_fits. concrete. Qed.

Lemma reach_sE0 : reachable K0 sE0 [4096] [].
Proof.
  apply (reach_ctor K0 8 4096 ram0 16 cfgE sE0 wf_cfgE).
  - reflexivity.
  - reflexivity.
  - vm_compute. congruence.
  - apply returned_eq. vm_compute. reflexivity.
Qed.

Lemma pool_sE0 : pool_inv K0 sE0 [4096] [4142; 4114] [].
Proof.
  destruct (reachable_inv K0 sE0 [4096] [] reach_sE0) as (_ & fl & I).
  assert (Efl : fl = [4142; 4114]).
  { pose proof (inv_free_chain K0 sE0 _ _ _ I) as C.
    assert (C' : chain (heap sE0) (FreeList_ sE0) [4142; 4114]).
    { cbn [chain]. split; [vm_compute; reflexivity|].
      split; [congruence|]. split; [vm_compute; reflexivity|].
      split; [congruence|]. vm_compute. reflexivity. }
    eapply chain_functional; eauto. }
  rewrite <- Efl. exact I.
Qed.

(** In scenario E the host has no storage for the header record: the block at
    4142 leaves the free list and reaches no one. *)
Lemma Allocate_external_failure_witness :
  exists s',
    Allocate K0 8 no_host None sE0 = Throws E_NO_MEMORY s' /\
    chain (heap s') (FreeList_ s') [4114] /\
    FreeObjects_ (stats s') = 1 /\
    ObjectsInUse_ (stats s') = 1.
Proof.
  destruct (Allocate_external_failure_loses_block K0 8 no_host None sE0
              [4096] 4142 [4114] [] pool_sE0)
    as (s' & E & C & _ & _ & EF & EI & _).
  - reflexivity.
  - reflexivity.
  - left. reflexivity.
  - exists s'. split; [exact E|]. split; [exact C|].
    split; [exact EF|exact EI].
Defined.

(** ** The pool as a stack of blocks *)

(** X8.  [AllocateNewPage] links the new page in front of the page list and
    pushes its blocks in ascending address order, so that the free list
    presents them in descending order, ahead of the blocks that were free
    before. *)
Theorem AllocateNewPage_pushes_page K fuel a s pages fl live :
  pool_inv K s pages fl live ->
  page_fresh s pages a ->
  PagesInUse_ (stats s) < MaxPages_ (configuration s) ->
  (Z.to_nat (ObjectsPerPage_ (configuration s)) < fuel)%nat ->
  exists s',
    AllocateNewPage K fuel (Some a) s = Returns tt s' /\
    chain (heap s') (PageList_ s') (a :: pages) /\
    chain (heap s') (FreeList_ s') (rev (blocks_of_page s a) ++ fl) /\
    FreeObjects_ (stats s')
    = FreeObjects_ (stats s) + ObjectsPerPage_ (configuration s) /\
    PagesInUse_ (stats s') = PagesInUse_ (stats s) + 1 /\
    pool_inv K s' (a :: pages) (rev (blocks_of_page s a) ++ fl) live.
Proof.
  intros I Hfr Hcap Hfuel.
  destruct (AllocateNewPage_inv K fuel a s pages fl live I Hfr Hcap Hfuel)
    as (E & I').
  pose proof (geom_sizes K s (inv_geom K s pages fl live I))
    as (_ & _ & _ & _ & _ & _ & HN).
  eexists. split; [exact E|].
  split; [exact (inv_page_chain K _ _ _ _ I')|].
  split; [exact (inv_free_chain K _ _ _ _ I')|].
  split; [|split; [|exact I']].
  - rewrite (inv_free K _ _ _ _ I'), (inv_free K _ _ _ _ I).
    rewrite length_app, length_rev. unfold blocks_of_page.
    rewrite length_map, length_seq. lia.
  - rewrite (inv_npages K _ _ _ _ I'), (inv_npages K _ _ _ _ I).
    cbn [length]. lia.
Qed.

Lemma count_allocation_most st :
  MostObjects_ (count_allocation st)
  = Z.max (MostObjects_ st) (ObjectsInUse_ (count_allocation st)).
Proof.
  unfold count_allocation.
  match goal with |- context [if ?c then _ else _] => destruct c eqn:E end;
    cbn in *; lia.
Qed.

(** X9.  On a well-formed pool with a free block [Allocate] returns the head
    of the free list; the rest of the list is the new free list and the block
    joins the blocks in use.  [Allocations_] grows by one, [MostObjects_] is
    the high-water mark of [ObjectsInUse_], and in debug mode the payload is
    painted with the allocated signature. *)
Theorem Allocate_pops_head K fuel host label s pages x fl live :
  pool_inv K s pages (x :: fl) live ->
  UseCPPMemManager_ (configuration s) = false ->
  host_succeeds s host ->
  exists s',
    Allocate K fuel host label s = Returns x s' /\
    pool_inv K s' pages fl (x :: live) /\
    Allocations_ (stats s') = wrap_uint (Allocations_ (stats s) + 1) /\
    MostObjects_ (stats s')
    = Z.max (MostObjects_ (stats s)) (ObjectsInUse_ (stats s')) /\
    (DebugOn_ (configuration s) = true ->
     forall y, x <= y < x + ObjectSize_ (stats s) ->
       heap s' y = ALLOCATED_PATTERN K mod 256).
Proof.
  intros I Hp Hh.
  pose proof (inv_geom K s pages _ live I) as G.
  pose proof (inv_free_chain K s pages _ live I) as C.
  cbn [chain] in C. destruct C as (Ex & Hx & _).
  assert (E0 : FreeList_ s <> 0) by congruence.
  rewrite (Allocate_pooled K fuel host label s Hp E0).
  destruct (pop_block_total K host label s E0 Hh) as (s' & E).
  rewrite Ex in E. exists s'. split; [exact E|].
  destruct (pop_block_inv K host label s pages x fl live x s' I E) as (_ & I').
  split; [exact I'|].
  destruct (pop_block_returns K host label s x s' G E)
    as (_ & _ & _ & _ & _ & Est & _).
  destruct (count_allocation_sizes (stats s)) as (_ & _ & _ & _ & _ & C6 & _).
  split; [rewrite Est; exact C6|].
  split; [rewrite Est; apply count_allocation_most|].
  exact (proj2 (pop_block_paint K host label s x s' G E)).
Qed.

(** X10.  On a well-formed pool [Free] of a block in use returns when, in
    debug mode, the pads of the block are intact and the byte at offset
    [PTR_SIZE] of its payload is not the freed signature, and always when
    debug is off.  The block becomes the head of the free list, in front of
    the blocks that were free, and leaves the blocks in use. *)
Theorem Free_pushes_block K fuel p s pages fl live :
  pool_inv K s pages fl live ->
  UseCPPMemManager_ (configuration s) = false ->
  In p live ->
  (DebugOn_ (configuration s) = true ->
   pads_intact K s p = true /\ heap s (p + PTR_SIZE) <> FREED_PATTERN K) ->
  (length pages <= fuel)%nat ->
  exists s',
    Free K fuel p s = Returns tt s' /\
    pool_inv K s' pages (p :: fl) (remove Z.eq_dec p live) /\
    ~ In p (remove Z.eq_dec p live) /\
    length (remove Z.eq_dec p live) = pred (length live) /\
    Deallocations_ (stats s') = wrap_uint (Deallocations_ (stats s) + 1).
Proof.
  intros I Hp Hin Hd Hf.
  destruct (Free_total K fuel p s pages fl live I Hp Hin) as (s' & E).
  { intros D. destruct (Hd D) as (Hi & Hb). split; [|exact Hb].
    apply pads_intact_iff. exact Hi. }
  { exact Hf. }
  exists s'. split; [exact E|].
  pose proof (Free_inv K fuel p s pages fl live s' I Hp Hin E) as I'.
  split; [exact I'|].
  split; [apply remove_In|].
  split.
  - pose proof (inv_used K _ _ _ _ I') as U'.
    pose proof (inv_used K _ _ _ _ I) as U.
    destruct (Free_stats K fuel p s s' Hp E) as (Est & _).
    destruct (count_free_fields (stats s)) as (_ & _ & _ & _ & C5 & _).
    rewrite Est in U'. cbn [ObjectsInUse_ set_FreeObjects] in U'.
    rewrite C5, U in U'.
    pose proof (pool_counts K s pages fl live I) as (Ec & Hc).
    destruct live as [|z live']; [contradiction|].
    cbn [length] in *. unfold wrap_uint in U'.
    rewrite Z.mod_small in U' by lia. lia.
  - destruct (Free_stats K fuel p s s' Hp E) as (Est & _).
    destruct (count_free_fields (stats s)) as (_ & _ & _ & _ & _ & _ & C7).
    rewrite Est. cbn [Deallocations_ set_FreeObjects]. exact C7.
Qed.

(** ** The blocks handed out *)

(** X11.  The blocks a client holds are distinct, each payload lies inside
    a page of the allocator, behind the link of the page, and the payloads of
    two blocks do not overlap. *)
Theorem live_blocks_disjoint K s pages live :
  reachable K s pages live ->
  NoDup live /\
  (forall p, In p live ->
     exists a, In a pages /\
       a + PTR_SIZE <= p /\
       p + ObjectSize_ (stats s) <= a + PageSize_ (stats s)) /\
  (forall p q, In p live -> In q live -> p <> q ->
     p + ObjectSize_ (stats s) <= q \/ q + ObjectSize_ (stats s) <= p).
Proof.
  intros R. destruct (reachable_inv K s pages live R) as (_ & fl & I).
  pose proof (inv_geom K s pages fl live I) as G.
  pose proof (inv_pages K s pages fl live I) as Hok.
  pose proof (geom_sizes K s G) as (_ & _ & HP & HH & _).
  split; [|split].
  - pose proof (pool_NoDup K s pages fl live I) as ND.
    apply NoDup_app_remove_l in ND. exact ND.
  - intros p Hp.
    pose proof (pool_live_nodes K s pages fl live p I Hp) as Hb.
    apply in_all_blocks in Hb. destruct Hb as (a & Ha & Hb).
    exists a. split; [exact Ha|].
    pose proof (block_in_page K s a p G Hb). lia.
  - intros p q Hp Hq Hne.
    pose proof (pool_live_nodes K s pages fl live p I Hp) as Hbp.
    pose proof (pool_live_nodes K s pages fl live q I Hq) as Hbq.
    pose proof (blocks_separated K s pages p q G Hok Hbp Hbq Hne). lia.
Qed.

Lemma live_blocks_disjoint_witness :
  NoDup [pB] /\
  exists a, In a [4096] /\
    a + PTR_SIZE <= pB /\
    pB + ObjectSize_ (stats sB1) <= a + PageSize_ (stats sB1).
Proof.
  destruct (live_blocks_disjoint K0 sB1 [4096] [pB] reach_sB1) as (ND & Hin & _).
  split; [exact ND|]. apply Hin. left. reflexivity.
Defined.

Lemma Allocate_geometry K fuel host label s p s' :
  UseCPPMemManager_ (configuration s) = false ->
  Allocate K fuel host label s = Returns p s' ->
  geometry s' = geometry s.
Proof.
  intros Hp. unfold Allocate. rewrite Hp.
  destruct (FreeList_ s =? 0).
  - destruct (AllocateNewPage K fuel (new_page host) s) as [[] sn|e sn| |] eqn:En;
      simpl; try discriminate.
    intros E. apply pop_block_stats in E. destruct E as (_ & ->).
    exact (proj1 (AllocateNewPage_geometry K fuel _ s sn En)).
  - simpl. intros E. apply pop_block_stats in E. exact (proj2 E).
Qed.

Lemma reachable_geometry K s pages live :
  reachable K s pages live ->
  exists m0 S cfg,
    wf_config K S cfg /\ geometry s = geometry (ctor_init m0 S cfg).
Proof.
  intros R.
  induction R as [fuel a m0 S cfg s W Hp Ha Hb E
                 |fuel host label s pages live p s' R IH Hfl E
                 |fuel host label s pages live a p s' R IH Hfl Hh Hfr E
                 |fuel p s pages live s' R IH Hin E].
  - exists m0, S, cfg. split; [exact W|].
    exact (proj1 (AllocateNewPage_geometry K fuel _ _ s E)).
  - destruct IH as (m0 & S & cfg & W & Eg). exists m0, S, cfg.
    split; [exact W|].
    destruct (reachable_inv K s pages live R) as (Hp & _).
    rewrite (Allocate_geometry K fuel host label s p s' Hp E). exact Eg.
  - destruct IH as (m0 & S & cfg & W & Eg). exists m0, S, cfg.
    split; [exact W|].
    destruct (reachable_inv K s pages live R) as (Hp & _).
    rewrite (Allocate_geometry K fuel host label s p s' Hp E). exact Eg.
  - destruct IH as (m0 & S & cfg & W & Eg). exists m0, S, cfg.
    split; [exact W|].
    destruct (reachable_inv K s pages live R) as (Hp & _).
    rewrite (proj2 (Free_stats K fuel p s s' Hp E)). exact Eg.
Qed.

(** X12.  With a positive alignment, when the host places every page at a
    multiple of the alignment, every pointer the client holds is a multiple of
    the alignment. *)
Theorem live_pointers_aligned K s pages live :
  reachable K s pages live ->
  0 < Alignment_ (configuration s) ->
  (forall a, In a pages -> a mod Alignment_ (configuration s) = 0) ->
  forall p, In p live -> p mod Alignment_ (configuration s) = 0.
Proof.
  intros R HA Hpages p Hp.
  destruct (reachable_geometry K s pages live R) as (m0 & S & cfg & W & Eg).
  destruct (reachable_inv K s pages live R) as (_ & fl & I).
  pose proof (pool_live_nodes K s pages fl live p I Hp) as Hb.
  apply in_all_blocks in Hb. destruct Hb as (a & Ha & Hb).
  unfold blocks_of_page in Hb. apply in_map_iff in Hb.
  destruct Hb as (k & <- & _). unfold block_addr.
  pose proof W as (R0 & HN & _).
  pose proof (wf_config_no_overflow K S cfg W) as NO.
  destruct (ctor_init_geometry m0 S cfg R0 HN NO) as (E1 & E2 & _).
  rewrite (geometry_pageHeader _ _ Eg), E1.
  rewrite (dataSize_ext _ _ Eg), E2.
  assert (EA : Alignment_ (configuration s) = Alignment_ cfg)
    by (rewrite (geometry_config _ _ Eg); reflexivity).
  rewrite EA in *.
  pose proof (Hpages a Ha) as Ma.
  pose proof (align_spec_multiple
                (PTR_SIZE + size_ (HBlockInfo_ cfg) + PadBytes_ cfg)
                (Alignment_ cfg) ltac:(lia)) as M1.
  pose proof (align_spec_multiple
                (size_ (HBlockInfo_ cfg) + 2 * PadBytes_ cfg + S)
                (Alignment_ cfg) ltac:(lia)) as M2.
  fold (PH_spec cfg) in M1. fold (D_spec S cfg) in M2.
  apply Z_div_exact_full_2 in Ma; [|lia].
  apply Z_div_exact_full_2 in M1; [|lia].
  apply Z_div_exact_full_2 in M2; [|lia].
  rewrite Ma, M1, M2.
  replace (Alignment_ cfg * (a / Alignment_ cfg)
           + Alignment_ cfg * (PH_spec cfg / Alignment_ cfg)
           + Z.of_nat k * (Alignment_ cfg * (D_spec S cfg / Alignment_ cfg)))
    with ((a / Alignment_ cfg + PH_spec cfg / Alignment_ cfg
           + Z.of_nat k * (D_spec S cfg / Alignment_ cfg)) * Alignment_ cfg)
    by ring.
  apply Z_mod_mult.
Qed.

(** ** The scans over all blocks *)

Lemma iter_wrap_uint k :
  Nat.iter k (fun c => wrap_uint (c + 1)) 0 = wrap_uint (Z.of_nat k).
Proof.
  induction k as [|k IH]; [reflexivity|].
  rewrite Nat.iter_succ, IH, wrap_uint_succ. f_equal. lia.
Qed.

Lemma validate_block_CheckPadding K s obj : forall n i count calls,
  0 <= i -> i + Z.of_nat n = PadBytes_ (configuration s) ->
  PadBytes_ (configuration s) < 2 ^ 32 ->
  validate_block K s obj n i count calls
  = match CheckPadding_loop K obj n i s with
    | Returns _ _ => (count, calls)
    | _ => (wrap_uint (count + 1), calls ++ [(obj, ObjectSize_ (stats s))])
    end.
Proof.
  induction n as [|n IH]; intros i count calls Hi Hn HP; [reflexivity|].
  cbn [validate_block CheckPadding_loop].
  destruct (negb (heap s (obj - PadBytes_ (configuration s) + i) =? PAD_PATTERN K));
    [reflexivity|].
  assert (Ew : wrap_uint (PadBytes_ (configuration s) - 1)
               = PadBytes_ (configuration s) - 1)
    by (unfold wrap_uint; apply Z.mod_small; lia).
  rewrite Ew.
  destruct (Z.eqb_spec i (PadBytes_ (configuration s) - 1)) as [E|E].
  - assert (n = O) by lia. subst n. cbn [andb].
    destruct (right_pad_corrupted K (heap s) (obj + ObjectSize_ (stats s))
                (Z.to_nat (PadBytes_ (configuration s))) 0); reflexivity.
  - cbn [andb]. apply IH; lia.
Qed.

Lemma validate_block_spec K s obj count calls :
  0 <= PadBytes_ (configuration s) < 2 ^ 32 ->
  validate_block K s obj (Z.to_nat (PadBytes_ (configuration s))) 0 count calls
  = if pads_intact K s obj then (count, calls)
    else (wrap_uint (count + 1), calls ++ [(obj, ObjectSize_ (stats s))]).
Proof.
  intros HP. rewrite validate_block_CheckPadding by lia.
  fold (CheckPadding K obj s). rewrite (CheckPadding_intact K obj s HP).
  destruct (pads_intact K s obj); reflexivity.
Qed.

Lemma validate_blocks_spec K s :
  0 <= PadBytes_ (configuration s) < 2 ^ 32 ->
  forall n obj count calls,
  validate_blocks K s n obj count calls
  = (Nat.iter
       (length (filter (fun b => negb (pads_intact K s b)) (blocks_from s obj n)))
       (fun c => wrap_uint (c + 1)) count,
     calls ++ calls_on s
                (filter (fun b => negb (pads_intact K s b)) (blocks_from s obj n))).
Proof.
  intros HP. induction n as [|n IH]; intros obj count calls.
  - cbn. rewrite app_nil_r. reflexivity.
  - cbn [validate_blocks]. rewrite (validate_block_spec K s obj count calls HP).
    rewrite blocks_from_S. cbn [filter].
    destruct (pads_intact K s obj); cbn [negb]; rewrite IH.
    + reflexivity.
    + cbn [length calls_on map]. rewrite Nat.iter_succ_r.
      rewrite <- app_assoc. reflexivity.
Qed.

Lemma validate_pages_spec K s :
  0 <= PadBytes_ (configuration s) < 2 ^ 32 ->
  forall pages fuel page count calls,
  chain (heap s) page pages -> (length pages < fuel)%nat ->
  validate_pages K fuel s page count calls
  = Some (Nat.iter
            (length (filter (fun b => negb (pads_intact K s b))
                       (all_blocks s pages)))
            (fun c => wrap_uint (c + 1)) count,
          calls ++ calls_on s
                     (filter (fun b => negb (pads_intact K s b))
                        (all_blocks s pages))).
Proof.
  intros HP. induction pages as [|a t IH]; intros fuel page count calls C Hf;
    (destruct fuel as [|fuel]; [simpl in Hf; lia|]).
  - cbn [chain] in C. subst page. cbn. rewrite app_nil_r. reflexivity.
  - cbn [chain] in C. destruct C as (-> & Ha & C).
    cbn [validate_pages].
    destruct (Z.eqb_spec a 0) as [|_]; [contradiction|].
    rewrite (validate_blocks_spec K s HP).
    rewrite (IH fuel _ _ _ C) by (simpl in Hf; lia).
    unfold all_blocks. cbn [flat_map]. rewrite blocks_of_page_from.
    rewrite filter_app, length_app. unfold calls_on.
    rewrite map_app, <- app_assoc, Nat.add_comm, Nat.iter_add. reflexivity.
Qed.

(** X13.  [ValidatePages] does nothing when debug is off or there are no
    pads.  Otherwise it calls the callback once, with the payload address and
    the object size, on each block that has a pad byte differing from the pad
    signature, page by page in the order of the page list and by ascending
    address within a page, and returns their number (modulo [2 ^ 32]).  The
    blocks reported are those on which [CheckPadding] raises. *)
Theorem ValidatePages_reports_corrupted_blocks K s pages fuel :
  chain (heap s) (PageList_ s) pages ->
  (length pages < fuel)%nat ->
  0 <= PadBytes_ (configuration s) < 2 ^ 32 ->
  let bad :=
    if DebugOn_ (configuration s) && negb (PadBytes_ (configuration s) =? 0)
    then filter (fun b => negb (pads_intact K s b)) (all_blocks s pages)
    else [] in
  ValidatePages K fuel s
  = Some (wrap_uint (Z.of_nat (length bad)), calls_on s bad) /\
  (forall b, In b bad -> CheckPadding K b s = Throws E_CORRUPTED_BLOCK s) /\
  (forall b, In b (all_blocks s pages) ->
     CheckPadding K b s = Throws E_CORRUPTED_BLOCK s ->
     DebugOn_ (configuration s) = true -> In b bad).
Proof.
  intros C Hf HP bad. split; [|split].
  - unfold ValidatePages.
    destruct (DebugOn_ (configuration s)); [|reflexivity].
    destruct (PadBytes_ (configuration s) =? 0); [reflexivity|].
    cbn [negb orb andb] in *.
    rewrite (validate_pages_spec K s HP pages fuel _ 0 [] C Hf).
    rewrite iter_wrap_uint. reflexivity.
  - intros b Hb. rewrite (CheckPadding_intact K b s HP).
    unfold bad in Hb.
    destruct (DebugOn_ (configuration s) && _); [|contradiction].
    apply filter_In in Hb. destruct Hb as (_ & Hb).
    destruct (pads_intact K s b); [discriminate|reflexivity].
  - intros b Hb E D. rewrite (CheckPadding_intact K b s HP) in E.
    unfold bad. rewrite D. cbn [andb].
    destruct (Z.eqb_spec (PadBytes_ (configuration s)) 0) as [E0|E0].
    + exfalso. assert (X : pads_intact K s b = true).
      { apply pads_intact_iff. intros y Hy. lia. }
      rewrite X in E. discriminate.
    + cbn [negb]. apply filter_In. split; [exact Hb|].
      destruct (pads_intact K s b); [discriminate|reflexivity].
Qed.

Lemma dump_blocks_spec s :
  type_ (HBlockInfo_ (configuration s)) = hbBasic \/
  type_ (HBlockInfo_ (configuration s)) = hbExtended ->
  forall n obj leaks calls,
  dump_blocks s n obj leaks calls
  = (Nat.iter (length (filter (flagged s) (blocks_from s obj n)))
       (fun c => wrap_uint (c + 1)) leaks,
     calls ++ calls_on s (filter (flagged s) (blocks_from s obj n))).
Proof.
  intros T. induction n as [|n IH]; intros obj leaks calls.
  - cbn. rewrite app_nil_r. reflexivity.
  - rewrite blocks_from_S. cbn [filter dump_blocks].
    assert (F : negb (heap s (obj - PadBytes_ (configuration s) - 1) =? 0)
                = flagged s obj) by reflexivity.
    destruct T as [T|T]; rewrite T, F;
      (destruct (flagged s obj); rewrite IH;
       [cbn [length calls_on map]; rewrite Nat.iter_succ_r, <- app_assoc;
        reflexivity
       |reflexivity]).
Qed.

Lemma dump_pages_spec s :
  type_ (HBlockInfo_ (configuration s)) = hbBasic \/
  type_ (HBlockInfo_ (configuration s)) = hbExtended ->
  forall pages fuel page leaks calls,
  chain (heap s) page pages -> (length pages < fuel)%nat ->
  dump_pages fuel s page leaks calls
  = Some (Nat.iter (length (filter (flagged s) (all_blocks s pages)))
            (fun c => wrap_uint (c + 1)) leaks,
          calls ++ calls_on s (filter (flagged s) (all_blocks s pages))).
Proof.
  intros T. induction pages as [|a t IH]; intros fuel page leaks calls C Hf;
    (destruct fuel as [|fuel]; [simpl in Hf; lia|]).
  - cbn [chain] in C. subst page. cbn. rewrite app_nil_r. reflexivity.
  - cbn [chain] in C. destruct C as (-> & Ha & C).
    cbn [dump_pages].
    destruct (Z.eqb_spec a 0) as [|_]; [contradiction|].
    rewrite (dump_blocks_spec s T).
    rewrite (IH fuel _ _ _ C) by (simpl in Hf; lia).
    unfold all_blocks. cbn [flat_map]. rewrite blocks_of_page_from.
    rewrite filter_app, length_app. unfold calls_on.
    rewrite map_app, <- app_assoc, Nat.add_comm, Nat.iter_add. reflexivity.
Qed.

Lemma DumpMemoryInUse_flagged s pages fuel :
  type_ (HBlockInfo_ (configuration s)) = hbBasic \/
  type_ (HBlockInfo_ (configuration s)) = hbExtended ->
  chain (heap s) (PageList_ s) pages ->
  (length pages < fuel)%nat ->
  DumpMemoryInUse fuel s
  = Some (wrap_uint (Z.of_nat (length (filter (flagged s) (all_blocks s pages)))),
          calls_on s (filter (flagged s) (all_blocks s pages))).
Proof.
  intros T C Hf. unfold DumpMemoryInUse.
  rewrite (dump_pages_spec s T pages fuel _ 0 [] C Hf).
  rewrite iter_wrap_uint. reflexivity.
Qed.

(** X14.  With basic or extended headers [DumpMemoryInUse] calls the
    callback once, with the payload address and the object size, on each block
    whose byte just before the left pad is not zero, page by page in the order
    of the page list and by ascending address within a page, and returns their
    number (modulo [2 ^ 32]). *)
Theorem DumpMemoryInUse_reports_flagged_blocks s pages fuel :
  type_ (HBlockInfo_ (configuration s)) = hbBasic \/
  type_ (HBlockInfo_ (configuration s)) = hbExtended ->
  chain (heap s) (PageList_ s) pages ->
  (length pages < fuel)%nat ->
  let used :=
    filter (fun b => negb (heap s (b - PadBytes_ (configuration s) - 1) =? 0))
      (all_blocks s pages) in
  DumpMemoryInUse fuel s
  = Some (wrap_uint (Z.of_nat (length used)), calls_on s used).
Proof.
  intros T C Hf used.
  exact (DumpMemoryInUse_flagged s pages fuel T C Hf).
Qed.

(** ** What the operations write on the blocks *)

Lemma init_block_header_zero K d s y :
  geom_ok K s ->
  d - PadBytes_ (configuration s) - size_ (HBlockInfo_ (configuration s)) <= y
  < d - PadBytes_ (configuration s) ->
  heap (fresh_block K d s) y = 0.
Proof.
  intros G Hy. pose proof (geom_sizes K s G) as (HD & HS & HP & HH & _).
  assert (Ew : wrap_size (ObjectSize_ (stats s) - PTR_SIZE)
               = ObjectSize_ (stats s) - 8).
  { unfold wrap_size, PTR_SIZE. apply Z.mod_small. lia. }
  unfold fresh_block.
  destruct (DebugOn_ (configuration s)); unfold painted_block, AddToFreeList;
    cbn [heap set_heap set_stats set_FreeList configuration stats ObjectSize_
         set_FreeObjects].
  - rewrite Ew. unfold PTR_SIZE.
    rewrite !memset_out by lia. unfold store_ptr.
    rewrite store_le_out by (change (Z.of_nat ptr_bytes) with 8; lia).
    rewrite memset_in by lia. reflexivity.
  - unfold store_ptr.
    rewrite store_le_out by (change (Z.of_nat ptr_bytes) with 8; lia).
    rewrite memset_in by lia. reflexivity.
Qed.

Lemma init_block_raw_pads K d s y :
  geom_ok K s ->
  DebugOn_ (configuration s) = false ->
  in_pads s d y ->
  heap (fresh_block K d s) y = heap s y.
Proof.
  intros G Hd Hy. pose proof (geom_sizes K s G) as (HD & HS & HP & HH & _).
  unfold in_pads in Hy. unfold fresh_block. rewrite Hd. unfold AddToFreeList.
  cbn [heap set_heap set_stats set_FreeList configuration stats].
  unfold store_ptr.
  rewrite store_le_out by (change (Z.of_nat ptr_bytes) with 8; lia).
  apply memset_out. lia.
Qed.

Lemma link_new_page_zero K a s y :
  geom_ok K s ->
  DebugOn_ (configuration s) = false ->
  a + PTR_SIZE <= y < a + PageSize_ (stats s) + PTR_SIZE ->
  heap (link_new_page K a s) y = 0.
Proof.
  intros G Hd Hy.
  pose proof (geom_sizes K s G) as (_ & _ & _ & _ & _ & HPS & _).
  assert (Ew : wrap_size (PageSize_ (stats s) + PTR_SIZE)
               = PageSize_ (stats s) + 8).
  { unfold wrap_size, PTR_SIZE. apply Z.mod_small. lia. }
  unfold link_new_page.
  cbn [heap set_heap set_stats set_PageList configuration stats PageSize_
       set_PagesInUse].
  rewrite Hd, Ew. unfold store_ptr, PTR_SIZE in *.
  rewrite store_le_out by (change (Z.of_nat ptr_bytes) with 8; lia).
  unfold memset.
  destruct ((a <=? y) && (y <? a + PageSize_ (stats s))); [reflexivity|].
  replace ((a <=? y) && (y <? a + (PageSize_ (stats s) + 8))) with true;
    [reflexivity|].
  symmetry. apply andb_true_iff. split; [apply Z.leb_le|apply Z.ltb_lt]; lia.
Qed.

Lemma init_n_block_marks K j : forall d s i,
  geom_ok K s -> (i < j)%nat ->
  (forall y,
     header_start s (d + Z.of_nat i * dataSize s) <= y
     < d + Z.of_nat i * dataSize s - PadBytes_ (configuration s) ->
     heap (init_n K j d s) y = 0) /\
  (DebugOn_ (configuration s) = true ->
   forall y, in_pads s (d + Z.of_nat i * dataSize s) y ->
     heap (init_n K j d s) y = PAD_PATTERN K mod 256) /\
  (DebugOn_ (configuration s) = false ->
   forall y, in_pads s (d + Z.of_nat i * dataSize s) y ->
     heap s y = 0 -> heap (init_n K j d s) y = 0).
Proof.
  induction j as [|j IH]; intros d s i G Hi; [lia|].
  cbn [init_n].
  pose proof (geometry_init_block K d s) as Eg.
  pose proof (geom_sizes K s G) as (HD & HS & HP & HH & _).
  pose proof (g_D K s G) as HDge.
  pose proof (geometry_config _ _ Eg) as Ec.
  destruct (geometry_sizes _ _ Eg) as (Es & _).
  pose proof (dataSize_ext _ _ Eg) as Ed.
  assert (G1 : geom_ok K (fresh_block K d s)) by (eapply geom_ok_ext; eauto).
  unfold header_start, in_pads.
  destruct i as [|i].
  - replace (d + Z.of_nat 0 * dataSize s) with d by lia. split; [|split].
    + intros y Hy. rewrite init_n_outside; [|exact G1|rewrite Ec, Es, Ed; lia].
      apply init_block_header_zero; [exact G|lia].
    + intros Hd y Hy. rewrite init_n_outside; [|exact G1|rewrite Ec, Es, Ed; lia].
      apply init_block_pads; [exact G|exact Hd|exact Hy].
    + intros Hd y Hy H0.
      rewrite init_n_outside; [|exact G1|rewrite Ec, Es, Ed; lia].
      rewrite (init_block_raw_pads K d s y G Hd Hy). exact H0.
  - destruct (IH (d + dataSize s) (fresh_block K d s) i G1 ltac:(lia))
      as (Z1 & Z2 & Z3).
    unfold header_start, in_pads in Z1, Z2, Z3.
    rewrite ?Ec, ?Es, ?Ed in Z1. rewrite ?Ec, ?Es, ?Ed in Z2.
    rewrite ?Ec, ?Es, ?Ed in Z3.
    replace (d + Z.of_nat (S i) * dataSize s)
      with (d + dataSize s + Z.of_nat i * dataSize s) by lia.
    split; [exact Z1|]. split; [exact Z2|].
    intros Hd y Hy H0. apply (Z3 Hd y Hy).
    rewrite init_block_outside; [exact H0|exact G|]. lia.
Qed.

Lemma new_page_outside K a s y :
  geom_ok K s ->
  y < a \/ a + PageSize_ (stats s) + 8 <= y ->
  heap (init_n K (Z.to_nat (ObjectsPerPage_ (configuration s)))
          (a + pageHeader s) (link_new_page K a s)) y
  = heap s y.
Proof.
  intros G Hy.
  pose proof (geom_sizes K s G) as (HD & HS & HP & HH & HPH & HPS & HN).
  pose proof (g_PS K s G) as EPS. pose proof (g_PH K s G) as HPHge.
  assert (G1 : geom_ok K (link_new_page K a s))
    by (eapply geom_ok_ext; [apply geometry_link_new_page|exact G]).
  rewrite init_n_outside; [|exact G1|].
  - apply link_new_page_outside; [exact G|exact Hy].
  - change (dataSize (link_new_page K a s)) with (dataSize s).
    change (configuration (link_new_page K a s)) with (configuration s).
    change (ObjectSize_ (stats (link_new_page K a s)))
      with (ObjectSize_ (stats s)).
    unfold PTR_SIZE in *. nia.
Qed.

Lemma flag_offset_range K s :
  geom_ok K s -> flag_header (configuration s) ->
  0 <= flag_offset (configuration s) < size_ (HBlockInfo_ (configuration s)).
Proof.
  intros G F. pose proof (g_hdr K s G) as Hh.
  unfold header_fits in Hh. unfold flag_offset.
  destruct F as [T|T]; rewrite T in *.
  - lia.
  - pose proof (Z.mod_pos_bound (additional_ (HBlockInfo_ (configuration s))) 256
                  ltac:(lia)).
    lia.
Qed.

Lemma allocate_header_flag K host label p s q s' :
  flag_header (configuration s) ->
  allocate_header K host label p s = Returns q s' ->
  heap s' (header_start s p + flag_offset (configuration s)) = 1 /\
  forall y, header_start s p + flag_offset (configuration s) < y ->
    heap s' y = heap s y.
Proof.
  intros F. unfold allocate_header, header_start, flag_offset.
  destruct F as [T|T]; rewrite T; intros X; inversion X; subst;
    cbn [heap set_heap]; split.
  - rewrite store_le_in by (simpl Z.of_nat; lia).
    rewrite Z.sub_diag. reflexivity.
  - intros y Hy. rewrite !store_le_out by (simpl Z.of_nat; lia). reflexivity.
  - rewrite store_le_in by (simpl Z.of_nat; lia).
    match goal with |- context [8 * ?e] => replace e with 0 by lia end.
    reflexivity.
  - intros y Hy. rewrite !store_le_out by (simpl Z.of_nat; lia). reflexivity.
Qed.

Lemma pop_block_flag K host label s p s' :
  geom_ok K s ->
  flag_header (configuration s) ->
  pop_block K host label s = Returns p s' ->
  heap s' (header_start s p + flag_offset (configuration s)) = 1 /\
  forall y, header_start s p + flag_offset (configuration s) < y -> y < p ->
    heap s' y = heap s y.
Proof.
  intros G F. unfold pop_block.
  destruct (Z.eqb_spec (FreeList_ s) 0) as [E|E]; [discriminate|].
  intros X.
  assert (Ep : p = FreeList_ s).
  { destruct (DebugOn_ (configuration s));
      apply (allocate_header_returns K host label) in X;
      try (destruct X as (-> & _); reflexivity);
      (eapply geom_ok_ext; [|exact G]); unfold geometry;
      destruct (count_allocation_sizes (stats s)) as (C1 & C2 & _);
      cbn -[count_allocation]; rewrite C1, C2; reflexivity. }
  rewrite <- Ep in X.
  destruct (DebugOn_ (configuration s));
    apply allocate_header_flag in X; try exact F;
    destruct X as (X1 & X2); unfold header_start in *;
    cbn [configuration set_stats set_heap set_FreeList heap] in X1, X2.
  - split; [exact X1|]. intros y Hy Hlt. rewrite X2 by exact Hy.
    apply memset_out. lia.
  - split; [exact X1|]. intros y Hy Hlt. apply X2. exact Hy.
Qed.

Lemma free_header_bytes K p s :
  flag_header (configuration s) ->
  (type_ (HBlockInfo_ (configuration s)) = hbExtended ->
   0 <= additional_ (HBlockInfo_ (configuration s))) ->
  (forall y, heap (free_header K p s) y = 0 \/ heap (free_header K p s) y = heap s y) /\
  (flag_cleared K (configuration s) ->
   heap (free_header K p s) (header_start s p + flag_offset (configuration s)) = 0).
Proof.
  intros F Hu. unfold free_header, header_start, flag_offset, flag_cleared.
  destruct F as [T|T]; rewrite T; cbn [heap set_heap]; split.
  - intros y. unfold memset. destruct (_ && _); [left; reflexivity|right; reflexivity].
  - intros (HB & _). apply memset_in. lia.
  - intros y. unfold memset. destruct (_ && _); [left; reflexivity|right; reflexivity].
  - intros (HB & Hlt). specialize (Hlt eq_refl). specialize (Hu T).
    rewrite Z.mod_small by lia. apply memset_in. lia.
Qed.

Lemma Free_header_bytes K fuel p s s' :
  geom_ok K s ->
  UseCPPMemManager_ (configuration s) = false ->
  flag_header (configuration s) ->
  Free K fuel p s = Returns tt s' ->
  (forall y, y < p -> heap s' y = 0 \/ heap s' y = heap s y) /\
  (flag_cleared K (configuration s) ->
   heap s' (header_start s p + flag_offset (configuration s)) = 0).
Proof.
  intros G Hp F.
  pose proof (geom_sizes K s G) as (_ & HS & HP & HH & _).
  pose proof (flag_offset_range K s G F) as Hfo.
  assert (Hu : type_ (HBlockInfo_ (configuration s)) = hbExtended ->
               0 <= additional_ (HBlockInfo_ (configuration s))).
  { intros T. pose proof (g_hdr K s G) as Hh. unfold header_fits in Hh.
    rewrite T in Hh. lia. }
  unfold Free. cbn [configuration set_stats]. rewrite Hp.
  set (s1 := set_stats s (count_free (stats s))).
  assert (Key : forall s4,
            configuration s4 = configuration s ->
            (forall y, y < p -> heap s4 y = heap s y) ->
            Returns tt (AddToFreeList p (free_header K p s4)) = Returns tt s' ->
            (forall y, y < p -> heap s' y = 0 \/ heap s' y = heap s y) /\
            (flag_cleared K (configuration s) ->
             heap s' (header_start s p + flag_offset (configuration s)) = 0)).
  { intros s4 Ec4 Hh4 X. inversion X; subst s'. clear X.
    assert (F4 : flag_header (configuration s4)) by (rewrite Ec4; exact F).
    assert (Hu4 : type_ (HBlockInfo_ (configuration s4)) = hbExtended ->
                  0 <= additional_ (HBlockInfo_ (configuration s4)))
      by (rewrite Ec4; exact Hu).
    destruct (free_header_bytes K p s4 F4 Hu4) as (B1 & B2).
    assert (Eout : forall y, y < p ->
              heap (AddToFreeList p (free_header K p s4)) y
              = heap (free_header K p s4) y).
    { intros y Hy. unfold AddToFreeList.
      cbn [heap set_stats set_heap set_FreeList]. unfold store_ptr.
      apply store_le_out. left. exact Hy. }
    split.
    - intros y Hy. rewrite (Eout y Hy). rewrite <- (Hh4 y Hy). apply B1.
    - intros FC. rewrite Eout by (unfold header_start; lia).
      unfold header_start in *. rewrite Ec4 in B2. apply B2. exact FC. }
  destruct (DebugOn_ (configuration s)).
  - destruct (debug_free K fuel p s1) as [[] s4|e4 s4| |] eqn:E4; simpl;
      try discriminate.
    apply debug_free_returns in E4. destruct E4 as (-> & _).
    destruct (p =? 0); [discriminate|].
    apply Key; [reflexivity|].
    intros y Hy. cbn [heap set_heap set_stats]. apply memset_out. left. exact Hy.
  - simpl. destruct (p =? 0); [discriminate|].
    apply Key; [reflexivity|]. intros y Hy. reflexivity.
Qed.

(** ** The marks are kept by every operation *)

Lemma marks_by_bytes K s s' pages live' :
  geometry s' = geometry s ->
  (DebugOn_ (configuration s) = true ->
   forall b y, In b (all_blocks s pages) -> in_pads s b y ->
     heap s' y = PAD_PATTERN K mod 256) ->
  (DebugOn_ (configuration s) = false ->
   forall b y, In b (all_blocks s pages) -> in_pads s b y -> heap s' y = 0) ->
  (flag_header (configuration s) ->
   forall b y, In b (all_blocks s pages) ->
     header_start s b + flag_offset (configuration s) < y
     < header_start s b + size_ (HBlockInfo_ (configuration s)) ->
     heap s' y = 0) ->
  (flag_header (configuration s) ->
   forall b, In b live' ->
     heap s' (header_start s b + flag_offset (configuration s)) = 1) ->
  (flag_header (configuration s) -> flag_cleared K (configuration s) ->
   forall b, In b (all_blocks s pages) -> ~ In b live' ->
     heap s' (header_start s b + flag_offset (configuration s)) = 0) ->
  marks K s' pages live'.
Proof.
  intros Eg H1 H1' H2 H3 H4.
  pose proof (geometry_config _ _ Eg) as Ec.
  destruct (geometry_sizes _ _ Eg) as (Es & _).
  constructor; unfold header_start, in_pads in *;
    rewrite ?Ec, ?Es, ?(all_blocks_ext _ _ pages Eg); assumption.
Qed.

Lemma other_block_untouched K s pages b x y :
  geom_ok K s -> pages_ok s pages ->
  In b (all_blocks s pages) -> In x (all_blocks s pages) -> b <> x ->
  header_start s b <= y
  < b + ObjectSize_ (stats s) + PadBytes_ (configuration s) ->
  y < header_start s x \/ x + ObjectSize_ (stats s) <= y.
Proof.
  intros G Hok Hb Hx Hne Hy. unfold header_start in *.
  pose proof (geom_sizes K s G) as (_ & _ & HP & HH & _).
  pose proof (blocks_separated K s pages b x G Hok Hb Hx Hne). lia.
Qed.

Lemma old_block_outside_new_page K s pages a b y :
  geom_ok K s -> page_fresh s pages a ->
  In b (all_blocks s pages) ->
  header_start s b <= y
  < b + ObjectSize_ (stats s) + PadBytes_ (configuration s) ->
  y < a \/ a + PageSize_ (stats s) + 8 <= y.
Proof.
  intros G (_ & _ & Hfr) Hb Hy. unfold header_start in *.
  apply in_all_blocks in Hb. destruct Hb as (a' & Ha' & Hb).
  pose proof (block_in_page K s a' b G Hb) as (B1 & B2).
  specialize (Hfr a' Ha'). unfold PTR_SIZE in *. lia.
Qed.

Lemma marks_no_page K s : marks K s [] [].
Proof.
  constructor.
  - intros _ b y [].
  - intros _ b y [].
  - intros _ b y [].
  - intros _ b [].
  - intros _ _ b [].
Qed.

Lemma marks_new_page K a s pages fl live :
  pool_inv K s pages fl live ->
  marks K s pages live ->
  page_fresh s pages a ->
  marks K
    (init_n K (Z.to_nat (ObjectsPerPage_ (configuration s)))
       (a + pageHeader s) (link_new_page K a s))
    (a :: pages) live.
Proof.
  intros I M Hfr.
  pose proof (inv_geom K s pages fl live I) as G.
  pose proof (geom_sizes K s G) as (_ & HS & HP & HH & _ & _ & HN).
  set (s1 := link_new_page K a s).
  assert (Eg1 : geometry s1 = geometry s) by apply geometry_link_new_page.
  assert (G1 : geom_ok K s1) by (eapply geom_ok_ext; eauto).
  pose proof (geometry_config _ _ Eg1) as Ec1.
  destruct (geometry_sizes _ _ Eg1) as (Es1 & _).
  pose proof (dataSize_ext _ _ Eg1) as Ed1.
  assert (Enew : forall b, In b (blocks_of_page s a) ->
            (forall y, header_start s b <= y < b - PadBytes_ (configuration s) ->
               heap (init_n K (Z.to_nat (ObjectsPerPage_ (configuration s)))
                       (a + pageHeader s) s1) y = 0) /\
            (DebugOn_ (configuration s) = true ->
             forall y, in_pads s b y ->
               heap (init_n K (Z.to_nat (ObjectsPerPage_ (configuration s)))
                       (a + pageHeader s) s1) y = PAD_PATTERN K mod 256) /\
            (DebugOn_ (configuration s) = false ->
             forall y, in_pads s b y ->
               heap (init_n K (Z.to_nat (ObjectsPerPage_ (configuration s)))
                       (a + pageHeader s) s1) y = 0)).
  { intros b Hb. pose proof (block_in_page K s a b G Hb) as (B1 & B2).
    unfold blocks_of_page in Hb. apply in_map_iff in Hb.
    destruct Hb as (k & <- & Hk). apply in_seq in Hk.
    destruct (init_n_block_marks K (Z.to_nat (ObjectsPerPage_ (configuration s)))
                (a + pageHeader s) s1 k G1 ltac:(lia)) as (Z1 & Z2 & Z3).
    unfold header_start, in_pads in *.
    rewrite ?Ec1, ?Es1, ?Ed1 in Z1. rewrite ?Ec1, ?Es1, ?Ed1 in Z2.
    rewrite ?Ec1, ?Es1, ?Ed1 in Z3.
    unfold block_addr in *. split; [exact Z1|]. split; [exact Z2|].
    intros D y Hy. apply (Z3 D y Hy).
    apply link_new_page_zero; [exact G|exact D|]. unfold PTR_SIZE in *. lia. }
  assert (Eold : forall b y, In b (all_blocks s pages) ->
            header_start s b <= y
            < b + ObjectSize_ (stats s) + PadBytes_ (configuration s) ->
            heap (init_n K (Z.to_nat (ObjectsPerPage_ (configuration s)))
                    (a + pageHeader s) s1) y = heap s y).
  { intros b y Hb Hy. apply new_page_outside; [exact G|].
    eapply old_block_outside_new_page; eauto. }
  assert (Hsplit : forall b, In b (all_blocks s (a :: pages)) ->
            In b (blocks_of_page s a) \/ In b (all_blocks s pages)).
  { intros b Hb. unfold all_blocks in Hb. cbn [flat_map] in Hb.
    apply in_app_or in Hb. exact Hb. }
  apply (marks_by_bytes K s); [rewrite geometry_init_n; exact Eg1| | | | |].
  - intros D b y Hb Hy. destruct (Hsplit b Hb) as [Hn|Ho].
    + apply (proj1 (proj2 (Enew b Hn)) D y Hy).
    + rewrite (Eold b y Ho).
      * apply (m_pads K s pages live M D b y Ho Hy).
      * unfold header_start, in_pads in *. lia.
  - intros D b y Hb Hy. destruct (Hsplit b Hb) as [Hn|Ho].
    + apply (proj2 (proj2 (Enew b Hn)) D y Hy).
    + rewrite (Eold b y Ho).
      * apply (m_raw K s pages live M D b y Ho Hy).
      * unfold header_start, in_pads in *. lia.
  - intros F b y Hb Hy.
    pose proof (flag_offset_range K s G F) as Hfo.
    destruct (Hsplit b Hb) as [Hn|Ho].
    + apply (proj1 (Enew b Hn)). unfold header_start in *. lia.
    + rewrite (Eold b y Ho).
      * apply (m_tail K s pages live M F b y Ho Hy).
      * unfold header_start in *. lia.
  - intros F b Hb.
    pose proof (flag_offset_range K s G F) as Hfo.
    pose proof (pool_live_nodes K s pages fl live b I Hb) as Ho.
    rewrite (Eold b _ Ho).
    + apply (m_live K s pages live M F b Hb).
    + unfold header_start in *. lia.
  - intros F FC b Hb Hn.
    pose proof (flag_offset_range K s G F) as Hfo.
    destruct (Hsplit b Hb) as [Hnew|Ho].
    + apply (proj1 (Enew b Hnew)). unfold header_start in *. lia.
    + rewrite (Eold b _ Ho).
      * apply (m_free K s pages live M F FC b Ho Hn).
      * unfold header_start in *. lia.
Qed.

Lemma marks_pop K host label s pages x fl live p s' :
  pool_inv K s pages (x :: fl) live ->
  marks K s pages live ->
  pop_block K host label s = Returns p s' ->
  marks K s' pages (x :: live).
Proof.
  intros I M E.
  pose proof (inv_geom K s pages _ live I) as G.
  pose proof (inv_pages K s pages _ live I) as Hok.
  pose proof (geom_sizes K s G) as (_ & HS & HP & HH & _).
  destruct (pop_block_inv K host label s pages x fl live p s' I E) as (-> & _).
  destruct (pop_block_returns K host label s x s' G E)
    as (_ & _ & _ & _ & Eg & _ & Hout).
  destruct (pop_block_paint K host label s x s' G E) as (Hpads & Hpaint).
  assert (Hx : In x (all_blocks s pages))
    by (apply (pool_free_nodes K s pages _ live x I); left; reflexivity).
  pose proof (pool_NoDup K s pages _ live I) as ND.
  cbn [app] in ND. apply NoDup_cons_iff in ND. destruct ND as (Hnin & _).
  assert (Hxl : ~ In x live)
    by (intros Hz; apply Hnin; apply in_or_app; right; exact Hz).
  assert (Hother : forall b y, In b (all_blocks s pages) -> b <> x ->
            header_start s b <= y
            < b + ObjectSize_ (stats s) + PadBytes_ (configuration s) ->
            heap s' y = heap s y).
  { intros b y Hb Hne Hy. apply Hout.
    apply (other_block_untouched K s pages b x y G Hok Hb Hx Hne Hy). }
  apply (marks_by_bytes K s); [exact Eg| | | | |].
  - intros D b y Hb Hy. destruct (Z.eq_dec b x) as [->|Hne].
    + rewrite Hpads.
      * apply (m_pads K s pages live M D x y Hx Hy).
      * unfold in_pads in Hy. lia.
    + rewrite (Hother b y Hb Hne).
      * apply (m_pads K s pages live M D b y Hb Hy).
      * unfold header_start, in_pads in *. lia.
  - intros D b y Hb Hy. destruct (Z.eq_dec b x) as [->|Hne].
    + rewrite Hpads.
      * apply (m_raw K s pages live M D x y Hx Hy).
      * unfold in_pads in Hy. lia.
    + rewrite (Hother b y Hb Hne).
      * apply (m_raw K s pages live M D b y Hb Hy).
      * unfold header_start, in_pads in *. lia.
  - intros F b y Hb Hy.
    pose proof (flag_offset_range K s G F) as Hfo.
    destruct (Z.eq_dec b x) as [->|Hne].
    + rewrite (proj2 (pop_block_flag K host label s x s' G F E)).
      * apply (m_tail K s pages live M F x y Hx Hy).
      * lia.
      * unfold header_start in *. lia.
    + rewrite (Hother b y Hb Hne).
      * apply (m_tail K s pages live M F b y Hb Hy).
      * unfold header_start in *. lia.
  - intros F b [<-|Hb].
    + apply (proj1 (pop_block_flag K host label s x s' G F E)).
    + pose proof (flag_offset_range K s G F) as Hfo.
      pose proof (pool_live_nodes K s pages _ live b I Hb) as Ho.
      rewrite (Hother b _ Ho).
      * apply (m_live K s pages live M F b Hb).
      * intros ->. contradiction.
      * unfold header_start in *. lia.
  - intros F FC b Hb Hn.
    pose proof (flag_offset_range K s G F) as Hfo.
    rewrite (Hother b _ Hb).
    + apply (m_free K s pages live M F FC b Hb).
      intros Hz. apply Hn. right. exact Hz.
    + intros ->. apply Hn. left. reflexivity.
    + unfold header_start in *. lia.
Qed.

Lemma pool_free_head_range K s pages fl live :
  pool_inv K s pages fl live -> 0 <= FreeList_ s < 2 ^ 64.
Proof.
  intros I.
  eapply chain_head_range; [exact (inv_free_chain K s pages fl live I)|].
  apply (chain_nodes_range K s pages).
  - exact (inv_geom K s pages fl live I).
  - exact (inv_pages K s pages fl live I).
  - intros z Hz. eapply pool_free_nodes; eauto.
Qed.

Lemma Free_below K fuel p s s' :
  UseCPPMemManager_ (configuration s) = false ->
  Free K fuel p s = Returns tt s' ->
  exists s4,
    configuration s4 = configuration s /\
    infos s4 = infos s /\
    (forall y, y < p -> heap s4 y = heap s y) /\
    (forall y, y < p -> heap s' y = heap (free_header K p s4) y) /\
    infos s' = infos (free_header K p s4).
Proof.
  intros Hp. unfold Free. cbn [configuration set_stats]. rewrite Hp.
  set (s1 := set_stats s (count_free (stats s))).
  assert (Key : forall s4,
            Returns tt (AddToFreeList p (free_header K p s4)) = Returns tt s' ->
            (forall y, y < p -> heap s' y = heap (free_header K p s4) y) /\
            infos s' = infos (free_header K p s4)).
  { intros s4 X. inversion X; subst s'. clear X. split; [|reflexivity].
    intros y Hy. unfold AddToFreeList.
    cbn [heap set_stats set_heap set_FreeList]. unfold store_ptr.
    apply store_le_out. left. exact Hy. }
  destruct (DebugOn_ (configuration s)).
  - destruct (debug_free K fuel p s1) as [[] s4|e4 s4| |] eqn:E4; simpl;
      try discriminate.
    apply debug_free_returns in E4. destruct E4 as (-> & _).
    destruct (p =? 0); [discriminate|].
    intros X. eexists. split; [|split; [|split; [|exact (Key _ X)]]].
    + reflexivity.
    + reflexivity.
    + intros y Hy. cbn [heap set_heap set_stats]. apply memset_out.
      left. exact Hy.
  - simpl. destruct (p =? 0); [discriminate|].
    intros X. exists s1. split; [|split; [|split; [|exact (Key _ X)]]];
      reflexivity.
Qed.

Lemma Free_pads_frame K fuel p s s' :
  geom_ok K s ->
  UseCPPMemManager_ (configuration s) = false ->
  0 <= FreeList_ s < 2 ^ 64 ->
  Free K fuel p s = Returns tt s' ->
  forall y, in_pads s p y -> heap s' y = heap s y.
Proof.
  intros G Hpool Hr E y Hy.
  pose proof (geom_sizes K s G) as (_ & HS & HP & HH & _).
  destruct (Free_returns K fuel p s s' G Hpool Hr E)
    as (_ & _ & _ & _ & _ & Hout).
  unfold in_pads in Hy.
  destruct (Z_le_dec (p + ObjectSize_ (stats s)) y) as [Hge|Hlt];
    [apply Hout; right; exact Hge|].
  destruct (Free_below K fuel p s s' Hpool E) as (s4 & Ec & _ & H4 & Hb & _).
  rewrite Hb by lia.
  unfold free_header. rewrite Ec.
  destruct (type_ (HBlockInfo_ (configuration s))) eqn:T; cbn [heap set_heap].
  - apply H4. lia.
  - pose proof (g_hdr K s G) as Hh. unfold header_fits in Hh. rewrite T in Hh.
    rewrite memset_out by lia. apply H4. lia.
  - pose proof (g_hdr K s G) as Hh. unfold header_fits in Hh. rewrite T in Hh.
    rewrite memset_out by lia. apply H4. lia.
  - pose proof (g_hdr K s G) as Hh. unfold header_fits in Hh. rewrite T in Hh.
    unfold store_ptr.
    rewrite store_le_out
      by (change (Z.of_nat ptr_bytes) with 8; unfold PTR_SIZE in *; lia).
    destruct (load_ptr (heap s4) _ =? 0); cbn [heap set_infos]; apply H4; lia.
Qed.

Lemma marks_Free K fuel p s pages fl live s' :
  pool_inv K s pages fl live ->
  UseCPPMemManager_ (configuration s) = false ->
  marks K s pages live ->
  In p live ->
  Free K fuel p s = Returns tt s' ->
  marks K s' pages (remove Z.eq_dec p live).
Proof.
  intros I Hpool M Hp E.
  pose proof (inv_geom K s pages _ live I) as G.
  pose proof (inv_pages K s pages _ live I) as Hok.
  pose proof (geom_sizes K s G) as (_ & HS & HP & HH & _).
  pose proof (pool_free_head_range K s pages fl live I) as Hr.
  destruct (Free_returns K fuel p s s' G Hpool Hr E)
    as (_ & _ & Eg & _ & _ & Hout).
  pose proof (pool_live_nodes K s pages fl live p I Hp) as Hpb.
  assert (Hother : forall b y, In b (all_blocks s pages) -> b <> p ->
            header_start s b <= y
            < b + ObjectSize_ (stats s) + PadBytes_ (configuration s) ->
            heap s' y = heap s y).
  { intros b y Hb Hne Hy. apply Hout.
    apply (other_block_untouched K s pages b p y G Hok Hb Hpb Hne Hy). }
  apply (marks_by_bytes K s); [exact Eg| | | | |].
  - intros D b y Hb Hy. destruct (Z.eq_dec b p) as [->|Hne].
    + rewrite (Free_pads_frame K fuel p s s' G Hpool Hr E y Hy).
      apply (m_pads K s pages live M D p y Hpb Hy).
    + rewrite (Hother b y Hb Hne).
      * apply (m_pads K s pages live M D b y Hb Hy).
      * unfold header_start, in_pads in *. lia.
  - intros D b y Hb Hy. destruct (Z.eq_dec b p) as [->|Hne].
    + rewrite (Free_pads_frame K fuel p s s' G Hpool Hr E y Hy).
      apply (m_raw K s pages live M D p y Hpb Hy).
    + rewrite (Hother b y Hb Hne).
      * apply (m_raw K s pages live M D b y Hb Hy).
      * unfold header_start, in_pads in *. lia.
  - intros F b y Hb Hy.
    pose proof (flag_offset_range K s G F) as Hfo.
    destruct (Z.eq_dec b p) as [->|Hne].
    + destruct (Free_header_bytes K fuel p s s' G Hpool F E) as (B1 & _).
      destruct (B1 y) as [Z0|Z0]; [unfold header_start in *; lia|exact Z0|].
      rewrite Z0. apply (m_tail K s pages live M F p y Hpb Hy).
    + rewrite (Hother b y Hb Hne).
      * apply (m_tail K s pages live M F b y Hb Hy).
      * unfold header_start in *. lia.
  - intros F b Hb.
    pose proof (flag_offset_range K s G F) as Hfo.
    apply in_remove in Hb. destruct Hb as (Hb & Hne).
    pose proof (pool_live_nodes K s pages _ live b I Hb) as Ho.
    rewrite (Hother b _ Ho Hne).
    + apply (m_live K s pages live M F b Hb).
    + unfold header_start in *. lia.
  - intros F FC b Hb Hn.
    pose proof (flag_offset_range K s G F) as Hfo.
    destruct (Z.eq_dec b p) as [->|Hne].
    + apply (proj2 (Free_header_bytes K fuel p s s' G Hpool F E) FC).
    + rewrite (Hother b _ Hb Hne).
      * apply (m_free K s pages live M F FC b Hb).
        intros Hz. apply Hn. apply in_in_remove; assumption.
      * unfold header_start in *. lia.
Qed.

Lemma reachable_marks K s pages live :
  reachable K s pages live -> marks K s pages live.
Proof.
  induction 1 as
    [fuel a m0 S cfg s W Hpool Ha Hhi E
    |fuel host label s pages live p s' R IH Hfl E
    |fuel host label s pages live a p s' R IH Hfl Hh Hf E
    |fuel p s pages live s' R IH Hp E].
  - pose proof (ctor_init_empty K m0 S cfg W) as I0.
    pose proof (wf_config_no_overflow K S cfg W) as NO.
    assert (W' := W). destruct W' as (Rg & HN & _).
    pose proof (ctor_init_geometry m0 S cfg Rg HN NO) as (_ & _ & E3 & _).
    pose proof (inv_geom K _ _ _ _ I0) as G0.
    unfold ObjectAllocator_ctor in E.
    destruct (AllocateNewPage_returns_eq K fuel _ _ s (geom_ok_loop K _ G0) E)
      as (a' & Ea & ->).
    inversion Ea; subst a'.
    apply (marks_new_page K a _ [] [] [] I0 (marks_no_page K _)).
    unfold page_fresh. rewrite E3. simpl. tauto.
  - destruct (reachable_inv K s pages live R) as (Hpool & fl & I).
    unfold Allocate in E. rewrite Hpool in E.
    destruct (Z.eqb_spec (FreeList_ s) 0); [contradiction|]. simpl in E.
    destruct fl as [|x fl].
    { pose proof (inv_free_chain K s pages _ live I) as C. simpl in C.
      contradiction. }
    destruct (pop_block_inv K host label s pages x fl live p s' I E) as (-> & _).
    exact (marks_pop K host label s pages x fl live x s' I IH E).
  - destruct (reachable_inv K s pages live R) as (Hpool & fl & I).
    unfold Allocate in E. rewrite Hpool, Hfl, Hh in E. simpl in E.
    destruct (AllocateNewPage K fuel (Some a) s) as [[] s0|e0 s0| |] eqn:E0;
      simpl in E; try discriminate.
    destruct (AllocateNewPage_returns_inv K fuel a s pages fl live s0 I Hf E0)
      as (Eg0 & I0).
    pose proof (inv_geom K s pages fl live I) as G.
    destruct (AllocateNewPage_returns_eq K fuel _ s s0 (geom_ok_loop K s G) E0)
      as (a' & Ea & Es0).
    inversion Ea; subst a'.
    pose proof (marks_new_page K a s pages fl live I IH Hf) as M0.
    rewrite <- Es0 in M0.
    destruct (rev (blocks_of_page s a) ++ fl) as [|x fl'] eqn:El.
    { pose proof (inv_free_chain K s0 _ _ live I0) as C. simpl in C.
      unfold pop_block in E. rewrite C in E. simpl in E. discriminate. }
    destruct (pop_block_inv K host label s0 _ x fl' live p s' I0 E) as (-> & _).
    exact (marks_pop K host label s0 (a :: pages) x fl' live x s' I0 M0 E).
  - destruct (reachable_inv K s pages live R) as (Hpool & fl & I).
    exact (marks_Free K fuel p s pages fl live s' I Hpool IH Hp E).
Qed.

(** ** The payload mark *)

Lemma Allocate_pop_cases K fuel host label s pages fl live p s' :
  UseCPPMemManager_ (configuration s) = false ->
  pool_inv K s pages fl live ->
  FreeList_ s <> 0 ->
  Allocate K fuel host label s = Returns p s' ->
  exists fl', fl = p :: fl' /\ pop_block K host label s = Returns p s'.
Proof.
  intros Hpool I Hn E.
  rewrite (Allocate_pooled K fuel host label s Hpool Hn) in E.
  destruct fl as [|x fl'].
  { pose proof (inv_free_chain K s pages _ live I) as C. simpl in C.
    contradiction. }
  destruct (pop_block_inv K host label s pages x fl' live p s' I E) as (-> & _).
  exists fl'. split; [reflexivity|exact E].
Qed.

Lemma Allocate_grow_cases K fuel host label s pages fl live a p s' :
  UseCPPMemManager_ (configuration s) = false ->
  pool_inv K s pages fl live ->
  FreeList_ s = 0 ->
  new_page host = Some a ->
  page_fresh s pages a ->
  Allocate K fuel host label s = Returns p s' ->
  let s0 := init_n K (Z.to_nat (ObjectsPerPage_ (configuration s)))
              (a + pageHeader s) (link_new_page K a s) in
  geometry s0 = geometry s /\
  exists fl',
    pool_inv K s0 (a :: pages) (p :: fl') live /\
    pop_block K host label s0 = Returns p s'.
Proof.
  intros Hpool I Hfl Hh Hf E. cbv zeta.
  unfold Allocate in E. rewrite Hpool, Hfl, Hh in E. simpl in E.
  destruct (AllocateNewPage K fuel (Some a) s) as [[] s0|e0 s0| |] eqn:E0;
    simpl in E; try discriminate.
  destruct (AllocateNewPage_returns_inv K fuel a s pages fl live s0 I Hf E0)
    as (Eg0 & I0).
  pose proof (inv_geom K s pages fl live I) as G.
  destruct (AllocateNewPage_returns_eq K fuel _ s s0 (geom_ok_loop K s G) E0)
    as (a' & Ea & Es0).
  inversion Ea; subst a'. rewrite <- Es0.
  split; [exact Eg0|].
  destruct (rev (blocks_of_page s a) ++ fl) as [|x fl'] eqn:El.
  { pose proof (inv_free_chain K s0 _ _ live I0) as C. simpl in C.
    unfold pop_block in E. rewrite C in E. simpl in E. discriminate. }
  destruct (pop_block_inv K host label s0 _ x fl' live p s' I0 E) as (-> & _).
  exists fl'. split; [exact I0|exact E].
Qed.

Lemma painted_by_bytes K s s' live' :
  geometry s' = geometry s ->
  (DebugOn_ (configuration s) = true -> PTR_SIZE < ObjectSize_ (stats s) ->
   forall b, In b live' ->
     heap s' (b + PTR_SIZE) = ALLOCATED_PATTERN K mod 256) ->
  payload_painted K s' live'.
Proof.
  intros Eg H. unfold payload_painted.
  rewrite (geometry_config _ _ Eg), (proj1 (geometry_sizes _ _ Eg)). exact H.
Qed.

Lemma painted_new_page K a s pages fl live :
  pool_inv K s pages fl live ->
  payload_painted K s live ->
  page_fresh s pages a ->
  payload_painted K
    (init_n K (Z.to_nat (ObjectsPerPage_ (configuration s)))
       (a + pageHeader s) (link_new_page K a s))
    live.
Proof.
  intros I M Hfr.
  pose proof (inv_geom K s pages fl live I) as G.
  pose proof (geom_sizes K s G) as (_ & HS & HP & HH & _).
  apply (painted_by_bytes K s).
  { rewrite geometry_init_n. apply geometry_link_new_page. }
  intros D HS8 b Hb.
  pose proof (pool_live_nodes K s pages fl live b I Hb) as Ho.
  rewrite new_page_outside; [exact (M D HS8 b Hb)|exact G|].
  apply (old_block_outside_new_page K s pages a b _ G Hfr Ho).
  unfold header_start, PTR_SIZE in *. lia.
Qed.

Lemma painted_pop K host label s pages x fl live p s' :
  pool_inv K s pages (x :: fl) live ->
  payload_painted K s live ->
  pop_block K host label s = Returns p s' ->
  payload_painted K s' (x :: live).
Proof.
  intros I M E.
  pose proof (inv_geom K s pages _ live I) as G.
  pose proof (inv_pages K s pages _ live I) as Hok.
  pose proof (geom_sizes K s G) as (_ & HS & HP & HH & _).
  destruct (pop_block_inv K host label s pages x fl live p s' I E) as (-> & _).
  destruct (pop_block_returns K host label s x s' G E)
    as (_ & _ & _ & _ & Eg & _ & Hout).
  destruct (pop_block_paint K host label s x s' G E) as (_ & Hpaint).
  assert (Hx : In x (all_blocks s pages))
    by (apply (pool_free_nodes K s pages _ live x I); left; reflexivity).
  pose proof (pool_NoDup K s pages _ live I) as ND.
  cbn [app] in ND. apply NoDup_cons_iff in ND. destruct ND as (Hnin & _).
  apply (painted_by_bytes K s); [exact Eg|].
  intros D HS8 b [<-|Hb].
  - apply (Hpaint D). unfold PTR_SIZE in *. lia.
  - pose proof (pool_live_nodes K s pages _ live b I Hb) as Ho.
    rewrite Hout; [exact (M D HS8 b Hb)|].
    apply (other_block_untouched K s pages b x _ G Hok Ho Hx).
    + intros ->. apply Hnin. apply in_or_app. right. exact Hb.
    + unfold header_start, PTR_SIZE in *. lia.
Qed.

Lemma painted_Free K fuel p s pages fl live s' :
  pool_inv K s pages fl live ->
  UseCPPMemManager_ (configuration s) = false ->
  payload_painted K s live ->
  In p live ->
  Free K fuel p s = Returns tt s' ->
  payload_painted K s' (remove Z.eq_dec p live).
Proof.
  intros I Hpool M Hp E.
  pose proof (inv_geom K s pages _ live I) as G.
  pose proof (inv_pages K s pages _ live I) as Hok.
  pose proof (geom_sizes K s G) as (_ & HS & HP & HH & _).
  pose proof (pool_free_head_range K s pages fl live I) as Hr.
  destruct (Free_returns K fuel p s s' G Hpool Hr E)
    as (_ & _ & Eg & _ & _ & Hout).
  pose proof (pool_live_nodes K s pages fl live p I Hp) as Hpb.
  apply (painted_by_bytes K s); [exact Eg|].
  intros D HS8 b Hb.
  apply in_remove in Hb. destruct Hb as (Hb & Hne).
  pose proof (pool_live_nodes K s pages _ live b I Hb) as Ho.
  rewrite Hout; [exact (M D HS8 b Hb)|].
  apply (other_block_untouched K s pages b p _ G Hok Ho Hpb Hne).
  unfold header_start, PTR_SIZE in *. lia.
Qed.

Lemma reachable_painted K s pages live :
  reachable K s pages live -> payload_painted K s live.
Proof.
  induction 1 as
    [fuel a m0 S cfg s W Hpool Ha Hhi E
    |fuel host label s pages live p s' R IH Hfl E
    |fuel host label s pages live a p s' R IH Hfl Hh Hf E
    |fuel p s pages live s' R IH Hp E].
  - intros _ _ b [].
  - destruct (reachable_inv K s pages live R) as (Hpool & fl & I).
    destruct (Allocate_pop_cases K fuel host label s pages fl live p s'
                Hpool I Hfl E) as (fl' & -> & Ep).
    exact (painted_pop K host label s pages p fl' live p s' I IH Ep).
  - destruct (reachable_inv K s pages live R) as (Hpool & fl & I).
    destruct (Allocate_grow_cases K fuel host label s pages fl live a p s'
                Hpool I Hfl Hh Hf E) as (_ & fl' & I0 & Ep).
    pose proof (painted_new_page K a s pages fl live I IH Hf) as M0.
    exact (painted_pop K host label _ (a :: pages) p fl' live p s' I0 M0 Ep).
  - destruct (reachable_inv K s pages live R) as (Hpool & fl & I).
    exact (painted_Free K fuel p s pages fl live s' I Hpool IH Hp E).
Qed.

(** ** Writes of the client into its payloads *)

Lemma write_frame K s pages fl live p y v b z :
  pool_inv K s pages fl live ->
  In p live ->
  p <= y < p + ObjectSize_ (stats s) ->
  In b (all_blocks s pages) ->
  header_start s b <= z < b
  \/ b + ObjectSize_ (stats s) <= z
     < b + ObjectSize_ (stats s) + PadBytes_ (configuration s) ->
  heap (client_write y v s) z = heap s z.
Proof.
  intros I Hp Hy Hb Hz.
  pose proof (inv_geom K s pages fl live I) as G.
  pose proof (inv_pages K s pages fl live I) as Hok.
  pose proof (geom_sizes K s G) as (_ & HS & HP & HH & _).
  pose proof (pool_live_nodes K s pages fl live p I Hp) as Hpb.
  unfold client_write. cbn [heap set_heap]. apply store_le_out.
  change (Z.of_nat 1) with 1.
  destruct (Z.eq_dec b p) as [->|Hne]; [lia|].
  pose proof (blocks_separated K s pages b p G Hok Hb Hpb Hne).
  unfold header_start in *. lia.
Qed.

Lemma write_inv K s pages fl live p y v :
  pool_inv K s pages fl live ->
  In p live ->
  p <= y < p + ObjectSize_ (stats s) ->
  pool_inv K (client_write y v s) pages fl live.
Proof.
  intros I Hp Hy.
  pose proof (inv_geom K s pages fl live I) as G.
  pose proof (geom_sizes K s G) as (_ & HS & HP & HH & _).
  pose proof (pool_live_nodes K s pages fl live p I Hp) as Hpb.
  pose proof (pool_NoDup K s pages fl live I) as ND.
  destruct (block_write_frame K s pages fl live p
              (heap (client_write y v s)) fl (FreeList_ s) I Hpb)
    as (PC & FC).
  - intros z Hz. unfold client_write. cbn [heap set_heap].
    apply store_le_out. change (Z.of_nat 1) with 1. lia.
  - intros z Hz. split; [eapply pool_free_nodes; eauto|].
    intros ->. revert Hz Hp. clear -ND.
    induction fl as [|x t IH]; intros Hz Hp; [destruct Hz|].
    cbn [app] in ND. apply NoDup_cons_iff in ND. destruct ND as (Hn & ND).
    destruct Hz as [->|Hz].
    + apply Hn. apply in_or_app. right. exact Hp.
    + exact (IH ND Hz Hp).
  - exact (inv_free_chain K s pages fl live I).
  - destruct I as [I1 I2 I3 I4 I5 I6 I7 I8 I9].
    constructor;
      [exact (geom_ok_ext K s (client_write y v s) eq_refl I1)
      |exact (pages_ok_ext s (client_write y v s) pages eq_refl I2)
      |exact PC|exact FC
      |exact I5|exact I6|exact I7|exact I8|exact I9].
Qed.

Lemma marks_write K s pages fl live p y v :
  pool_inv K s pages fl live ->
  marks K s pages live ->
  In p live ->
  p <= y < p + ObjectSize_ (stats s) ->
  marks K (client_write y v s) pages live.
Proof.
  intros I M Hp Hy.
  pose proof (inv_geom K s pages fl live I) as G.
  pose proof (geom_sizes K s G) as (_ & HS & HP & HH & _).
  apply (marks_by_bytes K s); [reflexivity| | | | |].
  - intros D b z Hb Hz.
    rewrite (write_frame K s pages fl live p y v b z I Hp Hy Hb).
    + apply (m_pads K s pages live M D b z Hb Hz).
    + unfold header_start, in_pads in *. lia.
  - intros D b z Hb Hz.
    rewrite (write_frame K s pages fl live p y v b z I Hp Hy Hb).
    + apply (m_raw K s pages live M D b z Hb Hz).
    + unfold header_start, in_pads in *. lia.
  - intros F b z Hb Hz.
    pose proof (flag_offset_range K s G F) as Hfo.
    rewrite (write_frame K s pages fl live p y v b z I Hp Hy Hb).
    + apply (m_tail K s pages live M F b z Hb Hz).
    + unfold header_start in *. lia.
  - intros F b Hb.
    pose proof (flag_offset_range K s G F) as Hfo.
    pose proof (pool_live_nodes K s pages fl live b I Hb) as Ho.
    rewrite (write_frame K s pages fl live p y v b _ I Hp Hy Ho).
    + apply (m_live K s pages live M F b Hb).
    + unfold header_start in *. lia.
  - intros F FC b Hb Hn.
    pose proof (flag_offset_range K s G F) as Hfo.
    rewrite (write_frame K s pages fl live p y v b _ I Hp Hy Hb).
    + apply (m_free K s pages live M F FC b Hb Hn).
    + unfold header_start in *. lia.
Qed.

Lemma reachable_client_run K s pages live :
  reachable K s pages live -> client_run K s pages live.
Proof.
  induction 1.
  - eapply run_ctor; eauto.
  - eapply run_Allocate_pop; eauto.
  - eapply run_Allocate_grow; eauto.
  - eapply run_Free; eauto.
Qed.

(** The lists and the marks of the allocator survive whatever the client
    stores into the payloads of the blocks it holds. *)
Lemma client_run_owned K s pages live :
  client_run K s pages live ->
  UseCPPMemManager_ (configuration s) = false /\
  (exists fl, pool_inv K s pages fl live) /\
  marks K s pages live.
Proof.
  induction 1 as
    [fuel a m0 S cfg s W Hpool Ha Hhi E
    |fuel host label s pages live p s' R IH Hfl E
    |fuel host label s pages live a p s' R IH Hfl Hh Hf E
    |fuel p s pages live s' R IH Hp E
    |p y v s pages live R IH Hp Hy].
  - assert (R : reachable K s [a] [])
      by (exact (reach_ctor K fuel a m0 S cfg s W Hpool Ha Hhi E)).
    destruct (reachable_inv K s _ _ R) as (Hp & Hex).
    split; [exact Hp|]. split; [exact Hex|].
    exact (reachable_marks K s _ _ R).
  - destruct IH as (Hpool & (fl & I) & M).
    pose proof (inv_geom K s pages fl live I) as G.
    destruct (Allocate_pop_cases K fuel host label s pages fl live p s'
                Hpool I Hfl E) as (fl' & -> & Ep).
    destruct (pop_block_returns K host label s p s' G Ep)
      as (_ & _ & _ & _ & Eg & _).
    destruct (pop_block_inv K host label s pages p fl' live p s' I Ep)
      as (_ & I').
    split; [rewrite (geometry_config _ _ Eg); exact Hpool|].
    split; [eexists; exact I'|].
    exact (marks_pop K host label s pages p fl' live p s' I M Ep).
  - destruct IH as (Hpool & (fl & I) & M).
    destruct (Allocate_grow_cases K fuel host label s pages fl live a p s'
                Hpool I Hfl Hh Hf E) as (Eg0 & fl' & I0 & Ep).
    pose proof (marks_new_page K a s pages fl live I M Hf) as M0.
    pose proof (inv_geom K _ _ _ _ I0) as G0.
    destruct (pop_block_returns K host label _ p s' G0 Ep)
      as (_ & _ & _ & _ & Eg & _).
    destruct (pop_block_inv K host label _ (a :: pages) p fl' live p s' I0 Ep)
      as (_ & I').
    split.
    { rewrite (geometry_config _ _ Eg), (geometry_config _ _ Eg0).
      exact Hpool. }
    split; [eexists; exact I'|].
    exact (marks_pop K host label _ (a :: pages) p fl' live p s' I0 M0 Ep).
  - destruct IH as (Hpool & (fl & I) & M).
    pose proof (inv_geom K s pages fl live I) as G.
    pose proof (pool_free_head_range K s pages fl live I) as Hr.
    destruct (Free_returns K fuel p s s' G Hpool Hr E) as (_ & _ & Eg & _).
    split; [rewrite (geometry_config _ _ Eg); exact Hpool|].
    split.
    { eexists. exact (Free_inv K fuel p s pages fl live s' I Hpool Hp E). }
    exact (marks_Free K fuel p s pages fl live s' I Hpool M Hp E).
  - destruct IH as (Hpool & (fl & I) & M).
    split; [exact Hpool|].
    split; [exists fl; exact (write_inv K s pages fl live p y v I Hp Hy)|].
    exact (marks_write K s pages fl live p y v I M Hp Hy).
Qed.

Lemma client_run_fill K s pages live p v : forall n k st,
  client_run K st pages live ->
  In p live ->
  ObjectSize_ (stats st) = ObjectSize_ (stats s) ->
  Z.of_nat k + Z.of_nat n <= ObjectSize_ (stats s) ->
  client_run K
    (fold_left (fun st i => client_write (p + Z.of_nat i) v st) (seq k n) st)
    pages live.
Proof.
  induction n as [|n IH]; intros k st R Hp Es Hn; [exact R|].
  cbn [seq fold_left]. apply IH.
  - apply (run_write K p (p + Z.of_nat k) v st pages live R Hp).
    rewrite Es. lia.
  - exact Hp.
  - exact Es.
  - lia.
Qed.

(** ** The scans on the states a client can reach *)

Lemma filter_none {A} (f : A -> bool) (l : list A) :
  (forall x, In x l -> f x = false) -> filter f l = [].
Proof.
  induction l as [|a l IH]; intros H; [reflexivity|].
  cbn [filter]. rewrite (H a (or_introl eq_refl)).
  apply IH. intros x Hx. apply H. right. exact Hx.
Qed.

Lemma held_iff live b : held live b = true <-> In b live.
Proof.
  unfold held. rewrite existsb_exists. split.
  - intros (x & Hx & E). apply Z.eqb_eq in E. subst. exact Hx.
  - intros H. exists b. split; [exact H|apply Z.eqb_refl].
Qed.

(** X15.  As long as the client writes inside its payloads only, no block
    is ever reported by [ValidatePages]: on every state reached through
    [Allocate], [Free] and stores of the client into the payloads of the
    blocks it holds, it returns zero and makes no call. *)
Theorem ValidatePages_clean K s pages live fuel :
  client_run K s pages live ->
  0 <= PAD_PATTERN K < 256 ->
  (length pages < fuel)%nat ->
  ValidatePages K fuel s = Some (0, []).
Proof.
  intros R HPAD Hf.
  destruct (client_run_owned K s pages live R) as (_ & (fl & I) & M).
  pose proof (inv_geom K s pages fl live I) as G.
  pose proof (geom_sizes K s G) as (_ & _ & HP & _).
  unfold ValidatePages.
  destruct (DebugOn_ (configuration s)) eqn:D; [|reflexivity].
  destruct (PadBytes_ (configuration s) =? 0); [reflexivity|].
  cbn [negb orb].
  rewrite (validate_pages_spec K s HP pages fuel _ 0 []
             (inv_page_chain K s pages fl live I) Hf).
  rewrite filter_none; [reflexivity|].
  intros b Hb. apply negb_false_iff. apply pads_intact_iff.
  intros y Hy.
  rewrite (m_pads K s pages live M D b y Hb Hy).
  apply Z.mod_small. exact HPAD.
Qed.

Lemma dump_address K s b :
  geom_ok K s ->
  b - PadBytes_ (configuration s) - 1
  = header_start s b + (size_ (HBlockInfo_ (configuration s)) - 1).
Proof. intros _. unfold header_start. lia. Qed.

(** X16.  When the header is as wide as the flag byte requires (5 bytes for
    a basic header, the user bytes plus 7 for an extended one) and the zero
    fill of [Free] covers the flag, [DumpMemoryInUse] reports exactly the
    blocks the client holds: it returns [ObjectsInUse_] and calls the callback
    once on each of them, in the order of the pages. *)
Theorem DumpMemoryInUse_reports_live_blocks K s pages live fuel :
  reachable K s pages live ->
  flag_at_end (configuration s) ->
  flag_cleared K (configuration s) ->
  (length pages < fuel)%nat ->
  DumpMemoryInUse fuel s
  = Some (ObjectsInUse_ (stats s),
          calls_on s (filter (held live) (all_blocks s pages))) /\
  Permutation (filter (held live) (all_blocks s pages)) live.
Proof.
  intros R (F & EH) FC Hf.
  destruct (reachable_inv K s pages live R) as (_ & fl & I).
  pose proof (reachable_marks K s pages live R) as M.
  pose proof (inv_geom K s pages fl live I) as G.
  pose proof (inv_pages K s pages fl live I) as Hok.
  assert (Eflt : filter (flagged s) (all_blocks s pages)
                 = filter (held live) (all_blocks s pages)).
  { apply filter_ext_in. intros b Hb. unfold flagged.
    rewrite (dump_address K s b G), EH.
    replace (flag_offset (configuration s) + 1 - 1)
      with (flag_offset (configuration s)) by lia.
    destruct (held live b) eqn:Hh.
    - apply held_iff in Hh. rewrite (m_live K s pages live M F b Hh).
      reflexivity.
    - rewrite (m_free K s pages live M F FC b Hb); [reflexivity|].
      intros Hl. apply held_iff in Hl. congruence. }
  assert (Perm : Permutation (filter (held live) (all_blocks s pages)) live).
  { apply NoDup_Permutation.
    - apply NoDup_filter. apply (NoDup_all_blocks K s pages G Hok).
    - pose proof (pool_NoDup K s pages fl live I) as ND.
      apply NoDup_app_remove_l in ND. exact ND.
    - intros b. rewrite filter_In, held_iff. split; [tauto|].
      intros Hl. split; [|exact Hl].
      apply (pool_live_nodes K s pages fl live b I Hl). }
  split; [|exact Perm].
  rewrite (DumpMemoryInUse_flagged s pages fuel F
             (inv_page_chain K s pages fl live I) Hf).
  rewrite Eflt, (Permutation_length Perm).
  rewrite (inv_used K s pages fl live I).
  pose proof (pool_counts K s pages fl live I) as (Ec & Hc).
  unfold wrap_uint. rewrite Z.mod_small by lia. reflexivity.
Qed.

(** X17.  When the header is wider than that, the byte [DumpMemoryInUse]
    reads, the last byte of the header, is one that [Allocate] never writes:
    the scan reports nothing, however many blocks the client holds. *)
Theorem DumpMemoryInUse_misses_flag K s pages live fuel :
  reachable K s pages live ->
  flag_missed (configuration s) ->
  (length pages < fuel)%nat ->
  DumpMemoryInUse fuel s = Some (0, []).
Proof.
  intros R (F & EH) Hf.
  destruct (reachable_inv K s pages live R) as (_ & fl & I).
  pose proof (reachable_marks K s pages live R) as M.
  pose proof (inv_geom K s pages fl live I) as G.
  rewrite (DumpMemoryInUse_flagged s pages fuel F
             (inv_page_chain K s pages fl live I) Hf).
  rewrite filter_none; [reflexivity|].
  intros b Hb. unfold flagged. rewrite (dump_address K s b G).
  rewrite (m_tail K s pages live M F b _ Hb); [reflexivity|lia].
Qed.

(** ** Headers from [Allocate] to [Free] *)

Lemma pop_block_basic K host label s p s' :
  type_ (HBlockInfo_ (configuration s)) = hbBasic ->
  pop_block K host label s = Returns p s' ->
  load_le (heap s') (header_start s p) 4 = Allocations_ (stats s') /\
  heap s' (header_start s p + 4) = 1.
Proof.
  intros T. unfold pop_block.
  destruct (Z.eqb_spec (FreeList_ s) 0) as [E|E]; [discriminate|].
  destruct (count_allocation_sizes (stats s)) as (_ & _ & _ & _ & _ & C6 & _).
  unfold allocate_header, header_start.
  destruct (DebugOn_ (configuration s));
    cbn [configuration set_stats set_heap set_FreeList heap stats];
    rewrite T; intros X; inversion X; subst; cbn [heap set_heap stats set_stats];
    (split;
     [rewrite (load_le_ext 4 (store_le _ _ 4 _))
        by (intros y Hy; apply store_le_out; simpl Z.of_nat in *; lia);
      rewrite load_store_le; change (2 ^ (8 * Z.of_nat 4)) with (2 ^ 32);
      rewrite C6; unfold wrap_uint; apply Z.mod_mod; lia
     |rewrite store_le_in by (simpl Z.of_nat; lia);
      rewrite Z.sub_diag; reflexivity]).
Qed.

Lemma Free_basic_zero K fuel p s s' :
  geom_ok K s ->
  UseCPPMemManager_ (configuration s) = false ->
  type_ (HBlockInfo_ (configuration s)) = hbBasic ->
  Free K fuel p s = Returns tt s' ->
  forall y, header_start s p <= y < header_start s p + BASIC_HEADER_SIZE K ->
    heap s' y = 0.
Proof.
  intros G Hp T E y Hy.
  pose proof (geom_sizes K s G) as (_ & _ & HP & _).
  pose proof (g_hdr K s G) as Hh. unfold header_fits in Hh. rewrite T in Hh.
  destruct (Free_below K fuel p s s' Hp E) as (s4 & Ec & _ & _ & Hb & _).
  unfold header_start in *.
  rewrite Hb by lia. unfold free_header. rewrite Ec, T. cbn [heap set_heap].
  apply memset_in. lia.
Qed.

(** X18.  With basic headers [Allocate] writes the allocation number, the
    value of [Allocations_] after the call, in the first four bytes of the
    header and 1 in the fifth; a [Free] of the block that returns fills the
    first [BASIC_HEADER_SIZE] bytes of the header with zeros. *)
Theorem basic_header_round_trip K fuel fuel2 host label s pages x fl live :
  pool_inv K s pages (x :: fl) live ->
  UseCPPMemManager_ (configuration s) = false ->
  type_ (HBlockInfo_ (configuration s)) = hbBasic ->
  exists s1,
    Allocate K fuel host label s = Returns x s1 /\
    load_le (heap s1) (header_start s x) 4 = Allocations_ (stats s1) /\
    Allocations_ (stats s1) = wrap_uint (Allocations_ (stats s) + 1) /\
    heap s1 (header_start s x + 4) = 1 /\
    forall s2, Free K fuel2 x s1 = Returns tt s2 ->
      forall y, header_start s x <= y < header_start s x + BASIC_HEADER_SIZE K ->
        heap s2 y = 0.
Proof.
  intros I Hp T.
  pose proof (inv_geom K s pages _ live I) as G.
  pose proof (inv_free_chain K s pages _ live I) as C.
  cbn [chain] in C. destruct C as (Ex & Hx & _).
  assert (E0 : FreeList_ s <> 0) by congruence.
  rewrite (Allocate_pooled K fuel host label s Hp E0).
  assert (Hh : host_succeeds s host) by (intros T'; congruence).
  destruct (pop_block_total K host label s E0 Hh) as (s1 & E).
  rewrite Ex in E. exists s1. split; [exact E|].
  destruct (pop_block_basic K host label s x s1 T E) as (B1 & B2).
  destruct (pop_block_returns K host label s x s1 G E)
    as (_ & _ & _ & _ & Eg & Est & _).
  destruct (count_allocation_sizes (stats s)) as (_ & _ & _ & _ & _ & C6 & _).
  split; [exact B1|]. split; [rewrite Est; exact C6|]. split; [exact B2|].
  intros s2 E2 y Hy.
  pose proof (geometry_config _ _ Eg) as Ec.
  assert (G1 : geom_ok K s1) by (eapply geom_ok_ext; eauto).
  apply (Free_basic_zero K fuel2 x s1 s2 G1); try (rewrite Ec; assumption).
  - exact E2.
  - unfold header_start in *. rewrite Ec. exact Hy.
Qed.

Lemma pop_block_external K host label s r :
  FreeList_ s <> 0 ->
  type_ (HBlockInfo_ (configuration s)) = hbExternal ->
  new_info host = Some r -> new_label host = true ->
  0 <= r < 2 ^ 64 ->
  exists s1,
    pop_block K host label s = Returns (FreeList_ s) s1 /\
    load_ptr (heap s1) (header_start s (FreeList_ s)) = r /\
    infos s1 r = Some (mkMemBlockInfo true label (Allocations_ (stats s1))).
Proof.
  intros E0 T Hn Hl Hr. unfold pop_block.
  destruct (Z.eqb_spec (FreeList_ s) 0) as [|_]; [contradiction|].
  assert (Em : forall a, MemBlockInfo_ctor host true label a
                         = Some (mkMemBlockInfo true label a)).
  { intros a. unfold MemBlockInfo_ctor. destruct label; [rewrite Hl|]; reflexivity. }
  unfold allocate_header, header_start.
  destruct (DebugOn_ (configuration s));
    cbn [configuration set_stats set_heap set_FreeList heap stats infos];
    rewrite T, Hn, Em; eexists; (split; [reflexivity|]);
    cbn [heap set_heap infos set_infos stats set_stats];
    (split; [apply load_store_ptr; exact Hr|]);
    unfold update_info; rewrite Z.eqb_refl; reflexivity.
Qed.

Lemma free_header_external K p s r :
  type_ (HBlockInfo_ (configuration s)) = hbExternal ->
  load_ptr (heap s) (header_start s p) = r -> r <> 0 ->
  load_ptr (heap (free_header K p s)) (header_start s p) = 0 /\
  infos (free_header K p s) r = None.
Proof.
  intros T El Hr. unfold free_header. unfold header_start in *.
  rewrite T, El.
  destruct (Z.eqb_spec r 0) as [|_]; [contradiction|].
  cbn [heap set_heap infos set_infos]. split.
  - apply load_store_ptr. lia.
  - unfold update_info. rewrite Z.eqb_refl. reflexivity.
Qed.

(** X19.  With external headers, when the host provides the record at [r],
    [Allocate] stores [r] in the header of the block and fills the record with
    the in-use mark, the label and the allocation number, the value of
    [Allocations_] after the call; a [Free] of the block that returns deletes
    the record and stores [nullptr] in the header. *)
Theorem external_header_round_trip K fuel fuel2 host label s pages x fl live r :
  pool_inv K s pages (x :: fl) live ->
  UseCPPMemManager_ (configuration s) = false ->
  type_ (HBlockInfo_ (configuration s)) = hbExternal ->
  new_info host = Some r -> new_label host = true ->
  0 < r < 2 ^ 64 ->
  exists s1,
    Allocate K fuel host label s = Returns x s1 /\
    load_ptr (heap s1) (header_start s x) = r /\
    infos s1 r = Some (mkMemBlockInfo true label (Allocations_ (stats s1))) /\
    forall s2, Free K fuel2 x s1 = Returns tt s2 ->
      load_ptr (heap s2) (header_start s x) = 0 /\ infos s2 r = None.
Proof.
  intros I Hp T Hn Hl Hr.
  pose proof (inv_geom K s pages _ live I) as G.
  pose proof (geom_sizes K s G) as (_ & _ & HP & _).
  pose proof (g_hdr K s G) as Hh. unfold header_fits in Hh. rewrite T in Hh.
  pose proof (inv_free_chain K s pages _ live I) as C.
  cbn [chain] in C. destruct C as (Ex & Hx & _).
  assert (E0 : FreeList_ s <> 0) by congruence.
  rewrite (Allocate_pooled K fuel host label s Hp E0).
  destruct (pop_block_external K host label s r E0 T Hn Hl ltac:(lia))
    as (s1 & E & L1 & N1).
  rewrite Ex in E, L1. exists s1. split; [exact E|].
  split; [exact L1|]. split; [exact N1|].
  intros s2 E2.
  destruct (pop_block_returns K host label s x s1 G E)
    as (_ & _ & _ & _ & Eg & _).
  pose proof (geometry_config _ _ Eg) as Ec.
  assert (Hp1 : UseCPPMemManager_ (configuration s1) = false)
    by (rewrite Ec; exact Hp).
  destruct (Free_below K fuel2 x s1 s2 Hp1 E2) as (s4 & Ec4 & Ei4 & H4 & Hb & Hi).
  assert (Eh : header_start s4 x = header_start s x)
    by (unfold header_start; rewrite Ec4, Ec; reflexivity).
  assert (L4 : load_ptr (heap s4) (header_start s4 x) = r).
  { rewrite Eh, <- L1. apply load_ptr_ext. intros y Hy. apply H4.
    unfold header_start, PTR_SIZE in *. lia. }
  destruct (free_header_external K x s4 r) as (F1 & F2);
    [rewrite Ec4, Ec; exact T|exact L4|lia|].
  split.
  - rewrite <- F1, Eh. apply load_ptr_ext. intros y Hy. apply Hb.
    unfold header_start, PTR_SIZE in *. lia.
  - rewrite Hi. exact F2.
Qed.

(** ** Destruction *)

Lemma dtor_page_effects K s a :
  geom_ok K s -> 0 < a ->
  geometry (dtor_page s a) = geometry s /\
  (type_ (HBlockInfo_ (configuration s)) <> hbExternal -> dtor_page s a = s) /\
  (forall y, y < a + PTR_SIZE \/ a + pageHeader s <= y ->
     heap (dtor_page s a) y = heap s y) /\
  (forall q, infos (dtor_page s a) q = None \/ infos (dtor_page s a) q = infos s q) /\
  (forall q, q <> load_ptr (heap s) (header_start s (a + pageHeader s)) ->
     infos (dtor_page s a) q = infos s q) /\
  (type_ (HBlockInfo_ (configuration s)) = hbExternal ->
   load_ptr (heap s) (header_start s (a + pageHeader s)) <> 0 ->
   infos (dtor_page s a)
     (load_ptr (heap s) (header_start s (a + pageHeader s))) = None).
Proof.
  intros G Ha.
  pose proof (geom_sizes K s G) as (_ & _ & HP & HH & _).
  pose proof (g_PH K s G) as HPH. pose proof (g_hdr K s G) as Hh.
  unfold header_fits in Hh. unfold dtor_page, header_start.
  destruct (type_ (HBlockInfo_ (configuration s))) eqn:T;
    try (repeat split; auto; congruence).
  set (hs := a + pageHeader s - PadBytes_ (configuration s)
             - size_ (HBlockInfo_ (configuration s))).
  assert (Hhs : a + PTR_SIZE <= hs /\ hs + PTR_SIZE <= a + pageHeader s)
    by (unfold hs, PTR_SIZE in *; lia).
  destruct (Z.eqb_spec hs 0) as [E0|_]; [unfold PTR_SIZE in *; lia|].
  set (r := load_ptr (heap s) hs).
  split; [|split; [|split; [|split; [|split]]]].
  - destruct (r =? 0); reflexivity.
  - congruence.
  - intros y Hy. cbn [heap set_heap]. unfold store_ptr.
    rewrite store_le_out
      by (change (Z.of_nat ptr_bytes) with 8; unfold PTR_SIZE in *; lia).
    destruct (r =? 0); reflexivity.
  - intros q. cbn [infos set_heap].
    destruct (r =? 0); [right; reflexivity|].
    cbn [infos set_infos]. unfold update_info.
    destruct (q =? r); [left|right]; reflexivity.
  - intros q Hq. cbn [infos set_heap].
    destruct (r =? 0); [reflexivity|].
    cbn [infos set_infos]. unfold update_info.
    destruct (Z.eqb_spec q r); [contradiction|reflexivity].
  - intros _ Hr. cbn [infos set_heap].
    destruct (Z.eqb_spec r 0); [contradiction|].
    cbn [infos set_infos]. unfold update_info. rewrite Z.eqb_refl. reflexivity.
Qed.

Lemma dtor_pages_spec K s0 :
  geom_ok K s0 ->
  forall pages fuel page released s,
  geometry s = geometry s0 ->
  pages_ok s0 pages ->
  chain (heap s) page pages ->
  (length pages < fuel)%nat ->
  exists s',
    dtor_pages fuel page released s = Returns (released ++ pages) s' /\
    (type_ (HBlockInfo_ (configuration s0)) <> hbExternal -> s' = s) /\
    (forall q, infos s' q = None \/ infos s' q = infos s q) /\
    (forall q,
       (forall a, In a pages ->
          load_ptr (heap s) (header_start s0 (a + pageHeader s0)) <> q) ->
       infos s' q = infos s q) /\
    (type_ (HBlockInfo_ (configuration s0)) = hbExternal ->
     forall a, In a pages ->
       load_ptr (heap s) (header_start s0 (a + pageHeader s0)) <> 0 ->
       infos s' (load_ptr (heap s) (header_start s0 (a + pageHeader s0))) = None).
Proof.
  intros G0.
  pose proof (geom_sizes K s0 G0) as (_ & _ & HP & HH & HPH & HPS & _).
  pose proof (g_PH K s0 G0) as HPH'. pose proof (g_PS K s0 G0) as EPS.
  pose proof (geom_sizes K s0 G0) as (HD & HS & _ & _ & _ & _ & HN).
  assert (Hfit : pageHeader s0 + ObjectSize_ (stats s0)
                 + PadBytes_ (configuration s0) <= PageSize_ (stats s0)) by nia.
  induction pages as [|a t IH]; intros fuel page released s Eg Hok C Hf;
    (destruct fuel as [|fuel]; [simpl in Hf; lia|]).
  - cbn [chain] in C. subst page. cbn. rewrite app_nil_r.
    exists s. split; [reflexivity|]. split; [reflexivity|].
    split; [right; reflexivity|]. split; [reflexivity|].
    intros _ a [].
  - cbn [chain] in C. destruct C as (-> & Ha0 & C).
    cbn [pages_ok] in Hok. destruct Hok as (Hfr & Hok).
    pose proof Hfr as (Ha & _ & Hdis).
    assert (G : geom_ok K s) by (eapply geom_ok_ext; eauto).
    pose proof (geometry_config _ _ Eg) as Ec.
    pose proof (geometry_pageHeader _ _ Eg) as Eph.
    assert (Ehs : forall b, header_start s b = header_start s0 b)
      by (intros b; unfold header_start; rewrite Ec; reflexivity).
    destruct (dtor_page_effects K s a G Ha) as (Eg1 & D1 & D2 & D3 & D4 & D5).
    rewrite Eph, Ehs in D4, D5. rewrite Eph in D2. rewrite Ec in D1, D5.
    assert (Hpage : forall a', In a' t -> forall y,
              a' <= y < a' + PageSize_ (stats s0) ->
              heap (dtor_page s a) y = heap s y).
    { intros a' Ha' y Hy. apply D2. specialize (Hdis a' Ha').
      unfold PTR_SIZE in *. lia. }
    assert (Hload : forall a', In a' t ->
              load_ptr (heap (dtor_page s a))
                (header_start s0 (a' + pageHeader s0))
              = load_ptr (heap s) (header_start s0 (a' + pageHeader s0))).
    { intros a' Ha'. apply load_ptr_ext. intros y Hy.
      apply (Hpage a' Ha'). unfold header_start, PTR_SIZE in *. lia. }
    cbn [dtor_pages].
    destruct (Z.eqb_spec a 0) as [|_]; [contradiction|].
    destruct (IH fuel (load_ptr (heap s) a) (released ++ [a]) (dtor_page s a))
      as (s' & E & R1 & R2 & R3 & R4).
    + rewrite Eg1. exact Eg.
    + exact Hok.
    + apply (chain_frame (heap s)); [exact C|].
      intros x Hx y Hy. apply (Hpage x Hx). unfold PTR_SIZE in *. lia.
    + simpl in Hf. lia.
    + exists s'. rewrite <- app_assoc in E. split; [exact E|].
      split; [|split; [|split]].
      * intros T. rewrite (R1 T). apply D1. exact T.
      * intros q. destruct (R2 q) as [Z0|Z0]; [left; exact Z0|].
        rewrite Z0. apply D3.
      * intros q Hq. rewrite R3.
        -- apply D4. intros Eq. apply (Hq a (or_introl eq_refl)).
           symmetry. exact Eq.
        -- intros a' Ha'. rewrite (Hload a' Ha'). apply Hq. right. exact Ha'.
      * intros T a' [<-|Ha'] Hr.
        -- destruct (R2 (load_ptr (heap s)
                           (header_start s0 (a + pageHeader s0))))
             as [Z0|Z0]; [exact Z0|].
           rewrite Z0. apply D5; assumption.
        -- rewrite <- (Hload a' Ha'). apply (R4 T a' Ha').
           rewrite (Hload a' Ha'). exact Hr.
Qed.

(** X20.  The destructor hands every page of the page list back to the host,
    each once, in the order of the list; unless the headers are external it
    changes nothing else. *)
Theorem dtor_releases_every_page K s pages fl live fuel :
  pool_inv K s pages fl live ->
  (length pages < fuel)%nat ->
  exists s',
    ObjectAllocator_dtor fuel s = Returns pages s' /\
    NoDup pages /\
    (type_ (HBlockInfo_ (configuration s)) <> hbExternal -> s' = s).
Proof.
  intros I Hf.
  pose proof (inv_geom K s pages fl live I) as G.
  pose proof (inv_pages K s pages fl live I) as Hok.
  destruct (dtor_pages_spec K s G pages fuel (PageList_ s) [] s eq_refl Hok
              (inv_page_chain K s pages fl live I) Hf)
    as (s' & E & R1 & _).
  exists s'. split; [exact E|].
  split; [apply (pages_NoDup K s pages G Hok)|exact R1].
Qed.

(** X21.  With external headers the destructor deletes, for each page, the
    record that the header of the first block of the page refers to, and no
    other: the record of a block in use that is not the first of its page is
    left with the host. *)
Theorem dtor_deletes_first_records_only K s pages fl live fuel :
  pool_inv K s pages fl live ->
  (length pages < fuel)%nat ->
  type_ (HBlockInfo_ (configuration s)) = hbExternal ->
  exists s',
    ObjectAllocator_dtor fuel s = Returns pages s' /\
    (forall a, In a pages ->
       load_ptr (heap s) (header_start s (a + pageHeader s)) <> 0 ->
       infos s' (load_ptr (heap s) (header_start s (a + pageHeader s))) = None) /\
    (forall q,
       (forall a, In a pages ->
          load_ptr (heap s) (header_start s (a + pageHeader s)) <> q) ->
       infos s' q = infos s q).
Proof.
  intros I Hf T.
  pose proof (inv_geom K s pages fl live I) as G.
  pose proof (inv_pages K s pages fl live I) as Hok.
  destruct (dtor_pages_spec K s G pages fuel (PageList_ s) [] s eq_refl Hok
              (inv_page_chain K s pages fl live I) Hf)
    as (s' & E & _ & _ & R3 & R4).
  exists s'. split; [exact E|]. split; [exact (R4 T)|exact R3].
Qed.

(** ** More on empty-page reclamation *)

Lemma IsPageEmpty_on_list s a fl fuel :
  chain (heap s) (FreeList_ s) fl ->
  1 <= ObjectsPerPage_ (configuration s) < 2 ^ 32 ->
  (length fl < fuel)%nat ->
  IsPageEmpty fuel s a = Some (page_empty s fl a).
Proof.
  intros C HN Hf.
  pose proof (IsPageEmpty_spec s a (heap s) (PageList_ s) (FreeList_ s)
                (FreeObjects_ (stats s)) (PagesInUse_ (stats s)) fl fuel C HN Hf)
    as E.
  rewrite with_lists_id in E. exact E.
Qed.

Lemma page_empty_iff_live K s pages fl live a :
  pool_inv K s pages fl live -> In a pages ->
  (page_empty s fl a = true <->
   forall b, In b live -> ~ In b (blocks_of_page s a)).
Proof.
  intros I Ha. rewrite (page_empty_iff K s pages fl live a I Ha).
  pose proof (pool_NoDup K s pages fl live I) as ND.
  pose proof (inv_blocks K s pages fl live I) as Perm.
  split.
  - intros Hall b Hl Hb.
    apply (NoDup_app_disjoint fl live b ND); [apply Hall; exact Hb|exact Hl].
  - intros Hno b Hb.
    assert (Hin : In b (fl ++ live)).
    { apply (Permutation_in b (Permutation_sym Perm)).
      apply in_all_blocks. exists a. split; assumption. }
    apply in_app_or in Hin. destruct Hin as [Hf|Hl]; [exact Hf|].
    elim (Hno b Hl Hb).
Qed.

(** X22.  On a well-formed pool [IsPageEmpty] answers [true] exactly when
    no block of the page is in use. *)
Theorem IsPageEmpty_verdict K s pages fl live a fuel :
  pool_inv K s pages fl live ->
  In a pages ->
  (length fl < fuel)%nat ->
  exists r,
    IsPageEmpty fuel s a = Some r /\
    (r = true <-> forall b, In b live -> ~ In b (blocks_of_page s a)).
Proof.
  intros I Ha Hf.
  pose proof (geom_sizes K s (inv_geom K s pages fl live I))
    as (_ & _ & _ & _ & _ & _ & HN).
  exists (page_empty s fl a). split.
  - apply IsPageEmpty_on_list; [exact (inv_free_chain K s pages fl live I)| |];
      assumption.
  - apply (page_empty_iff_live K s pages fl live a I Ha).
Qed.

Lemma FreeEmptyPages_run K s pages fl live fuel :
  pool_inv K s pages fl live ->
  (length pages + length fl < fuel)%nat ->
  let released := filter (page_empty s fl) pages in
  let kept := filter (fun a => negb (page_empty s fl a)) pages in
  let fl' := filter (fun x => negb (existsb (fun a => in_page s a x) released)) fl in
  exists s',
    FreeEmptyPages fuel s = Returns (Z.of_nat (length released)) s' /\
    geometry s' = geometry s /\
    pool_inv K s' kept fl' live /\
    (forall y, (forall z, In z (pages ++ fl) -> y < z \/ z + PTR_SIZE <= y) ->
       heap s' y = heap s y).
Proof.
  intros I Hfuel released kept fl'.
  pose proof (inv_geom K s pages fl live I) as G.
  pose proof (inv_pages K s pages fl live I) as Hok.
  pose proof (geom_sizes K s G) as (_ & _ & _ & _ & _ & _ & HN).
  pose proof (pool_counts K s pages fl live I) as (Ecnt & Hcnt).
  pose proof (inv_free K s pages fl live I) as EF.
  pose proof (inv_npages K s pages fl live I) as EP.
  pose proof (inv_cap K s pages fl live I) as Hcap.
  pose proof (g_max K s G) as (Hm0 & Hm).
  destruct (pool_links K s pages fl live I) as (NDP & NDF & DJ & LA & FR).
  pose proof (reclaim_spec s pages fl NDP (pages_ranges_apart K s pages G Hok))
    as ER. fold released in ER. fold kept in ER. fold fl' in ER.
  assert (Hlen' : (length fl' <= length fl)%nat) by apply filter_length_le.
  assert (Hrel : (length released <= length pages)%nat) by apply filter_length_le.
  destruct (FreeEmptyPages_loops_spec s HN pages fuel fuel (heap s) (PageList_ s)
              fl (FreeList_ s) 0 (Z.of_nat (length pages)) kept fl'
              (length released) ER
              (inv_page_chain K s pages fl live I)
              (inv_free_chain K s pages fl live I) NDP NDF DJ LA FR)
    as (m' & h' & Er & CP & CF & Hfr); try lia.
  rewrite <- EF, <- EP, with_lists_id in Er.
  pose proof (reclaimed_inv K s pages fl live m' h' I CP CF) as I'.
  cbv zeta in I'. fold released in I'. fold kept in I'. fold fl' in I'.
  rewrite EP in Er. simpl (0 + _) in Er.
  destruct (Z.eqb_spec (PageList_ s) 0) as [E0|E0].
  - pose proof (inv_page_chain K s pages fl live I) as C.
    rewrite E0 in C. apply chain_nil_head in C.
    assert (Er0 : released = []) by (unfold released; rewrite C; reflexivity).
    assert (Ek0 : kept = []) by (unfold kept; rewrite C; reflexivity).
    assert (Ef0 : fl' = fl).
    { unfold fl'. rewrite Er0. simpl. apply forallb_filter_id.
      apply forallb_forall. reflexivity. }
    exists s. unfold FreeEmptyPages.
    destruct (Z.eqb_spec (PageList_ s) 0); [|contradiction].
    rewrite Er0, Ek0, Ef0. simpl length. rewrite C in I.
    split; [reflexivity|]. split; [reflexivity|]. split; [exact I|].
    reflexivity.
  - eexists. unfold FreeEmptyPages.
    destruct (Z.eqb_spec (PageList_ s) 0); [contradiction|].
    split; [exact Er|]. split; [reflexivity|]. split; [exact I'|].
    exact Hfr.
Qed.

Lemma FreeEmptyPages_rest_noop s fl :
  chain (heap s) (FreeList_ s) fl ->
  1 <= ObjectsPerPage_ (configuration s) < 2 ^ 32 ->
  forall pages fuel prev page n,
  chain (heap s) page pages ->
  (forall a, In a pages -> page_empty s fl a = false) ->
  (length pages + length fl < fuel)%nat ->
  FreeEmptyPages_rest fuel prev page n s = Returns n s.
Proof.
  intros CF HN.
  induction pages as [|a t IH]; intros fuel prev page n C Hne Hf;
    (destruct fuel as [|fuel]; [simpl in Hf; lia|]).
  - cbn [chain] in C. subst page. reflexivity.
  - cbn [chain] in C. destruct C as (-> & Ha & C).
    cbn [FreeEmptyPages_rest].
    destruct (Z.eqb_spec a 0) as [|_]; [contradiction|].
    rewrite (IsPageEmpty_on_list s a fl (S fuel) CF HN) by (simpl in Hf; lia).
    rewrite (Hne a (or_introl eq_refl)).
    apply IH; [exact C| |simpl in Hf; lia].
    intros a' Ha'. apply Hne. right. exact Ha'.
Qed.

Lemma FreeEmptyPages_noop K s pages fl live fuel :
  pool_inv K s pages fl live ->
  (forall a, In a pages -> page_empty s fl a = false) ->
  (length pages + length fl < fuel)%nat ->
  FreeEmptyPages fuel s = Returns 0 s.
Proof.
  intros I Hne Hf.
  pose proof (geom_sizes K s (inv_geom K s pages fl live I))
    as (_ & _ & _ & _ & _ & _ & HN).
  pose proof (inv_free_chain K s pages fl live I) as CF.
  pose proof (inv_page_chain K s pages fl live I) as CP.
  unfold FreeEmptyPages.
  destruct (Z.eqb_spec (PageList_ s) 0) as [E0|E0]; [reflexivity|].
  destruct fuel as [|fuel]; [lia|].
  destruct pages as [|a t].
  { cbn [chain] in CP. contradiction. }
  pose proof CP as CP'. cbn [chain] in CP'. destruct CP' as (Ea & Ha & _).
  cbn [FreeEmptyPages_head].
  destruct (Z.eqb_spec (PageList_ s) 0) as [|_]; [contradiction|].
  rewrite (IsPageEmpty_on_list s (PageList_ s) fl (S fuel) CF HN)
    by (simpl in Hf; lia).
  rewrite Ea, (Hne a (or_introl eq_refl)). cbn [bind].
  apply (FreeEmptyPages_rest_noop s fl CF HN (a :: t)); [exact CP|exact Hne|exact Hf].
Qed.

(** X23.  [FreeEmptyPages] is idempotent: right after a call a second call
    finds no empty page, returns zero and leaves the allocator as it is. *)
Theorem FreeEmptyPages_idempotent K s pages fl live fuel :
  pool_inv K s pages fl live ->
  (length pages + length fl < fuel)%nat ->
  exists n s',
    FreeEmptyPages fuel s = Returns n s' /\
    FreeEmptyPages fuel s' = Returns 0 s'.
Proof.
  intros I Hf.
  destruct (FreeEmptyPages_run K s pages fl live fuel I Hf)
    as (s' & E & Eg & I' & _).
  eexists. exists s'. split; [exact E|].
  apply (FreeEmptyPages_noop K s' _ _ live fuel I').
  - intros a Ha. apply filter_In in Ha. destruct Ha as (Ha & Hk).
    apply negb_true_iff in Hk.
    destruct (page_empty s' _ a) eqn:Ep; [|reflexivity].
    exfalso.
    assert (Ha' : In a (filter (fun a => negb (page_empty s fl a)) pages))
      by (apply filter_In; split; [exact Ha|rewrite Hk; reflexivity]).
    pose proof (proj1 (page_empty_iff_live K s' _ _ live a I' Ha') Ep) as Hno.
    assert (Hyes : page_empty s fl a = true).
    { apply (page_empty_iff_live K s pages fl live a I Ha).
      intros b Hb. rewrite <- (blocks_of_page_ext s s' a Eg). apply Hno. exact Hb. }
    congruence.
  - pose proof (filter_length_le (fun a => negb (page_empty s fl a)) pages).
    pose proof (filter_length_le
                  (fun x => negb (existsb (fun a => in_page s a x)
                                    (filter (page_empty s fl) pages))) fl).
    lia.
Qed.

(** X24.  [FreeEmptyPages] writes nothing on the blocks in use: the header,
    the pads and the payload of every block the client holds are byte for byte
    what they were, and the blocks stay in pages of the allocator. *)
Theorem FreeEmptyPages_spares_live_blocks K s pages fl live fuel :
  pool_inv K s pages fl live ->
  (length pages + length fl < fuel)%nat ->
  exists n s' kept,
    FreeEmptyPages fuel s = Returns n s' /\
    chain (heap s') (PageList_ s') kept /\
    (forall b, In b live -> In b (all_blocks s' kept)) /\
    (forall b y, In b live ->
       header_start s b <= y
       < b + ObjectSize_ (stats s) + PadBytes_ (configuration s) ->
       heap s' y = heap s y).
Proof.
  intros I Hf.
  pose proof (inv_geom K s pages fl live I) as G.
  pose proof (inv_pages K s pages fl live I) as Hok.
  pose proof (geom_sizes K s G) as (_ & _ & HP & HH & _).
  destruct (FreeEmptyPages_run K s pages fl live fuel I Hf)
    as (s' & E & Eg & I' & Hfr).
  eexists. exists s'. eexists. split; [exact E|].
  split; [exact (inv_page_chain K s' _ _ live I')|].
  split; [intros b Hb; exact (pool_live_nodes K s' _ _ live b I' Hb)|].
  intros b y Hb Hy. apply Hfr. intros z Hz.
  pose proof (pool_live_nodes K s pages fl live b I Hb) as Hbb.
  unfold header_start in Hy.
  apply in_app_or in Hz. destruct Hz as [Hz|Hz].
  - pose proof (page_link_clear K s pages z b G Hok Hz Hbb). lia.
  - pose proof (pool_free_nodes K s pages fl live z I Hz) as Hzb.
    assert (Hne : z <> b).
    { intros ->. apply (NoDup_app_disjoint fl live b
                          (pool_NoDup K s pages fl live I) Hz Hb). }
    pose proof (geom_sizes K s G) as (_ & HS & _).
    pose proof (blocks_separated K s pages z b G Hok Hzb Hbb Hne).
    unfold PTR_SIZE in *. lia.
Qed.

(** X25.  When the client holds no block [FreeEmptyPages] hands back every
    page, the page built by the constructor included: it returns the number of
    pages, the page list and the free list are empty and [PagesInUse_] and
    [FreeObjects_] are zero. *)
Theorem FreeEmptyPages_releases_everything K s pages fl fuel :
  pool_inv K s pages fl [] ->
  (length pages + length fl < fuel)%nat ->
  exists s',
    FreeEmptyPages fuel s = Returns (Z.of_nat (length pages)) s' /\
    PageList_ s' = 0 /\ FreeList_ s' = 0 /\
    PagesInUse_ (stats s') = 0 /\ FreeObjects_ (stats s') = 0.
Proof.
  intros I Hf.
  pose proof (inv_geom K s pages fl [] I) as G.
  pose proof (inv_pages K s pages fl [] I) as Hok.
  destruct (FreeEmptyPages_run K s pages fl [] fuel I Hf)
    as (s' & E & Eg & I' & _).
  assert (Hall : forall a, In a pages -> page_empty s fl a = true).
  { intros a Ha. apply (page_empty_iff_live K s pages fl [] a I Ha).
    intros b []. }
  assert (Er : filter (page_empty s fl) pages = pages).
  { apply forallb_filter_id. apply forallb_forall. exact Hall. }
  assert (Ek : filter (fun a => negb (page_empty s fl a)) pages = []).
  { apply filter_none. intros a Ha. rewrite (Hall a Ha). reflexivity. }
  rewrite Er in E. rewrite Er, Ek in I'.
  exists s'. split; [exact E|].
  pose proof (inv_page_chain K s' _ _ _ I') as CP. cbn [chain] in CP.
  pose proof (inv_blocks K s' _ _ _ I') as Perm.
  cbn [all_blocks flat_map] in Perm. rewrite app_nil_r in Perm.
  apply Permutation_sym, Permutation_nil in Perm.
  pose proof (inv_free_chain K s' _ _ _ I') as CF. rewrite Perm in CF.
  cbn [chain] in CF.
  pose proof (inv_npages K s' _ _ _ I') as EP.
  pose proof (inv_free K s' _ _ _ I') as EF. rewrite Perm in EF.
  cbn [length] in EP, EF.
  repeat split; assumption.
Qed.

(** ** The debug switch *)

Lemma raw_pads_not_intact K s pages live b :
  marks K s pages live ->
  DebugOn_ (configuration s) = false ->
  1 <= PadBytes_ (configuration s) ->
  PAD_PATTERN K <> 0 ->
  In b (all_blocks s pages) ->
  pads_intact K (SetDebugState true s) b = false.
Proof.
  intros M D HP HPAD Hb.
  destruct (pads_intact K (SetDebugState true s) b) eqn:E; [|reflexivity].
  exfalso. apply HPAD.
  pose proof (proj1 (pads_intact_iff K (SetDebugState true s) b) E
                (b - PadBytes_ (configuration s))) as H.
  cbn [SetDebugState configuration PadBytes_ stats heap] in H.
  rewrite <- H by lia.
  apply (m_raw K s pages live M D b). exact Hb.
  unfold in_pads. lia.
Qed.

(** X26.  Pads are painted when a page is created, and only in debug mode.
    When the allocator was built with debug off and has pads, switching debug
    on with [SetDebugState] makes [Free] raise CORRUPTED_BLOCK on every block
    the client holds, and [ValidatePages] report every block of every page. *)
Theorem debug_switched_on_rejects_every_block K s pages live fuel :
  reachable K s pages live ->
  DebugOn_ (configuration s) = false ->
  1 <= PadBytes_ (configuration s) ->
  PAD_PATTERN K <> 0 ->
  (length pages < fuel)%nat ->
  (forall p, In p live ->
     Free K fuel p (SetDebugState true s)
     = Throws E_CORRUPTED_BLOCK
         (set_stats (SetDebugState true s) (count_free (stats s)))) /\
  ValidatePages K fuel (SetDebugState true s)
  = Some (PagesInUse_ (stats s) * ObjectsPerPage_ (configuration s),
          calls_on s (all_blocks s pages)).
Proof.
  intros R D HP1 HPAD Hf.
  destruct (reachable_inv K s pages live R) as (Hpool & fl & I).
  pose proof (reachable_marks K s pages live R) as M.
  pose proof (inv_geom K s pages fl live I) as G.
  pose proof (geom_sizes K s G) as (_ & _ & HP & _ & _ & _ & HN).
  pose proof (inv_page_chain K s pages fl live I) as C.
  split.
  - intros p Hp.
    pose proof (pool_live_nodes K s pages fl live p I Hp) as Hb.
    rewrite (Free_debug_table K fuel p (SetDebugState true s) pages
               Hpool eq_refl HP C Hf).
    cbv zeta.
    assert (W : within_pages (SetDebugState true s) pages p = true).
    { apply within_pages_iff. right.
      destruct (block_page_of K s pages p G Hb) as (a & Ha & Hi).
      exists a. split; [exact Ha|]. apply in_page_iff in Hi. exact Hi. }
    pose proof (pool_live_nonnull K s pages fl live p I Hp) as Hnz.
    apply Z.eqb_neq in Hnz.
    rewrite W, Hnz, (raw_pads_not_intact K s pages live p M D HP1 HPAD Hb).
    reflexivity.
  - unfold ValidatePages.
    change (DebugOn_ (configuration (SetDebugState true s))) with true.
    change (PadBytes_ (configuration (SetDebugState true s)))
      with (PadBytes_ (configuration s)).
    change (PageList_ (SetDebugState true s)) with (PageList_ s).
    cbn [negb orb].
    destruct (Z.eqb_spec (PadBytes_ (configuration s)) 0) as [|_]; [lia|].
    rewrite (validate_pages_spec K (SetDebugState true s) HP pages fuel _ 0 [] C Hf).
    change (all_blocks (SetDebugState true s) pages) with (all_blocks s pages).
    rewrite forallb_filter_id.
    + rewrite iter_wrap_uint, length_all_blocks.
      pose proof (pool_counts K s pages fl live I) as (_ & Hc).
      rewrite (inv_npages K s pages fl live I).
      rewrite Nat2Z.inj_mul, Z2Nat.id by lia.
      unfold wrap_uint. rewrite Z.mod_small by nia. reflexivity.
    + apply forallb_forall. intros b Hb. apply negb_true_iff.
      apply (raw_pads_not_intact K s pages live b M D HP1 HPAD Hb).
Qed.

(** ** Runs of the further scenarios *)

Ltac run := apply returned_eq; vm_compute; reflexivity.

Lemma reach_sP1 : reachable K0 sP1 [4096] [pP1].
Proof.
  assert (R0 : reachable K0 sP0 [4096] []).
  { apply (reach_ctor K0 8 4096 ram0 16 cfgP sP0 wf_cfgP).
    - reflexivity.
    - reflexivity.
    - vm_compute. congruence.
    - run. }
  apply (reach_Allocate_pop K0 8 no_host None sP0 [4096] [] pP1 sP1 R0).
  - vm_compute. congruence.
  - run.
Qed.

Lemma fresh_8192_sP1 : page_fresh sP1 [4096] 8192.
Proof.
  unfold page_fresh. split; [vm_compute; reflexivity|].
  split; [vm_compute; congruence|].
  intros a' [<-|[]]. right. vm_compute. congruence.
Qed.

Lemma reach_sP2 : reachable K0 sP2 [8192; 4096] [pP2; pP1].
Proof.
  apply (reach_Allocate_grow K0 8 (host_page 8192) None sP1 [4096] [pP1]
           8192 pP2 sP2 reach_sP1).
  - vm_compute. reflexivity.
  - reflexivity.
  - exact fresh_8192_sP1.
  - run.
Qed.

Lemma pool_sP1 : pool_inv K0 sP1 [4096] [] [pP1].
Proof.
  destruct (reachable_inv K0 sP1 _ _ reach_sP1) as (_ & fl & I).
  assert (Efl : fl = []).
  { pose proof (inv_free_chain K0 sP1 _ _ _ I) as C.
    assert (C' : chain (heap sP1) (FreeList_ sP1) []) by (vm_compute; reflexivity).
    eapply chain_functional; eauto. }
  subst fl. exact I.
Qed.

Lemma pool_sP3 :
  pool_inv K0 sP3 [8192; 4096] [pP2] (remove Z.eq_dec pP2 [pP2; pP1]).
Proof.
  destruct (reachable_inv K0 sP3 _ _ reach_sP3) as (_ & fl & I).
  assert (Efl : fl = [pP2]).
  { pose proof (inv_free_chain K0 sP3 _ _ _ I) as C.
    assert (C' : chain (heap sP3) (FreeList_ sP3) [pP2]).
    { cbn [chain]. split; [vm_compute; reflexivity|].
      split; [vm_compute; congruence|]. vm_compute. reflexivity. }
    eapply chain_functional; eauto. }
  subst fl. exact I.
Qed.

Lemma pool_sB1 : exists fl, pool_inv K0 sB1 [4096] fl [pB].
Proof.
  destruct (reachable_inv K0 sB1 _ _ reach_sB1) as (_ & fl & I).
  exists fl. exact I.
Qed.

Lemma reach_sE1 : reachable K0 sE1 [4096] [pE1].
Proof.
  apply (reach_Allocate_pop K0 8 (host_info 9000) (Some "first"%string)
           sE0 [4096] [] pE1 sE1 reach_sE0).
  - vm_compute. congruence.
  - run.
Qed.

Lemma reach_sE2 : reachable K0 sE2 [4096] [pE2; pE1].
Proof.
  apply (reach_Allocate_pop K0 8 (host_info 9100) None
           sE1 [4096] [pE1] pE2 sE2 reach_sE1).
  - vm_compute. congruence.
  - run.
Qed.

Lemma wf_cfgF : wf_config K5 16 cfgF.
Proof. unfold wf_config, config_in_range, header_fits. concrete. Qed.

Lemma reach_sF0 : reachable K5 sF0 [4096] [].
Proof.
  apply (reach_ctor K5 8 4096 ram0 16 cfgF sF0 wf_cfgF).
  - reflexivity.
  - reflexivity.
  - vm_compute. congruence.
  - run.
Qed.

Lemma reach_sF1 : reachable K5 sF1 [4096] [pF].
Proof.
  apply (reach_Allocate_pop K5 8 no_host None sF0 [4096] [] pF sF1 reach_sF0).
  - vm_compute. congruence.
  - run.
Qed.

Lemma wf_cfgG : wf_config K0 20 cfgG.
Proof. unfold wf_config, config_in_range, header_fits. concrete. Qed.

Lemma reach_sG0 : reachable K0 sG0 [4096] [].
Proof.
  apply (reach_ctor K0 8 4096 ram0 20 cfgG sG0 wf_cfgG).
  - reflexivity.
  - reflexivity.
  - vm_compute. congruence.
  - run.
Qed.

Lemma reach_sG1 : reachable K0 sG1 [4096] [pG].
Proof.
  apply (reach_Allocate_pop K0 8 no_host None sG0 [4096] [] pG sG1 reach_sG0).
  - vm_compute. congruence.
  - run.
Qed.

Lemma wf_cfgD : wf_config K0 16 cfgD.
Proof. unfold wf_config, config_in_range, header_fits. concrete. Qed.

Lemma reach_sD0 : reachable K0 sD0 [4096] [].
Proof.
  apply (reach_ctor K0 8 4096 ram0 16 cfgD sD0 wf_cfgD).
  - reflexivity.
  - reflexivity.
  - vm_compute. congruence.
  - run.
Qed.

Lemma reach_sD1 : reachable K0 sD1 [4096] [pD].
Proof.
  apply (reach_Allocate_pop K0 8 no_host None sD0 [4096] [] pD sD1 reach_sD0).
  - vm_compute. congruence.
  - run.
Qed.

(** ** Witnesses of the further properties *)

Lemma AllocateNewPage_pushes_page_witness :
  exists s',
    AllocateNewPage K0 8 (Some 8192) sP1 = Returns tt s' /\
    chain (heap s') (PageList_ s') [8192; 4096] /\
    FreeObjects_ (stats s') = 1 /\
    PagesInUse_ (stats s') = 2.
Proof.
  destruct (AllocateNewPage_pushes_page K0 8 8192 sP1 [4096] [] [pP1]
              pool_sP1 fresh_8192_sP1)
    as (s' & E & CP & _ & EF & EP & _).
  - vm_compute. reflexivity.
  - vm_compute. lia.
  - exists s'. split; [exact E|]. split; [exact CP|]. split.
    + rewrite EF. vm_compute. reflexivity.
    + rewrite EP. vm_compute. reflexivity.
Defined.

Lemma Allocate_pops_head_witness :
  exists s',
    Allocate K0 8 (host_info 9000) None sE0 = Returns 4142 s' /\
    pool_inv K0 s' [4096] [4114] [4142].
Proof.
  destruct (Allocate_pops_head K0 8 (host_info 9000) None sE0
              [4096] 4142 [4114] [] pool_sE0)
    as (s' & E & I' & _).
  - reflexivity.
  - intros _. split; [discriminate|reflexivity].
  - exists s'. split; [exact E|exact I'].
Defined.

Lemma Free_pushes_block_witness :
  exists fl s',
    pool_inv K0 sB1 [4096] fl [pB] /\
    Free K0 8 pB sB1 = Returns tt s' /\
    pool_inv K0 s' [4096] (pB :: fl) (remove Z.eq_dec pB [pB]).
Proof.
  destruct pool_sB1 as (fl & I).
  destruct (Free_pushes_block K0 8 pB sB1 [4096] fl [pB] I)
    as (s' & E & I' & _).
  - reflexivity.
  - left. reflexivity.
  - intros _. split; [vm_compute; reflexivity|vm_compute; congruence].
  - simpl. lia.
  - exists fl, s'. split; [exact I|]. split; [exact E|exact I'].
Defined.

(** In scenario G the alignment is 16, the page lies at 4096 and the block
    handed out at 4224. *)
Lemma live_pointers_aligned_witness :
  Alignment_ (configuration sG1) = 16 /\
  pG = 4224 /\
  pG mod Alignment_ (configuration sG1) = 0.
Proof.
  split; [vm_compute; reflexivity|]. split; [vm_compute; reflexivity|].
  apply (live_pointers_aligned K0 sG1 [4096] [pG] reach_sG1).
  - vm_compute. reflexivity.
  - intros a [<-|[]]. vm_compute. reflexivity.
  - left. reflexivity.
Defined.

(** The overrun of scenario B is the one block [ValidatePages] reports. *)
Lemma ValidatePages_reports_corrupted_blocks_witness :
  ValidatePages K0 8 sB1_overrun = Some (1, [(pB, 16)]).
Proof.
  pose proof (ValidatePages_reports_corrupted_blocks K0 sB1_overrun [4096] 8
                sB1_overrun_chain ltac:(simpl; lia) sB1_overrun_pads) as H.
  cbv zeta in H. destruct H as (E & _).
  rewrite E. vm_compute. reflexivity.
Defined.

Lemma chain_sF1 : chain (heap sF1) (PageList_ sF1) [4096].
Proof.
  destruct (reachable_inv K5 sF1 _ _ reach_sF1) as (_ & fl & I).
  exact (inv_page_chain K5 sF1 _ _ _ I).
Qed.

(** In scenario F the block in use carries a flag and is reported. *)
Lemma DumpMemoryInUse_reports_flagged_blocks_witness :
  DumpMemoryInUse 8 sF1 = Some (1, [(pF, 16)]).
Proof.
  pose proof (DumpMemoryInUse_reports_flagged_blocks sF1 [4096] 8
                ltac:(left; vm_compute; reflexivity) chain_sF1
                ltac:(simpl; lia)) as E.
  cbv zeta in E. rewrite E. vm_compute. reflexivity.
Defined.

Lemma run_sB1_filled : client_run K0 sB1_filled [4096] [pB].
Proof.
  apply (client_run_fill K0 sB1 [4096] [pB] pB (PAD_PATTERN K0) 16 0 sB1).
  - exact (reachable_client_run K0 sB1 _ _ reach_sB1).
  - left. reflexivity.
  - reflexivity.
  - vm_compute. congruence.
Qed.

(** In scenario B the client has overwritten the 16 bytes of its payload. *)
Lemma ValidatePages_clean_witness :
  client_run K0 sB1_filled [4096] [pB] /\
  heap sB1_filled pB = 221 /\ heap sB1_filled (pB + 15) = 221 /\
  0 <= PAD_PATTERN K0 < 256 /\
  ValidatePages K0 8 sB1_filled = Some (0, []).
Proof.
  assert (HPAD : 0 <= PAD_PATTERN K0 < 256) by (vm_compute; split; congruence).
  split; [exact run_sB1_filled|].
  split; [vm_compute; reflexivity|]. split; [vm_compute; reflexivity|].
  split; [exact HPAD|].
  apply (ValidatePages_clean K0 sB1_filled [4096] [pB] 8 run_sB1_filled HPAD).
  simpl. lia.
Defined.

Lemma flag_at_end_sF1 : flag_at_end (configuration sF1).
Proof.
  unfold flag_at_end, flag_header, flag_offset.
  split; [left; vm_compute; reflexivity|vm_compute; reflexivity].
Qed.

Lemma flag_cleared_sF1 : flag_cleared K5 (configuration sF1).
Proof.
  unfold flag_cleared. split; [vm_compute; congruence|].
  intros T. vm_compute in T. discriminate.
Qed.

Lemma DumpMemoryInUse_reports_live_blocks_witness :
  ObjectsInUse_ (stats sF1) = 1 /\
  DumpMemoryInUse 8 sF1
  = Some (ObjectsInUse_ (stats sF1),
          calls_on sF1 (filter (held [pF]) (all_blocks sF1 [4096]))) /\
  Permutation (filter (held [pF]) (all_blocks sF1 [4096])) [pF].
Proof.
  split; [vm_compute; reflexivity|].
  apply (DumpMemoryInUse_reports_live_blocks K5 sF1 [4096] [pF] 8 reach_sF1
           flag_at_end_sF1 flag_cleared_sF1).
  simpl. lia.
Defined.

(** In scenario G the basic header is 8 bytes wide: one block is in use and
    the scan reports none. *)
Lemma DumpMemoryInUse_misses_flag_witness :
  size_ (HBlockInfo_ (configuration sG1)) = 8 /\
  ObjectsInUse_ (stats sG1) = 1 /\
  DumpMemoryInUse 8 sG1 = Some (0, []).
Proof.
  split; [vm_compute; reflexivity|]. split; [vm_compute; reflexivity|].
  apply (DumpMemoryInUse_misses_flag K0 sG1 [4096] [pG] 8 reach_sG1).
  - unfold flag_missed, flag_header, flag_offset.
    split; [left; vm_compute; reflexivity|vm_compute; reflexivity].
  - simpl. lia.
Defined.

Lemma pool_sF0 : pool_inv K5 sF0 [4096] [4136; 4111] [].
Proof.
  destruct (reachable_inv K5 sF0 [4096] [] reach_sF0) as (_ & fl & I).
  assert (Efl : fl = [4136; 4111]).
  { pose proof (inv_free_chain K5 sF0 _ _ _ I) as C.
    assert (C' : chain (heap sF0) (FreeList_ sF0) [4136; 4111]).
    { cbn [chain]. split; [vm_compute; reflexivity|].
      split; [congruence|]. split; [vm_compute; reflexivity|].
      split; [congruence|]. vm_compute. reflexivity. }
    eapply chain_functional; eauto. }
  rewrite <- Efl. exact I.
Qed.

Lemma basic_header_round_trip_witness :
  exists s1,
    Allocate K5 8 no_host None sF0 = Returns 4136 s1 /\
    load_le (heap s1) (header_start sF0 4136) 4 = 1 /\
    heap s1 (header_start sF0 4136 + 4) = 1.
Proof.
  destruct (basic_header_round_trip K5 8 8 no_host None sF0
              [4096] 4136 [4111] [] pool_sF0)
    as (s1 & E & L & A & F & _).
  - reflexivity.
  - reflexivity.
  - exists s1. split; [exact E|]. split; [|exact F].
    rewrite L, A. vm_compute. reflexivity.
Defined.

Lemma external_header_round_trip_witness :
  exists s1,
    Allocate K0 8 (host_info 9000) (Some "first"%string) sE0 = Returns 4142 s1 /\
    load_ptr (heap s1) (header_start sE0 4142) = 9000 /\
    infos s1 9000
    = Some (mkMemBlockInfo true (Some "first"%string) (Allocations_ (stats s1))).
Proof.
  destruct (external_header_round_trip K0 8 8 (host_info 9000)
              (Some "first"%string) sE0 [4096] 4142 [4114] [] 9000 pool_sE0)
    as (s1 & E & L & N & _).
  - reflexivity.
  - reflexivity.
  - reflexivity.
  - reflexivity.
  - lia.
  - exists s1. split; [exact E|]. split; [exact L|exact N].
Defined.

Lemma dtor_releases_every_page_witness :
  exists s', ObjectAllocator_dtor 8 sP2 = Returns [8192; 4096] s'.
Proof.
  destruct (reachable_inv K0 sP2 _ _ reach_sP2) as (_ & fl & I).
  destruct (dtor_releases_every_page K0 sP2 [8192; 4096] fl [pP2; pP1] 8 I)
    as (s' & E & _).
  - simpl. lia.
  - exists s'. exact E.
Defined.

(** In scenario E both blocks of the page are in use.  The destructor
    deletes the record at 9100, of the first block of the page, and leaves the
    record at 9000, of the second. *)
Lemma dtor_deletes_first_records_only_witness :
  exists s',
    ObjectAllocator_dtor 8 sE2 = Returns [4096] s' /\
    infos s' 9100 = None /\
    infos s' 9000 = infos sE2 9000 /\
    infos sE2 9000 <> None.
Proof.
  destruct (reachable_inv K0 sE2 _ _ reach_sE2) as (_ & fl & I).
  destruct (dtor_deletes_first_records_only K0 sE2 [4096] fl [pE2; pE1] 8 I)
    as (s' & E & D1 & D2).
  - simpl. lia.
  - vm_compute. reflexivity.
  - exists s'. split; [exact E|].
    assert (L : load_ptr (heap sE2) (header_start sE2 (4096 + pageHeader sE2))
                = 9100) by (vm_compute; reflexivity).
    split; [|split].
    + rewrite <- L. apply (D1 4096); [left; reflexivity|].
      rewrite L. discriminate.
    + apply D2. intros a [<-|[]]. rewrite L. discriminate.
    + vm_compute. discriminate.
Defined.

Lemma IsPageEmpty_verdict_witness :
  exists r,
    IsPageEmpty 8 sP3 8192 = Some r /\
    (r = true <->
     forall b, In b (remove Z.eq_dec pP2 [pP2; pP1]) ->
       ~ In b (blocks_of_page sP3 8192)).
Proof.
  apply (IsPageEmpty_verdict K0 sP3 [8192; 4096] [pP2]
           (remove Z.eq_dec pP2 [pP2; pP1]) 8192 8 pool_sP3).
  - left. reflexivity.
  - simpl. lia.
Defined.

Lemma FreeEmptyPages_idempotent_witness :
  exists n s',
    FreeEmptyPages 8 sP3 = Returns n s' /\
    FreeEmptyPages 8 s' = Returns 0 s'.
Proof.
  apply (FreeEmptyPages_idempotent K0 sP3 [8192; 4096] [pP2]
           (remove Z.eq_dec pP2 [pP2; pP1]) 8 pool_sP3).
  simpl. lia.
Defined.

Lemma FreeEmptyPages_spares_live_blocks_witness :
  exists n s' kept,
    FreeEmptyPages 8 sP3 = Returns n s' /\
    chain (heap s') (PageList_ s') kept /\
    (forall b, In b (remove Z.eq_dec pP2 [pP2; pP1]) ->
       In b (all_blocks s' kept)) /\
    (forall b y, In b (remove Z.eq_dec pP2 [pP2; pP1]) ->
       header_start sP3 b <= y
       < b + ObjectSize_ (stats sP3) + PadBytes_ (configuration sP3) ->
       heap s' y = heap sP3 y).
Proof.
  apply (FreeEmptyPages_spares_live_blocks K0 sP3 [8192; 4096] [pP2]
           (remove Z.eq_dec pP2 [pP2; pP1]) 8 pool_sP3).
  simpl. lia.
Defined.

(** In scenario B the block has been freed: the only page goes back. *)
Lemma FreeEmptyPages_releases_everything_witness :
  exists s',
    FreeEmptyPages 8 sB2 = Returns 1 s' /\
    PageList_ s' = 0 /\ FreeList_ s' = 0 /\
    PagesInUse_ (stats s') = 0 /\ FreeObjects_ (stats s') = 0.
Proof.
  destruct (reachable_inv K0 sB2 _ _ reach_sB2) as (_ & fl & I).
  assert (El : remove Z.eq_dec pB [pB] = []) by (vm_compute; reflexivity).
  rewrite El in I.
  assert (Hl : length fl = 4%nat).
  { pose proof (inv_free K0 sB2 _ _ _ I) as EF.
    assert (E4 : FreeObjects_ (stats sB2) = 4) by (vm_compute; reflexivity).
    lia. }
  apply (FreeEmptyPages_releases_everything K0 sB2 [4096] fl 8 I).
  rewrite Hl. simpl. lia.
Defined.

(** In scenario D the allocator was built with debug off and pads of two
    bytes. *)
Lemma debug_switched_on_rejects_every_block_witness :
  DebugOn_ (configuration sD1) = false /\
  Free K0 8 pD (SetDebugState true sD1)
  = Throws E_CORRUPTED_BLOCK
      (set_stats (SetDebugState true sD1) (count_free (stats sD1))).
Proof.
  assert (D : DebugOn_ (configuration sD1) = false) by (vm_compute; reflexivity).
  split; [exact D|].
  apply (proj1 (debug_switched_on_rejects_every_block K0 sD1 [4096] [pD] 8
                  reach_sD1 D ltac:(vm_compute; congruence)
                  ltac:(vm_compute; congruence) ltac:(simpl; lia))).
  left. reflexivity.
Defined.

(** ** Double free without the debug checks *)

Lemma Free_nodebug K fuel p s :
  UseCPPMemManager_ (configuration s) = false ->
  DebugOn_ (configuration s) = false ->
  p <> 0 ->
  exists s', Free K fuel p s = Returns tt s'.
Proof.
  intros Hp Hd Hn. apply Z.eqb_neq in Hn.
  unfold Free. cbn [configuration set_stats]. rewrite Hp, Hd.
  cbn [bind]. rewrite Hn. eexists. reflexivity.
Qed.

Lemma host_succeeds_ext s s' host :
  geometry s' = geometry s -> host_succeeds s host -> host_succeeds s' host.
Proof.
  intros Eg H. unfold host_succeeds in *.
  rewrite (geometry_config _ _ Eg). exact H.
Qed.

(** X27.  With debug off [Free] checks nothing.  A second [Free] of a block
    makes the block its own successor on the free list, and the next two calls
    of [Allocate] both return it: the same block is handed out twice. *)
Theorem double_free_hands_block_out_twice
  K fuel host1 host2 label1 label2 s pages fl live p :
  pool_inv K s pages fl live ->
  UseCPPMemManager_ (configuration s) = false ->
  DebugOn_ (configuration s) = false ->
  In p live ->
  host_succeeds s host1 -> host_succeeds s host2 ->
  exists s1 s2 s3 s4,
    Free K fuel p s = Returns tt s1 /\
    Free K fuel p s1 = Returns tt s2 /\
    load_ptr (heap s2) p = p /\
    Allocate K fuel host1 label1 s2 = Returns p s3 /\
    Allocate K fuel host2 label2 s3 = Returns p s4.
Proof.
  intros I Hp Hd Hin Hh1 Hh2.
  pose proof (inv_geom K s pages fl live I) as G.
  pose proof (inv_pages K s pages fl live I) as Hok.
  pose proof (geom_sizes K s G) as (_ & HS & HP & HH & _).
  pose proof (pool_free_head_range K s pages fl live I) as Hr.
  pose proof (pool_live_nodes K s pages fl live p I Hin) as Hb.
  pose proof (block_range K s pages p G Hok Hb) as Hpr.
  assert (Hp0 : 0 <= p < 2 ^ 64) by lia.
  assert (Hne : p <> 0) by lia.
  destruct (Free_nodebug K fuel p s Hp Hd Hne) as (s1 & E1).
  destruct (Free_returns K fuel p s s1 G Hp Hr E1)
    as (F1 & _ & Eg1 & _ & _ & _).
  pose proof (geometry_config _ _ Eg1) as Ec1.
  assert (G1 : geom_ok K s1) by (eapply geom_ok_ext; eauto).
  assert (Hp1 : UseCPPMemManager_ (configuration s1) = false)
    by (rewrite Ec1; exact Hp).
  assert (Hd1 : DebugOn_ (configuration s1) = false) by (rewrite Ec1; exact Hd).
  destruct (Free_nodebug K fuel p s1 Hp1 Hd1 Hne) as (s2 & E2).
  destruct (Free_returns K fuel p s1 s2 G1 Hp1 ltac:(rewrite F1; exact Hp0) E2)
    as (F2 & _ & Eg2 & _ & L2 & _).
  rewrite F1 in L2.
  pose proof (geometry_config _ _ Eg2) as Ec2.
  assert (G2 : geom_ok K s2) by (eapply geom_ok_ext; eauto).
  assert (Hp2 : UseCPPMemManager_ (configuration s2) = false)
    by (rewrite Ec2; exact Hp1).
  assert (Eg2s : geometry s2 = geometry s) by (rewrite Eg2; exact Eg1).
  destruct (pop_block_total K host1 label1 s2 ltac:(rewrite F2; exact Hne)
              (host_succeeds_ext s s2 host1 Eg2s Hh1)) as (s3 & E3).
  rewrite F2 in E3.
  destruct (pop_block_returns K host1 label1 s2 p s3 G2 E3)
    as (_ & _ & F3 & _ & Eg3 & _).
  rewrite L2 in F3.
  pose proof (geometry_config _ _ Eg3) as Ec3.
  assert (G3 : geom_ok K s3) by (eapply geom_ok_ext; eauto).
  assert (Hp3 : UseCPPMemManager_ (configuration s3) = false)
    by (rewrite Ec3; exact Hp2).
  assert (Eg3s : geometry s3 = geometry s) by (rewrite Eg3; exact Eg2s).
  destruct (pop_block_total K host2 label2 s3 ltac:(rewrite F3; exact Hne)
              (host_succeeds_ext s s3 host2 Eg3s Hh2)) as (s4 & E4).
  rewrite F3 in E4.
  exists s1, s2, s3, s4.
  split; [exact E1|]. split; [exact E2|]. split; [exact L2|].
  split.
  - rewrite (Allocate_pooled K fuel host1 label1 s2 Hp2)
      by (rewrite F2; exact Hne).
    exact E3.
  - rewrite (Allocate_pooled K fuel host2 label2 s3 Hp3)
      by (rewrite F3; exact Hne).
    exact E4.
Qed.

(** ** Capacity and the ledger of the statistics *)

(** X28.  The client never holds more than [MaxPages_ * ObjectsPerPage_]
    blocks, and [Allocate] raises NO_PAGES exactly when it holds that many. *)
Theorem pool_capacity K fuel host label s pages live :
  reachable K s pages live ->
  ObjectsInUse_ (stats s)
  <= MaxPages_ (configuration s) * ObjectsPerPage_ (configuration s) /\
  ((exists s', Allocate K fuel host label s = Throws E_NO_PAGES s') <->
   ObjectsInUse_ (stats s)
   = MaxPages_ (configuration s) * ObjectsPerPage_ (configuration s)).
Proof.
  intros R. destruct (reachable_inv K s pages live R) as (Hp & fl & I).
  pose proof (inv_geom K s pages fl live I) as G.
  pose proof (geom_sizes K s G) as (_ & _ & _ & _ & _ & _ & HN).
  pose proof (pool_counts K s pages fl live I) as (Ec & _).
  pose proof (inv_used K s pages fl live I) as EU.
  pose proof (inv_npages K s pages fl live I) as EP.
  pose proof (inv_cap K s pages fl live I) as Hcap.
  pose proof (inv_free_chain K s pages fl live I) as CF.
  split; [rewrite EU; nia|].
  unfold Allocate. rewrite Hp. split.
  - intros (s' & E).
    destruct (Z.eqb_spec (FreeList_ s) 0) as [E0|E0].
    + rewrite E0 in CF. apply chain_nil_head in CF. subst fl.
      destruct (AllocateNewPage K fuel (new_page host) s) as [[] sn|en sn| |] eqn:En;
        simpl in E; try discriminate.
      * apply pop_block_throws in E. discriminate.
      * inversion E; subst. apply AllocateNewPage_throws in En.
        destruct En as (_ & [(_ & Hc)|(Hx & _)]); [|discriminate].
        cbn [length] in Ec. rewrite EU. nia.
    + simpl in E. apply pop_block_throws in E. discriminate.
  - intros Efull.
    assert (Hfl : fl = []).
    { destruct fl as [|x fl']; [reflexivity|]. cbn [length] in Ec. nia. }
    subst fl. cbn [chain] in CF. rewrite CF, Z.eqb_refl.
    unfold AllocateNewPage.
    assert (Hge : PagesInUse_ (stats s) >= MaxPages_ (configuration s)).
    { cbn [length] in Ec. rewrite EP. nia. }
    destruct (Z.geb_spec (PagesInUse_ (stats s)) (MaxPages_ (configuration s)));
      [|lia].
    exists s. reflexivity.
Qed.

Lemma pool_capacity_witness :
  ObjectsInUse_ (stats sX1) = 1 /\
  MaxPages_ (configuration sX1) * ObjectsPerPage_ (configuration sX1) = 1 /\
  exists s', Allocate K0 4 no_host None sX1 = Throws E_NO_PAGES s'.
Proof.
  assert (E : ObjectsInUse_ (stats sX1)
              = MaxPages_ (configuration sX1) * ObjectsPerPage_ (configuration sX1))
    by (vm_compute; reflexivity).
  split; [vm_compute; reflexivity|]. split; [vm_compute; reflexivity|].
  assert (W : wf_config K0 8 cfgX)
    by (unfold wf_config, config_in_range, header_fits; concrete).
  assert (R0 : reachable K0 sX0 [4096] []).
  { apply (reach_ctor K0 8 4096 ram0 8 cfgX sX0 W).
    - reflexivity.
    - reflexivity.
    - vm_compute. congruence.
    - run. }
  assert (R1 : reachable K0 sX1 [4096] [FreeList_ sX0]).
  { apply (reach_Allocate_pop K0 4 no_host None sX0 [4096] [] _ sX1 R0).
    - vm_compute. congruence.
    - run. }
  exact (proj2 (proj2 (pool_capacity K0 4 no_host None sX1 _ _ R1)) E).
Defined.

Lemma wrap_uint_idem x : wrap_uint (wrap_uint x) = wrap_uint x.
Proof. unfold wrap_uint. apply Z.mod_mod. lia. Qed.

Lemma ledger_alloc a d :
  wrap_uint (wrap_uint (a + 1) - d) = wrap_uint (wrap_uint (a - d) + 1).
Proof.
  unfold wrap_uint. rewrite Zminus_mod_idemp_l, Zplus_mod_idemp_l.
  f_equal. lia.
Qed.

Lemma ledger_free a d :
  wrap_uint (a - wrap_uint (d + 1)) = wrap_uint (wrap_uint (a - d) - 1).
Proof.
  unfold wrap_uint. rewrite Zminus_mod_idemp_r, Zminus_mod_idemp_l.
  f_equal. lia.
Qed.

(** X29.  The ledger of the statistics.  On every state reached through
    [Allocate] and [Free], [ObjectsInUse_] is the number of blocks the client
    holds, it is [Allocations_ - Deallocations_] in 32-bit arithmetic, and it
    never exceeds [MostObjects_]. *)
Theorem stats_ledger K s pages live :
  reachable K s pages live ->
  ObjectsInUse_ (stats s) = Z.of_nat (length live) /\
  ObjectsInUse_ (stats s)
  = wrap_uint (Allocations_ (stats s) - Deallocations_ (stats s)) /\
  ObjectsInUse_ (stats s) <= MostObjects_ (stats s).
Proof.
  intros R.
  assert (Hu : ObjectsInUse_ (stats s) = Z.of_nat (length live)).
  { destruct (reachable_inv K s pages live R) as (_ & fl & I).
    exact (inv_used K s pages fl live I). }
  split; [exact Hu|]. clear Hu.
  induction R as
    [fuel a m0 S cfg s W Hpool Ha Hhi E
    |fuel host label s pages live p s' R IH Hfl E
    |fuel host label s pages live a p s' R IH Hfl Hh Hf E
    |fuel p s pages live s' R IH Hp E].
  - unfold ObjectAllocator_ctor in E.
    pose proof (inv_geom K _ _ _ _ (ctor_init_empty K m0 S cfg W)) as G0.
    destruct (AllocateNewPage_stats K fuel _ _ s (geom_ok_loop K _ G0) E)
      as (_ & Est).
    rewrite Est. cbn. split; [reflexivity|lia].
  - destruct (reachable_inv K s pages live R) as (Hpool & fl & I).
    destruct IH as (IH1 & IH2).
    unfold Allocate in E. rewrite Hpool in E.
    destruct (Z.eqb_spec (FreeList_ s) 0); [contradiction|]. simpl in E.
    destruct (pop_block_stats K host label s p s' E) as (Est & _).
    destruct (count_allocation_sizes (stats s))
      as (_ & _ & _ & _ & C5 & C6 & C7).
    pose proof (count_allocation_most (stats s)) as CM.
    rewrite Est, C5, C6, C7, CM, C5. split.
    + rewrite ledger_alloc, <- IH1. reflexivity.
    + lia.
  - destruct (reachable_inv K s pages live R) as (Hpool & fl & I).
    destruct IH as (IH1 & IH2).
    unfold Allocate in E. rewrite Hpool, Hfl, Hh in E. simpl in E.
    destruct (AllocateNewPage K fuel (Some a) s) as [[] s0|e0 s0| |] eqn:E0;
      simpl in E; try discriminate.
    pose proof (inv_geom K s pages fl live I) as G.
    destruct (AllocateNewPage_stats K fuel _ s s0 (geom_ok_loop K s G) E0)
      as (_ & Est0).
    destruct (pop_block_stats K host label s0 p s' E) as (Est & _).
    destruct (count_allocation_sizes (stats s0))
      as (_ & _ & _ & _ & C5 & C6 & C7).
    pose proof (count_allocation_most (stats s0)) as CM.
    rewrite Est, C5, C6, C7, CM, C5, Est0.
    cbn [ObjectsInUse_ Allocations_ Deallocations_ MostObjects_
         set_FreeObjects set_PagesInUse].
    split.
    + rewrite ledger_alloc, <- IH1. reflexivity.
    + lia.
  - destruct (reachable_inv K s pages live R) as (Hpool & fl & I).
    destruct IH as (IH1 & IH2).
    destruct (Free_stats K fuel p s s' Hpool E) as (Est & _).
    destruct (count_free_fields (stats s))
      as (_ & _ & _ & _ & C5 & C6 & C7).
    pose proof (inv_used K s pages fl live I) as EU.
    pose proof (pool_counts K s pages fl live I) as (_ & Hc).
    assert (Hpos : 1 <= ObjectsInUse_ (stats s) < 2 ^ 32).
    { rewrite EU. destruct live as [|z l]; [contradiction|].
      pose proof (pool_counts K s pages fl (z :: l) I) as (Ec & _).
      cbn [length] in *. lia. }
    rewrite Est.
    cbn [ObjectsInUse_ Allocations_ Deallocations_ MostObjects_ set_FreeObjects].
    rewrite C5, C6, C7. split.
    + rewrite ledger_free, <- IH1. reflexivity.
    + assert (EM : MostObjects_ (count_free (stats s)) = MostObjects_ (stats s))
        by reflexivity.
      rewrite EM. unfold wrap_uint. rewrite Z.mod_small by lia. lia.
Qed.

Lemma stats_ledger_witness :
  ObjectsInUse_ (stats sB2) = 0 /\
  Allocations_ (stats sB2) = 1 /\ Deallocations_ (stats sB2) = 1 /\
  MostObjects_ (stats sB2) = 1 /\
  ObjectsInUse_ (stats sB2)
  = wrap_uint (Allocations_ (stats sB2) - Deallocations_ (stats sB2)).
Proof.
  split; [vm_compute; reflexivity|]. split; [vm_compute; reflexivity|].
  split; [vm_compute; reflexivity|]. split; [vm_compute; reflexivity|].
  exact (proj1 (proj2 (stats_ledger K0 sB2 _ _ reach_sB2))).
Defined.

(** In scenario D, with debug off, the block at [pD] is freed twice and then
    handed out twice. *)
Lemma double_free_hands_block_out_twice_witness :
  exists s1 s2 s3 s4,
    Free K0 8 pD sD1 = Returns tt s1 /\
    Free K0 8 pD s1 = Returns tt s2 /\
    load_ptr (heap s2) pD = pD /\
    Allocate K0 8 no_host None s2 = Returns pD s3 /\
    Allocate K0 8 no_host None s3 = Returns pD s4.
Proof.
  destruct (reachable_inv K0 sD1 _ _ reach_sD1) as (_ & fl & I).
  apply (double_free_hands_block_out_twice K0 8 no_host no_host None None
           sD1 [4096] fl [pD] pD I).
  - reflexivity.
  - vm_compute. reflexivity.
  - left. reflexivity.
  - intros T. vm_compute in T. discriminate.
  - intros T. vm_compute in T. discriminate.
Defined.

(** X30.  [Free] raises no false alarm.  When the client holds the block at
    [p] and has written nothing since it was handed out, [Free] returns it to
    the pool, in debug mode too, provided the byte tested for a double free
    belongs to the block: the payload is longer than a pointer, or the block
    has pads. *)
Theorem Free_no_false_alarm K s pages live fuel p :
  reachable K s pages live ->
  patterns_ok K ->
  In p live ->
  (DebugOn_ (configuration s) = true ->
   PTR_SIZE < ObjectSize_ (stats s) \/ 1 <= PadBytes_ (configuration s)) ->
  (length pages < fuel)%nat ->
  exists s', Free K fuel p s = Returns tt s' /\
    reachable K s' pages (remove Z.eq_dec p live).
Proof.
  intros R (HA & HF & HPAD & HAF & HPF) Hp Hbyte Hf.
  destruct (reachable_inv K s pages live R) as (Hpool & fl & I).
  assert (E : exists s', Free K fuel p s = Returns tt s').
  { destruct (DebugOn_ (configuration s)) eqn:D;
      [|exact (Free_nodebug K fuel p s Hpool D
                 (pool_live_nonnull K s pages fl live p I Hp))].
    pose proof (reachable_marks K s pages live R) as M.
    pose proof (inv_geom K s pages fl live I) as G.
    pose proof (geom_sizes K s G) as (_ & HS & HP & _).
    pose proof (pool_live_nodes K s pages fl live p I Hp) as Hb.
    rewrite (Free_debug_table K fuel p s pages Hpool D HP
               (inv_page_chain K s pages fl live I) Hf).
    cbv zeta.
    assert (W : within_pages s pages p = true).
    { apply within_pages_iff. right.
      destruct (block_page_of K s pages p G Hb) as (a & Ha & Hi).
      exists a. split; [exact Ha|]. apply in_page_iff in Hi. exact Hi. }
    assert (Hpads : forall y, in_pads s p y -> heap s y = PAD_PATTERN K).
    { intros y Hy. rewrite (m_pads K s pages live M D p y Hb Hy).
      apply Z.mod_small. exact HPAD. }
    assert (PI : pads_intact K s p = true).
    { apply pads_intact_iff. intros y Hy. apply Hpads. exact Hy. }
    pose proof (pool_live_nonnull K s pages fl live p I Hp) as Hnz.
    apply Z.eqb_neq in Hnz.
    rewrite W, Hnz, PI. cbn [negb].
    assert (N : heap s (p + PTR_SIZE) <> FREED_PATTERN K).
    { destruct (Z_lt_le_dec PTR_SIZE (ObjectSize_ (stats s))) as [L|L].
      - rewrite (reachable_painted K s pages live R D L p Hp).
        rewrite Z.mod_small by exact HA. exact HAF.
      - destruct (Hbyte eq_refl) as [L'|L']; [lia|].
        rewrite Hpads; [exact HPF|].
        unfold in_pads, PTR_SIZE in *. lia. }
    apply Z.eqb_neq in N. rewrite N. eexists. reflexivity. }
  destruct E as (s' & E). exists s'. split; [exact E|].
  exact (reach_Free K fuel p s pages live s' R Hp E).
Qed.

(** In scenario B the block at [pB] is held and goes back to the pool. *)
Lemma Free_no_false_alarm_witness :
  exists s', Free K0 8 pB sB1 = Returns tt s' /\
    reachable K0 s' [4096] (remove Z.eq_dec pB [pB]).
Proof.
  apply (Free_no_false_alarm K0 sB1 [4096] [pB] 8 pB reach_sB1).
  - unfold patterns_ok. vm_compute. intuition congruence.
  - left. reflexivity.
  - intros _. left. vm_compute. reflexivity.
  - cbn [length]. lia.
Defined.
